(** * No-dues clearance workflow: a shallow embedding of the employee routes,
      the record-store adapter and the certificate pipeline.

    The embedding follows the JavaScript sources function by function:
    - [fileUtils]      : [loadJSON], [saveJSON], [loadEmployeeUsers]
    - employee router   : [moveCompletedFormToHistory],
                          [getLatestFormForEmployee], [buildTimelineData],
                          [getFormsCompletionStatus] and the handlers of
                          [/submit-no-dues], [/previous-application],
                          [/tracking-details], [/final-submit],
                          [/certificates], [/certificates/:certId/download]
                          and of the partial saves, [/form-data], [/track],
                          [/history], [/assigned-forms], [/dashboard-status],
                          [/form-status], [/confirmation], [/employee-info]
    - [pdfGenerator]    : [PDFValidator.sanitizeText], [getFormDisplayName],
                          [generateFormCertificates] and the file naming of
                          [createFormCertificatePDF];
                          [PDFValidator.validateImageData],
                          [PDFValidator.isValidImageBuffer],
                          [cleanupOldCertificates]
    - notification manager : [queueNotification], [logNotification],
                          [getNotificationHistory],
                          [cleanupExpiredNotifications]
    - OTP manager       : [createLoginSession], [verifyOTP], [resendOTP],
                          [cleanupExpiredSessions], with the members of
                          [Object.prototype] that a session token can name.

    A case record is a typed record whose properties may each be absent;
    the payloads of the sub-forms are arbitrary JSON values.  The files of
    the store, the clock and the outcome of a write are explicit inputs of
    the handlers, which return their reply together with the store they
    leave behind.  Console logging and the [formId] cached in the session
    are not modelled.  Strings are sequences of 8-bit characters, so the
    embedding speaks about ASCII text. *)

From Stdlib Require Import List String Ascii ZArith Bool Lia Permutation Sorted DecimalString DecimalPos DecimalZ.
Import ListNotations.
Set Warnings "-register-all".
Open Scope string_scope.
Open Scope Z_scope.

(* ================================================================== *)
(** * JavaScript values and operators                                   *)
(* ================================================================== *)

Module JS.

(** A JSON payload.  A property that is absent ([undefined]) is an
    [option] around the value, [None]. *)
Inductive value : Type :=
| VNull
| VBool (b : bool)
| VNum (z : Z)
| VStr (s : string)
| VArr (items : list value)
| VObj (fields : list (string * value)).

(** [!!v]: ToBoolean. *)
Definition truthy (v : value) : bool :=
  match v with
  | VNull => false
  | VBool b => b
  | VNum z => negb (z =? 0)
  | VStr s => negb (s =? "")%string
  | VArr _ => true
  | VObj _ => true
  end.

(** [typeof v === 'object'] holds for [null], arrays and objects. *)
Definition typeof_is_object (v : value) : bool :=
  match v with
  | VNull | VArr _ | VObj _ => true
  | _ => false
  end.

(** [v && typeof v === 'object'] on a possibly absent property. *)
Definition is_object (v : option value) : bool :=
  match v with
  | Some x => truthy x && typeof_is_object x
  | None => false
  end.

(** Truthiness of an optional string property. *)
Definition truthy_str (s : option string) : bool :=
  match s with
  | Some x => negb (x =? "")%string
  | None => false
  end.

(** [a || b] on optional strings. *)
Definition or_str (a b : option string) : option string :=
  if truthy_str a then a else b.

(** [a || 'literal'] on an optional string. *)
Definition or_lit (a : option string) (b : string) : string :=
  match a with
  | Some x => if (x =? "")%string then b else x
  | None => b
  end.

(** Template-literal interpolation of an optional string. *)
Definition show (s : option string) : string :=
  match s with
  | Some x => x
  | None => "undefined"
  end.

(** [a === b] on optional strings. *)
Definition strict_eq (a b : option string) : bool :=
  match a, b with
  | Some x, Some y => (x =? y)%string
  | None, None => true
  | _, _ => false
  end.

(** [list.includes(x)] for a list of string literals. *)
Definition includes (l : list string) (x : option string) : bool :=
  match x with
  | Some s => existsb (String.eqb s) l
  | None => false
  end.

Definition show_nat (n : nat) : string :=
  NilZero.string_of_uint (Nat.to_uint n).

Definition show_Z (z : Z) : string :=
  NilZero.string_of_int (Z.to_int z).

(** [obj[key]] on an object kept as an association list. *)
Fixpoint get {V : Type} (fields : list (string * V)) (key : string) : option V :=
  match fields with
  | [] => None
  | (k, v) :: rest => if (k =? key)%string then Some v else get rest key
  end.

(** [obj[key] = v]: overwrite in place when the key exists, otherwise
    append (property order is insertion order). *)
Fixpoint set {V : Type} (fields : list (string * V)) (key : string) (v : V)
  : list (string * V) :=
  match fields with
  | [] => [(key, v)]
  | (k, x) :: rest =>
      if (k =? key)%string then (k, v) :: rest else (k, x) :: set rest key v
  end.

(** [obj[key] = v] for a value that may be [undefined]: a property set to
    [undefined] is not written to the store. *)
Definition assign {V : Type} (fields : list (string * V)) (key : string)
    (v : option V) : list (string * V) :=
  match v with
  | Some x => set fields key x
  | None => filter (fun kv => negb (fst kv =? key)%string) fields
  end.

(** [Object.keys(obj)]. *)
Definition keys {V : Type} (fields : list (string * V)) : list string :=
  map fst fields.

(** [arr.find(p)]. *)
Definition find {A : Type} (p : A -> bool) (l : list A) : option A :=
  List.find p l.

(** [arr.findIndex(p)]; [None] stands for [-1]. *)
Fixpoint findIndex {A : Type} (p : A -> bool) (l : list A) : option nat :=
  match l with
  | [] => None
  | x :: rest =>
      if p x then Some 0%nat
      else match findIndex p rest with
           | Some i => Some (S i)
           | None => None
           end
  end.

(** [arr[i] = x] for an index inside the array. *)
Fixpoint set_nth {A : Type} (l : list A) (i : nat) (x : A) : list A :=
  match l, i with
  | [], _ => []
  | _ :: rest, O => x :: rest
  | y :: rest, S j => y :: set_nth rest j x
  end.

(** ** [Array.prototype.sort] with a comparator

    The comparator returns a number; [None] is [NaN], which the sort
    treats as [+0].  The sort is stable: an element is inserted in front
    of the first element it does not have to follow.  For a comparator
    that orders its arguments consistently this is the result every
    conforming engine produces. *)
Section Sort.
Context {A : Type} (cmp : A -> A -> option Z).

Definition not_after (x y : A) : bool :=
  match cmp x y with
  | Some d => d <=? 0
  | None => true
  end.

Fixpoint insert (x : A) (l : list A) : list A :=
  match l with
  | [] => [x]
  | y :: rest => if not_after x y then x :: y :: rest else y :: insert x rest
  end.

Fixpoint sort (l : list A) : list A :=
  match l with
  | [] => []
  | x :: rest => insert x (sort rest)
  end.
End Sort.

(** ** Dates

  The time value of a [Date] is a number of milliseconds, or [NaN]
  for an invalid date ([None]).  [Date_parse] is the host's parser for
  date strings. *)
Section Dates.
Variable Date_parse : string -> option Z.

(** [new Date(x)] for an optional string; [new Date(undefined)] is
    invalid. *)
Definition new_Date (x : option string) : option Z :=
  match x with
  | Some s => Date_parse s
  | None => None
  end.

(** [d1 - d2] on two dates. *)
Definition date_sub (d1 d2 : option Z) : option Z :=
  match d1, d2 with
  | Some a, Some b => Some (a - b)
  | _, _ => None
  end.
End Dates.

(** The clock of one request: [Date.now()] and
  [new Date().toISOString()]. *)
Record Clock : Type := mkClock { now_ms : Z; now_iso : string }.

End JS.

(* ================================================================== *)
(** * Data model                                                        *)
(* ================================================================== *)

(** An entry of [assignedForms]. *)
Module AssignedForm.
Record t : Type := mk { title : option string; path : option string }.
End AssignedForm.

(** The [hodApproval] record. *)
Module HodApproval.
Record t : Type := mk { approvedBy : option string; approvedAt : option string }.
End HodApproval.

(** The [itProcessing] record. *)
Module ItProcessing.
Record t : Type := mk {
  action : option string;
  processedBy : option string;
  processedAt : option string;
  remarks : option string
}.
End ItProcessing.

(** A certificate descriptor, as [generateFormCertificates] returns it and
    as a case keeps it in [certificates]. *)
Module Certificate.
Record t : Type := mk {
  formType : option string;
  filename : option string;
  filepath : option string;
  generatedAt : option string;
  fileSize : option Z;
  status : option string;
  (** set on the record of a failed generation only *)
  error : option string
}.
End Certificate.

(** A case record of [pending_forms.json].  Every property may be absent. *)
Module Case.
Record t : Type := mk {
  formId : option string;
  name : option string;
  employeeName : option string;
  employeeId : option string;
  email : option string;
  department : option string;
  noDuesType : option string;
  reason : option string;
  orderLetter : option string;
  status : option string;
  submissionDate : option string;
  submittedBy : option string;
  lastUpdated : option string;
  finalSubmittedAt : option string;
  assignedForms : option (list AssignedForm.t);
  formResponses : option (list (string * JS.value));
  remark : option string;
  hodApproval : option HodApproval.t;
  itProcessing : option ItProcessing.t;
  certificates : option (list Certificate.t)
}.

(** The record with no property set, [{}]. *)
Definition empty : t :=
  mk None None None None None None None None None None
     None None None None None None None None None None.

Definition with_formResponses (r : option (list (string * JS.value))) (c : t) : t :=
  mk (formId c) (name c) (employeeName c) (employeeId c) (email c)
     (department c) (noDuesType c) (reason c) (orderLetter c) (status c)
     (submissionDate c) (submittedBy c) (lastUpdated c) (finalSubmittedAt c)
     (assignedForms c) r (remark c) (hodApproval c) (itProcessing c)
     (certificates c).

Definition with_status (s : option string) (c : t) : t :=
  mk (formId c) (name c) (employeeName c) (employeeId c) (email c)
     (department c) (noDuesType c) (reason c) (orderLetter c) s
     (submissionDate c) (submittedBy c) (lastUpdated c) (finalSubmittedAt c)
     (assignedForms c) (formResponses c) (remark c) (hodApproval c)
     (itProcessing c) (certificates c).

Definition with_finalSubmittedAt (s : option string) (c : t) : t :=
  mk (formId c) (name c) (employeeName c) (employeeId c) (email c)
     (department c) (noDuesType c) (reason c) (orderLetter c) (status c)
     (submissionDate c) (submittedBy c) (lastUpdated c) s
     (assignedForms c) (formResponses c) (remark c) (hodApproval c)
     (itProcessing c) (certificates c).

Definition with_certificates (certs : option (list Certificate.t)) (c : t) : t :=
  mk (formId c) (name c) (employeeName c) (employeeId c) (email c)
     (department c) (noDuesType c) (reason c) (orderLetter c) (status c)
     (submissionDate c) (submittedBy c) (lastUpdated c) (finalSubmittedAt c)
     (assignedForms c) (formResponses c) (remark c) (hodApproval c)
     (itProcessing c) certs.

Definition with_lastUpdated (s : option string) (c : t) : t :=
  mk (formId c) (name c) (employeeName c) (employeeId c) (email c)
     (department c) (noDuesType c) (reason c) (orderLetter c) (status c)
     (submissionDate c) (submittedBy c) s (finalSubmittedAt c)
     (assignedForms c) (formResponses c) (remark c) (hodApproval c)
     (itProcessing c) (certificates c).
End Case.

(** The [preservedData] sub-object of a history entry.  [null] is [None]. *)
Module PreservedData.
Record t : Type := mk {
  certificates : option (list Certificate.t);
  hodApproval : option HodApproval.t;
  itProcessing : option ItProcessing.t;
  assignedForms : option (list AssignedForm.t);
  formResponses : option (list (string * JS.value))
}.
End PreservedData.

(** An entry of [form_history.json]: the spread case plus the archival
    properties. *)
Module HistoryEntry.
Record t : Type := mk {
  form : Case.t;
  completedAt : option string;
  finalStatus : option string;
  historyType : option string;
  preservedData : option PreservedData.t
}.
End HistoryEntry.

(** A record of [certificates.json], the active certificate store. *)
Module ActiveCertificate.
Record t : Type := mk {
  id : option string;
  employeeId : option string;
  formId : option string;
  formType : option string;
  filename : option string;
  filepath : option string;
  generatedAt : option string;
  completedAt : option string
}.
End ActiveCertificate.

(* ================================================================== *)
(** * Exceptions                                                        *)
(* ================================================================== *)

Module Exn.

(** The outcome of a computation that may throw an [Error]. *)
Inductive result (A : Type) : Type :=
| Ok (a : A)
| Throw (message : string).
Arguments Ok {A} a.
Arguments Throw {A} message.

Definition bind {A B : Type} (m : result A) (k : A -> result B) : result B :=
  match m with
  | Ok a => k a
  | Throw e => Throw e
  end.

(** [try { body } catch (error) { handler(error) }]. *)
Definition try_catch {A : Type} (body : result A) (handler : string -> result A)
  : result A :=
  match body with
  | Ok a => Ok a
  | Throw e => handler e
  end.

Definition throws {A : Type} (m : result A) : bool :=
  match m with
  | Ok _ => false
  | Throw _ => true
  end.

End Exn.

Notation "x <- m ;; k" := (Exn.bind m (fun x => k))
  (at level 61, m at next level, right associativity).

(* ================================================================== *)
(** * Record store adapter ([fileUtils])                                *)
(* ================================================================== *)

Module FileUtils.
Import Exn.

(** What [JSON.parse] yields for a collection file: an array of records,
    or some JSON value that is not an array. *)
Inductive Doc (T : Type) : Type :=
| DArray (items : list T)
| DOther (v : JS.value).
Arguments DArray {T} items.
Arguments DOther {T} v.

(** The text of a file, as [JSON.parse] sees it. *)
Inductive Text (T : Type) : Type :=
| Malformed
| WellFormed (d : Doc T).
Arguments Malformed {T}.
Arguments WellFormed {T} d.

(** A path of the file system. *)
Inductive File (T : Type) : Type :=
| Missing
| Unreadable
| Stored (text : Text T).
Arguments Missing {T}.
Arguments Unreadable {T}.
Arguments Stored {T} text.

Definition existsSync {T : Type} (f : File T) : bool :=
  match f with
  | Missing => false
  | _ => true
  end.

Definition readFileSync {T : Type} (f : File T) : result (Text T) :=
  match f with
  | Stored text => Ok text
  | Unreadable => Throw "EACCES: permission denied"
  | Missing => Throw "ENOENT: no such file or directory"
  end.

Definition JSON_parse {T : Type} (text : Text T) : result (Doc T) :=
  match text with
  | WellFormed d => Ok d
  | Malformed => Throw "Unexpected token in JSON"
  end.

(** The empty object [{}]. *)
Definition empty_object {T : Type} : Doc T := DOther (JS.VObj []).

Definition loadJSON {T : Type} (f : File T) : result (Doc T) :=
  try_catch
    (if negb (existsSync f) then Ok empty_object
     else
       data <- readFileSync f ;;
       JSON_parse data)
    (fun _ => Ok empty_object).

(** [saveJSON] writes the whole collection; [write_error] is the error of
    the file system, if it raises one, which [saveJSON] throws again. *)
Definition saveJSON {T : Type} (write_error : option string) (data : list T)
  : result (File T) :=
  try_catch
    (match write_error with
     | Some e => Throw e
     | None => Ok (Stored (WellFormed (DArray data)))
     end)
    (fun e => Throw e).

Definition Array_isArray {T : Type} (d : Doc T) : bool :=
  match d with
  | DArray _ => true
  | DOther _ => false
  end.

(** The guard every handler applies to a loaded collection:
    [try { data = loadJSON(p); l = Array.isArray(data) ? data : [] }
     catch { l = [] }]. *)
Definition load_collection {T : Type} (f : File T) : list T :=
  match loadJSON f with
  | Ok (DArray items) => items
  | Ok (DOther _) => []
  | Throw _ => []
  end.

End FileUtils.

(** The three collections of the employee router and the environment of
    one request. *)
Record World : Type := mkWorld {
  PENDING_FORMS : FileUtils.File Case.t;
  FORM_HISTORY : FileUtils.File HistoryEntry.t;
  CERTIFICATES : FileUtils.File ActiveCertificate.t
}.

Record Env : Type := mkEnv {
  clock : JS.Clock;
  write_error : option string
}.

(* ================================================================== *)
(** * Form aggregation engine                                           *)
(* ================================================================== *)

Section Aggregation.
Variable Date_parse : string -> option Z.

(** [new Date(f.submissionDate || f.lastUpdated)]. *)
Definition form_date (f : Case.t) : option Z :=
  JS.new_Date Date_parse (JS.or_str (Case.submissionDate f) (Case.lastUpdated f)).

(** The comparator of [getLatestFormForEmployee]: [date(b) - date(a)]. *)
Definition latest_first (a b : Case.t) : option Z :=
  JS.date_sub (form_date b) (form_date a).

(** The candidates of [getLatestFormForEmployee]: the forms of the
    employee, further restricted to the allowed statuses when a list is
    supplied. *)
Definition employeeForms (allForms : list Case.t) (employeeId : option string)
    (allowedStatuses : option (list string)) : list Case.t :=
  let employeeForms :=
    filter (fun f => JS.strict_eq (Case.employeeId f) employeeId) allForms in
  match allowedStatuses with
  | Some allowed => filter (fun f => JS.includes allowed (Case.status f)) employeeForms
  | None => employeeForms
  end.

(** [null] is [None]. *)
Definition getLatestFormForEmployee (allForms : list Case.t)
    (employeeId : option string) (allowedStatuses : option (list string))
  : option Case.t :=
  hd_error (JS.sort latest_first (employeeForms allForms employeeId allowedStatuses)).

End Aggregation.

(* ================================================================== *)
(** * Timeline and completion projections                               *)
(* ================================================================== *)

Module TimelineEvent.
Record t : Type := mk {
  step : string;
  title : string;
  date : option string;
  status : string;
  details : string
}.
End TimelineEvent.

Module FormStatus.
Record t : Type := mk {
  title : option string;
  path : option string;
  status : string;
  lastUpdated : option string;
  dataKey : option string;
  hasData : bool
}.
End FormStatus.

(** [arr.join(', ')] of optional strings: an absent element prints as the
    empty string. *)
Definition join_titles (titles : list (option string)) : string :=
  String.concat ", " (map (fun t => match t with Some s => s | None => "" end) titles).

Section Timeline.
Variable Date_parse : string -> option Z.

(** The comparator of the final sort: [date(a) - date(b)]. *)
Definition oldest_first (a b : TimelineEvent.t) : option Z :=
  JS.date_sub (JS.new_Date Date_parse (TimelineEvent.date a))
              (JS.new_Date Date_parse (TimelineEvent.date b)).

(** The events in the order the builder pushes them, before the sort. *)
Definition timeline_events (clock : JS.Clock) (formData : Case.t)
  : list TimelineEvent.t :=
  (if JS.truthy_str (Case.submissionDate formData) then
     [TimelineEvent.mk "submitted" "Application Submitted"
        (Case.submissionDate formData) "completed"
        ("Application " ++ JS.show (Case.formId formData) ++ " submitted for "
           ++ JS.show (Case.noDuesType formData) ++ " clearance")]
   else [])
  ++
  (if negb (JS.strict_eq (Case.status formData) (Some "pending")) then
     let reviewStatus :=
       if JS.strict_eq (Case.status formData) (Some "rejected")
       then "rejected" else "completed" in
     [TimelineEvent.mk "it_reviewed" "IT Initial Review"
        (Case.lastUpdated formData) reviewStatus
        (JS.or_lit (Case.remark formData)
           (if (reviewStatus =? "rejected")%string
            then "Application rejected by IT"
            else "Application reviewed and approved by IT department"))]
   else [])
  ++
  (match Case.assignedForms formData with
   | Some forms =>
       if (0 <? List.length forms)%nat then
         [TimelineEvent.mk "forms_assigned" "Forms Assigned"
            (Case.lastUpdated formData) "completed"
            (JS.show_nat (List.length forms) ++ " forms assigned: "
               ++ join_titles (map AssignedForm.title forms))]
       else []
   | None => []
   end)
  ++
  (match Case.formResponses formData with
   | Some responses =>
       if (0 <? List.length (JS.keys responses))%nat then
         let completedForms := JS.keys responses in
         [TimelineEvent.mk "forms_completed" "Forms Completed"
            (JS.or_str (Case.finalSubmittedAt formData) (Case.lastUpdated formData))
            "completed"
            ("Employee completed " ++ JS.show_nat (List.length completedForms)
               ++ " forms and submitted to HOD")]
       else []
   | None => []
   end)
  ++
  (match Case.hodApproval formData with
   | Some hod =>
       [TimelineEvent.mk "hod_approved" "HOD Approval"
          (HodApproval.approvedAt hod) "completed"
          ("Approved by HOD: " ++ JS.show (HodApproval.approvedBy hod))]
   | None => []
   end)
  ++
  (match Case.itProcessing formData with
   | Some it =>
       let processingStatus :=
         if JS.strict_eq (ItProcessing.action it) (Some "completed")
         then "completed" else "rejected" in
       [TimelineEvent.mk "it_processing" "IT Final Processing"
          (ItProcessing.processedAt it) processingStatus
          (JS.or_lit (ItProcessing.remarks it)
             ("Forms " ++ JS.show (ItProcessing.action it) ++ " by "
                ++ JS.show (ItProcessing.processedBy it)))]
   | None => []
   end)
  ++
  (match Case.certificates formData with
   | Some certs =>
       if JS.strict_eq (Case.status formData) (Some "IT Completed") then
         [TimelineEvent.mk "certificates_generated" "Certificates Generated"
            (Some (JS.or_lit
                     (match Case.itProcessing formData with
                      | Some it => ItProcessing.processedAt it
                      | None => None
                      end)
                     (JS.now_iso clock)))
            "completed"
            (JS.show_nat (List.length certs)
               ++ " digital certificates generated and ready for download")]
       else []
   | None => []
   end).

Definition buildTimelineData (clock : JS.Clock) (formData : Case.t)
  : list TimelineEvent.t :=
  JS.sort oldest_first (timeline_events clock formData).

End Timeline.

(** The fixed title-to-key table of [getFormsCompletionStatus]. *)
Definition formMappings : list (string * string) :=
  [ ("Disposal Form", "disposalFormData");
    ("E-File", "efileFormData");
    ("Form 365 - Transfer", "form365TransferData");
    ("Form 365 - Disposal", "form365Data") ].

Definition getFormsCompletionStatus (formData : Case.t) : list FormStatus.t :=
  match Case.assignedForms formData with
  | None => []
  | Some forms =>
      map (fun form =>
             let formKey :=
               match AssignedForm.title form with
               | Some t => JS.get formMappings t
               | None => None
               end in
             let isCompleted :=
               match formKey, Case.formResponses formData with
               | Some k, Some responses =>
                   match JS.get responses k with
                   | Some v => JS.truthy v
                   | None => false
                   end
               | _, _ => false
               end in
             FormStatus.mk (AssignedForm.title form) (AssignedForm.path form)
               (if isCompleted then "completed" else "pending")
               (Case.lastUpdated formData) formKey isCompleted)
          forms
  end.

(* ================================================================== *)
(** * Requests and responses                                            *)
(* ================================================================== *)

(** The [req.session.user] object. *)
Module SessionUser.
Record t : Type := mk {
  name : option string;
  id : option string;
  employeeId : option string
}.
End SessionUser.

(** An entry of the [/certificates] listing. *)
Module ListedCertificate.
Record t : Type := mk {
  id : option string;
  employeeId : option string;
  formId : option string;
  formType : option string;
  filename : option string;
  displayName : string;
  generatedAt : option string;
  employeeName : option string;
  noDuesType : option string;
  source : string;
  status : string;
  completedAt : option string;
  filepath : option string
}.
End ListedCertificate.

Module Http.

(** The JSON body of a response, or the file that is streamed. *)
Inductive Body : Type :=
| Failure (message : string)
| Accepted (message : string) (formId : option string) (status : string)
| NoApplication (message : string)
| Application (application : Case.t)
(** [{ hasApplication: false, status: 'Not Submitted', timeline: [],
      forms: [], message }] *)
| NotSubmitted (message : string)
(** the tracking projection of [application]: its [formId], [status],
    [hodApproval], [itProcessing], [lastUpdated], [submissionDate] and
    [noDuesType], with the timeline and the status of its sub-forms *)
| Tracking (application : Case.t)
    (timeline : list TimelineEvent.t) (forms : list FormStatus.t)
| Certificates (certificates : list ListedCertificate.t)
| Download (filepath : option string) (filename : option string).

Record Response : Type := mk { code : Z; body : Body }.

(** [res.status(code).json({ success: false, message })]. *)
Definition fail (code : Z) (message : string) : Response :=
  mk code (Failure message).

(** [res.json(body)]. *)
Definition json (body : Body) : Response := mk 200 body.


End Http.

(** [sessionUser.id || sessionUser.employeeId]. *)
Definition session_employeeId (sessionUser : SessionUser.t) : option string :=
  JS.or_str (SessionUser.id sessionUser) (SessionUser.employeeId sessionUser).

(* ================================================================== *)
(** * Read handlers on the current case                                 *)
(* ================================================================== *)

Section ReadHandlers.
Variable Date_parse : string -> option Z.

(** [GET /previous-application]. *)
Definition previous_application (w : World) (session : option SessionUser.t)
  : Http.Response :=
  match session with
  | None => Http.fail 401 "Session expired"
  | Some sessionUser =>
      let employeeId := session_employeeId sessionUser in
      if negb (JS.truthy_str employeeId) then
        Http.fail 400 "No employee ID found in session"
      else
        let pendingForms := FileUtils.load_collection (PENDING_FORMS w) in
        match getLatestFormForEmployee Date_parse pendingForms employeeId None with
        | None => Http.json (Http.NoApplication "No applications found")
        | Some latestApp => Http.json (Http.Application latestApp)
        end
  end.

(** [GET /tracking-details]. *)
Definition tracking_details (env : Env) (w : World) (session : option SessionUser.t)
  : Http.Response :=
  match session with
  | None => Http.fail 401 "Not authenticated"
  | Some sessionUser =>
      let employeeId := session_employeeId sessionUser in
      let formsData := FileUtils.load_collection (PENDING_FORMS w) in
      match getLatestFormForEmployee Date_parse formsData employeeId None with
      | None => Http.json (Http.NotSubmitted "No application found for this employee")
      | Some employeeForm =>
          let timeline := buildTimelineData Date_parse (clock env) employeeForm in
          let formsStatus := getFormsCompletionStatus employeeForm in
          Http.json (Http.Tracking employeeForm timeline formsStatus)
      end
  end.

End ReadHandlers.

(* ================================================================== *)
(** * Submission validator: [POST /submit-no-dues]                      *)
(* ================================================================== *)

Module SubmitBody.
Record t : Type := mk {
  name : option string;
  employeeId : option string;
  email : option string;
  department : option string;
  noDuesType : option string;
  reason : option string
}.
End SubmitBody.

Module SubmitRequest.
Record t : Type := mk {
  body : option SubmitBody.t;
  session : option SessionUser.t;
  (** [req.file.filename] of the uploaded order letter *)
  file : option string
}.
End SubmitRequest.

Definition activeStatuses : list string :=
  ["Pending"; "pending"; "Submitted to HOD"; "Submitted to IT"; "approved"].

Section Submit.
Variable Date_parse : string -> option Z.

Definition submit_no_dues (env : Env) (w : World) (req : SubmitRequest.t)
  : Http.Response * World :=
  match SubmitRequest.body req with
  | None => (Http.fail 400 "Request body is missing", w)
  | Some bodyData =>
  match SubmitRequest.session req with
  | None => (Http.fail 401 "Session not found", w)
  | Some sessionUser =>
  match SubmitRequest.file req with
  | None => (Http.fail 400 "Order letter file is required", w)
  | Some file_filename =>
      let name :=
        JS.or_lit (JS.or_str (SubmitBody.name bodyData) (SessionUser.name sessionUser)) "" in
      let employeeId :=
        JS.or_lit (JS.or_str (SubmitBody.employeeId bodyData)
                     (JS.or_str (SessionUser.id sessionUser)
                        (SessionUser.employeeId sessionUser))) "" in
      let email := JS.or_lit (SubmitBody.email bodyData) "" in
      let department := JS.or_lit (SubmitBody.department bodyData) "" in
      let noDuesType := JS.or_lit (SubmitBody.noDuesType bodyData) "" in
      let reason := JS.or_lit (SubmitBody.reason bodyData) "" in
      if (name =? "")%string || (employeeId =? "")%string || (email =? "")%string
         || (department =? "")%string || (noDuesType =? "")%string
      then (Http.fail 400 "Missing required fields", w)
      else
        let pendingForms := FileUtils.load_collection (PENDING_FORMS w) in
        match getLatestFormForEmployee Date_parse pendingForms (Some employeeId)
                (Some activeStatuses) with
        | Some existingForm =>
            (Http.fail 400
               ("You already have a " ++ JS.show (Case.status existingForm)
                  ++ " application (" ++ JS.show (Case.formId existingForm) ++ ")"),
             w)
        | None =>
            let formId := "F" ++ JS.show_Z (JS.now_ms (clock env)) in
            let newForm :=
              Case.mk (Some formId) (Some name) (Some name) (Some employeeId)
                (Some email) (Some department) (Some noDuesType) (Some reason)
                (Some file_filename) (Some "pending")
                (Some (JS.now_iso (clock env))) (Some employeeId)
                (Some (JS.now_iso (clock env))) None
                (Some []) (Some []) (Some "") None None None in
            let pendingForms := (pendingForms ++ [newForm])%list in
            match FileUtils.saveJSON (write_error env) pendingForms with
            | Exn.Throw _ => (Http.fail 500 "Failed to save form", w)
            | Exn.Ok stored =>
                (Http.json (Http.Accepted "Application submitted successfully"
                              (Some formId) "pending"),
                 mkWorld stored (FORM_HISTORY w) (CERTIFICATES w))
            end
        end
  end end end.

End Submit.

(* ================================================================== *)
(** * Case lifecycle: [POST /final-submit]                              *)
(* ================================================================== *)

Module FinalSubmitBody.
Record t : Type := mk {
  disposalForm : option JS.value;
  efileForm : option JS.value;
  form365Transfer : option JS.value;
  form365Disposal : option JS.value
}.
(** [req.body || {}]. *)
Definition empty : t := mk None None None None.
End FinalSubmitBody.

(** The three payload groups final submit requires. *)
Definition final_payload_ok (b : FinalSubmitBody.t) : bool :=
  JS.is_object (FinalSubmitBody.disposalForm b)
  && JS.is_object (FinalSubmitBody.efileForm b)
  && (JS.is_object (FinalSubmitBody.form365Transfer b)
      || JS.is_object (FinalSubmitBody.form365Disposal b)).

(** The mutation final submit applies to the case it selected. *)
Definition final_submit_update (clock : JS.Clock) (b : FinalSubmitBody.t)
    (form : Case.t) : Case.t :=
  let responses :=
    match Case.formResponses form with
    | Some r => r
    | None => []
    end in
  let responses :=
    JS.assign responses "disposalFormData" (FinalSubmitBody.disposalForm b) in
  let responses :=
    JS.assign responses "efileFormData" (FinalSubmitBody.efileForm b) in
  let responses :=
    if JS.is_object (FinalSubmitBody.form365Transfer b)
    then JS.assign responses "form365TransferData" (FinalSubmitBody.form365Transfer b)
    else responses in
  let responses :=
    if JS.is_object (FinalSubmitBody.form365Disposal b)
    then JS.assign responses "form365Data" (FinalSubmitBody.form365Disposal b)
    else responses in
  Case.with_lastUpdated (Some (JS.now_iso clock))
    (Case.with_finalSubmittedAt (Some (JS.now_iso clock))
       (Case.with_status (Some "Submitted to HOD")
          (Case.with_formResponses (Some responses) form))).

Section FinalSubmit.
Variable Date_parse : string -> option Z.

Definition final_submit (env : Env) (w : World) (session : option SessionUser.t)
    (body : option FinalSubmitBody.t) : Http.Response * World :=
  match session with
  | None => (Http.fail 401 "Session expired", w)
  | Some sessionUser =>
      let employeeId := session_employeeId sessionUser in
      if negb (JS.truthy_str employeeId) then
        (Http.fail 400 "No employee ID found in session", w)
      else
        let b := match body with Some b => b | None => FinalSubmitBody.empty end in
        let pendingForms := FileUtils.load_collection (PENDING_FORMS w) in
        let latestForm := getLatestFormForEmployee Date_parse pendingForms employeeId None in
        let formIndex :=
          match latestForm with
          | Some latest =>
              JS.findIndex (fun f => JS.strict_eq (Case.formId f) (Case.formId latest))
                pendingForms
          | None => None
          end in
        match formIndex with
        | None => (Http.fail 404 "No pending form found for this employee", w)
        | Some i =>
        match nth_error pendingForms i with
        | None =>
            (* an index [findIndex] returned is inside the array *)
            (Http.fail 500 "Internal Server Error", w)
        | Some form =>
            if negb (JS.is_object (FinalSubmitBody.disposalForm b)) then
              (Http.fail 400 "Valid disposal form data is required", w)
            else if negb (JS.is_object (FinalSubmitBody.efileForm b)) then
              (Http.fail 400 "Valid e-file form data is required", w)
            else if negb (JS.is_object (FinalSubmitBody.form365Transfer b))
                    && negb (JS.is_object (FinalSubmitBody.form365Disposal b))
            then
              (Http.fail 400 "Valid Form 365 (Transfer or Disposal) data is required", w)
            else
              let form := final_submit_update (clock env) b form in
              let pendingForms := JS.set_nth pendingForms i form in
              match FileUtils.saveJSON (write_error env) pendingForms with
              | Exn.Throw _ => (Http.fail 500 "Failed to save form submission", w)
              | Exn.Ok stored =>
                  (Http.json (Http.Accepted "Forms submitted to HOD for review"
                                (Case.formId form) "Submitted to HOD"),
                   mkWorld stored (FORM_HISTORY w) (CERTIFICATES w))
              end
        end
        end
  end.

End FinalSubmit.

(* ================================================================== *)
(** * History archival                                                  *)
(* ================================================================== *)

(** The entry [moveCompletedFormToHistory] builds for a case. *)
Definition historyEntry (clock : JS.Clock) (formData : Case.t) : HistoryEntry.t :=
  HistoryEntry.mk formData
    (Some (JS.now_iso clock))
    (Case.status formData)
    (Some "completed_application")
    (Some (PreservedData.mk
             (Some (match Case.certificates formData with
                    | Some certs => certs
                    | None => []
                    end))
             (Case.hodApproval formData)
             (Case.itProcessing formData)
             (Some (match Case.assignedForms formData with
                    | Some forms => forms
                    | None => []
                    end))
             (Some (match Case.formResponses formData with
                    | Some responses => responses
                    | None => []
                    end)))).

(** Returns [true] when the entry was stored and [false] when the store
    could not be written. *)
Definition moveCompletedFormToHistory (env : Env) (w : World)
    (employeeId : option string) (formData : Case.t) : bool * World :=
  let history := FileUtils.load_collection (FORM_HISTORY w) in
  let history := (history ++ [historyEntry (clock env) formData])%list in
  match FileUtils.saveJSON (write_error env) history with
  | Exn.Ok stored => (true, mkWorld (PENDING_FORMS w) stored (CERTIFICATES w))
  | Exn.Throw _ => (false, w)
  end.

(* ================================================================== *)
(** * [pdfGenerator]: text sanitising and display names                 *)
(* ================================================================== *)

Module PDFValidator.

Definition MAX_FIELD_LENGTH : nat := 500.

(** [/[\x00-\x08\x0B\x0C\x0E-\x1F\x7F]/]. *)
Definition is_control (c : ascii) : bool :=
  let n := nat_of_ascii c in
  ((n <=? 8) || (n =? 11) || (n =? 12) || ((14 <=? n) && (n <=? 31)) || (n =? 127))%nat.

(** The characters that [/[^\x20-\x7E\u00A0-\uFFFF]/g] leaves in place. *)
Definition is_printable (c : ascii) : bool :=
  let n := nat_of_ascii c in
  (((32 <=? n) && (n <=? 126)) || (160 <=? n))%nat.

(** White space that [trim] removes and that survives the filters above. *)
Definition is_space (c : ascii) : bool :=
  let n := nat_of_ascii c in
  ((n =? 32) || (n =? 160))%nat.

(** [replace(/<[^>]*>/g, '')] in one pass.  [pending] holds, reversed, the
    characters read since an opening bracket that has not met its closing
    bracket yet; they are dropped when it comes and kept when it never
    does. *)
Fixpoint strip_tags (pending : option (list ascii)) (l : list ascii) : list ascii :=
  match l with
  | [] => match pending with
          | Some buf => rev buf
          | None => []
          end
  | c :: rest =>
      match pending with
      | Some buf =>
          if Ascii.eqb c ">" then strip_tags None rest
          else strip_tags (Some (c :: buf)) rest
      | None =>
          if Ascii.eqb c "<" then strip_tags (Some [c]) rest
          else c :: strip_tags None rest
      end
  end.

Fixpoint trim_start (l : list ascii) : list ascii :=
  match l with
  | c :: rest => if is_space c then trim_start rest else l
  | [] => []
  end.

Definition trim (l : list ascii) : list ascii :=
  rev (trim_start (rev (trim_start l))).

Definition sanitizeText (text : option string) : string :=
  if negb (JS.truthy_str text) then "N/A"
  else
    let sanitized := list_ascii_of_string (substring 0 MAX_FIELD_LENGTH (JS.show text)) in
    let sanitized := filter (fun c => negb (is_control c)) sanitized in
    let sanitized := strip_tags None sanitized in
    let sanitized := filter is_printable sanitized in
    let trimmed := string_of_list_ascii (trim sanitized) in
    if (trimmed =? "")%string then "N/A" else trimmed.

End PDFValidator.

Definition displayNames : list (string * string) :=
  [ ("disposalForm", "Disposal Form");
    ("efile", "E-file Transfer Form");
    ("efileForm", "E-file Transfer Form");
    ("form365Disp", "Form 365 - Disposal");
    ("form365Trans", "Form 365 - Transfer");
    ("form365Transfer", "Form 365 - Transfer");
    ("form365Disposal", "Form 365 - Disposal") ].

(** [getFormDisplayName] on the form types whose name is not the name of
    a member of [Object.prototype]; for [constructor] and the like the
    lookup in the object literal finds that member. *)
Definition getFormDisplayName (formType : option string) : string :=
  match formType with
  | Some t =>
      match JS.get displayNames t with
      | Some display => display
      | None => PDFValidator.sanitizeText formType
      end
  | None => PDFValidator.sanitizeText formType
  end.

(* ================================================================== *)
(** * Certificate listing and download                                  *)
(* ================================================================== *)

(** The id a reader gives to a certificate kept in a history entry. *)
Definition historicalCertId (historyEntry : HistoryEntry.t) (cert : Certificate.t)
  : string :=
  "hist_" ++ JS.show (Case.formId (HistoryEntry.form historyEntry))
    ++ "_" ++ JS.show (Certificate.formType cert).
Arguments historicalCertId : simpl never.

(** [h.preservedData?.certificates]. *)
Definition preserved_certificates (h : HistoryEntry.t) : option (list Certificate.t) :=
  match HistoryEntry.preservedData h with
  | Some p => PreservedData.certificates p
  | None => None
  end.

Definition list_active (cert : ActiveCertificate.t) : ListedCertificate.t :=
  ListedCertificate.mk (ActiveCertificate.id cert)
    (ActiveCertificate.employeeId cert) (ActiveCertificate.formId cert)
    (ActiveCertificate.formType cert) (ActiveCertificate.filename cert)
    (getFormDisplayName (ActiveCertificate.formType cert))
    (ActiveCertificate.generatedAt cert) None None
    "active" "Active"
    (ActiveCertificate.completedAt cert) (ActiveCertificate.filepath cert).

Definition list_historical (historyEntry : HistoryEntry.t) (cert : Certificate.t)
  : ListedCertificate.t :=
  let form := HistoryEntry.form historyEntry in
  ListedCertificate.mk (Some (historicalCertId historyEntry cert))
    None (Case.formId form)
    (Certificate.formType cert) (Certificate.filename cert)
    (getFormDisplayName (Certificate.formType cert))
    (Certificate.generatedAt cert)
    (JS.or_str (Case.employeeName form) (Case.name form))
    (Case.noDuesType form)
    "history" "Completed"
    (HistoryEntry.completedAt historyEntry) (Certificate.filepath cert).

(** The active certificates of the employee, as listed. *)
Definition active_listing (w : World) (employeeId : option string)
  : list ListedCertificate.t :=
  match FileUtils.loadJSON (CERTIFICATES w) with
  | Exn.Ok (FileUtils.DArray data) =>
      let activeCertificates :=
        filter (fun cert => JS.strict_eq (ActiveCertificate.employeeId cert) employeeId)
          data in
      map list_active activeCertificates
  | _ => []
  end.

(** The certificates of the employee's history entries, as listed. *)
Definition historical_listing (w : World) (employeeId : option string)
  : list ListedCertificate.t :=
  match FileUtils.loadJSON (FORM_HISTORY w) with
  | Exn.Ok (FileUtils.DArray historyData) =>
      let historicalEntries :=
        filter (fun h =>
                  JS.strict_eq (Case.employeeId (HistoryEntry.form h)) employeeId
                  && match preserved_certificates h with
                     | Some _ => true
                     | None => false
                     end)
          historyData in
      flat_map (fun historyEntry =>
                  match preserved_certificates historyEntry with
                  | Some certs => map (list_historical historyEntry) certs
                  | None => []
                  end)
        historicalEntries
  | _ => []
  end.

Section CertificateHandlers.
Variable Date_parse : string -> option Z.

(** [new Date(c.generatedAt || c.completedAt)]. *)
Definition listed_date (c : ListedCertificate.t) : option Z :=
  JS.new_Date Date_parse
    (JS.or_str (ListedCertificate.generatedAt c) (ListedCertificate.completedAt c)).

(** The comparator of the listing: [date(b) - date(a)]. *)
Definition newest_first (a b : ListedCertificate.t) : option Z :=
  JS.date_sub (listed_date b) (listed_date a).

(** [GET /certificates]. *)
Definition certificates (w : World) (session : option SessionUser.t)
  : Http.Response :=
  match session with
  | None => Http.fail 401 "Not authenticated"
  | Some sessionUser =>
      let employeeId := session_employeeId sessionUser in
      if negb (JS.truthy_str employeeId) then
        Http.fail 401 "Employee ID not found in session"
      else
        let allCertificates :=
          (active_listing w employeeId ++ historical_listing w employeeId)%list in
        Http.json (Http.Certificates (JS.sort newest_first allCertificates))
  end.

End CertificateHandlers.

(** The certificate the download handler resolved. *)
Module FoundCertificate.
Record t : Type := mk {
  id : option string;
  employeeId : option string;
  filename : option string;
  filepath : option string;
  source : option string
}.
End FoundCertificate.

(** The search of the active store. *)
Definition find_active (w : World) (certId : string) (employeeId : option string)
  : option FoundCertificate.t :=
  match FileUtils.loadJSON (CERTIFICATES w) with
  | Exn.Ok (FileUtils.DArray data) =>
      match JS.find (fun cert =>
                       JS.strict_eq (ActiveCertificate.id cert) (Some certId)
                       && JS.strict_eq (ActiveCertificate.employeeId cert) employeeId)
              data with
      | Some cert =>
          Some (FoundCertificate.mk (ActiveCertificate.id cert)
                  (ActiveCertificate.employeeId cert)
                  (ActiveCertificate.filename cert)
                  (ActiveCertificate.filepath cert) None)
      | None => None
      end
  | _ => None
  end.

(** The two nested loops over the history, leaving at the first match. *)
Fixpoint search_history (historyData : list HistoryEntry.t) (certId : string)
    (employeeId : option string) : option FoundCertificate.t :=
  match historyData with
  | [] => None
  | historyEntry :: rest =>
      let here :=
        if JS.strict_eq (Case.employeeId (HistoryEntry.form historyEntry)) employeeId
        then
          match preserved_certificates historyEntry with
          | Some certs =>
              match JS.find (fun cert =>
                               (historicalCertId historyEntry cert =? certId)%string)
                      certs with
              | Some cert =>
                  Some (FoundCertificate.mk
                          (Some (historicalCertId historyEntry cert))
                          (Case.employeeId (HistoryEntry.form historyEntry))
                          (Certificate.filename cert)
                          (Certificate.filepath cert)
                          (Some "history"))
              | None => None
              end
          | None => None
          end
        else None in
      match here with
      | Some certificate => Some certificate
      | None => search_history rest certId employeeId
      end
  end.

Definition find_historical (w : World) (certId : string) (employeeId : option string)
  : option FoundCertificate.t :=
  match FileUtils.loadJSON (FORM_HISTORY w) with
  | Exn.Ok (FileUtils.DArray historyData) => search_history historyData certId employeeId
  | _ => None
  end.

(** [GET /certificates/:certId/download].  [on_disk] is [fs.existsSync]
    on the certificate directory. *)
Definition download_certificate (on_disk : string -> bool) (w : World)
    (session : option SessionUser.t) (certId : string) : Http.Response :=
  match session with
  | None => Http.fail 401 "Not authenticated"
  | Some sessionUser =>
      let employeeId := session_employeeId sessionUser in
      if negb (JS.truthy_str employeeId) then
        Http.fail 401 "Employee ID not found in session"
      else
        let certificate := find_active w certId employeeId in
        let certificate :=
          match certificate with
          | Some c => Some c
          | None =>
              if prefix "hist_" certId
              then find_historical w certId employeeId
              else None
          end in
        match certificate with
        | None => Http.fail 404 "Certificate not found"
        | Some certificate =>
            if negb (JS.strict_eq (FoundCertificate.employeeId certificate) employeeId)
            then Http.fail 403 "Access denied"
            else
              let exists_on_disk :=
                match FoundCertificate.filepath certificate with
                | Some filePath => on_disk filePath
                | None => false
                end in
              if negb exists_on_disk then
                Http.fail 404 "Certificate file not found on server"
              else
                Http.json (Http.Download (FoundCertificate.filepath certificate)
                             (FoundCertificate.filename certificate))
        end
  end.

(* ================================================================== *)
(** * Certificate generation pipeline                                   *)
(* ================================================================== *)

(** What the pipeline asks of its host: the two [fs.ensureDir] calls, the
    rendering of one PDF ([createFormCertificatePDF], whose layout code is
    outside this development), [fs.stat], [path.basename] and the time at
    which the entry of a form type settles. *)
Module PdfHost.
Record t : Type := mk {
  ensureDir_certificates : Exn.result unit;
  ensureDir_temp : Exn.result unit;
  createFormCertificatePDF : string -> string -> option JS.value -> Exn.result string;
  stat_size : string -> Exn.result Z;
  basename : string -> string;
  settled_at : string -> string
}.
End PdfHost.

(** The lines the pipeline writes to its log about the run. *)
Inductive LogEntry : Type :=
| PDF_GENERATION_STARTED (formId : string) (formTypes : list string)
| Certificate_generated (formId formType : string) (filename : option string)
    (fileSize : option Z)
| Failed_to_generate (error : option string) (formId formType : string)
| PDF_GENERATION_COMPLETED (formId : string)
    (certificatesGenerated failedCertificates : nat)
| Certificate_generation_failed (error : string) (formId : option string).

(** [PDFValidator.validateFormData]; its warnings are not logged here. *)
Definition validateFormData (formData : option JS.value) : Exn.result bool :=
  if negb (JS.is_object formData) then Exn.Throw "Invalid form data provided"
  else Exn.Ok true.

Definition is_success (c : Certificate.t) : bool :=
  JS.strict_eq (Certificate.status c) (Some "success").

Definition is_failed (c : Certificate.t) : bool :=
  JS.strict_eq (Certificate.status c) (Some "failed").

Section Pipeline.
Variable host : PdfHost.t.

(** One element of [certificatePromises]: the body is wrapped in its own
    [try]/[catch], which turns an error into a record. *)
Definition certificatePromise (formId : string)
    (formResponses : list (string * JS.value)) (formType : string)
  : Exn.result Certificate.t :=
  Exn.try_catch
    (_ <- validateFormData (JS.get formResponses formType) ;;
     pdfPath <- PdfHost.createFormCertificatePDF host formId formType
                  (JS.get formResponses formType) ;;
     size <- PdfHost.stat_size host pdfPath ;;
     Exn.Ok (Certificate.mk (Some formType)
               (Some (PdfHost.basename host pdfPath))
               (Some pdfPath)
               (Some (PdfHost.settled_at host formType))
               (Some size)
               (Some "success")
               None))
    (fun certError =>
       Exn.Ok (Certificate.mk (Some formType) None None
                 (Some (PdfHost.settled_at host formType))
                 None
                 (Some "failed")
                 (Some certError))).

(** The log line of one settled entry. *)
Definition entry_log (formId formType : string) (settled : Exn.result Certificate.t)
  : list LogEntry :=
  match settled with
  | Exn.Ok c =>
      if is_success c
      then [Certificate_generated formId formType (Certificate.filename c)
              (Certificate.fileSize c)]
      else [Failed_to_generate (Certificate.error c) formId formType]
  | Exn.Throw _ => []
  end.

(** The keys of [formResponses] whose entry is truthy and of type
    [object]: an object or an array, whatever it holds. *)
Definition validFormTypes (formResponses : list (string * JS.value)) : list string :=
  filter (fun formType => JS.is_object (JS.get formResponses formType))
    (JS.keys formResponses).

(** [results]: what [Promise.allSettled] yields; [Ok] is a fulfilled
    promise and [Throw] a rejected one. *)
Definition settled_results (formId : string)
    (formResponses : list (string * JS.value)) : list (Exn.result Certificate.t) :=
  map (certificatePromise formId formResponses) (validFormTypes formResponses).

(** The successful certificates collected from [results]. *)
Definition collect_successful (results : list (Exn.result Certificate.t))
  : list Certificate.t :=
  flat_map (fun settled =>
              match settled with
              | Exn.Ok c => if is_success c then [c] else []
              | Exn.Throw _ => []
              end)
    results.

Definition count_failed (results : list (Exn.result Certificate.t)) : nat :=
  List.length
    (filter (fun settled =>
               match settled with
               | Exn.Ok c => is_failed c
               | Exn.Throw _ => true
               end)
       results).

(** The body of the outer [try]. *)
Definition pipeline_body (formId : option string)
    (formResponses : option (list (string * JS.value)))
  : list LogEntry * Exn.result (list Certificate.t) :=
  match formId with
  | None => ([], Exn.Throw "Invalid form ID provided")
  | Some id =>
  if (id =? "")%string then ([], Exn.Throw "Invalid form ID provided") else
  match formResponses with
  | None => ([], Exn.Throw "Invalid form responses provided")
  | Some responses =>
  match PdfHost.ensureDir_certificates host with
  | Exn.Throw e => ([], Exn.Throw e)
  | Exn.Ok _ =>
  match PdfHost.ensureDir_temp host with
  | Exn.Throw e => ([], Exn.Throw e)
  | Exn.Ok _ =>
      let valid := validFormTypes responses in
      if (List.length valid =? 0)%nat then
        ([], Exn.Throw "No valid form responses found")
      else
        let results := settled_results id responses in
        let certificates := collect_successful results in
        let failedCount := count_failed results in
        let log :=
          ([PDF_GENERATION_STARTED id valid]
             ++ flat_map (fun p => entry_log id (fst p) (snd p)) (combine valid results)
             ++ [PDF_GENERATION_COMPLETED id (List.length certificates) failedCount])%list in
        if (List.length certificates =? 0)%nat then
          (log, Exn.Throw "No certificates were generated successfully")
        else (log, Exn.Ok certificates)
  end end end end.

(** The outer [catch] logs the error and throws it again. *)
Definition generateFormCertificates (formId : option string)
    (formResponses : option (list (string * JS.value)))
  : list LogEntry * Exn.result (list Certificate.t) :=
  let (log, outcome) := pipeline_body formId formResponses in
  match outcome with
  | Exn.Ok certificates => (log, Exn.Ok certificates)
  | Exn.Throw e =>
      ((log ++ [Certificate_generation_failed e formId])%list, Exn.Throw e)
  end.

End Pipeline.

(** ** The name of a certificate file ([createFormCertificatePDF]) *)
Section FileName.
(** [crypto.createHash('md5').update(s).digest('hex')]. *)
Variable md5_hex : string -> string.

(** [timestamp] is [Date.now()] and [randomId] the hexadecimal text of
    [crypto.randomBytes(8)] at the time of the call. *)
Definition certificate_fileName (formId formType : option string)
    (timestamp : Z) (randomId : string) : Exn.result string :=
  let sanitizedFormId := PDFValidator.sanitizeText formId in
  let sanitizedFormType := PDFValidator.sanitizeText formType in
  if (sanitizedFormId =? "")%string || (sanitizedFormType =? "")%string then
    Exn.Throw "Invalid form ID or type"
  else
    let contentHash :=
      substring 0 8
        (md5_hex (sanitizedFormId ++ "-" ++ sanitizedFormType ++ "-"
                    ++ JS.show_Z timestamp)) in
    let fileName :=
      sanitizedFormId ++ "_" ++ sanitizedFormType ++ "_" ++ JS.show_Z timestamp
        ++ "_" ++ contentHash ++ ".pdf" in
    Exn.Ok fileName.

End FileName.

(* ================================================================== *)
(** * A date parser for the records the application writes              *)
(* ================================================================== *)

(** Every date the application stores comes from
    [new Date().toISOString()], which has the fixed shape
    [YYYY-MM-DDTHH:mm:ss.sssZ].  [IsoDate.parse] reads exactly that shape
    and is the [Date_parse] used to run the model on concrete records. *)
Module IsoDate.

Definition digit (c : ascii) : option Z :=
  let n := Z.of_nat (nat_of_ascii c) in
  if (48 <=? n) && (n <=? 57) then Some (n - 48) else None.

Fixpoint number (acc : Z) (l : list ascii) : option Z :=
  match l with
  | [] => Some acc
  | c :: rest =>
      match digit c with
      | Some d => number (10 * acc + d) rest
      | None => None
      end
  end.

(** Days between 1970-01-01 and the civil date [y]-[m]-[d]. *)
Definition days_from_civil (y m d : Z) : Z :=
  let y' := if m <=? 2 then y - 1 else y in
  let era := y' / 400 in
  let yoe := y' - era * 400 in
  let doy := (153 * (if 2 <? m then m - 3 else m + 9) + 2) / 5 + d - 1 in
  let doe := yoe * 365 + yoe / 4 - yoe / 100 + doy in
  era * 146097 + doe - 719468.

Definition time_value (y mo d h mi s ms : Z) : option Z :=
  if (1 <=? mo) && (mo <=? 12) && (1 <=? d) && (d <=? 31)
     && (h <=? 23) && (mi <=? 59) && (s <=? 59)
  then Some ((((days_from_civil y mo d * 24 + h) * 60 + mi) * 60 + s) * 1000 + ms)
  else None.

Definition parse (s : string) : option Z :=
  match list_ascii_of_string s with
  | [y1; y2; y3; y4; "-"; m1; m2; "-"; d1; d2; "T";
     h1; h2; ":"; i1; i2; ":"; s1; s2; "."; f1; f2; f3; "Z"]%char =>
      match number 0 [y1; y2; y3; y4], number 0 [m1; m2], number 0 [d1; d2],
            number 0 [h1; h2], number 0 [i1; i2], number 0 [s1; s2],
            number 0 [f1; f2; f3] with
      | Some y, Some mo, Some d, Some h, Some mi, Some sec, Some ms =>
          time_value y mo d h mi sec ms
      | _, _, _, _, _, _, _ => None
      end
  | _ => None
  end.

End IsoDate.

(* ================================================================== *)
(** * Vocabulary of the specification                                   *)
(* ================================================================== *)


(** The reply of the submission validator to a second application. *)
Definition conflict_message (existingForm : Case.t) : string :=
  "You already have a " ++ JS.show (Case.status existingForm)
    ++ " application (" ++ JS.show (Case.formId existingForm) ++ ")".

(** The values the submission validator works with. *)
Definition submitted_name (bodyData : SubmitBody.t) (sessionUser : SessionUser.t)
  : string :=
  JS.or_lit (JS.or_str (SubmitBody.name bodyData) (SessionUser.name sessionUser)) "".

Definition submitted_employeeId (bodyData : SubmitBody.t) (sessionUser : SessionUser.t)
  : string :=
  JS.or_lit (JS.or_str (SubmitBody.employeeId bodyData)
               (JS.or_str (SessionUser.id sessionUser)
                  (SessionUser.employeeId sessionUser))) "".

Definition required_fields_present (bodyData : SubmitBody.t)
    (sessionUser : SessionUser.t) : bool :=
  negb ((submitted_name bodyData sessionUser =? "")%string
        || (submitted_employeeId bodyData sessionUser =? "")%string
        || (JS.or_lit (SubmitBody.email bodyData) "" =? "")%string
        || (JS.or_lit (SubmitBody.department bodyData) "" =? "")%string
        || (JS.or_lit (SubmitBody.noDuesType bodyData) "" =? "")%string).

(** [s.toLowerCase()] on ASCII text. *)
Definition lower_ascii (c : ascii) : ascii :=
  let n := nat_of_ascii c in
  if ((65 <=? n) && (n <=? 90))%nat then ascii_of_nat (n + 32) else c.

Definition toLowerCase (s : string) : string :=
  string_of_list_ascii (map lower_ascii (list_ascii_of_string s)).

(** The active statuses in the words of the specification: pending in any
    letter case, approved, Submitted to HOD, Submitted to IT. *)
Definition spec_active_status (status : option string) : bool :=
  match status with
  | Some s =>
      (toLowerCase s =? "pending")%string || (s =? "approved")%string
      || (s =? "Submitted to HOD")%string || (s =? "Submitted to IT")%string
  | None => false
  end.

(** The active statuses of the code: membership in [activeStatuses]. *)
Definition listed_active_status (status : option string) : bool :=
  JS.includes activeStatuses status.

(** The employee has a case whose status is active. *)
Definition has_active_case (active : option string -> bool)
    (forms : list Case.t) (employeeId : string) : bool :=
  existsb (fun c => JS.strict_eq (Case.employeeId c) (Some employeeId)
                    && active (Case.status c))
    forms.

(** The time of a timeline event. *)
Definition event_time (Date_parse : string -> option Z) (e : TimelineEvent.t)
  : option Z :=
  JS.new_Date Date_parse (TimelineEvent.date e).

(** Ascending by date: every event has a valid date that is not later than
    the date of any event after it. *)
Definition ascending_by_date (Date_parse : string -> option Z)
    (timeline : list TimelineEvent.t) : Prop :=
  StronglySorted
    (fun a b =>
       match event_time Date_parse a, event_time Date_parse b with
       | Some ta, Some tb => ta <= tb
       | _, _ => False
       end)
    timeline.

(** The one place where the timeline builder reads the clock: the date of
    the certificates event when the case has no [itProcessing.processedAt]. *)
Definition reads_clock (formData : Case.t) : bool :=
  JS.strict_eq (Case.status formData) (Some "IT Completed")
  && match Case.certificates formData with
     | Some _ => true
     | None => false
     end
  && negb (JS.truthy_str (match Case.itProcessing formData with
                          | Some it => ItProcessing.processedAt it
                          | None => None
                          end)).

(** The first two events of the timeline. *)
Definition submitted_event (formData : Case.t) : TimelineEvent.t :=
  TimelineEvent.mk "submitted" "Application Submitted"
    (Case.submissionDate formData) "completed"
    ("Application " ++ JS.show (Case.formId formData) ++ " submitted for "
       ++ JS.show (Case.noDuesType formData) ++ " clearance").

Definition hod_approved_event (hod : HodApproval.t) : TimelineEvent.t :=
  TimelineEvent.mk "hod_approved" "HOD Approval"
    (HodApproval.approvedAt hod) "completed"
    ("Approved by HOD: " ++ JS.show (HodApproval.approvedBy hod)).

(** Newest first: every entry has a valid date that is not earlier than
    the date of any entry after it. *)
Definition newest_first_by_date (Date_parse : string -> option Z)
    (listing : list ListedCertificate.t) : Prop :=
  StronglySorted
    (fun a b =>
       match listed_date Date_parse a, listed_date Date_parse b with
       | Some ta, Some tb => tb <= ta
       | _, _ => False
       end)
    listing.

(** The certificates of the employee in the active store. *)
Definition active_certificates_of (w : World) (employeeId : option string)
  : list ActiveCertificate.t :=
  match FileUtils.loadJSON (CERTIFICATES w) with
  | Exn.Ok (FileUtils.DArray data) =>
      filter (fun cert => JS.strict_eq (ActiveCertificate.employeeId cert) employeeId)
        data
  | _ => []
  end.

(** The certificates kept in the history entries of the employee, each
    with its entry. *)
Definition historical_certificates_of (w : World) (employeeId : option string)
  : list (HistoryEntry.t * Certificate.t) :=
  flat_map (fun h =>
              if JS.strict_eq (Case.employeeId (HistoryEntry.form h)) employeeId
              then match preserved_certificates h with
                   | Some certs => map (fun cert => (h, cert)) certs
                   | None => []
                   end
              else [])
    (FileUtils.load_collection (FORM_HISTORY w)).

(** An entry of [formResponses] that holds something: an object with a
    property or an array with an element. *)
Definition nonempty_object (v : JS.value) : Prop :=
  (exists item items, v = JS.VArr (item :: items))
  \/ (exists field fields, v = JS.VObj (field :: fields)).

(** An entry of [formResponses] that is an object or an array, empty or
    not. *)
Definition object_typed (v : JS.value) : Prop :=
  (exists items, v = JS.VArr items) \/ (exists fields, v = JS.VObj fields).

(** The host renders the certificate of an entry and reports its size. *)
Definition rendered (host : PdfHost.t) (formId formType : string) (v : JS.value)
  : Prop :=
  exists pdfPath size,
    PdfHost.createFormCertificatePDF host formId formType (Some v) = Exn.Ok pdfPath
    /\ PdfHost.stat_size host pdfPath = Exn.Ok size.

(** The log lines that report a generated artifact. *)
Definition is_generated_line (line : LogEntry) : bool :=
  match line with
  | Certificate_generated _ _ _ _ => true
  | _ => false
  end.

(** A collection file as the specification sees it: the file itself when
    it holds an array, and the empty array when it is absent, unreadable,
    malformed or holds something else. *)
Definition as_array {T : Type} (f : FileUtils.File T) : FileUtils.File T :=
  match f with
  | FileUtils.Stored (FileUtils.WellFormed (FileUtils.DArray items)) =>
      FileUtils.Stored (FileUtils.WellFormed (FileUtils.DArray items))
  | _ => FileUtils.Stored (FileUtils.WellFormed (FileUtils.DArray []))
  end.

Definition as_collections (w : World) : World :=
  mkWorld (as_array (PENDING_FORMS w)) (as_array (FORM_HISTORY w))
    (as_array (CERTIFICATES w)).

(** Two outcomes of a handler are the same at the interface: the same
    reply, and stores that hold the same collections. *)
Definition same_outcome {R : Type} (a b : R * World) : Prop :=
  fst a = fst b /\ as_collections (snd a) = as_collections (snd b).

(* ================================================================== *)
(** * Further built-ins                                                 *)
(* ================================================================== *)

Module JSLib.

(** [hay.includes(needle)] on strings. *)
Fixpoint str_includes (needle hay : string) : bool :=
  prefix needle hay
  || match hay with
     | EmptyString => false
     | String _ rest => str_includes needle rest
     end.

(** [arr.slice(-n)] for a positive [n]: the last [n] elements. *)
Definition slice_last {A : Type} (n : nat) (l : list A) : list A :=
  skipn (List.length l - n) l.

(** [arr.slice(0, limit)]; a negative [limit] counts from the end. *)
Definition slice_to {A : Type} (limit : Z) (l : list A) : list A :=
  if limit <? 0
  then firstn (Z.to_nat (Z.max 0 (Z.of_nat (List.length l) + limit))) l
  else firstn (Z.to_nat limit) l.

(** [Object.keys(v)] for an object or an array. *)
Definition object_keys (v : JS.value) : list string :=
  match v with
  | JS.VObj fields => JS.keys fields
  | JS.VArr items => map JS.show_nat (seq 0 (List.length items))
  | _ => []
  end.

(** [{ ...base, ...more }]: the properties of [more] are assigned onto
    [base] in their order. *)
Definition spread {V : Type} (base more : list (string * V)) : list (string * V) :=
  fold_left (fun acc kv => JS.set acc (fst kv) (snd kv)) more base.

(** The names every object literal inherits from [Object.prototype]: a
    lookup [table[name]] of such a name yields the inherited function or
    object, which is truthy and is not a string. *)
Definition Object_prototype_properties : list string :=
  [ "constructor"; "__defineGetter__"; "__defineSetter__"; "hasOwnProperty";
    "__lookupGetter__"; "__lookupSetter__"; "isPrototypeOf";
    "propertyIsEnumerable"; "toString"; "valueOf"; "__proto__";
    "toLocaleString" ].

Definition inherited (name : string) : bool :=
  existsb (String.eqb name) Object_prototype_properties.

(** [a || b] on possibly absent JSON values. *)
Definition or_value (a b : option JS.value) : option JS.value :=
  match a with
  | Some v => if JS.truthy v then a else b
  | None => b
  end.

End JSLib.

(* ================================================================== *)
(** * Further handlers of the employee router                           *)
(* ================================================================== *)

(** The [historyInfo] a history entry is listed with. *)
Module HistoryInfo.
Record t : Type := mk {
  type : string;
  completedAt : option string;
  finalStatus : option string;
  hadCertificates : bool;
  certificateCount : nat;
  hadHODApproval : bool;
  hadITProcessing : bool;
  assignedFormsCount : nat
}.
End HistoryInfo.

Module HistorySummary.
Record t : Type := mk {
  totalApplications : nat;
  totalCertificates : nat;
  completedApplications : nat;
  rejectedApplications : nat
}.
End HistorySummary.

Module Api.

Inductive Body : Type :=
| Failure (message : string)
(** [{ success, message, dataKeys, timestamp }] of a partial save *)
| Saved (message : string) (dataKeys : list string) (timestamp : string)
(** [{ success, formData, hasData }] *)
| FormData (formData : option JS.value) (hasData : bool)
(** [{ success, forms }] *)
| Forms (forms : list Case.t)
(** [{ success, history, summary }] *)
| History (history : list (HistoryEntry.t * HistoryInfo.t))
    (summary : HistorySummary.t).

Record Response : Type := mk { code : Z; body : Body }.

Definition fail (code : Z) (message : string) : Response :=
  mk code (Failure message).

Definition json (body : Body) : Response := mk 200 body.

End Api.

(** The four routes of the partial save, [(reqKey, storageKey)], which is
    also the [formMap] of [/form-data]. *)
Definition formMap : list (string * string) :=
  [ ("disposalForm", "disposalFormData");
    ("efileForm", "efileFormData");
    ("form365Transfer", "form365TransferData");
    ("form365Disposal", "form365Data") ].

(** The mutation a partial save applies to the case it selected. *)
Definition save_partial_update (clock : JS.Clock) (storageKey : string)
    (parsedData : JS.value) (form : Case.t) : Case.t :=
  let responses :=
    match Case.formResponses form with
    | Some r => r
    | None => []
    end in
  Case.with_lastUpdated (Some (JS.now_iso clock))
    (Case.with_formResponses (Some (JS.set responses storageKey parsedData)) form).

Section SavePartial.
Variable Date_parse : string -> option Z.
(** [JSON.parse] on the text of a request field. *)
Variable JSON_parse : string -> Exn.result JS.value.
(** The message of the [TypeError] the host raises when [req.body] is
    [undefined] and a property of it is read. *)
Variable TypeError_message : string.

(** [req.body[reqKey] || req.body], then [JSON.parse] when it is a
    string: the inner [try] of the handler. *)
Definition parse_partial (reqKey : string) (body : option (list (string * JS.value)))
  : Exn.result JS.value :=
  match body with
  | None => Exn.Throw TypeError_message
  | Some fields =>
      let inputData :=
        match JS.get fields reqKey with
        | Some v => if JS.truthy v then v else JS.VObj fields
        | None => JS.VObj fields
        end in
      match inputData with
      | JS.VStr text => JSON_parse text
      | _ => Exn.Ok inputData
      end
  end.

(** [savePartialForm(reqKey, storageKey)]. *)
Definition savePartialForm (reqKey storageKey : string) (env : Env) (w : World)
    (session : option SessionUser.t) (body : option (list (string * JS.value)))
  : Api.Response * World :=
  match session with
  | None => (Api.fail 401 "Session expired", w)
  | Some sessionUser =>
      let employeeId := session_employeeId sessionUser in
      if negb (JS.truthy_str employeeId) then
        (Api.fail 400 "No employee ID found in session", w)
      else
        let allForms := FileUtils.load_collection (PENDING_FORMS w) in
        let latestForm := getLatestFormForEmployee Date_parse allForms employeeId None in
        let formIndex :=
          match latestForm with
          | Some latest =>
              JS.findIndex (fun f => JS.strict_eq (Case.formId f) (Case.formId latest))
                allForms
          | None => None
          end in
        match formIndex with
        | None =>
            (Api.fail 404
               "No pending form found for this employee. Please submit initial application first.",
             w)
        | Some i =>
        match nth_error allForms i with
        | None =>
            (* an index [findIndex] returned is inside the array *)
            (Api.fail 500 "Internal Server Error", w)
        | Some form =>
        match parse_partial reqKey body with
        | Exn.Throw parseError =>
            (Api.fail 400
               ("Invalid JSON format for " ++ storageKey ++ ": " ++ parseError), w)
        | Exn.Ok parsedData =>
            if negb (JS.is_object (Some parsedData)) then
              (Api.fail 400 ("Invalid data format for " ++ storageKey), w)
            else
              let allForms :=
                JS.set_nth allForms i
                  (save_partial_update (clock env) storageKey parsedData form) in
              match FileUtils.saveJSON (write_error env) allForms with
              | Exn.Throw _ => (Api.fail 500 ("Failed to save " ++ storageKey), w)
              | Exn.Ok stored =>
                  (Api.json (Api.Saved (storageKey ++ " saved successfully")
                               (JSLib.object_keys parsedData)
                               (JS.now_iso (clock env))),
                   mkWorld stored (FORM_HISTORY w) (CERTIFICATES w))
              end
        end
        end
        end
  end.

End SavePartial.

Section MoreReadHandlers.
Variable Date_parse : string -> option Z.
(** The text the host gives for [String(Object.prototype[name])], under
    which an inherited member is looked up when it is used as a key. *)
Variable inherited_text : string -> string.

(** [GET /form-data?formName=...]. *)
Definition form_data (w : World) (session : option SessionUser.t)
    (formName : option string) : Api.Response :=
  match session with
  | None => Api.fail 401 "Session expired"
  | Some sessionUser =>
      let employeeId := session_employeeId sessionUser in
      if negb (JS.truthy_str formName) then
        Api.fail 400 "Missing formName in query"
      else
        let pendingForms := FileUtils.load_collection (PENDING_FORMS w) in
        match getLatestFormForEmployee Date_parse pendingForms employeeId None with
        | None => Api.fail 404 "No pending form found"
        | Some formEntry =>
            let formKey :=
              match JS.get formMap (JS.show formName) with
              | Some key => Some key
              | None =>
                  if JSLib.inherited (JS.show formName)
                  then Some (inherited_text (JS.show formName))
                  else None
              end in
            match formKey with
            | None => Api.fail 400 ("Invalid formName: " ++ JS.show formName)
            | Some formKey =>
                let formData :=
                  JSLib.or_value
                    (match Case.formResponses formEntry with
                     | Some responses => JS.get responses formKey
                     | None => None
                     end)
                    None in
                Api.json (Api.FormData formData
                            (match formData with
                             | Some v => JS.truthy v
                             | None => false
                             end))
            end
        end
  end.

(** [GET /track]: every form of the employee, latest first. *)
Definition track (w : World) (session : option SessionUser.t) : Api.Response :=
  match session with
  | None => Api.fail 401 "Session expired"
  | Some sessionUser =>
      let employeeId := session_employeeId sessionUser in
      let pendingForms := FileUtils.load_collection (PENDING_FORMS w) in
      let myForms :=
        JS.sort (latest_first Date_parse)
          (filter (fun f => JS.strict_eq (Case.employeeId f) employeeId) pendingForms) in
      Api.json (Api.Forms myForms)
  end.

(** [form.preservedData?.certificates?.length || 0]. *)
Definition preserved_certificate_count (h : HistoryEntry.t) : nat :=
  match preserved_certificates h with
  | Some certs => List.length certs
  | None => 0%nat
  end.

Definition historyInfo (h : HistoryEntry.t) : HistoryInfo.t :=
  HistoryInfo.mk
    (JS.or_lit (HistoryEntry.historyType h) "completed_application")
    (HistoryEntry.completedAt h)
    (HistoryEntry.finalStatus h)
    (0 <? preserved_certificate_count h)%nat
    (preserved_certificate_count h)
    (match HistoryEntry.preservedData h with
     | Some p => match PreservedData.hodApproval p with Some _ => true | None => false end
     | None => false
     end)
    (match HistoryEntry.preservedData h with
     | Some p => match PreservedData.itProcessing p with Some _ => true | None => false end
     | None => false
     end)
    (match HistoryEntry.preservedData h with
     | Some p => match PreservedData.assignedForms p with
                 | Some forms => List.length forms
                 | None => 0%nat
                 end
     | None => 0%nat
     end).

(** [new Date(h.completedAt || h.submissionDate || h.lastUpdated)]. *)
Definition history_date (h : HistoryEntry.t) : option Z :=
  JS.new_Date Date_parse
    (JS.or_str (HistoryEntry.completedAt h)
       (JS.or_str (Case.submissionDate (HistoryEntry.form h))
          (Case.lastUpdated (HistoryEntry.form h)))).

Definition history_latest_first (a b : HistoryEntry.t * HistoryInfo.t) : option Z :=
  JS.date_sub (history_date (fst b)) (history_date (fst a)).

(** [h.finalStatus === 'IT Completed']. *)
Definition is_completed_entry (h : HistoryEntry.t) : bool :=
  JS.strict_eq (HistoryEntry.finalStatus h) (Some "IT Completed").

(** [h.finalStatus && h.finalStatus.toLowerCase().includes('rejected')]. *)
Definition is_rejected_entry (h : HistoryEntry.t) : bool :=
  match HistoryEntry.finalStatus h with
  | Some s => negb (s =? "")%string && JSLib.str_includes "rejected" (toLowerCase s)
  | None => false
  end.

(** The entries of the employee with their [historyInfo], latest first. *)
Definition myHistory (w : World) (employeeId : option string)
  : list (HistoryEntry.t * HistoryInfo.t) :=
  JS.sort history_latest_first
    (map (fun form => (form, historyInfo form))
       (filter (fun f => JS.strict_eq (Case.employeeId (HistoryEntry.form f)) employeeId)
          (FileUtils.load_collection (FORM_HISTORY w)))).

Definition history_summary (myHistory : list (HistoryEntry.t * HistoryInfo.t))
  : HistorySummary.t :=
  HistorySummary.mk
    (List.length myHistory)
    (fold_left (fun sum h => (sum + HistoryInfo.certificateCount (snd h))%nat)
       myHistory 0%nat)
    (List.length (filter (fun h => is_completed_entry (fst h)) myHistory))
    (List.length (filter (fun h => is_rejected_entry (fst h)) myHistory)).

(** [GET /history]. *)
Definition history (w : World) (session : option SessionUser.t) : Api.Response :=
  match session with
  | None => Api.fail 401 "Session expired"
  | Some sessionUser =>
      let employeeId := session_employeeId sessionUser in
      let myHistory := myHistory w employeeId in
      Api.json (Api.History myHistory (history_summary myHistory))
  end.

End MoreReadHandlers.


(** ** [GET /assigned-forms] *)

Module AssignedReply.
Inductive t : Type :=
| Failure (code : Z) (message : string)
(** no form in an allowed status: [{ assignedForms: [], assignedFormsCount: 0,
      applicationStatus: "Not Submitted", formId: null }] *)
| NotSubmitted
(** [{ assignedForms: [], assignedFormsCount: 0, applicationStatus:
      'rejected', rejectionReason, formId: null, canSubmitNew: true }] *)
| Rejected (rejectionReason : string)
| Assigned (formId : option string) (applicationStatus : option string)
    (assignedFormsCount : nat) (assignedForms : list AssignedForm.t).
End AssignedReply.

Definition assigned_allowedStatuses : list string :=
  ["approved"; "Submitted to HOD"; "pending"; "Pending"].

Section AssignedForms.
Variable Date_parse : string -> option Z.
(** [form.rejectionReason], a property the HOD and IT routes write and the
    case record of this development does not carry. *)
Variable rejectionReason : Case.t -> option string.

(** [new Date(f.submissionDate || f.lastUpdated || 0)]. *)
Definition assigned_date (f : Case.t) : option Z :=
  let d := JS.or_str (Case.submissionDate f) (Case.lastUpdated f) in
  if JS.truthy_str d then JS.new_Date Date_parse d else Some 0.

Definition assigned_latest_first (a b : Case.t) : option Z :=
  JS.date_sub (assigned_date b) (assigned_date a).

(** The forms of the employee in a status that is not completed. *)
Definition assigned_myForms (allForms : list Case.t) (employeeId : option string)
  : list Case.t :=
  filter (fun f =>
            JS.strict_eq (Case.employeeId f) employeeId
            && JS.truthy_str (Case.status f)
            && JS.includes assigned_allowedStatuses (Case.status f))
    allForms.

Definition assigned_forms (w : World) (session : option SessionUser.t)
  : AssignedReply.t :=
  match session with
  | None => AssignedReply.Failure 401 "Session expired"
  | Some sessionUser =>
      let employeeId := session_employeeId sessionUser in
      if negb (JS.truthy_str employeeId) then
        AssignedReply.Failure 400 "Employee ID missing in session"
      else
        let allForms := FileUtils.load_collection (PENDING_FORMS w) in
        let myForms := assigned_myForms allForms employeeId in
        match JS.sort assigned_latest_first myForms with
        | [] => AssignedReply.NotSubmitted
        | myForm :: _ =>
            if match Case.status myForm with
               | Some s =>
                   negb (s =? "")%string
                   && JSLib.str_includes "rejected" (toLowerCase s)
               | None => false
               end
            then AssignedReply.Rejected (JS.or_lit (rejectionReason myForm) "")
            else
              AssignedReply.Assigned (Case.formId myForm) (Case.status myForm)
                (match Case.assignedForms myForm with
                 | Some forms => List.length forms
                 | None => 0%nat
                 end)
                (match Case.assignedForms myForm with
                 | Some forms => forms
                 | None => []
                 end)
        end
  end.

End AssignedForms.

(* ================================================================== *)
(** * [pdfGenerator]: signature images and certificate clean-up         *)
(* ================================================================== *)

(** A text leaves no tag behind when no closing bracket comes after an
    opening one; [opened] tells whether an opening bracket was read. *)
Fixpoint tagfree (opened : bool) (l : list ascii) : bool :=
  match l with
  | [] => true
  | c :: rest =>
      if Ascii.eqb c ">" then negb opened && tagfree opened rest
      else if Ascii.eqb c "<" then tagfree true rest
      else tagfree opened rest
  end.

Module ImageValidator.

Definition SIGNATURE_MAX_SIZE : nat := 200 * 1024.

Definition ALLOWED_IMAGE_TYPES : list string :=
  ["image/png"; "image/jpeg"; "image/jpg"].

(** [s.split(sep)] for a separator of one character. *)
Fixpoint split_on (sep : ascii) (l : list ascii) : list (list ascii) :=
  match l with
  | [] => [[]]
  | c :: rest =>
      if Ascii.eqb c sep then [] :: split_on sep rest
      else match split_on sep rest with
           | piece :: pieces => (c :: piece) :: pieces
           | [] => [[c]]
           end
  end.

Definition split (sep : ascii) (s : string) : list string :=
  map string_of_list_ascii (split_on sep (list_ascii_of_string s)).

(** [PDFValidator.isValidImageBuffer]; a buffer is a list of octets. *)
Definition isValidImageBuffer (buffer : list Z) (mimeType : string) : bool :=
  if (List.length buffer <? 8)%nat then false
  else
    if (mimeType =? "image/png")%string then
      (nth 0 buffer 0 =? 137) && (nth 1 buffer 0 =? 80)
      && (nth 2 buffer 0 =? 78) && (nth 3 buffer 0 =? 71)
    else if (mimeType =? "image/jpeg")%string || (mimeType =? "image/jpg")%string then
      (nth 0 buffer 0 =? 255) && (nth 1 buffer 0 =? 216)
    else false.

Section Validate.
(** [Buffer.from(text, 'base64')], which never throws. *)
Variable base64_decode : string -> list Z.

(** [PDFValidator.validateImageData]; [null] is [None]. *)
Definition validateImageData (imageData : option string) : option (list Z) :=
  if negb (JS.truthy_str imageData) then None
  else
    let imageData := JS.show imageData in
    if negb (prefix "data:image/" imageData) then None
    else
      match split "," imageData with
      | header :: rest =>
          let base64Data := hd_error rest in
          if negb (JS.truthy_str base64Data) then None
          else
            match nth_error (split ":" header) 1 with
            | None => None (* a [TypeError], caught *)
            | Some afterColon =>
                match split ";" afterColon with
                | mimeType :: _ =>
                    if negb (existsb (String.eqb mimeType) ALLOWED_IMAGE_TYPES) then None
                    else
                      let buffer := base64_decode (JS.show base64Data) in
                      if (SIGNATURE_MAX_SIZE <? List.length buffer)%nat then None
                      else if negb (isValidImageBuffer buffer mimeType) then None
                      else Some buffer
                | [] => None
                end
            end
      | [] => None
      end.

End Validate.
End ImageValidator.

(** The certificate directory as [cleanupOldCertificates] sees it. *)
Module CertDir.
Record t : Type := mk {
  ensureDir : Exn.result unit;
  readdir : Exn.result (list string);
  (** [fs.stat(path)]: the modification time in milliseconds and the size *)
  stat : string -> Exn.result (Z * Z);
  unlink : string -> Exn.result unit;
  (** [path.join(certificatesDir, file)] *)
  join : string -> string
}.
End CertDir.

Module Cleanup.
(** The running totals of the loop, with the paths it has unlinked. *)
Record t : Type := mk {
  deletedCount : Z;
  deletedSize : Z;
  errors : list (string * string);
  unlinked : list string
}.
End Cleanup.

(** One turn of the loop of [cleanupOldCertificates]. *)
Definition cleanup_file (dir : CertDir.t) (cutoffTime : Z) (acc : Cleanup.t)
    (file : string) : Cleanup.t :=
  let filePath := CertDir.join dir file in
  match CertDir.stat dir filePath with
  | Exn.Throw e =>
      Cleanup.mk (Cleanup.deletedCount acc) (Cleanup.deletedSize acc)
        (Cleanup.errors acc ++ [(file, e)]) (Cleanup.unlinked acc)
  | Exn.Ok (mtime, size) =>
      if mtime <? cutoffTime then
        let deletedSize := Cleanup.deletedSize acc + size in
        match CertDir.unlink dir filePath with
        | Exn.Throw e =>
            Cleanup.mk (Cleanup.deletedCount acc) deletedSize
              (Cleanup.errors acc ++ [(file, e)]) (Cleanup.unlinked acc)
        | Exn.Ok _ =>
            Cleanup.mk (Cleanup.deletedCount acc + 1) deletedSize
              (Cleanup.errors acc) (Cleanup.unlinked acc ++ [filePath])
        end
      else acc
  end.

(** [cleanupOldCertificates(maxAgeInDays)] at the time [now]. *)
Definition cleanupOldCertificates (dir : CertDir.t) (now : Z) (maxAgeInDays : Z)
  : Exn.result Cleanup.t :=
  Exn.try_catch
    (_ <- CertDir.ensureDir dir ;;
     files <- CertDir.readdir dir ;;
     let cutoffTime := now - maxAgeInDays * 24 * 60 * 60 * 1000 in
     Exn.Ok (fold_left (cleanup_file dir cutoffTime) files (Cleanup.mk 0 0 [] [])))
    (fun error => Exn.Throw error).

(* ================================================================== *)
(** * Notification manager: the queue and the log                       *)
(* ================================================================== *)

Module Notification.
(** A notification is an open-ended object. *)
Definition t : Type := list (string * JS.value).

(** [n.employeeId === employeeId] for a string [employeeId]. *)
Definition is_for (employeeId : string) (n : t) : bool :=
  match JS.get n "employeeId" with
  | Some (JS.VStr e) => (e =? employeeId)%string
  | _ => false
  end.

(** [n.timestamp], when it is a string. *)
Definition timestamp (n : t) : option string :=
  match JS.get n "timestamp" with
  | Some (JS.VStr s) => Some s
  | _ => None
  end.
End Notification.

Definition QUEUE_LIMIT : nat := 1000.

Section Notifications.
Variable Date_parse : string -> option Z.
(** [new Date(ms).toISOString()]. *)
Variable toISOString : Z -> string.

(** [queueNotification(notificationData)] for an object that is not in
    the queue yet: the object with its two stamps, and the queue. *)
Definition queueNotification (clock : JS.Clock) (notificationQueue : list Notification.t)
    (notificationData : Notification.t) : Notification.t * list Notification.t :=
  let notificationData :=
    JS.set notificationData "expiresAt"
      (JS.VStr (toISOString (JS.now_ms clock + 24 * 60 * 60 * 1000))) in
  let notificationData :=
    JS.set notificationData "queuedAt" (JS.VStr (JS.now_iso clock)) in
  let notificationQueue := (notificationQueue ++ [notificationData])%list in
  (notificationData,
   if (QUEUE_LIMIT <? List.length notificationQueue)%nat
   then JSLib.slice_last QUEUE_LIMIT notificationQueue
   else notificationQueue).

(** [generateNotificationId()]; [random] is
    [Math.random().toString(36).substring(2, 9)]. *)
Definition generateNotificationId (clock : JS.Clock) (random : string) : string :=
  "NOTIF_" ++ JS.show_Z (JS.now_ms clock) ++ "_" ++ random.

(** [logNotification(notificationData)]: the log file afterwards.  An
    error of the store is caught and logged to the console. *)
Definition logNotification (env : Env) (random : string)
    (log : FileUtils.File Notification.t) (notificationData : Notification.t)
  : FileUtils.File Notification.t :=
  let notifications := FileUtils.load_collection log in
  let logEntry :=
    JS.set
      (JSLib.spread [("id", JS.VStr (generateNotificationId (clock env) random))]
         notificationData)
      "loggedAt" (JS.VStr (JS.now_iso (clock env))) in
  let notifications := (notifications ++ [logEntry])%list in
  let notifications :=
    if (QUEUE_LIMIT <? List.length notifications)%nat
    then JSLib.slice_last QUEUE_LIMIT notifications
    else notifications in
  match FileUtils.saveJSON (write_error env) notifications with
  | Exn.Ok stored => stored
  | Exn.Throw _ => log
  end.

(** The comparator of the history: [date(b.timestamp) - date(a.timestamp)]. *)
Definition notification_latest_first (a b : Notification.t) : option Z :=
  JS.date_sub (JS.new_Date Date_parse (Notification.timestamp b))
              (JS.new_Date Date_parse (Notification.timestamp a)).

(** [getNotificationHistory(employeeId, limit)].  What is loaded is used as
    it is when it is truthy, so on anything but an array, the empty object
    of a missing log included, [sort] and [filter] are not functions and
    the [catch] answers with the empty list. *)
Definition getNotificationHistory (log : FileUtils.File Notification.t)
    (employeeId : option string) (limit : Z) : list Notification.t :=
  match FileUtils.loadJSON log with
  | Exn.Ok (FileUtils.DArray notifications) =>
      match employeeId with
      | Some e =>
          if (e =? "")%string then
            JSLib.slice_to limit (JS.sort notification_latest_first notifications)
          else
            JSLib.slice_to limit
              (JS.sort notification_latest_first
                 (filter (Notification.is_for e) notifications))
      | None =>
          JSLib.slice_to limit (JS.sort notification_latest_first notifications)
      end
  | Exn.Ok (FileUtils.DOther _) => []
  | Exn.Throw _ => []
  end.

End Notifications.


(* ================================================================== *)
(** * OTP manager                                                       *)
(* ================================================================== *)

(** A login session, as [createLoginSession] stores it. *)
Module LoginSession.
Record t : Type := mk {
  employeeId : string;
  email : string;
  otp : string;
  createdAt : string;
  expiresAt : string;
  attempts : Z;
  verified : bool
}.

Definition with_attempts (n : Z) (s : t) : t :=
  mk (employeeId s) (email s) (otp s) (createdAt s) (expiresAt s) n (verified s).

Definition with_verified (b : bool) (s : t) : t :=
  mk (employeeId s) (email s) (otp s) (createdAt s) (expiresAt s) (attempts s) b.
End LoginSession.

(** The file [login_sessions.json]: absent, unreadable, not JSON, or the
    JSON object that maps a session token to its session.  [loadJSON] and
    [saveJSON] are the functions of the record store adapter, read at the
    type of this file. *)
Module SessionFile.
Inductive t : Type :=
| Missing
| Unreadable
| Malformed
| Holds (sessions : list (string * LoginSession.t)).

Definition loadJSON (f : t) : Exn.result (list (string * LoginSession.t)) :=
  Exn.try_catch
    (match f with
     | Missing => Exn.Ok []
     | Unreadable => Exn.Throw "EACCES: permission denied"
     | Malformed => Exn.Throw "Unexpected token in JSON"
     | Holds sessions => Exn.Ok sessions
     end)
    (fun _ => Exn.Ok []).

Definition saveJSON (write_error : option string)
    (sessions : list (string * LoginSession.t)) : Exn.result t :=
  Exn.try_catch
    (match write_error with
     | Some e => Exn.Throw e
     | None => Exn.Ok (Holds sessions)
     end)
    (fun e => Exn.Throw e).
End SessionFile.

(** The environment of one call of the OTP manager. *)
Module OtpEnv.
Record t : Type := mk {
  clock : JS.Clock;
  write_error : option string;
  (** [parseInt(process.env.OTP_EXPIRY_MINUTES)]; [NaN] is [None] *)
  OTP_EXPIRY_MINUTES : option Z;
  (** [parseInt(process.env.MAX_OTP_ATTEMPTS)]; [NaN] is [None] *)
  MAX_OTP_ATTEMPTS : option Z;
  (** what [generateOTP()] and [uuidv4()] return in this call; a UUID is
      not the name of a member of [Object.prototype], so the assignment
      [sessions[sessionToken] = ...] creates a property of [sessions] *)
  fresh_otp : string;
  fresh_token : string;
  (** the error of [transporter.sendMail], if it raises one *)
  mail_error : option string
}.

(** [n || fallback] on a number that may be [NaN]. *)
Definition or_number (n : option Z) (fallback : Z) : Z :=
  match n with
  | Some v => if v =? 0 then fallback else v
  | None => fallback
  end.

Definition expiryMinutes (env : t) : Z := or_number (OTP_EXPIRY_MINUTES env) 10.
Definition maxAttempts (env : t) : Z := or_number (MAX_OTP_ATTEMPTS env) 3.
End OtpEnv.

Module OtpReply.
Record t : Type := mk {
  success : bool;
  message : string;
  sessionToken : option string;
  employeeId : option string;
  expiresIn : option Z
}.

Definition failure (message : string) : t := mk false message None None None.
End OtpReply.

(** ** What a token reaches besides the stored sessions

    [sessions] is the object [JSON.parse] built, so [sessions[sessionToken]]
    also finds what the object inherits from [Object.prototype]: the
    prototype itself under [__proto__], and its function members such as
    [constructor] and [toString].  The manager reads and writes the
    properties [verified], [attempts], [otp] and [expiresAt] of what it
    found; on a built-in object these properties stay for the life of
    the process.  A property the manager wrote on [Object.prototype] is in
    turn found under its own name, as a primitive value. *)

(** The properties the manager has written on one built-in object; [None]
    is a property that was never written. *)
Module Expando.
Record t : Type := mk {
  verified : option bool;
  (** [Some None] is [NaN] *)
  attempts : option (option Z);
  otp : option string;
  expiresAt : option string
}.

Definition none : t := mk None None None None.

Definition with_attempts (n : option Z) (e : t) : t :=
  mk (verified e) (Some n) (otp e) (expiresAt e).

Definition with_verified (b : bool) (e : t) : t :=
  mk (Some b) (attempts e) (otp e) (expiresAt e).
End Expando.

(** The built-in objects of the process, as far as the manager can have
    written on them: [Object.prototype] and its function members, by
    name. *)
Module OtpHost.
Record t : Type := mk {
  Object_prototype : Expando.t;
  members : list (string * Expando.t)
}.

(** A process in which nothing was written on them. *)
Definition fresh : t := mk Expando.none [].
End OtpHost.

(** The state the manager works on: the file and the process. *)
Module OtpStore.
Record t : Type := mk { file : SessionFile.t; host : OtpHost.t }.
End OtpStore.

(** What is found along the prototype chain of [sessions]. *)
Inductive BuiltIn : Type :=
| ObjectPrototype
| Member (name : string)
(** the value of a property of [Object.prototype] that the manager wrote:
    a boolean, a number or a string *)
| Primitive.

(** [sessions[sessionToken]]. *)
Inductive Reached : Type :=
| Own (session : LoginSession.t)
| Inherited (o : BuiltIn)
(** [undefined], or an inherited value that is falsy *)
| Nothing.

(** The truth value of the property [name] the manager wrote on
    [Object.prototype]. *)
Definition expando_truthy (p : Expando.t) (name : string) : bool :=
  if (name =? "verified")%string then
    match Expando.verified p with Some b => b | None => false end
  else if (name =? "attempts")%string then
    match Expando.attempts p with Some (Some n) => negb (n =? 0) | _ => false end
  else if (name =? "otp")%string then JS.truthy_str (Expando.otp p)
  else if (name =? "expiresAt")%string then JS.truthy_str (Expando.expiresAt p)
  else false.

Definition reach (host : OtpHost.t) (sessions : list (string * LoginSession.t))
    (sessionToken : string) : Reached :=
  match JS.get sessions sessionToken with
  | Some session => Own session
  | None =>
      if (sessionToken =? "__proto__")%string then Inherited ObjectPrototype
      else if JSLib.inherited sessionToken then Inherited (Member sessionToken)
      else if expando_truthy (OtpHost.Object_prototype host) sessionToken
      then Inherited Primitive
      else Nothing
  end.

Definition or_else {A : Type} (a b : option A) : option A :=
  match a with
  | Some _ => a
  | None => b
  end.

(** What was written on the function member [name] itself. *)
Definition own_expando (host : OtpHost.t) (name : string) : Expando.t :=
  match JS.get (OtpHost.members host) name with
  | Some e => e
  | None => Expando.none
  end.

(** The properties as they are read on a built-in object: a function
    member and a primitive value inherit from [Object.prototype] what
    they do not carry themselves. *)
Definition inherited_fields (host : OtpHost.t) (o : BuiltIn) : Expando.t :=
  let p := OtpHost.Object_prototype host in
  match o with
  | ObjectPrototype => p
  | Primitive => p
  | Member name =>
      let own := own_expando host name in
      Expando.mk (or_else (Expando.verified own) (Expando.verified p))
        (or_else (Expando.attempts own) (Expando.attempts p))
        (or_else (Expando.otp own) (Expando.otp p))
        (or_else (Expando.expiresAt own) (Expando.expiresAt p))
  end.

(** An assignment to properties of a built-in object; in the strict mode
    of a class body the assignment to a property of a primitive value
    throws a [TypeError]. *)
Definition assign_expando (host : OtpHost.t) (o : BuiltIn)
    (update : Expando.t -> Expando.t) : Exn.result OtpHost.t :=
  match o with
  | ObjectPrototype =>
      Exn.Ok (OtpHost.mk (update (OtpHost.Object_prototype host))
                (OtpHost.members host))
  | Member name =>
      Exn.Ok (OtpHost.mk (OtpHost.Object_prototype host)
                (JS.set (OtpHost.members host) name (update (own_expando host name))))
  | Primitive => Exn.Throw "Cannot create property on a primitive value"
  end.

(** [n + 1] for [undefined], [NaN] or a number. *)
Definition plus_one (n : option (option Z)) : option Z :=
  match n with
  | Some (Some z) => Some (z + 1)
  | _ => None
  end.

(** [n >= max] for [undefined], [NaN] or a number. *)
Definition attempts_ge (n : option (option Z)) (max : Z) : bool :=
  match n with
  | Some (Some z) => max <=? z
  | _ => false
  end.

(** A number in a template literal. *)
Definition show_number (n : option Z) : string :=
  match n with
  | Some z => JS.show_Z z
  | None => "NaN"
  end.

Section Otp.
Variable Date_parse : string -> option Z.
Variable toISOString : Z -> string.

(** [a > b] on two dates; a comparison with an invalid date is false. *)
Definition date_gt (a b : option Z) : bool :=
  match a, b with
  | Some x, Some y => y <? x
  | _, _ => false
  end.

(** [createLoginSession(employeeId, email)]. *)
Definition createLoginSession (env : OtpEnv.t) (store : OtpStore.t)
    (employeeId email : string) : OtpReply.t * OtpStore.t :=
  let otp := OtpEnv.fresh_otp env in
  let sessionToken := OtpEnv.fresh_token env in
  let expiryMinutes := OtpEnv.expiryMinutes env in
  let expiresAt := JS.now_ms (OtpEnv.clock env) + expiryMinutes * 60 * 1000 in
  match SessionFile.loadJSON (OtpStore.file store) with
  | Exn.Throw _ => (OtpReply.failure "Failed to send OTP. Please try again.", store)
  | Exn.Ok sessions =>
      let sessions :=
        JS.set sessions sessionToken
          (LoginSession.mk employeeId email otp
             (JS.now_iso (OtpEnv.clock env)) (toISOString expiresAt) 0 false) in
      match SessionFile.saveJSON (OtpEnv.write_error env) sessions with
      | Exn.Throw _ => (OtpReply.failure "Failed to send OTP. Please try again.", store)
      | Exn.Ok stored =>
          let store := OtpStore.mk stored (OtpStore.host store) in
          match OtpEnv.mail_error env with
          | Some _ => (OtpReply.failure "Failed to send OTP. Please try again.", store)
          | None =>
              (OtpReply.mk true ("OTP sent to " ++ email) (Some sessionToken) None
                 (Some expiryMinutes),
               store)
          end
      end
  end.

(** [saveJSON] inside the [try] of [verifyOTP]: when the store cannot be
    written the [catch] answers and the file keeps its content. *)
Definition save_then (env : OtpEnv.t) (store : OtpStore.t)
    (sessions : list (string * LoginSession.t)) (failed : string)
    (reply : OtpReply.t) : OtpReply.t * OtpStore.t :=
  match SessionFile.saveJSON (OtpEnv.write_error env) sessions with
  | Exn.Throw _ => (OtpReply.failure failed, store)
  | Exn.Ok stored => (reply, OtpStore.mk stored (OtpStore.host store))
  end.

(** [verifyOTP(sessionToken, otp)]. *)
Definition verifyOTP (env : OtpEnv.t) (store : OtpStore.t)
    (sessionToken : string) (otp : option string) : OtpReply.t * OtpStore.t :=
  let failed := "Verification failed. Please try again." in
  match SessionFile.loadJSON (OtpStore.file store) with
  | Exn.Throw _ => (OtpReply.failure failed, store)
  | Exn.Ok sessions =>
      match reach (OtpStore.host store) sessions sessionToken with
      | Nothing => (OtpReply.failure "Invalid or expired session", store)
      | Own session =>
          if LoginSession.verified session then
            (OtpReply.failure "OTP already used", store)
          else if date_gt (Some (JS.now_ms (OtpEnv.clock env)))
                    (Date_parse (LoginSession.expiresAt session)) then
            save_then env store (JS.assign sessions sessionToken None) failed
              (OtpReply.failure "OTP expired. Please request a new one.")
          else
            let maxAttempts := OtpEnv.maxAttempts env in
            if maxAttempts <=? LoginSession.attempts session then
              save_then env store (JS.assign sessions sessionToken None) failed
                (OtpReply.failure "Maximum attempts exceeded. Please request a new OTP.")
            else if negb (JS.strict_eq (Some (LoginSession.otp session)) otp) then
              let session :=
                LoginSession.with_attempts (LoginSession.attempts session + 1) session in
              save_then env store (JS.set sessions sessionToken session) failed
                (OtpReply.failure
                   ("Invalid OTP. "
                      ++ JS.show_Z (maxAttempts - LoginSession.attempts session)
                      ++ " attempts remaining."))
            else
              let session := LoginSession.with_verified true session in
              save_then env store (JS.set sessions sessionToken session) failed
                (OtpReply.mk true "OTP verified successfully" None
                   (Some (LoginSession.employeeId session)) None)
      | Inherited o =>
          (* [delete sessions[sessionToken]] removes nothing, and what is
             saved are the stored sessions *)
          let host := OtpStore.host store in
          let session := inherited_fields host o in
          if match Expando.verified session with Some b => b | None => false end then
            (OtpReply.failure "OTP already used", store)
          else if date_gt (Some (JS.now_ms (OtpEnv.clock env)))
                    (JS.new_Date Date_parse (Expando.expiresAt session)) then
            save_then env store (JS.assign sessions sessionToken None) failed
              (OtpReply.failure "OTP expired. Please request a new one.")
          else
            let maxAttempts := OtpEnv.maxAttempts env in
            if attempts_ge (Expando.attempts session) maxAttempts then
              save_then env store (JS.assign sessions sessionToken None) failed
                (OtpReply.failure "Maximum attempts exceeded. Please request a new OTP.")
            else if negb (JS.strict_eq (Expando.otp session) otp) then
              let attempts := plus_one (Expando.attempts session) in
              match assign_expando host o (Expando.with_attempts attempts) with
              | Exn.Throw _ => (OtpReply.failure failed, store)
              | Exn.Ok host =>
                  save_then env (OtpStore.mk (OtpStore.file store) host) sessions failed
                    (OtpReply.failure
                       ("Invalid OTP. "
                          ++ show_number (option_map (fun a => maxAttempts - a) attempts)
                          ++ " attempts remaining."))
              end
            else
              match assign_expando host o (Expando.with_verified true) with
              | Exn.Throw _ => (OtpReply.failure failed, store)
              | Exn.Ok host =>
                  (* [session.employeeId] is [undefined] *)
                  save_then env (OtpStore.mk (OtpStore.file store) host) sessions failed
                    (OtpReply.mk true "OTP verified successfully" None None None)
              end
      end
  end.

(** [resendOTP(sessionToken)]. *)
Definition resendOTP (env : OtpEnv.t) (store : OtpStore.t) (sessionToken : string)
  : OtpReply.t * OtpStore.t :=
  let failed := "Failed to resend OTP" in
  let newOTP := OtpEnv.fresh_otp env in
  let expiresAt :=
    JS.now_ms (OtpEnv.clock env) + OtpEnv.expiryMinutes env * 60 * 1000 in
  (* the mail goes out after the save *)
  let send (store : OtpStore.t) : OtpReply.t * OtpStore.t :=
    match OtpEnv.mail_error env with
    | Some _ => (OtpReply.failure failed, store)
    | None => (OtpReply.mk true "New OTP sent successfully" None None None, store)
    end in
  match SessionFile.loadJSON (OtpStore.file store) with
  | Exn.Throw _ => (OtpReply.failure failed, store)
  | Exn.Ok sessions =>
      match reach (OtpStore.host store) sessions sessionToken with
      | Nothing => (OtpReply.failure "Invalid session", store)
      | Own session =>
          let session :=
            LoginSession.mk (LoginSession.employeeId session)
              (LoginSession.email session) newOTP (LoginSession.createdAt session)
              (toISOString expiresAt) 0 false in
          match SessionFile.saveJSON (OtpEnv.write_error env)
                  (JS.set sessions sessionToken session) with
          | Exn.Throw _ => (OtpReply.failure failed, store)
          | Exn.Ok stored => send (OtpStore.mk stored (OtpStore.host store))
          end
      | Inherited o =>
          match assign_expando (OtpStore.host store) o
                  (fun _ => Expando.mk (Some false) (Some (Some 0)) (Some newOTP)
                              (Some (toISOString expiresAt))) with
          | Exn.Throw _ => (OtpReply.failure failed, store)
          | Exn.Ok host =>
              match SessionFile.saveJSON (OtpEnv.write_error env) sessions with
              | Exn.Throw _ =>
                  (OtpReply.failure failed, OtpStore.mk (OtpStore.file store) host)
              | Exn.Ok stored => send (OtpStore.mk stored host)
              end
          end
      end
  end.

(** A run of [verifyOTP] calls on one token, each with its environment
    and the OTP that was typed: the replies in the order of the calls and
    the state the run leaves. *)
Fixpoint verify_each (store : OtpStore.t) (sessionToken : string)
    (calls : list (OtpEnv.t * option string)) : list OtpReply.t * OtpStore.t :=
  match calls with
  | [] => ([], store)
  | (env, otp) :: rest =>
      let (reply, store) := verifyOTP env store sessionToken otp in
      let (replies, store) := verify_each store sessionToken rest in
      (reply :: replies, store)
  end.

End Otp.




(* ================================================================== *)
(** * Expiry sweeps of the two managers                                 *)
(* ================================================================== *)

Section Sweeps.
Variable Date_parse : string -> option Z.
(** [new Date(v)] for the value of a property, whatever its type. *)
Variable Date_of_value : JS.value -> option Z.

(** [a < b] on two dates; a comparison with an invalid date is false. *)
Definition date_lt (a b : option Z) : bool :=
  match a, b with
  | Some x, Some y => x <? y
  | _, _ => false
  end.

(** [new Date(sessions[token].expiresAt) < now]. *)
Definition session_expired (now : Z) (session : LoginSession.t) : bool :=
  date_lt (Date_parse (LoginSession.expiresAt session)) (Some now).

(** One turn of the [for ... in] loop of [cleanupExpiredSessions]: the
    sessions and the count of what was cleaned. *)
Definition sweep_session (now : Z)
    (acc : list (string * LoginSession.t) * nat) (token : string)
  : list (string * LoginSession.t) * nat :=
  match JS.get (fst acc) token with
  | Some session =>
      if session_expired now session
      then (JS.assign (fst acc) token None, S (snd acc))
      else acc
  | None => acc
  end.

(** The names [for ... in] finds on [Object.prototype]: the properties
    the manager wrote, which an assignment makes enumerable. *)
Definition expando_names (p : Expando.t) : list string :=
  ((match Expando.verified p with Some _ => ["verified"] | None => [] end)
   ++ (match Expando.attempts p with Some _ => ["attempts"] | None => [] end)
   ++ (match Expando.otp p with Some _ => ["otp"] | None => [] end)
   ++ (match Expando.expiresAt p with Some _ => ["expiresAt"] | None => [] end))%list.

(** The turns of the loop on the names inherited from [Object.prototype]
    that no stored session hides: the value under such a name is a
    primitive, its [expiresAt] is the one of [Object.prototype], and the
    [delete] removes nothing. *)
Definition inherited_cleaned (now : Z) (host : OtpHost.t)
    (sessions : list (string * LoginSession.t)) : nat :=
  let p := OtpHost.Object_prototype host in
  if date_lt (JS.new_Date Date_parse (Expando.expiresAt p)) (Some now) then
    List.length
      (filter (fun name =>
                 match JS.get sessions name with
                 | Some _ => false
                 | None => true
                 end)
         (expando_names p))
  else 0%nat.

(** [cleanupExpiredSessions()]: the state afterwards.  Nothing is written
    when nothing was cleaned, and an error of the store is caught. *)
Definition cleanupExpiredSessions (env : OtpEnv.t) (store : OtpStore.t)
  : OtpStore.t :=
  match SessionFile.loadJSON (OtpStore.file store) with
  | Exn.Throw _ => store
  | Exn.Ok sessions =>
      let now := JS.now_ms (OtpEnv.clock env) in
      let (sessions', cleaned) :=
        fold_left (sweep_session now) (JS.keys sessions) (sessions, 0%nat) in
      let cleaned :=
        (cleaned + inherited_cleaned now (OtpStore.host store) sessions)%nat in
      if (0 <? cleaned)%nat then
        match SessionFile.saveJSON (OtpEnv.write_error env) sessions' with
        | Exn.Ok stored => OtpStore.mk stored (OtpStore.host store)
        | Exn.Throw _ => store
        end
      else store
  end.

(** The filter of [cleanupExpiredNotifications]: a notification without
    an [expiresAt] stays, one with it stays while
    [new Date(notification.expiresAt) > now]. *)
Definition notification_stays (now : Z) (notification : Notification.t) : bool :=
  match JS.get notification "expiresAt" with
  | Some expiresAt =>
      if JS.truthy expiresAt
      then date_lt (Some now) (Date_of_value expiresAt)
      else true
  | None => true
  end.

(** [cleanupExpiredNotifications()] at the time [now]: the queue
    afterwards. *)
Definition cleanupExpiredNotifications (now : Z)
    (notificationQueue : list Notification.t) : list Notification.t :=
  filter (notification_stays now) notificationQueue.

End Sweeps.

(* ================================================================== *)
(** * Status panels and the users collection                            *)
(* ================================================================== *)

(** A record of [users.json]. *)
Module User.
Record t : Type := mk {
  name : option string;
  id : option string;
  employeeId : option string;
  department : option string
}.
End User.

(** [loadEmployeeUsers] of [fileUtils], which the login routes call:
    [try { data = loadJSON(usersPath); return Array.isArray(data) ? data : [] }
     catch { return [] }].  An element of the array may be [null]. *)
Definition loadEmployeeUsers (usersPath : FileUtils.File (option User.t))
  : list (option User.t) :=
  match FileUtils.loadJSON usersPath with
  | Exn.Ok data =>
      match data with
      | FileUtils.DArray employees => employees
      | FileUtils.DOther _ => []
      end
  | Exn.Throw _ => []
  end.

Module Panel.

(** The [employee] object of a reply; [/employee-info] sends no [role]. *)
Record Employee : Type := mkEmployee {
  name : string;
  employeeId : string;
  department : string;
  role : option string
}.

Inductive Body : Type :=
| Failure (message : string)
(** the dashboard of a rejected application: [latestStatus] and
    [applicationStatus] are ['rejected'], [formId] is [null] and
    [canSubmitNew] is [true] *)
| Rejected (employee : Employee) (rejectionReason : string)
    (rejectedAt lastUpdated : option string) (certificatesAvailable : nat)
    (sessionCleanup : bool)
(** the dashboard otherwise: [applicationStatus] repeats [latestStatus] *)
| Dashboard (employee : Employee) (latestStatus : string)
    (formId lastUpdated : option string) (certificatesAvailable : nat)
    (sessionCleanup : bool)
(** [{ success: true, status: 'pending',
       context: { message: 'No active form found' } }] *)
| NoActiveForm
(** [{ success, status, context: { formId, lastUpdated, rejectionReason } }] *)
| FormStatus (status formId lastUpdated rejectionReason : option string)
(** [{ success, data }] *)
| Confirmation (data : Case.t)
(** [{ success, employee }] *)
| EmployeeInfo (employee : Employee).

Record Response : Type := mk { code : Z; body : Body }.

Definition fail (code : Z) (message : string) : Response :=
  mk code (Failure message).

Definition json (body : Body) : Response := mk 200 body.

End Panel.

(** [form?.field]. *)
Definition optional_field {A : Type} (form : option Case.t)
    (field : Case.t -> option A) : option A :=
  match form with
  | Some f => field f
  | None => None
  end.

(** The certificates of the employee in the active store, as the
    dashboard counts them. *)
Definition dashboard_activeCerts (w : World) (employeeId : option string)
  : list ActiveCertificate.t :=
  match FileUtils.loadJSON (CERTIFICATES w) with
  | Exn.Ok (FileUtils.DArray certData) =>
      filter (fun cert => JS.strict_eq (ActiveCertificate.employeeId cert) employeeId)
        certData
  | _ => []
  end.

(** The certificates preserved in the history entries of the employee. *)
Definition dashboard_historicalCertificates (w : World) (employeeId : option string)
  : list Certificate.t :=
  match FileUtils.loadJSON (FORM_HISTORY w) with
  | Exn.Ok (FileUtils.DArray historyData) =>
      flat_map (fun h =>
                  match preserved_certificates h with
                  | Some certs => certs
                  | None => []
                  end)
        (filter (fun h =>
                   JS.strict_eq (Case.employeeId (HistoryEntry.form h)) employeeId
                   && match preserved_certificates h with
                      | Some _ => true
                      | None => false
                      end)
           historyData)
  | _ => []
  end.

Section Panels.
Variable Date_parse : string -> option Z.
(** [form.rejectionReason] and [form.rejectedAt], properties the HOD and
    IT routes write and the case record of this development does not
    carry; [sessionUser.role] and the truth value of
    [sessionUser.cleanupPerformed]. *)
Variable rejectionReason : Case.t -> option string.
Variable rejectedAt : Case.t -> option string.
Variable role : SessionUser.t -> option string.
Variable cleanupPerformed : SessionUser.t -> bool.

(** [GET /dashboard-status].  [allCertificates] is used for its length
    only. *)
Definition dashboard_status (w : World) (session : option SessionUser.t)
  : Panel.Response :=
  match session with
  | None => Panel.fail 401 "Session expired"
  | Some sessionUser =>
      let employeeId := session_employeeId sessionUser in
      let name := SessionUser.name sessionUser in
      let pendingForms := FileUtils.load_collection (PENDING_FORMS w) in
      let form := getLatestFormForEmployee Date_parse pendingForms employeeId None in
      let certificateCount :=
        (List.length (dashboard_activeCerts w employeeId)
         + List.length (dashboard_historicalCertificates w employeeId))%nat in
      let employee :=
        Panel.mkEmployee
          (JS.or_lit (JS.or_str (optional_field form Case.name) name) "Unknown")
          (JS.or_lit employeeId "Unknown")
          (JS.or_lit (optional_field form Case.department) "-")
          (Some (JS.or_lit (role sessionUser) "employee")) in
      if match form with
         | Some f =>
             match Case.status f with
             | Some s =>
                 negb (s =? "")%string
                 && JSLib.str_includes "rejected" (toLowerCase s)
             | None => false
             end
         | None => false
         end
      then
        Panel.json
          (Panel.Rejected employee
             (JS.or_lit (optional_field form rejectionReason) "No reason given")
             (JS.or_str (optional_field form rejectedAt) None)
             (JS.or_str (optional_field form Case.lastUpdated) None)
             certificateCount
             (cleanupPerformed sessionUser))
      else
        Panel.json
          (Panel.Dashboard employee
             (JS.or_lit (optional_field form Case.status) "Not Submitted")
             (JS.or_str (optional_field form Case.formId) None)
             (JS.or_str (optional_field form Case.lastUpdated) None)
             certificateCount
             (cleanupPerformed sessionUser))
  end.

(** [GET /form-status]. *)
Definition form_status (w : World) (session : option SessionUser.t)
  : Panel.Response :=
  match session with
  | None => Panel.fail 401 "Session expired"
  | Some sessionUser =>
      let employeeId := session_employeeId sessionUser in
      let pendingForms := FileUtils.load_collection (PENDING_FORMS w) in
      match getLatestFormForEmployee Date_parse pendingForms employeeId None with
      | None => Panel.json Panel.NoActiveForm
      | Some form =>
          Panel.json (Panel.FormStatus (Case.status form) (Case.formId form)
                        (Case.lastUpdated form) (rejectionReason form))
      end
  end.

(** [GET /confirmation]; the [catch] around the load answers with a 404. *)
Definition confirmation (w : World) (session : option SessionUser.t)
  : Panel.Response :=
  match session with
  | None => Panel.fail 401 "Session expired"
  | Some sessionUser =>
      let employeeId := session_employeeId sessionUser in
      match FileUtils.loadJSON (PENDING_FORMS w) with
      | Exn.Throw _ => Panel.fail 404 "No forms data found"
      | Exn.Ok data =>
          let pendingForms :=
            match data with
            | FileUtils.DArray forms => forms
            | FileUtils.DOther _ => []
            end in
          match getLatestFormForEmployee Date_parse pendingForms employeeId None with
          | None => Panel.fail 404 "Form not found"
          | Some form => Panel.json (Panel.Confirmation form)
          end
      end
  end.

(** [GET /employee-info], which reads the users collection. *)
Definition employee_info (USERS : FileUtils.File (option User.t))
    (session : option SessionUser.t) : Panel.Response :=
  match session with
  | None => Panel.fail 401 "Session expired"
  | Some sessionUser =>
      let employeeId := session_employeeId sessionUser in
      match FileUtils.loadJSON USERS with
      | Exn.Throw _ => Panel.fail 404 "Users data not found"
      | Exn.Ok data =>
          let users :=
            match data with
            | FileUtils.DArray users => users
            | FileUtils.DOther _ => []
            end in
          match JS.find (fun u =>
                           match u with
                           | Some u =>
                               JS.strict_eq (User.employeeId u) employeeId
                               || JS.strict_eq (User.id u) employeeId
                           | None => false
                           end)
                  users with
          | Some (Some employee) =>
              Panel.json
                (Panel.EmployeeInfo
                   (Panel.mkEmployee
                      (JS.or_lit (User.name employee) "Unknown")
                      (JS.or_lit (JS.or_str (User.employeeId employee)
                                    (User.id employee)) "Unknown")
                      (JS.or_lit (User.department employee) "Unknown")
                      None))
          | _ => Panel.fail 404 "Employee not found"
          end
      end
  end.

End Panels.


(** A token is closed when it names no member of [Object.prototype] and
    the session stored under it, if there is one, is used. *)
Definition closed (store : OtpStore.t) (sessionToken : string) : Prop :=
  JSLib.inherited sessionToken = false
  /\ forall sessions,
       SessionFile.loadJSON (OtpStore.file store) = Exn.Ok sessions ->
       match JS.get sessions sessionToken with
       | None => True
       | Some session => LoginSession.verified session = true
       end.


(* ================================================================== *)
(** * Sample records                                                    *)
(* ================================================================== *)

Module Samples.

Definition clock : JS.Clock := JS.mkClock 1704067200000 "2024-01-01T00:00:00.000Z".
Definition env : Env := mkEnv clock None.

(** A case of employee [E1] in a given status, submitted at a given time. *)
Definition case_of (formId status submissionDate : string) : Case.t :=
  Case.mk (Some formId) (Some "Asha") (Some "Asha") (Some "E1")
    (Some "asha@example.org") (Some "Accounts") (Some "Transfer") (Some "")
    (Some "order.pdf") (Some status) (Some submissionDate) (Some "E1")
    (Some submissionDate) None (Some []) (Some []) (Some "") None None None.

Definition older : Case.t := case_of "F1" "rejected" "2023-11-14T22:13:20.000Z".
Definition newer : Case.t := case_of "F2" "pending" "2024-01-01T00:00:00.000Z".

Definition world_of (forms : list Case.t) : World :=
  mkWorld (FileUtils.Stored (FileUtils.WellFormed (FileUtils.DArray forms)))
    FileUtils.Missing FileUtils.Missing.

Definition session_E1 : SessionUser.t := SessionUser.mk (Some "Asha") (Some "E1") None.


Definition submit_body : SubmitBody.t :=
  SubmitBody.mk (Some "Asha") (Some "E1") (Some "asha@example.org")
    (Some "Accounts") (Some "Transfer") None.

Definition submit_request : SubmitRequest.t :=
  SubmitRequest.mk (Some submit_body) (Some session_E1) (Some "1704067200000-order.pdf").

(** A case whose status spells pending in capitals. *)
Definition shouting : Case.t := case_of "F7" "PENDING" "2023-11-14T22:13:20.000Z".


(** A case that IT has completed. *)
Definition completed : Case.t := case_of "F9" "IT Completed" "2023-11-14T22:13:20.000Z".

Definition payload (label : string) : JS.value := JS.VObj [("label", JS.VStr label)].

Definition final_body : FinalSubmitBody.t :=
  FinalSubmitBody.mk (Some (payload "disposal")) (Some (payload "efile"))
    (Some (payload "transfer")) None.


(** The record [{ submissionDate: "2024-01-01T00:00:00.000Z" }]. *)
Definition only_submissionDate : Case.t :=
  Case.mk None None None None None None None None None None
    (Some "2024-01-01T00:00:00.000Z")
    None None None None None None None None None.

(** The same with [status: "pending"]. *)
Definition pending_only : Case.t :=
  Case.with_status (Some "pending") only_submissionDate.

Definition hod : HodApproval.t :=
  HodApproval.mk (Some "Dr. Rao") (Some "2024-02-29T12:34:56.789Z").

(** A pending case that also carries a [hodApproval]. *)
Definition pending_with_hod : Case.t :=
  Case.mk None None None None None None None None None (Some "pending")
    (Some "2024-01-01T00:00:00.000Z")
    None None None None None None (Some hod) None None.

(** A completed case with certificates and no [itProcessing]. *)
Definition completed_without_processing : Case.t :=
  Case.mk (Some "F9") None None (Some "E1") None None None None None
    (Some "IT Completed") (Some "2023-11-14T22:13:20.000Z")
    None (Some "2023-11-14T22:13:20.000Z") None None None None None None (Some []).

Definition later_clock : JS.Clock :=
  JS.mkClock 1709210096789 "2024-02-29T12:34:56.789Z".


(** An approved case whose [lastUpdated] is missing and whose HOD approval
    is dated before its submission. *)
Definition undated_review : Case.t :=
  Case.mk (Some "F3") None None (Some "E1") None None None None None
    (Some "Submitted to IT") (Some "2024-01-01T00:00:00.000Z")
    None None None None None None
    (Some (HodApproval.mk (Some "Dr. Rao") (Some "2023-11-14T22:13:20.000Z")))
    None None.


(** Certificates of the case [F9]: the descriptor the pipeline returned and
    the record of the active store for the same file. *)
Definition disposal_certificate : Certificate.t :=
  Certificate.mk (Some "disposalForm") (Some "F9_disposalForm.pdf")
    (Some "/certificates/F9_disposalForm.pdf") (Some "2024-01-01T00:00:00.000Z")
    (Some 2048) (Some "success") None.

Definition active (id owner formId formType generatedAt : string)
  : ActiveCertificate.t :=
  ActiveCertificate.mk (Some id) (Some owner) (Some formId) (Some formType)
    (Some (formId ++ "_" ++ formType ++ ".pdf"))
    (Some ("/certificates/" ++ formId ++ "_" ++ formType ++ ".pdf"))
    (Some generatedAt) None.

Definition active_disposal : ActiveCertificate.t :=
  active "C1" "E1" "F9" "disposalForm" "2024-01-01T00:00:00.000Z".

(** The history entry of a case archived with the given certificates. *)
Definition archived (form : Case.t) (certs : list Certificate.t) : HistoryEntry.t :=
  historyEntry clock (Case.with_certificates (Some certs) form).

(** The certificate of [F9] sits in the active store and in the history. *)
Definition world_both : World :=
  mkWorld FileUtils.Missing
    (FileUtils.Stored (FileUtils.WellFormed
       (FileUtils.DArray [archived completed [disposal_certificate]])))
    (FileUtils.Stored (FileUtils.WellFormed (FileUtils.DArray [active_disposal]))).

Definition certificate_of (formType generatedAt : string) : Certificate.t :=
  Certificate.mk (Some formType) (Some (formType ++ ".pdf"))
    (Some ("/certificates/" ++ formType ++ ".pdf")) (Some generatedAt)
    (Some 2048) (Some "success") None.

(** Two active certificates and three certificates from two archived
    cases. *)
Definition world_two_and_three : World :=
  mkWorld FileUtils.Missing
    (FileUtils.Stored (FileUtils.WellFormed
       (FileUtils.DArray
          [archived (case_of "F1" "IT Completed" "2022-01-01T00:00:00.000Z")
             [certificate_of "disposalForm" "2022-02-01T00:00:00.000Z";
              certificate_of "efileForm" "2022-02-02T00:00:00.000Z"];
           archived (case_of "F2" "IT Completed" "2023-01-01T00:00:00.000Z")
             [certificate_of "form365Transfer" "2023-02-01T00:00:00.000Z"]])))
    (FileUtils.Stored (FileUtils.WellFormed
       (FileUtils.DArray
          [active "C1" "E1" "F9" "disposalForm" "2024-01-01T00:00:00.000Z";
           active "C2" "E1" "F9" "efileForm" "2024-01-02T00:00:00.000Z";
           active "C3" "E2" "F8" "efileForm" "2024-01-03T00:00:00.000Z"]))).

Definition session_E2 : SessionUser.t := SessionUser.mk (Some "Bela") (Some "E2") None.


(** A host on which the rendering of the e-file certificate times out. *)
Definition host : PdfHost.t :=
  PdfHost.mk (Exn.Ok tt) (Exn.Ok tt)
    (fun formId formType _ =>
       if (formType =? "efileFormData")%string
       then Exn.Throw "PDF generation timeout"
       else Exn.Ok ("/certificates/" ++ formId ++ "_" ++ formType ++ ".pdf"))
    (fun _ => Exn.Ok 2048)
    (fun pdfPath => substring 14 (String.length pdfPath - 14) pdfPath)
    (fun _ => "2024-01-01T00:00:00.000Z").

(** Three object entries and one entry that is a string. *)
Definition responses : list (string * JS.value) :=
  [ ("disposalFormData", payload "disposal");
    ("efileFormData", payload "efile");
    ("note", JS.VStr "not a form");
    ("form365TransferData", payload "transfer") ].

(** A stand-in for the MD5 digest, in hexadecimal. *)
Definition digest (s : string) : string :=
  JS.show_nat (String.length s) ++ "c0ffee00c0ffee00c0ffee00c0ffee".


(** A case of another employee. *)
Definition case_for (employeeId formId status submissionDate : string) : Case.t :=
  Case.mk (Some formId) (Some "Bela") (Some "Bela") (Some employeeId)
    (Some "bela@example.org") (Some "Stores") (Some "Transfer") (Some "")
    (Some "order.pdf") (Some status) (Some submissionDate) (Some employeeId)
    (Some submissionDate) None (Some []) (Some []) (Some "") None None None.

(** A parser for the text of a request field that knows one document. *)
Definition parse_field (text : string) : Exn.result JS.value :=
  if (text =? "{}")%string
  then Exn.Ok (JS.VObj [])
  else Exn.Throw "Unexpected token in JSON".

Definition save_body : list (string * JS.value) :=
  [("disposalForm", payload "disposal")].

(** The host's text for an inherited member. *)
Definition member_text (name : string) : string :=
  "function " ++ name ++ "() { [native code] }".


(** A case of employee [E2] that carries the form id of [newer], stored
    before it. *)
Definition same_id : Case.t := case_for "E2" "F2" "pending" "2023-12-01T00:00:00.000Z".


(** A case with two assigned forms, one of them under a title the
    completion table does not know. *)
Definition with_assigned : Case.t :=
  Case.mk (Some "F4") (Some "Asha") (Some "Asha") (Some "E1")
    (Some "asha@example.org") (Some "Accounts") (Some "Transfer") (Some "")
    (Some "order.pdf") (Some "approved") (Some "2024-01-01T00:00:00.000Z") (Some "E1")
    (Some "2024-01-01T00:00:00.000Z") None
    (Some [AssignedForm.mk (Some "Disposal Form") (Some "/forms/disposal");
           AssignedForm.mk (Some "Gate Pass") (Some "/forms/gate")])
    (Some []) (Some "") None None None.

(** The route [/assigned-forms] reads no [rejectionReason] from these
    samples. *)
Definition no_reason (c : Case.t) : option string := None.


(** A decoder that knows the first octets of one PNG file. *)
Definition decode (text : string) : list Z :=
  if (text =? "iVBORw0KGgo=")%string then [137; 80; 78; 71; 13; 10; 26; 10] else [].


(** A notification for employee [E1]. *)
Definition notice (timestamp : string) : Notification.t :=
  [("employeeId", JS.VStr "E1"); ("type", JS.VStr "hod_approved");
   ("timestamp", JS.VStr timestamp)].

(** A notification for employee [E2]. *)
Definition other_notice : Notification.t :=
  [("employeeId", JS.VStr "E2"); ("type", JS.VStr "it_completed");
   ("timestamp", JS.VStr "2024-01-01T00:00:00.000Z")].

Definition notice_log : FileUtils.File Notification.t :=
  FileUtils.Stored (FileUtils.WellFormed
    (FileUtils.DArray
       [notice "2023-11-14T22:13:20.000Z"; other_notice;
        notice "2024-01-01T00:00:00.000Z"])).


(** The OTP manager at the sample time, with the defaults of the
    environment, and the same five minutes later. *)
Definition otp_env : OtpEnv.t :=
  OtpEnv.mk clock None None None "482915" "0b1c2d3e-token" None.

Definition otp_env_later : OtpEnv.t :=
  OtpEnv.mk (JS.mkClock 1704067500000 "2024-01-01T00:05:00.000Z") None None None
    "771204" "4f5a6b7c-token" None.

(** [toISOString] on the instants the samples use. *)
Definition iso (ms : Z) : string :=
  if ms =? 1704067800000 then "2024-01-01T00:10:00.000Z"
  else if ms =? 1704068100000 then "2024-01-01T00:15:00.000Z"
  else if ms =? 1704153600000 then "2024-01-02T00:00:00.000Z"
  else "1970-01-01T00:00:00.000Z".

(** [new Date(v)] on the values the samples use: a string is parsed. *)
Definition date_of (v : JS.value) : option Z :=
  match v with
  | JS.VStr s => IsoDate.parse s
  | JS.VNum ms => Some ms
  | _ => None
  end.

(** A process in which nothing was written on the built-in objects,
    with the sessions its file holds. *)
Definition store_of (sessions : list (string * LoginSession.t)) : OtpStore.t :=
  OtpStore.mk (SessionFile.Holds sessions) OtpHost.fresh.

(** A login session of [E1] that expires at 00:10. *)
Definition login (attempts : Z) (verified : bool) : LoginSession.t :=
  LoginSession.mk "E1" "asha@example.org" "482915" "2024-01-01T00:00:00.000Z"
    "2024-01-01T00:10:00.000Z" attempts verified.



End Samples.

(* ================================================================== *)
(** * Properties                                                        *)
(* ================================================================== *)

(** ** Facts about [JS.sort] *)
Section SortFacts.
Context {A : Type} (cmp : A -> A -> option Z).

Lemma insert_perm (x : A) (l : list A) :
  Permutation (x :: l) (JS.insert cmp x l).
Proof.
  induction l as [|y rest IH]; simpl.
  - apply Permutation_refl.
  - destruct (JS.not_after cmp x y).
    + apply Permutation_refl.
    + eapply perm_trans; [apply perm_swap|]. now apply perm_skip.
Qed.

Lemma sort_perm (l : list A) : Permutation l (JS.sort cmp l).
Proof.
  induction l as [|x rest IH]; simpl.
  - constructor.
  - eapply perm_trans; [|apply insert_perm]. now apply perm_skip.
Qed.

Lemma sort_length (l : list A) : List.length (JS.sort cmp l) = List.length l.
Proof. symmetry. apply Permutation_length, sort_perm. Qed.

Lemma sort_In (l : list A) (x : A) : In x (JS.sort cmp l) <-> In x l.
Proof.
  split; intro H.
  - eapply Permutation_in; [apply Permutation_sym, sort_perm|exact H].
  - eapply Permutation_in; [apply sort_perm|exact H].
Qed.

Lemma sort_nil_iff (l : list A) : JS.sort cmp l = [] <-> l = [].
Proof.
  split; intro H.
  - apply Permutation_nil. rewrite <- H. apply Permutation_sym, sort_perm.
  - subst. reflexivity.
Qed.

(** When the comparator is the difference of a numeric key, the result is
    ordered by that key. *)
Variable key : A -> Z.

Local Abbreviation key_le := (fun x y : A => key x <= key y).

Lemma insert_sorted (x : A) (l : list A) :
  (forall y, In y l -> cmp x y = Some (key x - key y)) ->
  StronglySorted key_le l ->
  StronglySorted key_le (JS.insert cmp x l).
Proof.
  induction l as [|y rest IH]; intros Hcmp Hs; simpl.
  - repeat constructor.
  - inversion Hs as [|? ? Hrest Hall]; subst.
    unfold JS.not_after. rewrite (Hcmp y (or_introl eq_refl)).
    destruct (Z.leb_spec (key x - key y) 0) as [Hle|Hgt].
    + constructor; [exact Hs|].
      constructor; [lia|].
      rewrite Forall_forall in Hall |- *. intros z Hz.
      specialize (Hall z Hz). simpl in Hall. lia.
    + constructor.
      * apply IH; [|exact Hrest]. intros z Hz. apply Hcmp. now right.
      * rewrite Forall_forall in Hall |- *. intros z Hz.
        apply (Permutation_in z (Permutation_sym (insert_perm x rest))) in Hz.
        destruct Hz as [<-|Hz]; [lia|now apply Hall].
Qed.

Lemma sort_sorted (l : list A) :
  (forall x y, In x l -> In y l -> cmp x y = Some (key x - key y)) ->
  StronglySorted key_le (JS.sort cmp l).
Proof.
  induction l as [|x rest IH]; intro Hcmp; simpl.
  - constructor.
  - apply insert_sorted.
    + intros y Hy. apply Hcmp; [now left|]. right.
      exact (proj1 (sort_In rest y) Hy).
    + apply IH. intros a b Ha Hb. apply Hcmp; now right.
Qed.


End SortFacts.

(** ** Form aggregation engine *)
Section AggregationFacts.
Variable Date_parse : string -> option Z.

Lemma employeeForms_In (allForms : list Case.t) (employeeId : option string)
    (allowedStatuses : option (list string)) (c : Case.t) :
  In c (employeeForms allForms employeeId allowedStatuses) <->
  In c allForms
  /\ JS.strict_eq (Case.employeeId c) employeeId = true
  /\ match allowedStatuses with
     | Some allowed => JS.includes allowed (Case.status c) = true
     | None => True
     end.
Proof.
  unfold employeeForms. destruct allowedStatuses as [allowed|].
  - rewrite !filter_In. tauto.
  - rewrite filter_In. tauto.
Qed.





End AggregationFacts.




(** ** Submission validator *)
Section SubmitFacts.
Variable Date_parse : string -> option Z.

Lemma has_active_case_candidates (forms : list Case.t) (employeeId : string) :
  has_active_case listed_active_status forms employeeId = true <->
  employeeForms forms (Some employeeId) (Some activeStatuses) <> [].
Proof.
  unfold has_active_case. rewrite existsb_exists. split.
  - intros (c & Hin & Hc) E. apply andb_true_iff in Hc as [He Hs].
    assert (Hc : In c (employeeForms forms (Some employeeId) (Some activeStatuses))).
    { apply employeeForms_In. auto. }
    rewrite E in Hc. contradiction.
  - intro Hne.
    destruct (employeeForms forms (Some employeeId) (Some activeStatuses))
      as [|c rest] eqn:E; [contradiction|].
    assert (Hc : In c (employeeForms forms (Some employeeId) (Some activeStatuses))).
    { rewrite E. now left. }
    apply employeeForms_In in Hc as (Hin & He & Hs).
    exists c. split; [exact Hin|]. apply andb_true_iff. auto.
Qed.

Lemma strict_eq_Some (a : option string) (s : string) :
  JS.strict_eq a (Some s) = true <-> a = Some s.
Proof.
  destruct a as [x|]; simpl.
  - rewrite String.eqb_eq. split; congruence.
  - split; discriminate.
Qed.

(** The form the conflict check finds is an active case of the employee. *)
Lemma existing_form_is_active (forms : list Case.t) (employeeId : string)
    (existingForm : Case.t) :
  getLatestFormForEmployee Date_parse forms (Some employeeId) (Some activeStatuses)
  = Some existingForm ->
  In existingForm forms
  /\ Case.employeeId existingForm = Some employeeId
  /\ listed_active_status (Case.status existingForm) = true.
Proof.
  unfold getLatestFormForEmployee. intro H.
  assert (Hin : In existingForm
                  (JS.sort (latest_first Date_parse)
                     (employeeForms forms (Some employeeId) (Some activeStatuses)))).
  { destruct (JS.sort _ _) as [|h t]; [discriminate|].
    simpl in H. injection H as ->. now left. }
  apply sort_In, employeeForms_In in Hin as (Hf & He & Hs).
  apply strict_eq_Some in He. auto.
Qed.

Lemma no_existing_form (forms : list Case.t) (employeeId : string) :
  getLatestFormForEmployee Date_parse forms (Some employeeId) (Some activeStatuses)
  = None <->
  has_active_case listed_active_status forms employeeId = false.
Proof.
  unfold getLatestFormForEmployee. split.
  - intro H. apply not_true_is_false. intro Ha.
    apply has_active_case_candidates in Ha. apply Ha.
    apply (sort_nil_iff (latest_first Date_parse)).
    destruct (JS.sort _ _); [reflexivity|discriminate].
  - intro H.
    destruct (JS.sort _ _) as [|h t] eqn:E; [reflexivity|exfalso].
    assert (Ha : has_active_case listed_active_status forms employeeId = true).
    { apply has_active_case_candidates. intro En.
      rewrite En in E. discriminate. }
    congruence.
Qed.

End SubmitFacts.

(** C1, as the code has it.  For a submission with every required field
    and the order letter, the reply is the conflict error, naming the
    status and the formId of an active case of the employee, if and only
    if the employee has a case whose status is one of the five listed
    spellings ([Pending], [pending], [Submitted to HOD], [Submitted to IT],
    [approved]); when there is none and the store can be written, a new
    case with status [pending] is appended to the collection. *)
Theorem submit_no_dues_conflict_iff_listed_status :
  forall (Date_parse : string -> option Z) (env : Env) (w : World)
         (req : SubmitRequest.t) (bodyData : SubmitBody.t)
         (sessionUser : SessionUser.t) (file : string),
    SubmitRequest.body req = Some bodyData ->
    SubmitRequest.session req = Some sessionUser ->
    SubmitRequest.file req = Some file ->
    required_fields_present bodyData sessionUser = true ->
    let employeeId := submitted_employeeId bodyData sessionUser in
    let forms := FileUtils.load_collection (PENDING_FORMS w) in
    let reply := submit_no_dues Date_parse env w req in
    ((exists existing, fst reply = Http.fail 400 (conflict_message existing))
     <-> has_active_case listed_active_status forms employeeId = true)
    /\ (has_active_case listed_active_status forms employeeId = true ->
        exists existing,
          getLatestFormForEmployee Date_parse forms (Some employeeId)
            (Some activeStatuses) = Some existing
          /\ In existing forms
          /\ Case.employeeId existing = Some employeeId
          /\ listed_active_status (Case.status existing) = true
          /\ reply = (Http.fail 400 (conflict_message existing), w))
    /\ (has_active_case listed_active_status forms employeeId = false ->
        write_error env = None ->
        exists newForm,
          Case.status newForm = Some "pending"
          /\ Case.employeeId newForm = Some employeeId
          /\ reply
             = (Http.json (Http.Accepted "Application submitted successfully"
                             (Case.formId newForm) "pending"),
                mkWorld (FileUtils.Stored (FileUtils.WellFormed
                           (FileUtils.DArray (forms ++ [newForm])%list)))
                  (FORM_HISTORY w) (CERTIFICATES w))).
Proof.
  intros Date_parse env w req bodyData sessionUser file Hbody Hsession Hfile Hreq
         employeeId forms reply.
  assert (Hreply :
    reply
    = match getLatestFormForEmployee Date_parse forms (Some employeeId)
              (Some activeStatuses) with
      | Some existingForm => (Http.fail 400 (conflict_message existingForm), w)
      | None =>
          let newForm :=
            Case.mk (Some ("F" ++ JS.show_Z (JS.now_ms (clock env))))
              (Some (submitted_name bodyData sessionUser))
              (Some (submitted_name bodyData sessionUser)) (Some employeeId)
              (Some (JS.or_lit (SubmitBody.email bodyData) ""))
              (Some (JS.or_lit (SubmitBody.department bodyData) ""))
              (Some (JS.or_lit (SubmitBody.noDuesType bodyData) ""))
              (Some (JS.or_lit (SubmitBody.reason bodyData) ""))
              (Some file) (Some "pending")
              (Some (JS.now_iso (clock env))) (Some employeeId)
              (Some (JS.now_iso (clock env))) None
              (Some []) (Some []) (Some "") None None None in
          match FileUtils.saveJSON (write_error env) (forms ++ [newForm])%list with
          | Exn.Throw _ => (Http.fail 500 "Failed to save form", w)
          | Exn.Ok stored =>
              (Http.json (Http.Accepted "Application submitted successfully"
                            (Case.formId newForm) "pending"),
               mkWorld stored (FORM_HISTORY w) (CERTIFICATES w))
          end
      end).
  { subst reply. unfold submit_no_dues. rewrite Hbody, Hsession, Hfile.
    unfold required_fields_present in Hreq. apply negb_true_iff in Hreq.
    unfold submitted_name, submitted_employeeId in Hreq. cbv zeta.
    rewrite Hreq. reflexivity. }
  destruct (getLatestFormForEmployee Date_parse forms (Some employeeId)
              (Some activeStatuses)) as [existingForm|] eqn:Elatest.
  - destruct (existing_form_is_active Date_parse forms employeeId existingForm Elatest)
      as (Hin & He & Hs).
    assert (Ha : has_active_case listed_active_status forms employeeId = true).
    { unfold has_active_case. apply existsb_exists. exists existingForm.
      split; [exact Hin|]. apply andb_true_iff. split; [|exact Hs].
      now apply strict_eq_Some. }
    split; [|split].
    + split; [intros _; exact Ha|]. intros _. exists existingForm.
      rewrite Hreply. reflexivity.
    + intros _. exists existingForm. rewrite Hreply. auto.
    + intro Hf. congruence.
  - apply no_existing_form in Elatest.
    split; [|split].
    + split; [|congruence]. intros [existing Hex]. exfalso.
      rewrite Hreply in Hex. cbv zeta in Hex. unfold FileUtils.saveJSON in Hex.
      destruct (write_error env); simpl in Hex; discriminate.
    + congruence.
    + intros _ Hw. rewrite Hreply. cbv zeta.
      unfold FileUtils.saveJSON. rewrite Hw. simpl.
      match goal with
      | |- context [FileUtils.DArray (forms ++ [?x])%list] => exists x
      end.
      repeat split.
Qed.

Lemma submit_no_dues_conflict_iff_listed_status_witness :
  submit_no_dues IsoDate.parse Samples.env (Samples.world_of [Samples.newer])
    Samples.submit_request
  = (Http.fail 400 "You already have a pending application (F2)",
     Samples.world_of [Samples.newer])
  /\ exists newForm,
       Case.status newForm = Some "pending"
       /\ fst (submit_no_dues IsoDate.parse Samples.env (Samples.world_of [Samples.older])
                 Samples.submit_request)
          = Http.json (Http.Accepted "Application submitted successfully"
                         (Case.formId newForm) "pending").
Proof.
  split.
  - destruct (submit_no_dues_conflict_iff_listed_status IsoDate.parse Samples.env
                (Samples.world_of [Samples.newer]) Samples.submit_request
                Samples.submit_body Samples.session_E1 "1704067200000-order.pdf"
                eq_refl eq_refl eq_refl eq_refl) as (_ & H & _).
    destruct (H eq_refl) as (existing & _ & Hin & _ & _ & Hreply).
    destruct Hin as [<-|[]]. exact Hreply.
  - destruct (submit_no_dues_conflict_iff_listed_status IsoDate.parse Samples.env
                (Samples.world_of [Samples.older]) Samples.submit_request
                Samples.submit_body Samples.session_E1 "1704067200000-order.pdf"
                eq_refl eq_refl eq_refl eq_refl) as (_ & _ & H).
    destruct (H eq_refl eq_refl) as (newForm & Hs & _ & Hreply).
    exists newForm. split; [exact Hs|]. rewrite Hreply. reflexivity.
Defined.

(** The claim of C1 as the specification words it fails: an employee whose
    only case has the status [PENDING], which is pending up to letter
    case, is not turned away; a second case is created. *)
Lemma submit_no_dues_uppercase_pending_counterexample :
  has_active_case spec_active_status
    (FileUtils.load_collection (PENDING_FORMS (Samples.world_of [Samples.shouting])))
    (submitted_employeeId Samples.submit_body Samples.session_E1) = true
  /\ fst (submit_no_dues IsoDate.parse Samples.env
            (Samples.world_of [Samples.shouting]) Samples.submit_request)
     = Http.json (Http.Accepted "Application submitted successfully"
                    (Some "F1704067200000") "pending")
  /\ forall existing,
       fst (submit_no_dues IsoDate.parse Samples.env
              (Samples.world_of [Samples.shouting]) Samples.submit_request)
       <> Http.fail 400 (conflict_message existing).
Proof.
  split; [reflexivity|]. split; [reflexivity|].
  intros existing H. vm_compute in H. discriminate.
Qed.

(** ** Final submit *)
Section FinalSubmitFacts.
Variable Date_parse : string -> option Z.

Lemma findIndex_nth_error {A : Type} (p : A -> bool) (l : list A) (i : nat) :
  JS.findIndex p l = Some i ->
  exists x, nth_error l i = Some x /\ p x = true.
Proof.
  revert i. induction l as [|y rest IH]; intros i H; simpl in H; [discriminate|].
  destruct (p y) eqn:Ep.
  - injection H as <-. exists y. auto.
  - destruct (JS.findIndex p rest) as [j|]; [|discriminate].
    injection H as <-. destruct (IH j eq_refl) as (x & Hx & Hp).
    exists x. auto.
Qed.

Lemma strict_eq_true_iff (a b : option string) :
  JS.strict_eq a b = true <-> a = b.
Proof.
  destruct a as [x|], b as [y|]; simpl; try (split; congruence).
  rewrite String.eqb_eq. split; congruence.
Qed.

Lemma findIndex_least {A : Type} (p : A -> bool) (l : list A) (i : nat) :
  JS.findIndex p l = Some i ->
  forall j x, (j < i)%nat -> nth_error l j = Some x -> p x = false.
Proof.
  revert i. induction l as [|y rest IH]; intros i H j x Hlt Hj; simpl in H;
    [discriminate|].
  destruct (p y) eqn:Ep.
  - injection H as <-. lia.
  - destruct (JS.findIndex p rest) as [k|] eqn:Ek; [|discriminate].
    injection H as <-. destruct j as [|j]; simpl in Hj.
    + injection Hj as <-. exact Ep.
    + apply (IH k eq_refl j x); [lia|exact Hj].
Qed.

Lemma set_nth_length {A : Type} (l : list A) (i : nat) (x : A) :
  List.length (JS.set_nth l i x) = List.length l.
Proof.
  revert i. induction l as [|y rest IH]; intros [|i]; simpl; auto.
Qed.


Lemma set_nth_other {A : Type} (l : list A) (i j : nat) (x : A) :
  i <> j -> nth_error (JS.set_nth l i x) j = nth_error l j.
Proof.
  revert i j. induction l as [|z rest IH]; intros [|i] [|j] H; simpl;
    try reflexivity; try congruence.
  apply IH. congruence.
Qed.

Lemma findIndex_found {A : Type} (p : A -> bool) (l : list A) (x : A) :
  In x l -> p x = true -> exists i, JS.findIndex p l = Some i.
Proof.
  induction l as [|y rest IH]; intros Hin Hp; [contradiction|]. simpl.
  destruct (p y) eqn:Ep; [eauto|].
  destruct Hin as [->|Hin]; [congruence|].
  destruct (IH Hin Hp) as [i ->]. eauto.
Qed.

Lemma strict_eq_refl (a : option string) : JS.strict_eq a a = true.
Proof. destruct a; simpl; [apply String.eqb_refl|reflexivity]. Qed.

Lemma latest_In (forms : list Case.t) (employeeId : option string)
    (allowed : option (list string)) (latest : Case.t) :
  getLatestFormForEmployee Date_parse forms employeeId allowed = Some latest ->
  In latest forms /\ JS.strict_eq (Case.employeeId latest) employeeId = true.
Proof.
  unfold getLatestFormForEmployee. intro H.
  assert (Hin : In latest
                  (JS.sort (latest_first Date_parse)
                     (employeeForms forms employeeId allowed))).
  { destruct (JS.sort _ _) as [|h t]; [discriminate|].
    simpl in H. injection H as ->. now left. }
  apply sort_In, employeeForms_In in Hin. tauto.
Qed.

Lemma final_submit_update_status (clock : JS.Clock) (b : FinalSubmitBody.t)
    (form : Case.t) :
  Case.status (final_submit_update clock b form) = Some "Submitted to HOD"
  /\ Case.formId (final_submit_update clock b form) = Case.formId form
  /\ Case.employeeId (final_submit_update clock b form) = Case.employeeId form
  /\ Case.assignedForms (final_submit_update clock b form) = Case.assignedForms form
  /\ Case.hodApproval (final_submit_update clock b form) = Case.hodApproval form.
Proof. repeat split. Qed.

(** The reply of final submit once the session names an employee. *)
Lemma final_submit_cases (env : Env) (w : World) (sessionUser : SessionUser.t)
    (body : option FinalSubmitBody.t) :
  JS.truthy_str (session_employeeId sessionUser) = true ->
  let b := match body with Some b => b | None => FinalSubmitBody.empty end in
  let forms := FileUtils.load_collection (PENDING_FORMS w) in
  let reply := final_submit Date_parse env w (Some sessionUser) body in
  match getLatestFormForEmployee Date_parse forms (session_employeeId sessionUser) None with
  | None => reply = (Http.fail 404 "No pending form found for this employee", w)
  | Some latest =>
      exists i form,
        JS.findIndex (fun f => JS.strict_eq (Case.formId f) (Case.formId latest)) forms
        = Some i
        /\ nth_error forms i = Some form
        /\ Case.formId form = Case.formId latest
        /\ if final_payload_ok b then
             match write_error env with
             | None =>
                 reply
                 = (Http.json (Http.Accepted "Forms submitted to HOD for review"
                                 (Case.formId form) "Submitted to HOD"),
                    mkWorld (FileUtils.Stored (FileUtils.WellFormed
                               (FileUtils.DArray
                                  (JS.set_nth forms i
                                     (final_submit_update (clock env) b form)))))
                      (FORM_HISTORY w) (CERTIFICATES w))
             | Some _ => reply = (Http.fail 500 "Failed to save form submission", w)
             end
           else exists message, reply = (Http.fail 400 message, w)
  end.
Proof.
  intros Htruthy b forms reply. subst reply. unfold final_submit.
  rewrite Htruthy. cbv zeta. fold b. fold forms. simpl negb. cbv iota.
  destruct (getLatestFormForEmployee Date_parse forms
              (session_employeeId sessionUser) None) as [latest|] eqn:Elatest;
    [|reflexivity].
  destruct (latest_In _ _ _ _ Elatest) as [Hin _].
  destruct (findIndex_found
              (fun f => JS.strict_eq (Case.formId f) (Case.formId latest))
              forms latest Hin (strict_eq_refl _)) as [i Hi].
  destruct (findIndex_nth_error _ _ _ Hi) as (form & Hnth & Hp).
  exists i, form. rewrite Hi, Hnth.
  split; [reflexivity|]. split; [reflexivity|]. split.
  - destruct (Case.formId form) as [x|], (Case.formId latest) as [y|];
      simpl in Hp; try discriminate; [|reflexivity].
    apply String.eqb_eq in Hp. congruence.
  - unfold final_payload_ok.
    destruct (JS.is_object (FinalSubmitBody.disposalForm b)); simpl; [|eauto].
    destruct (JS.is_object (FinalSubmitBody.efileForm b)); simpl; [|eauto].
    destruct (JS.is_object (FinalSubmitBody.form365Transfer b)),
             (JS.is_object (FinalSubmitBody.form365Disposal b)); simpl; eauto;
      unfold FileUtils.saveJSON; destruct (write_error env); reflexivity.
Qed.

End FinalSubmitFacts.




(** ** History archival *)

(** C5.  The history entry of a case keeps, inside [preservedData], the
    case's [certificates], [hodApproval], [itProcessing], [assignedForms]
    and [formResponses] as they are, with the empty list, [null] and the
    empty map standing in for an absent field only.  When the history
    file holds an array, archiving writes back that array with the new
    entry after it: every entry of the file is still there, at its place
    and as it was, nothing else is added, and no other collection is
    touched.  When the file holds no array the new entry is written
    alone, and when the file cannot be written nothing changes. *)
Theorem moveCompletedFormToHistory_preserves_and_appends :
  forall (env : Env) (w : World) (employeeId : option string) (formData : Case.t),
    let entry := historyEntry (clock env) formData in
    (exists preserved,
        HistoryEntry.preservedData entry = Some preserved
        /\ match Case.certificates formData with
           | Some certs => PreservedData.certificates preserved = Some certs
           | None => PreservedData.certificates preserved = Some []
           end
        /\ PreservedData.hodApproval preserved = Case.hodApproval formData
        /\ PreservedData.itProcessing preserved = Case.itProcessing formData
        /\ match Case.assignedForms formData with
           | Some forms => PreservedData.assignedForms preserved = Some forms
           | None => PreservedData.assignedForms preserved = Some []
           end
        /\ match Case.formResponses formData with
           | Some responses => PreservedData.formResponses preserved = Some responses
           | None => PreservedData.formResponses preserved = Some []
           end)
    /\ HistoryEntry.form entry = formData
    /\ HistoryEntry.finalStatus entry = Case.status formData
    /\ (forall entries : list HistoryEntry.t,
           FORM_HISTORY w
           = FileUtils.Stored (FileUtils.WellFormed (FileUtils.DArray entries)) ->
           write_error env = None ->
           exists stored,
             moveCompletedFormToHistory env w employeeId formData
             = (true,
                mkWorld (PENDING_FORMS w)
                  (FileUtils.Stored (FileUtils.WellFormed (FileUtils.DArray stored)))
                  (CERTIFICATES w))
             /\ stored = (entries ++ [entry])%list
             /\ (forall (i : nat) (e : HistoryEntry.t),
                    nth_error entries i = Some e -> nth_error stored i = Some e)
             /\ nth_error stored (List.length entries) = Some entry
             /\ List.length stored = S (List.length entries))
    /\ ((forall entries : list HistoryEntry.t,
            FORM_HISTORY w
            <> FileUtils.Stored (FileUtils.WellFormed (FileUtils.DArray entries))) ->
        write_error env = None ->
        moveCompletedFormToHistory env w employeeId formData
        = (true,
           mkWorld (PENDING_FORMS w)
             (FileUtils.Stored (FileUtils.WellFormed (FileUtils.DArray [entry])))
             (CERTIFICATES w)))
    /\ (forall e : string,
           write_error env = Some e ->
           moveCompletedFormToHistory env w employeeId formData = (false, w)).
Proof.
  intros env w employeeId formData entry.
  split; [|split; [|split; [|split; [|split]]]].
  - eexists. split; [reflexivity|].
    destruct (Case.certificates formData), (Case.assignedForms formData),
      (Case.formResponses formData); repeat split.
  - reflexivity.
  - reflexivity.
  - intros entries Hfile Hwrite. exists (entries ++ [entry])%list.
    split; [|split; [reflexivity|split; [|split]]].
    + unfold moveCompletedFormToHistory, FileUtils.saveJSON.
      rewrite Hfile, Hwrite. reflexivity.
    + intros i e H. rewrite nth_error_app1; [exact H|].
      apply nth_error_Some. congruence.
    + rewrite nth_error_app2 by lia. now rewrite Nat.sub_diag.
    + rewrite length_app. simpl. lia.
  - intros Hfile Hwrite.
    unfold moveCompletedFormToHistory, FileUtils.saveJSON. rewrite Hwrite.
    destruct (FORM_HISTORY w) as [| |[|[entries|v]]] eqn:E; try reflexivity.
    exfalso. exact (Hfile entries eq_refl).
  - intros e Hwrite.
    unfold moveCompletedFormToHistory, FileUtils.saveJSON. rewrite Hwrite.
    reflexivity.
Qed.

(** Archiving into a history of two entries leaves a history of three:
    the two entries, then the new one. *)
Lemma moveCompletedFormToHistory_preserves_and_appends_witness :
  exists first second,
    FORM_HISTORY Samples.world_two_and_three
    = FileUtils.Stored (FileUtils.WellFormed (FileUtils.DArray [first; second]))
    /\ first <> historyEntry Samples.clock Samples.completed
    /\ moveCompletedFormToHistory Samples.env Samples.world_two_and_three (Some "E1")
         Samples.completed
       = (true,
          mkWorld (PENDING_FORMS Samples.world_two_and_three)
            (FileUtils.Stored (FileUtils.WellFormed
               (FileUtils.DArray
                  [first; second; historyEntry Samples.clock Samples.completed])))
            (CERTIFICATES Samples.world_two_and_three)).
Proof.
  eexists _, _. split; [reflexivity|]. split; [discriminate|].
  destruct (moveCompletedFormToHistory_preserves_and_appends Samples.env
              Samples.world_two_and_three (Some "E1") Samples.completed)
    as (_ & _ & _ & H & _).
  destruct (H _ eq_refl eq_refl) as (stored & Hrun & -> & _).
  exact Hrun.
Defined.

(** ** Timeline builder *)
Section TimelineFacts.
Variable Date_parse : string -> option Z.

Lemma timeline_sorted (clock : JS.Clock) (formData : Case.t) :
  (forall e, In e (timeline_events clock formData) ->
             exists t, event_time Date_parse e = Some t) ->
  ascending_by_date Date_parse (buildTimelineData Date_parse clock formData).
Proof.
  intro Hvalid. unfold ascending_by_date, buildTimelineData.
  set (key := fun e => match event_time Date_parse e with
                       | Some t => t
                       | None => 0
                       end).
  pose proof (sort_sorted (oldest_first Date_parse) key
                (timeline_events clock formData)) as Hs.
  assert (Hcmp : forall x y,
             In x (timeline_events clock formData) ->
             In y (timeline_events clock formData) ->
             oldest_first Date_parse x y = Some (key x - key y)).
  { intros x y Hx Hy. unfold oldest_first, key, event_time in *.
    destruct (Hvalid x Hx) as [tx ->], (Hvalid y Hy) as [ty ->]. reflexivity. }
  specialize (Hs Hcmp).
  assert (Hall : Forall (fun e => exists t, event_time Date_parse e = Some t)
                   (JS.sort (oldest_first Date_parse) (timeline_events clock formData))).
  { apply Forall_forall. intros e He. apply Hvalid.
    exact (proj1 (sort_In _ _ _) He). }
  induction Hs as [|a l Hl IH Ha]; [constructor|].
  inversion Hall as [|? ? [ta Hta] Hall']; subst.
  constructor; [exact (IH Hall')|].
  rewrite Forall_forall in Ha, Hall' |- *. intros b Hb.
  destruct (Hall' b Hb) as [tb Htb]. specialize (Ha b Hb). unfold key in Ha.
  rewrite Hta, Htb in *. exact Ha.
Qed.

Lemma timeline_without_clock (clock clock' : JS.Clock) (formData : Case.t) :
  reads_clock formData = false ->
  timeline_events clock formData = timeline_events clock' formData.
Proof.
  unfold reads_clock, timeline_events. intro H.
  do 6 f_equal.
  destruct (Case.certificates formData) as [certs|]; [|reflexivity].
  destruct (JS.strict_eq (Case.status formData) (Some "IT Completed"));
    [|reflexivity].
  simpl in H. apply negb_false_iff in H.
  destruct (Case.itProcessing formData) as [it|]; [|discriminate].
  unfold JS.or_lit. unfold JS.truthy_str in H.
  destruct (ItProcessing.processedAt it) as [s|]; [|discriminate].
  destruct (s =? "")%string; [discriminate|reflexivity].
Qed.

End TimelineFacts.

(** C6, as the code has it.  The timeline is a function of the case record
    alone except where the certificates event falls back on the clock;
    when every event carries a valid date the result is ascending by
    date; a case in status [pending] with a submission date and nothing
    else yields the single event [submitted], and with a [hodApproval] in
    addition it yields exactly the two events [submitted] and
    [hod_approved], ascending by date when both dates are valid. *)
Theorem buildTimelineData_sorted_and_counted :
  forall (Date_parse : string -> option Z) (clock : JS.Clock) (formData : Case.t),
    (reads_clock formData = false ->
     forall clock',
       buildTimelineData Date_parse clock formData
       = buildTimelineData Date_parse clock' formData)
    /\ ((forall e, In e (timeline_events clock formData) ->
                   exists t, event_time Date_parse e = Some t) ->
        ascending_by_date Date_parse (buildTimelineData Date_parse clock formData))
    /\ (Case.status formData = Some "pending" ->
        JS.truthy_str (Case.submissionDate formData) = true ->
        (Case.assignedForms formData = None \/ Case.assignedForms formData = Some []) ->
        (Case.formResponses formData = None \/ Case.formResponses formData = Some []) ->
        Case.itProcessing formData = None ->
        Case.certificates formData = None ->
        (Case.hodApproval formData = None ->
         buildTimelineData Date_parse clock formData = [submitted_event formData])
        /\ (forall hod,
               Case.hodApproval formData = Some hod ->
               List.length (buildTimelineData Date_parse clock formData) = 2%nat
               /\ Permutation (buildTimelineData Date_parse clock formData)
                    [submitted_event formData; hod_approved_event hod]
               /\ ((exists t, event_time Date_parse (submitted_event formData) = Some t) ->
                   (exists t, event_time Date_parse (hod_approved_event hod) = Some t) ->
                   ascending_by_date Date_parse
                     (buildTimelineData Date_parse clock formData)))).
Proof.
  intros Date_parse clock formData. split; [|split].
  - intros H clock'. unfold buildTimelineData.
    now rewrite (timeline_without_clock clock clock' formData H).
  - apply timeline_sorted.
  - intros Hstatus Hsub Hassigned Hresponses Hit Hcerts.
    assert (Hevents :
      timeline_events clock formData
      = (submitted_event formData
           :: match Case.hodApproval formData with
              | Some hod => [hod_approved_event hod]
              | None => []
              end)%list).
    { unfold timeline_events. rewrite Hstatus, Hsub, Hit, Hcerts.
      destruct Hassigned as [-> | ->], Hresponses as [-> | ->];
        destruct (Case.hodApproval formData); reflexivity. }
    split.
    + intro Hhod. unfold buildTimelineData. rewrite Hevents, Hhod. reflexivity.
    + intros hod Hhod.
      assert (Hperm : Permutation (buildTimelineData Date_parse clock formData)
                        [submitted_event formData; hod_approved_event hod]).
      { unfold buildTimelineData. rewrite Hevents, Hhod.
        apply Permutation_sym, sort_perm. }
      split; [exact (Permutation_length Hperm)|]. split; [exact Hperm|].
      intros Hv1 Hv2. apply timeline_sorted. rewrite Hevents, Hhod.
      intros e [<-|[<-|[]]]; assumption.
Qed.

Lemma buildTimelineData_sorted_and_counted_witness :
  buildTimelineData IsoDate.parse Samples.clock Samples.pending_only
  = [submitted_event Samples.pending_only]
  /\ List.length (buildTimelineData IsoDate.parse Samples.clock Samples.pending_with_hod)
     = 2%nat
  /\ ascending_by_date IsoDate.parse
       (buildTimelineData IsoDate.parse Samples.clock Samples.pending_with_hod)
  /\ buildTimelineData IsoDate.parse Samples.clock Samples.pending_with_hod
     = buildTimelineData IsoDate.parse Samples.later_clock Samples.pending_with_hod.
Proof.
  destruct (buildTimelineData_sorted_and_counted IsoDate.parse Samples.clock
              Samples.pending_only) as (_ & _ & H1).
  destruct (H1 eq_refl eq_refl (or_introl eq_refl) (or_introl eq_refl) eq_refl eq_refl)
    as [Hone _].
  destruct (buildTimelineData_sorted_and_counted IsoDate.parse Samples.clock
              Samples.pending_with_hod) as (Hclock & _ & H2).
  destruct (H2 eq_refl eq_refl (or_introl eq_refl) (or_introl eq_refl) eq_refl eq_refl)
    as [_ Htwo].
  destruct (Htwo Samples.hod eq_refl) as (Hlen & _ & Hasc).
  split; [exact (Hone eq_refl)|]. split; [exact Hlen|]. split.
  - apply Hasc; eexists; reflexivity.
  - exact (Hclock eq_refl Samples.later_clock).
Defined.

(** The claim of C6 as the specification words it fails: the record that
    has only [submissionDate] set has no status, which is not the status
    [pending], and its timeline holds two events. *)
Lemma buildTimelineData_only_submissionDate_counterexample :
  map TimelineEvent.step
    (buildTimelineData IsoDate.parse Samples.clock Samples.only_submissionDate)
  = ["submitted"; "it_reviewed"]
  /\ List.length
       (buildTimelineData IsoDate.parse Samples.clock Samples.only_submissionDate)
     <> 1%nat.
Proof. split; [reflexivity|discriminate]. Qed.

(** Two further departures from the wording of C6.  The builder reads the
    clock for a completed case without [itProcessing]. *)
Example buildTimelineData_reads_the_clock :
  buildTimelineData IsoDate.parse Samples.clock Samples.completed_without_processing
  <> buildTimelineData IsoDate.parse Samples.later_clock
       Samples.completed_without_processing.
Proof. vm_compute. discriminate. Qed.

(** A missing date compares as equal to every other date, and the sort
    leaves this timeline as it was built: the approval of November stays
    behind the submission of January. *)
Example buildTimelineData_undated_event_blocks_the_sort :
  map TimelineEvent.date
    (buildTimelineData IsoDate.parse Samples.clock Samples.undated_review)
  = [Some "2024-01-01T00:00:00.000Z"; None; Some "2023-11-14T22:13:20.000Z"].
Proof. reflexivity. Qed.

(** ** Certificate listing *)
Section ListingFacts.
Variable Date_parse : string -> option Z.

Lemma active_listing_map (w : World) (employeeId : option string) :
  active_listing w employeeId
  = map list_active (active_certificates_of w employeeId).
Proof.
  unfold active_listing, active_certificates_of.
  destruct (FileUtils.loadJSON (CERTIFICATES w)) as [[data|v]|e]; reflexivity.
Qed.

Lemma historical_listing_map (w : World) (employeeId : option string) :
  historical_listing w employeeId
  = map (fun p => list_historical (fst p) (snd p))
      (historical_certificates_of w employeeId).
Proof.
  unfold historical_listing, historical_certificates_of, FileUtils.load_collection.
  destruct (FileUtils.loadJSON (FORM_HISTORY w)) as [[historyData|v]|e];
    try reflexivity.
  induction historyData as [|h rest IH]; [reflexivity|]. simpl.
  destruct (JS.strict_eq (Case.employeeId (HistoryEntry.form h)) employeeId); simpl.
  - destruct (preserved_certificates h) as [certs|] eqn:Ep; simpl.
    + rewrite Ep, map_app, IH. f_equal. rewrite map_map. reflexivity.
    + exact IH.
  - exact IH.
Qed.

Lemma listing_sorted (listing : list ListedCertificate.t) :
  (forall c, In c listing -> exists t, listed_date Date_parse c = Some t) ->
  newest_first_by_date Date_parse (JS.sort (newest_first Date_parse) listing).
Proof.
  intro Hvalid. unfold newest_first_by_date.
  set (key := fun c => match listed_date Date_parse c with
                       | Some t => - t
                       | None => 0
                       end).
  assert (Hcmp : forall x y, In x listing -> In y listing ->
                   newest_first Date_parse x y = Some (key x - key y)).
  { intros x y Hx Hy. unfold newest_first, key.
    destruct (Hvalid x Hx) as [tx ->], (Hvalid y Hy) as [ty ->]. simpl.
    f_equal. lia. }
  pose proof (sort_sorted (newest_first Date_parse) key listing Hcmp) as Hs.
  assert (Hall : Forall (fun c => exists t, listed_date Date_parse c = Some t)
                   (JS.sort (newest_first Date_parse) listing)).
  { apply Forall_forall. intros c Hc. apply Hvalid. exact (proj1 (sort_In _ _ _) Hc). }
  induction Hs as [|a l Hl IH Ha]; [constructor|].
  inversion Hall as [|? ? [ta Hta] Hall']; subst.
  constructor; [exact (IH Hall')|].
  rewrite Forall_forall in Ha, Hall' |- *. intros b Hb.
  destruct (Hall' b Hb) as [tb Htb]. specialize (Ha b Hb). unfold key in Ha.
  rewrite Hta, Htb in *. lia.
Qed.

End ListingFacts.

(** C9, as the code has it.  The listing is the active certificates of the
    employee followed by the certificates of the employee's history
    entries, sorted newest first when every entry has a valid date; every
    certificate of either location is listed once for that location and
    tagged with it, and nothing is removed, so the listing is as long as
    the two locations together. *)
Theorem certificates_listing_merges_both_sources :
  forall (Date_parse : string -> option Z) (w : World) (sessionUser : SessionUser.t),
    JS.truthy_str (session_employeeId sessionUser) = true ->
    exists listing,
      certificates Date_parse w (Some sessionUser)
      = Http.json (Http.Certificates listing)
      /\ Permutation listing
           (map list_active
              (active_certificates_of w (session_employeeId sessionUser))
            ++ map (fun p => list_historical (fst p) (snd p))
                 (historical_certificates_of w (session_employeeId sessionUser)))%list
      /\ List.length listing
         = (List.length (active_certificates_of w (session_employeeId sessionUser))
            + List.length
                (historical_certificates_of w (session_employeeId sessionUser)))%nat
      /\ (forall cert,
             In cert (active_certificates_of w (session_employeeId sessionUser)) ->
             In (list_active cert) listing
             /\ ListedCertificate.source (list_active cert) = "active")
      /\ (forall h cert,
             In (h, cert)
               (historical_certificates_of w (session_employeeId sessionUser)) ->
             In (list_historical h cert) listing
             /\ ListedCertificate.source (list_historical h cert) = "history")
      /\ ((forall c, In c listing -> exists t, listed_date Date_parse c = Some t) ->
          newest_first_by_date Date_parse listing).
Proof.
  intros Date_parse w sessionUser Htruthy.
  set (employeeId := session_employeeId sessionUser) in *.
  set (merged := (map list_active (active_certificates_of w employeeId)
                  ++ map (fun p => list_historical (fst p) (snd p))
                       (historical_certificates_of w employeeId))%list).
  exists (JS.sort (newest_first Date_parse) merged).
  assert (Hperm : Permutation (JS.sort (newest_first Date_parse) merged) merged).
  { apply Permutation_sym, sort_perm. }
  split; [|split; [|split; [|split; [|split]]]].
  - unfold certificates. fold employeeId. rewrite Htruthy. simpl.
    rewrite active_listing_map, historical_listing_map. reflexivity.
  - exact Hperm.
  - rewrite (Permutation_length Hperm). unfold merged.
    rewrite length_app, !length_map. reflexivity.
  - intros cert Hin. split; [|reflexivity].
    apply (Permutation_in _ (Permutation_sym Hperm)). unfold merged.
    apply in_or_app. left. now apply in_map.
  - intros h cert Hin. split; [|reflexivity].
    apply (Permutation_in _ (Permutation_sym Hperm)). unfold merged.
    apply in_or_app. right.
    exact (in_map (fun p => list_historical (fst p) (snd p)) _ (h, cert) Hin).
  - intro Hvalid. apply listing_sorted. intros c Hc. apply Hvalid.
    exact (proj2 (sort_In _ _ _) Hc).
Qed.

(** Two active and three historical certificates give five entries. *)
Lemma certificates_listing_merges_both_sources_witness :
  exists listing,
    certificates IsoDate.parse Samples.world_two_and_three (Some Samples.session_E1)
    = Http.json (Http.Certificates listing)
    /\ List.length listing = 5%nat
    /\ map ListedCertificate.source listing
       = ["active"; "active"; "history"; "history"; "history"]
    /\ newest_first_by_date IsoDate.parse listing.
Proof.
  destruct (certificates_listing_merges_both_sources IsoDate.parse
              Samples.world_two_and_three Samples.session_E1 eq_refl)
    as (listing & Hreply & _ & Hlen & _ & _ & Hsorted).
  exists listing. split; [exact Hreply|]. split; [exact Hlen|].
  vm_compute in Hreply. injection Hreply as <-.
  split; [reflexivity|].
  apply Hsorted. intros c Hc. simpl in Hc.
  repeat (destruct Hc as [<-|Hc]; [eexists; reflexivity|]). contradiction.
Defined.

(** The claim of C9 as the specification words it fails: a certificate
    that is in the active store and in a history entry is listed twice,
    once for each location. *)
Lemma certificates_listing_duplicate_counterexample :
  exists first second,
    certificates IsoDate.parse Samples.world_both (Some Samples.session_E1)
    = Http.json (Http.Certificates [first; second])
    /\ ListedCertificate.filepath first = Some "/certificates/F9_disposalForm.pdf"
    /\ ListedCertificate.filepath second = Some "/certificates/F9_disposalForm.pdf"
    /\ ListedCertificate.formId first = ListedCertificate.formId second
    /\ ListedCertificate.formType first = ListedCertificate.formType second
    /\ ListedCertificate.source first = "active"
    /\ ListedCertificate.source second = "history".
Proof.
  exists (list_active Samples.active_disposal),
    (list_historical
       (Samples.archived Samples.completed [Samples.disposal_certificate])
       Samples.disposal_certificate).
  repeat split.
Qed.

(** ** Certificate download *)

Lemma find_none_of {A : Type} (p : A -> bool) (l : list A) :
  (forall x, In x l -> p x = false) -> JS.find p l = None.
Proof.
  unfold JS.find. induction l as [|y rest IH]; intro H; [reflexivity|]. simpl.
  rewrite (H y (or_introl eq_refl)). apply IH. intros x Hx. apply H. now right.
Qed.

Lemma find_active_owner (w : World) (certId : string) (employeeId : option string)
    (c : FoundCertificate.t) :
  find_active w certId employeeId = Some c ->
  JS.strict_eq (FoundCertificate.employeeId c) employeeId = true.
Proof.
  unfold find_active.
  destruct (FileUtils.loadJSON (CERTIFICATES w)) as [[data|v]|e]; try discriminate.
  destruct (JS.find _ data) as [cert|] eqn:Efind; [|discriminate].
  intro H. injection H as <-. simpl.
  apply find_some in Efind as [_ Hp]. apply andb_true_iff in Hp. tauto.
Qed.

Lemma search_history_owner (historyData : list HistoryEntry.t) (certId : string)
    (employeeId : option string) (c : FoundCertificate.t) :
  search_history historyData certId employeeId = Some c ->
  JS.strict_eq (FoundCertificate.employeeId c) employeeId = true.
Proof.
  induction historyData as [|h rest IH]; simpl; [discriminate|].
  destruct (JS.strict_eq (Case.employeeId (HistoryEntry.form h)) employeeId) eqn:Eo;
    [|exact IH].
  destruct (preserved_certificates h) as [certs|]; [|exact IH].
  destruct (JS.find _ certs) as [cert|]; [|exact IH].
  intro H. injection H as <-. exact Eo.
Qed.

Lemma find_historical_owner (w : World) (certId : string) (employeeId : option string)
    (c : FoundCertificate.t) :
  find_historical w certId employeeId = Some c ->
  JS.strict_eq (FoundCertificate.employeeId c) employeeId = true.
Proof.
  unfold find_historical.
  destruct (FileUtils.loadJSON (FORM_HISTORY w)) as [[historyData|v]|e];
    try discriminate.
  apply search_history_owner.
Qed.

Lemma find_active_none (w : World) (certId : string) (employeeId : option string) :
  (forall cert,
      In cert (FileUtils.load_collection (CERTIFICATES w)) ->
      ActiveCertificate.id cert = Some certId ->
      ActiveCertificate.employeeId cert <> employeeId) ->
  find_active w certId employeeId = None.
Proof.
  unfold find_active, FileUtils.load_collection. intro H.
  destruct (FileUtils.loadJSON (CERTIFICATES w)) as [[data|v]|e]; try reflexivity.
  rewrite find_none_of; [reflexivity|].
  intros cert Hin. apply andb_false_iff.
  destruct (JS.strict_eq (ActiveCertificate.id cert) (Some certId)) eqn:Eid;
    [right|now left].
  apply strict_eq_Some in Eid. specialize (H cert Hin Eid).
  destruct (ActiveCertificate.employeeId cert) as [x|], employeeId as [y|];
    simpl; try reflexivity; [|contradiction].
  apply String.eqb_neq. congruence.
Qed.

Lemma find_historical_none (w : World) (certId : string) (employeeId : option string) :
  (forall h cert certs,
      In h (FileUtils.load_collection (FORM_HISTORY w)) ->
      preserved_certificates h = Some certs ->
      In cert certs ->
      historicalCertId h cert = certId ->
      Case.employeeId (HistoryEntry.form h) <> employeeId) ->
  find_historical w certId employeeId = None.
Proof.
  unfold find_historical, FileUtils.load_collection. intro H.
  destruct (FileUtils.loadJSON (FORM_HISTORY w)) as [[historyData|v]|e];
    try reflexivity.
  induction historyData as [|h rest IH]; [reflexivity|]. simpl.
  assert (Hrest : search_history rest certId employeeId = None).
  { apply IH. intros h' cert certs Hin. apply H. now right. }
  destruct (JS.strict_eq (Case.employeeId (HistoryEntry.form h)) employeeId) eqn:Eo;
    [|exact Hrest].
  destruct (preserved_certificates h) as [certs|] eqn:Ep; [|exact Hrest].
  rewrite find_none_of; [exact Hrest|].
  intros cert Hin. cbv beta.
  apply (proj2 (String.eqb_neq (historicalCertId h cert) certId)). intro Eid.
  specialize (H h cert certs (or_introl eq_refl) Ep Hin Eid).
  destruct (Case.employeeId (HistoryEntry.form h)) as [x|], employeeId as [y|];
    simpl in Eo; try discriminate; [|contradiction].
  apply String.eqb_eq in Eo. congruence.
Qed.

(** C8, as the code has it.  The download never answers with the
    forbidden error: both searches only look at records of the requester,
    so a certificate id that exists in the active store or in a history
    entry, but for another employee, gets the same not-found reply as an
    id that does not exist at all. *)
Theorem download_certificate_other_owner_not_found :
  forall (on_disk : string -> bool) (w : World) (session : option SessionUser.t)
         (certId : string),
    Http.code (download_certificate on_disk w session certId) <> 403
    /\ (forall sessionUser,
           session = Some sessionUser ->
           JS.truthy_str (session_employeeId sessionUser) = true ->
           (forall cert,
               In cert (FileUtils.load_collection (CERTIFICATES w)) ->
               ActiveCertificate.id cert = Some certId ->
               ActiveCertificate.employeeId cert <> session_employeeId sessionUser) ->
           (forall h cert certs,
               In h (FileUtils.load_collection (FORM_HISTORY w)) ->
               preserved_certificates h = Some certs ->
               In cert certs ->
               historicalCertId h cert = certId ->
               Case.employeeId (HistoryEntry.form h) <> session_employeeId sessionUser) ->
           download_certificate on_disk w session certId
           = Http.fail 404 "Certificate not found").
Proof.
  intros on_disk w session certId. split.
  - unfold download_certificate.
    destruct session as [sessionUser|]; [|discriminate].
    destruct (JS.truthy_str (session_employeeId sessionUser)); [|discriminate].
    simpl negb. cbv iota zeta.
    assert (Hfound : forall c,
      match find_active w certId (session_employeeId sessionUser) with
      | Some c0 => Some c0
      | None =>
          if prefix "hist_" certId
          then find_historical w certId (session_employeeId sessionUser)
          else None
      end = Some c ->
      JS.strict_eq (FoundCertificate.employeeId c) (session_employeeId sessionUser)
      = true).
    { intros c H.
      destruct (find_active w certId (session_employeeId sessionUser)) as [c0|] eqn:Ea.
      - injection H as <-. exact (find_active_owner _ _ _ _ Ea).
      - destruct (prefix "hist_" certId); [|discriminate].
        exact (find_historical_owner _ _ _ _ H). }
    destruct (match find_active w certId (session_employeeId sessionUser) with
              | Some c0 => Some c0
              | None => _
              end) as [c|]; [|discriminate].
    rewrite (Hfound c eq_refl). simpl.
    destruct (FoundCertificate.filepath c) as [filePath|]; [|discriminate].
    destruct (on_disk filePath); discriminate.
  - intros sessionUser -> Htruthy Hactive Hhistory.
    unfold download_certificate. rewrite Htruthy. simpl negb. cbv iota zeta.
    rewrite (find_active_none _ _ _ Hactive), (find_historical_none _ _ _ Hhistory).
    destruct (prefix "hist_" certId); reflexivity.
Qed.

Lemma download_certificate_other_owner_not_found_witness :
  download_certificate (fun _ => true) Samples.world_two_and_three
    (Some Samples.session_E1) "C3"
  = Http.fail 404 "Certificate not found".
Proof.
  destruct (download_certificate_other_owner_not_found (fun _ => true)
              Samples.world_two_and_three (Some Samples.session_E1) "C3") as [_ H].
  apply (H Samples.session_E1 eq_refl eq_refl).
  - intros cert Hin Hid. simpl in Hin.
    destruct Hin as [<-|[<-|[<-|[]]]]; try discriminate.
  - intros h cert certs Hin Hp Hc Hid. simpl in Hin.
    destruct Hin as [<-|[<-|[]]]; injection Hp as <-; simpl in Hc;
      repeat (destruct Hc as [<-|Hc]; [discriminate|]); contradiction.
Defined.

(** The claim of C8 as the specification words it fails: the certificate
    [C3] is in the active store and belongs to [E2]; to [E1] the download
    answers not found, as it does for an id that does not exist. *)
Lemma download_certificate_other_owner_counterexample :
  (exists cert,
      In cert (FileUtils.load_collection (CERTIFICATES Samples.world_two_and_three))
      /\ ActiveCertificate.id cert = Some "C3"
      /\ ActiveCertificate.employeeId cert = Some "E2")
  /\ session_employeeId Samples.session_E1 = Some "E1"
  /\ download_certificate (fun _ => true) Samples.world_two_and_three
       (Some Samples.session_E1) "C3"
     = Http.fail 404 "Certificate not found"
  /\ download_certificate (fun _ => true) Samples.world_two_and_three
       (Some Samples.session_E1) "C404"
     = Http.fail 404 "Certificate not found"
  /\ Http.code (download_certificate (fun _ => true) Samples.world_two_and_three
                  (Some Samples.session_E1) "C3") <> 403.
Proof.
  split.
  - exists (Samples.active "C3" "E2" "F8" "efileForm" "2024-01-03T00:00:00.000Z").
    simpl. auto.
  - repeat split. discriminate.
Qed.

(** ** Certificate generation pipeline *)
Section PipelineFacts.
Variable host : PdfHost.t.

(** An entry settles with a record, successful or failed, and never with
    an error. *)
Lemma certificatePromise_settles (formId : string)
    (formResponses : list (string * JS.value)) (formType : string) :
  exists c,
    certificatePromise host formId formResponses formType = Exn.Ok c
    /\ Certificate.formType c = Some formType
    /\ (is_success c = true \/ is_failed c = true).
Proof.
  unfold certificatePromise, validateFormData.
  destruct (JS.is_object (JS.get formResponses formType)); simpl;
    [|eexists; repeat split; auto].
  destruct (PdfHost.createFormCertificatePDF host formId formType
              (JS.get formResponses formType)) as [pdfPath|e]; simpl;
    [|eexists; repeat split; auto].
  destruct (PdfHost.stat_size host pdfPath) as [size|e]; simpl;
    eexists; repeat split; auto.
Qed.

Lemma collect_successful_In (results : list (Exn.result Certificate.t))
    (c : Certificate.t) :
  In c (collect_successful results) <->
  In (Exn.Ok c) results /\ is_success c = true.
Proof.
  unfold collect_successful. rewrite in_flat_map. split.
  - intros ([c'|e] & Hin & Hc); [|contradiction].
    destruct (is_success c') eqn:Es; [|contradiction].
    destruct Hc as [<-|[]]. auto.
  - intros [Hin Hs]. exists (Exn.Ok c). split; [exact Hin|].
    rewrite Hs. now left.
Qed.

(** The log reports as many generated artifacts as were collected. *)
Lemma generated_lines_count (formId : string)
    (f : string -> Exn.result Certificate.t) (valid : list string) :
  List.length
    (filter is_generated_line
       (flat_map (fun p => entry_log formId (fst p) (snd p))
          (combine valid (map f valid))))
  = List.length (collect_successful (map f valid)).
Proof.
  induction valid as [|formType rest IH]; [reflexivity|]. simpl.
  rewrite filter_app, !length_app, IH. f_equal.
  unfold entry_log. destruct (f formType) as [c|e]; [|reflexivity].
  destruct (is_success c); reflexivity.
Qed.

Lemma length_zero_nil {A : Type} (l : list A) :
  (List.length l =? 0)%nat = true <-> l = [].
Proof. destruct l; simpl; split; congruence. Qed.

(** The run of the pipeline once its inputs are accepted. *)
Lemma pipeline_accepted (id : string) (formResponses : list (string * JS.value)) :
  id <> "" ->
  PdfHost.ensureDir_certificates host = Exn.Ok tt ->
  PdfHost.ensureDir_temp host = Exn.Ok tt ->
  validFormTypes formResponses <> [] ->
  let certificates := collect_successful (settled_results host id formResponses) in
  snd (generateFormCertificates host (Some id) (Some formResponses))
  = if (List.length certificates =? 0)%nat
    then Exn.Throw "No certificates were generated successfully"
    else Exn.Ok certificates.
Proof.
  intros Hid Hd1 Hd2 Hvalid certificates.
  unfold generateFormCertificates, pipeline_body.
  apply String.eqb_neq in Hid. rewrite Hid, Hd1, Hd2.
  destruct (List.length (validFormTypes formResponses) =? 0)%nat eqn:El.
  - apply length_zero_nil in El. contradiction.
  - cbv zeta. fold certificates.
    destruct (List.length certificates =? 0)%nat; reflexivity.
Qed.

(** ** Entries of an object with distinct keys *)

Lemma get_In {V : Type} (fields : list (string * V)) (key : string) (v : V) :
  JS.get fields key = Some v -> In (key, v) fields.
Proof.
  induction fields as [|[k x] rest IH]; simpl; [discriminate|].
  destruct (String.eqb_spec k key) as [->|_].
  - intro H. injection H as ->. now left.
  - intro H. right. auto.
Qed.

Lemma In_get {V : Type} (fields : list (string * V)) (key : string) (v : V) :
  NoDup (map fst fields) -> In (key, v) fields -> JS.get fields key = Some v.
Proof.
  induction fields as [|[k x] rest IH]; simpl; [contradiction|].
  intros Hnodup [H|H].
  - injection H as -> ->. now rewrite String.eqb_refl.
  - inversion_clear Hnodup as [|? ? Hfresh Hrest].
    destruct (String.eqb_spec k key) as [->|_]; [|auto].
    exfalso. apply Hfresh. apply in_map_iff. exists (key, v). auto.
Qed.

Lemma is_object_typed (v : JS.value) :
  JS.is_object (Some v) = true <-> object_typed v.
Proof.
  unfold object_typed, JS.is_object. split.
  - destruct v; simpl; rewrite ?andb_false_r; try discriminate; eauto.
  - intros [[? ->]|[? ->]]; reflexivity.
Qed.

Lemma validFormTypes_In (formResponses : list (string * JS.value))
    (formType : string) :
  NoDup (map fst formResponses) ->
  (In formType (validFormTypes formResponses) <->
   exists v, In (formType, v) formResponses /\ object_typed v).
Proof.
  intro Hnodup. unfold validFormTypes. rewrite filter_In. split.
  - intros [_ Hobj].
    destruct (JS.get formResponses formType) as [v|] eqn:Eget; [|discriminate].
    exists v. split; [now apply get_In|now apply is_object_typed].
  - intros (v & Hin & Hobj). split.
    + unfold JS.keys. apply in_map_iff. exists (formType, v). auto.
    + rewrite (In_get _ _ _ Hnodup Hin). now apply is_object_typed.
Qed.

Lemma validFormTypes_nil (formResponses : list (string * JS.value)) :
  NoDup (map fst formResponses) ->
  (validFormTypes formResponses = [] <->
   forall formType v, In (formType, v) formResponses -> ~ object_typed v).
Proof.
  intro Hnodup. split.
  - intros Hnil formType v Hin Hobj.
    assert (H : In formType (validFormTypes formResponses))
      by (apply validFormTypes_In; eauto).
    rewrite Hnil in H. contradiction.
  - intro Hnone. destruct (validFormTypes formResponses) as [|formType rest] eqn:E;
      [reflexivity|].
    assert (H : In formType (validFormTypes formResponses))
      by (rewrite E; now left).
    apply validFormTypes_In in H as (v & Hin & Hobj); [|exact Hnodup].
    exfalso. exact (Hnone formType v Hin Hobj).
Qed.

(** An entry is generated successfully exactly when the host renders
    it. *)
Lemma certificatePromise_rendered (formId : string)
    (formResponses : list (string * JS.value)) (formType : string) (v : JS.value) :
  JS.get formResponses formType = Some v ->
  object_typed v ->
  ((exists c, certificatePromise host formId formResponses formType = Exn.Ok c
              /\ is_success c = true)
   <-> rendered host formId formType v).
Proof.
  intros Hget Hobj. apply is_object_typed in Hobj.
  unfold certificatePromise, validateFormData, rendered. rewrite Hget, Hobj. simpl.
  destruct (PdfHost.createFormCertificatePDF host formId formType (Some v))
    as [pdfPath|e]; simpl.
  - destruct (PdfHost.stat_size host pdfPath) as [size|e] eqn:Esize; simpl.
    + split; [eauto|]. intros _. eexists. split; reflexivity.
    + split.
      * intros (c & H & Hs). injection H as <-. discriminate Hs.
      * intros (pdfPath' & size & H & Hsize). injection H as <-. congruence.
  - split.
    + intros (c & H & Hs). injection H as <-. discriminate Hs.
    + intros (pdfPath & size & H & _). discriminate H.
Qed.

End PipelineFacts.

(** C4, as the code has it.  An entry of [formResponses] is taken up when
    its value is an object or an array, empty or not.  The pipeline
    throws if and only if no entry is taken up or its log reports no
    generated artifact; once the form id and the directories are
    accepted it throws if and only if the host renders none of the
    entries taken up.  When it does not throw it returns the successful
    artifacts, of which there is at least one; every entry taken up
    settles with a record of its own, successful or failed, never with an
    error; and an entry that was generated successfully is returned
    whatever happened to the other entries. *)
Theorem generateFormCertificates_fails_iff_nothing_generated :
  forall (host : PdfHost.t) (formId : option string)
         (formResponses : list (string * JS.value)),
    NoDup (map fst formResponses) ->
    let run := generateFormCertificates host formId (Some formResponses) in
    (Exn.throws (snd run) = true <->
     (forall formType v, In (formType, v) formResponses -> ~ object_typed v)
     \/ filter is_generated_line (fst run) = [])
    /\ (forall id,
           formId = Some id -> id <> "" ->
           PdfHost.ensureDir_certificates host = Exn.Ok tt ->
           PdfHost.ensureDir_temp host = Exn.Ok tt ->
           (Exn.throws (snd run) = true <->
            forall formType v,
              In (formType, v) formResponses -> object_typed v ->
              ~ rendered host id formType v))
    /\ (forall certificates,
           snd run = Exn.Ok certificates ->
           certificates <> []
           /\ exists id,
                formId = Some id
                /\ certificates
                   = collect_successful (settled_results host id formResponses))
    /\ (forall id,
           Forall (fun settled =>
                     exists c,
                       settled = Exn.Ok c
                       /\ (is_success c = true \/ is_failed c = true))
             (settled_results host id formResponses)
           /\ forall formType v,
                In (formType, v) formResponses -> object_typed v ->
                exists c,
                  In (Exn.Ok c) (settled_results host id formResponses)
                  /\ certificatePromise host id formResponses formType = Exn.Ok c
                  /\ Certificate.formType c = Some formType
                  /\ (is_success c = true \/ is_failed c = true))
    /\ (forall id formType v,
           formId = Some id -> id <> "" ->
           PdfHost.ensureDir_certificates host = Exn.Ok tt ->
           PdfHost.ensureDir_temp host = Exn.Ok tt ->
           In (formType, v) formResponses -> object_typed v ->
           rendered host id formType v ->
           exists c certificates,
             certificatePromise host id formResponses formType = Exn.Ok c
             /\ is_success c = true
             /\ snd run = Exn.Ok certificates /\ In c certificates).
Proof.
  intros host formId formResponses Hnodup run.
  assert (Hrun :
    (exists e,
        run = ([Certificate_generation_failed e formId], Exn.Throw e)
        /\ (validFormTypes formResponses = []
            \/ formId = None \/ formId = Some ""
            \/ PdfHost.ensureDir_certificates host = Exn.Throw e
            \/ PdfHost.ensureDir_temp host = Exn.Throw e))
    \/ (exists id log,
           formId = Some id
           /\ validFormTypes formResponses <> []
           /\ List.length (filter is_generated_line log)
              = List.length (collect_successful (settled_results host id formResponses))
           /\ ((collect_successful (settled_results host id formResponses) = []
                /\ exists e,
                     run = ((log ++ [Certificate_generation_failed e formId])%list,
                            Exn.Throw e))
               \/ (collect_successful (settled_results host id formResponses) <> []
                   /\ run = (log, Exn.Ok (collect_successful
                                            (settled_results host id formResponses))))))).
  { subst run. unfold generateFormCertificates, pipeline_body.
    destruct formId as [id|]; [|left; eexists; split; [reflexivity|auto]].
    destruct (id =? "")%string eqn:Eid.
    { apply String.eqb_eq in Eid. subst id.
      left. eexists. split; [reflexivity|auto]. }
    destruct (PdfHost.ensureDir_certificates host) as [[]|e1];
      [|left; eexists; split; [reflexivity|auto]].
    destruct (PdfHost.ensureDir_temp host) as [[]|e2];
      [|left; eexists; split; [reflexivity|auto 6]].
    destruct (List.length (validFormTypes formResponses) =? 0)%nat eqn:El.
    { apply length_zero_nil in El. left. eexists. split; [reflexivity|auto]. }
    right. cbv zeta.
    set (results := settled_results host id formResponses).
    set (log := ([PDF_GENERATION_STARTED id (validFormTypes formResponses)]
                   ++ flat_map (fun p => entry_log id (fst p) (snd p))
                        (combine (validFormTypes formResponses) results)
                   ++ [PDF_GENERATION_COMPLETED id
                         (List.length (collect_successful results))
                         (count_failed results)])%list).
    exists id, log. split; [reflexivity|]. split.
    { intro E. rewrite E in El. discriminate. }
    split.
    { unfold log. simpl. rewrite filter_app, length_app. simpl. rewrite Nat.add_0_r.
      apply generated_lines_count. }
    destruct (List.length (collect_successful results) =? 0)%nat eqn:Ec.
    - apply length_zero_nil in Ec. left. split; [exact Ec|]. eexists. reflexivity.
    - right. split; [|reflexivity]. intro E. fold results in E.
      rewrite E in Ec. discriminate. }
  assert (Hcollected : forall id,
    collect_successful (settled_results host id formResponses) = [] <->
    forall formType v,
      In (formType, v) formResponses -> object_typed v ->
      ~ rendered host id formType v).
  { intro id. split.
    - intros Hnone formType v Hin Hobj Hrendered.
      apply (certificatePromise_rendered host id formResponses formType v
               (In_get _ _ _ Hnodup Hin) Hobj) in Hrendered as (c & Hc & Hs).
      assert (H : In c (collect_successful (settled_results host id formResponses))).
      { apply collect_successful_In. split; [|exact Hs].
        unfold settled_results. rewrite <- Hc. apply in_map.
        apply validFormTypes_In; eauto. }
      rewrite Hnone in H. contradiction.
    - intro Hnone.
      destruct (collect_successful (settled_results host id formResponses))
        as [|c rest] eqn:E; [reflexivity|]. exfalso.
      assert (H : In c (collect_successful (settled_results host id formResponses)))
        by (rewrite E; now left).
      apply collect_successful_In in H as [Hin Hs].
      unfold settled_results in Hin. apply in_map_iff in Hin as (formType & Hc & Hin).
      apply validFormTypes_In in Hin as (v & Hin & Hobj); [|exact Hnodup].
      apply (Hnone formType v Hin Hobj).
      apply (certificatePromise_rendered host id formResponses formType v
               (In_get _ _ _ Hnodup Hin) Hobj). eauto. }
  split; [|split; [|split; [|split]]].
  - rewrite <- (validFormTypes_nil formResponses Hnodup).
    destruct Hrun as [(e & -> & Hwhy)|(id & log & -> & Hvalid & Hcount & Hout)].
    + simpl. split; [auto|reflexivity].
    + destruct Hout as [(Hnone & e & ->)|(Hsome & ->)]; simpl.
      * split; [|reflexivity]. intros _. right.
        rewrite filter_app. simpl. rewrite app_nil_r.
        rewrite Hnone in Hcount. now apply length_zero_iff_nil.
      * split; [discriminate|]. intros [Hv|Hg]; [contradiction|].
        rewrite Hg in Hcount. symmetry in Hcount.
        apply length_zero_iff_nil in Hcount. contradiction.
  - intros id -> Hid Hd1 Hd2. rewrite <- (Hcollected id).
    destruct Hrun as [(e & Hrun & Hwhy)|(id' & log & Hid' & Hvalid & _ & Hout)].
    + rewrite Hrun. simpl. split; [|reflexivity]. intros _.
      destruct Hwhy as [Hnil|[H|[H|[H|H]]]]; try congruence.
      unfold settled_results. rewrite Hnil. reflexivity.
    + injection Hid' as <-.
      destruct Hout as [(Hnone & e & ->)|(Hsome & ->)]; simpl.
      * split; [auto|reflexivity].
      * split; [discriminate|]. intro H. contradiction.
  - intros certificates Hok.
    destruct Hrun as [(e & -> & _)|(id & log & -> & _ & _ & Hout)]; [discriminate|].
    destruct Hout as [(_ & e & ->)|(Hsome & ->)]; [discriminate|].
    simpl in Hok. injection Hok as <-. split; [exact Hsome|]. eauto.
  - intro id. split.
    + unfold settled_results.
      apply Forall_forall. intros settled Hin.
      apply in_map_iff in Hin as (formType & <- & _).
      destruct (certificatePromise_settles host id formResponses formType)
        as (c & Hc & _ & Hstatus).
      eauto.
    + intros formType v Hin Hobj.
      destruct (certificatePromise_settles host id formResponses formType)
        as (c & Hc & Htype & Hstatus).
      exists c. split; [|auto].
      unfold settled_results. rewrite <- Hc. apply in_map.
      apply validFormTypes_In; eauto.
  - intros id formType v -> Hid Hd1 Hd2 Hin Hobj Hrendered.
    apply (certificatePromise_rendered host id formResponses formType v
             (In_get _ _ _ Hnodup Hin) Hobj) in Hrendered as (c & Hc & Hs).
    assert (Hentry : In formType (validFormTypes formResponses))
      by (apply validFormTypes_In; eauto).
    assert (Hvalid : validFormTypes formResponses <> []).
    { intro E. rewrite E in Hentry. contradiction. }
    assert (Hin' : In c (collect_successful (settled_results host id formResponses))).
    { apply collect_successful_In. split; [|exact Hs].
      unfold settled_results. rewrite <- Hc. now apply in_map. }
    exists c. subst run.
    rewrite (pipeline_accepted host id formResponses Hid Hd1 Hd2 Hvalid).
    destruct (List.length (collect_successful (settled_results host id formResponses))
              =? 0)%nat eqn:El.
    + apply length_zero_nil in El. rewrite El in Hin'. contradiction.
    + eauto.
Qed.

(** Two of the three object entries are generated, the e-file entry fails
    on its own, and the string entry is not an entry of the run. *)
Lemma generateFormCertificates_fails_iff_nothing_generated_witness :
  NoDup (map fst Samples.responses)
  /\ exists disposal transfer,
       snd (generateFormCertificates Samples.host (Some "F9") (Some Samples.responses))
       = Exn.Ok [disposal; transfer]
       /\ Certificate.formType disposal = Some "disposalFormData"
       /\ Certificate.formType transfer = Some "form365TransferData"
       /\ In disposal [disposal; transfer].
Proof.
  assert (Hnodup : NoDup (map fst Samples.responses)).
  { repeat constructor; simpl; intuition discriminate. }
  split; [exact Hnodup|].
  destruct (generateFormCertificates_fails_iff_nothing_generated Samples.host
              (Some "F9") Samples.responses Hnodup) as (_ & _ & _ & _ & H).
  destruct (H "F9" "disposalFormData" (Samples.payload "disposal") eq_refl
              ltac:(discriminate) eq_refl eq_refl
              ltac:(simpl; auto)
              ltac:(right; eexists; reflexivity)
              ltac:(eexists _, _; split; reflexivity))
    as (c & certificates & Hc & _ & Hrun & Hin).
  vm_compute in Hc. injection Hc as <-.
  vm_compute in Hrun. injection Hrun as <-.
  eexists _, _. split; [reflexivity|]. split; [reflexivity|]. split; [reflexivity|].
  exact Hin.
Defined.

(** The claim of C4 as the specification words it fails: an entry that is
    an empty object is taken up.  With the empty object as the only
    entry, and so with no entry that is a non-empty object, the pipeline
    does not fail: it returns the certificate the host rendered for that
    entry. *)
Lemma generateFormCertificates_empty_object_counterexample :
  let formResponses := [("disposalFormData", JS.VObj [])] in
  (forall formType v, In (formType, v) formResponses -> ~ nonempty_object v)
  /\ exists certificate,
       snd (generateFormCertificates Samples.host (Some "F9") (Some formResponses))
       = Exn.Ok [certificate]
       /\ Certificate.formType certificate = Some "disposalFormData"
       /\ Certificate.status certificate = Some "success".
Proof.
  split.
  - intros formType v [H|[]]. injection H as _ <-.
    intros [(item & items & H)|(field & fields & H)]; discriminate H.
  - eexists. split; [vm_compute; reflexivity|]. split; reflexivity.
Qed.

(** ** Certificate file names *)

Lemma sanitizeText_not_empty (text : option string) :
  PDFValidator.sanitizeText text <> "".
Proof.
  unfold PDFValidator.sanitizeText.
  destruct (negb (JS.truthy_str text)); [discriminate|].
  match goal with
  | |- (if (?s =? "")%string then _ else _) <> _ =>
      destruct (String.eqb_spec s ""); [discriminate|assumption]
  end.
Qed.

(** C7 fails on the code.  The name of a certificate file is made of the
    sanitised form id, the sanitised form type, the millisecond timestamp
    and a digest of these three; the random bytes drawn for the name are
    not used.  Two generations for the same case and form type within one
    millisecond therefore write to the same file name. *)
Theorem certificate_fileName_collides_within_a_millisecond :
  forall (md5_hex : string -> string) (formId formType : option string)
         (timestamp : Z) (randomId randomId' : string),
    certificate_fileName md5_hex formId formType timestamp randomId
    = certificate_fileName md5_hex formId formType timestamp randomId'
    /\ exists fileName,
         certificate_fileName md5_hex formId formType timestamp randomId
         = Exn.Ok fileName.
Proof.
  intros md5_hex formId formType timestamp randomId randomId'.
  split; [reflexivity|].
  unfold certificate_fileName.
  destruct (String.eqb_spec (PDFValidator.sanitizeText formId) "") as [E|_];
    [now apply sanitizeText_not_empty in E|].
  destruct (String.eqb_spec (PDFValidator.sanitizeText formType) "") as [E|_];
    [now apply sanitizeText_not_empty in E|].
  simpl. eauto.
Qed.

Example certificate_fileName_same_millisecond :
  certificate_fileName Samples.digest (Some "F9") (Some "disposalFormData")
    1704067200000 "9f86d081884c7d65"
  = Exn.Ok "F9_disposalFormData_1704067200000_33c0ffee.pdf"
  /\ certificate_fileName Samples.digest (Some "F9") (Some "disposalFormData")
       1704067200000 "2c26b46b68ffc68f"
     = Exn.Ok "F9_disposalFormData_1704067200000_33c0ffee.pdf".
Proof. split; reflexivity. Qed.

(** ** Record store adapter *)
Section StoreFacts.
Context {T : Type}.

Lemma loadJSON_never_throws (f : FileUtils.File T) :
  exists d, FileUtils.loadJSON f = Exn.Ok d.
Proof. destruct f as [| |[|d]]; cbv; eauto. Qed.

(** What a guarded reader computes from a file only depends on the
    collection the guard lets through. *)
Lemma guarded_read {R : Type} (f : FileUtils.File T) (k : list T -> R) (none : R) :
  k [] = none ->
  match FileUtils.loadJSON f with
  | Exn.Ok (FileUtils.DArray data) => k data
  | _ => none
  end
  = k (FileUtils.load_collection f).
Proof.
  intro Hk. unfold FileUtils.load_collection.
  destruct (FileUtils.loadJSON f) as [[data|v]|e]; congruence.
Qed.

End StoreFacts.

Lemma load_collection_as_array {T : Type} (f : FileUtils.File T) :
  FileUtils.load_collection (as_array f) = FileUtils.load_collection f.
Proof. destruct f as [| |[|[items|v]]]; reflexivity. Qed.

Lemma loadJSON_as_array {T : Type} (f : FileUtils.File T) :
  FileUtils.loadJSON (as_array f)
  = Exn.Ok (FileUtils.DArray (FileUtils.load_collection f)).
Proof. destruct f as [| |[|[items|v]]]; reflexivity. Qed.

Lemma as_array_idem {T : Type} (f : FileUtils.File T) :
  as_array (as_array f) = as_array f.
Proof. destruct f as [| |[|[items|v]]]; reflexivity. Qed.

Lemma as_collections_idem (w : World) :
  as_collections (as_collections w) = as_collections w.
Proof.
  unfold as_collections. cbn [PENDING_FORMS FORM_HISTORY CERTIFICATES].
  now rewrite !as_array_idem.
Qed.

Lemma load_pending_as_collections (w : World) :
  FileUtils.load_collection (PENDING_FORMS (as_collections w))
  = FileUtils.load_collection (PENDING_FORMS w).
Proof. apply load_collection_as_array. Qed.

Lemma load_history_as_collections (w : World) :
  FileUtils.load_collection (FORM_HISTORY (as_collections w))
  = FileUtils.load_collection (FORM_HISTORY w).
Proof. apply load_collection_as_array. Qed.

(** A handler that gave up leaves the store it was given. *)
Lemma same_outcome_given_up {R : Type} (reply : R) (w : World) :
  same_outcome (reply, as_collections w) (reply, w).
Proof. split; [reflexivity|apply as_collections_idem]. Qed.

(** A handler that wrote one collection leaves the others as they were. *)
Lemma same_outcome_pending {R : Type} (reply : R) (w : World)
    (stored : FileUtils.File Case.t) :
  same_outcome
    (reply, mkWorld stored (FORM_HISTORY (as_collections w))
              (CERTIFICATES (as_collections w)))
    (reply, mkWorld stored (FORM_HISTORY w) (CERTIFICATES w)).
Proof.
  split; [reflexivity|].
  unfold as_collections. cbn [fst snd PENDING_FORMS FORM_HISTORY CERTIFICATES].
  now rewrite !as_array_idem.
Qed.

Lemma same_outcome_history {R : Type} (reply : R) (w : World)
    (stored : FileUtils.File HistoryEntry.t) :
  same_outcome
    (reply, mkWorld (PENDING_FORMS (as_collections w)) stored
              (CERTIFICATES (as_collections w)))
    (reply, mkWorld (PENDING_FORMS w) stored (CERTIFICATES w)).
Proof.
  split; [reflexivity|].
  unfold as_collections. cbn [fst snd PENDING_FORMS FORM_HISTORY CERTIFICATES].
  now rewrite !as_array_idem.
Qed.

Lemma active_listing_guarded (w : World) (employeeId : option string) :
  active_listing (as_collections w) employeeId = active_listing w employeeId.
Proof.
  unfold active_listing, as_collections. cbn [CERTIFICATES].
  destruct (CERTIFICATES w) as [| |[|[items|v]]]; reflexivity.
Qed.

Lemma historical_listing_guarded (w : World) (employeeId : option string) :
  historical_listing (as_collections w) employeeId = historical_listing w employeeId.
Proof.
  unfold historical_listing, as_collections. cbn [FORM_HISTORY].
  destruct (FORM_HISTORY w) as [| |[|[items|v]]]; reflexivity.
Qed.

Lemma find_active_guarded (w : World) (certId : string) (employeeId : option string) :
  find_active (as_collections w) certId employeeId = find_active w certId employeeId.
Proof.
  unfold find_active, as_collections. cbn [CERTIFICATES].
  destruct (CERTIFICATES w) as [| |[|[items|v]]]; reflexivity.
Qed.

Lemma find_historical_guarded (w : World) (certId : string)
    (employeeId : option string) :
  find_historical (as_collections w) certId employeeId
  = find_historical w certId employeeId.
Proof.
  unfold find_historical, as_collections. cbn [FORM_HISTORY].
  destruct (FORM_HISTORY w) as [| |[|[items|v]]]; reflexivity.
Qed.

Lemma dashboard_activeCerts_guarded (w : World) (employeeId : option string) :
  dashboard_activeCerts (as_collections w) employeeId
  = dashboard_activeCerts w employeeId.
Proof.
  unfold dashboard_activeCerts, as_collections. cbn [CERTIFICATES].
  destruct (CERTIFICATES w) as [| |[|[items|v]]]; reflexivity.
Qed.

Lemma dashboard_historicalCertificates_guarded (w : World)
    (employeeId : option string) :
  dashboard_historicalCertificates (as_collections w) employeeId
  = dashboard_historicalCertificates w employeeId.
Proof.
  unfold dashboard_historicalCertificates, as_collections. cbn [FORM_HISTORY].
  destruct (FORM_HISTORY w) as [| |[|[items|v]]]; reflexivity.
Qed.

(** C10.  [loadJSON] returns a value for every file and never throws: for
    a missing file, for a file that cannot be read and for a file that is
    not JSON it returns the empty object.  The guard keeps what was
    loaded only when it is an array: it yields the items of a file that
    holds an array and the empty collection for any other file.  Every
    operation of the employee router that reads a collection, and the
    reader of the users collection of the login routes, therefore
    answers on any store as it answers on the store in which each file
    that holds no array is replaced by the empty array, and leaves the
    same collections behind. *)
Theorem loadJSON_total_and_collections_guarded :
  (forall (T : Type) (f : FileUtils.File T),
      Exn.throws (FileUtils.loadJSON f) = false
      /\ (exists d, FileUtils.loadJSON f = Exn.Ok d)
      /\ (FileUtils.Array_isArray
            (match FileUtils.loadJSON f with
             | Exn.Ok d => d
             | Exn.Throw _ => FileUtils.empty_object
             end) = false ->
          FileUtils.load_collection f = []))
  /\ (forall (T : Type),
         FileUtils.loadJSON (@FileUtils.Missing T) = Exn.Ok FileUtils.empty_object
         /\ FileUtils.loadJSON (@FileUtils.Unreadable T) = Exn.Ok FileUtils.empty_object
         /\ FileUtils.loadJSON (FileUtils.Stored (@FileUtils.Malformed T))
            = Exn.Ok FileUtils.empty_object
         /\ FileUtils.load_collection (@FileUtils.Missing T) = []
         /\ FileUtils.load_collection (FileUtils.Stored (@FileUtils.Malformed T)) = [])
  /\ (forall (T : Type) (f : FileUtils.File T),
         (forall items,
             f = FileUtils.Stored (FileUtils.WellFormed (FileUtils.DArray items)) ->
             FileUtils.load_collection f = items /\ as_array f = f)
         /\ ((forall items,
                 f <> FileUtils.Stored (FileUtils.WellFormed (FileUtils.DArray items))) ->
             FileUtils.load_collection f = []
             /\ as_array f
                = FileUtils.Stored (FileUtils.WellFormed (FileUtils.DArray []))))
  /\ (forall (USERS : FileUtils.File (option User.t)),
         (forall employees,
             USERS = FileUtils.Stored (FileUtils.WellFormed (FileUtils.DArray employees)) ->
             loadEmployeeUsers USERS = employees)
         /\ loadEmployeeUsers (as_array USERS) = loadEmployeeUsers USERS
         /\ forall session,
              employee_info (as_array USERS) session = employee_info USERS session)
  /\ (forall (Date_parse : string -> option Z) (env : Env) (w : World)
             (session : option SessionUser.t),
         previous_application Date_parse (as_collections w) session
         = previous_application Date_parse w session
         /\ tracking_details Date_parse env (as_collections w) session
            = tracking_details Date_parse env w session
         /\ certificates Date_parse (as_collections w) session
            = certificates Date_parse w session
         /\ (forall on_disk certId,
                download_certificate on_disk (as_collections w) session certId
                = download_certificate on_disk w session certId)
         /\ (forall rejectionReason rejectedAt role cleanupPerformed,
                dashboard_status Date_parse rejectionReason rejectedAt role
                  cleanupPerformed (as_collections w) session
                = dashboard_status Date_parse rejectionReason rejectedAt role
                    cleanupPerformed w session)
         /\ (forall rejectionReason,
                assigned_forms Date_parse rejectionReason (as_collections w) session
                = assigned_forms Date_parse rejectionReason w session)
         /\ (forall inherited_text formName,
                form_data Date_parse inherited_text (as_collections w) session formName
                = form_data Date_parse inherited_text w session formName)
         /\ (forall rejectionReason,
                form_status Date_parse rejectionReason (as_collections w) session
                = form_status Date_parse rejectionReason w session)
         /\ track Date_parse (as_collections w) session = track Date_parse w session
         /\ history Date_parse (as_collections w) session
            = history Date_parse w session
         /\ confirmation Date_parse (as_collections w) session
            = confirmation Date_parse w session
         /\ (forall req,
                same_outcome (submit_no_dues Date_parse env (as_collections w) req)
                  (submit_no_dues Date_parse env w req))
         /\ (forall JSON_parse TypeError_message reqKey storageKey body,
                same_outcome
                  (savePartialForm Date_parse JSON_parse TypeError_message reqKey
                     storageKey env (as_collections w) session body)
                  (savePartialForm Date_parse JSON_parse TypeError_message reqKey
                     storageKey env w session body))
         /\ (forall body,
                same_outcome (final_submit Date_parse env (as_collections w) session body)
                  (final_submit Date_parse env w session body))
         /\ (forall employeeId formData,
                same_outcome
                  (moveCompletedFormToHistory env (as_collections w) employeeId formData)
                  (moveCompletedFormToHistory env w employeeId formData))).
Proof.
  split; [|split; [|split; [|split]]].
  - intros T f. split; [|split].
    + destruct f as [| |[|d]]; reflexivity.
    + apply loadJSON_never_throws.
    + unfold FileUtils.load_collection.
      destruct (FileUtils.loadJSON f) as [[data|v]|e]; simpl;
        [discriminate|reflexivity|reflexivity].
  - intro T. repeat split.
  - intros T f. split.
    + intros items ->. split; reflexivity.
    + intro Hnone. destruct f as [| |[|[items|v]]]; try (split; reflexivity).
      exfalso. exact (Hnone items eq_refl).
  - intro USERS. split; [|split].
    + intros employees ->. reflexivity.
    + destruct USERS as [| |[|[items|v]]]; reflexivity.
    + intro session. destruct USERS as [| |[|[items|v]]]; reflexivity.
  - intros Date_parse env w session.
    repeat match goal with |- _ /\ _ => split end.
    + unfold previous_application. now rewrite load_pending_as_collections.
    + unfold tracking_details. now rewrite load_pending_as_collections.
    + unfold certificates. destruct session as [sessionUser|]; [|reflexivity].
      now rewrite active_listing_guarded, historical_listing_guarded.
    + intros on_disk certId.
      unfold download_certificate. destruct session as [sessionUser|]; [|reflexivity].
      now rewrite find_active_guarded, find_historical_guarded.
    + intros rejectionReason rejectedAt role cleanupPerformed.
      unfold dashboard_status. destruct session as [sessionUser|]; [|reflexivity].
      now rewrite load_pending_as_collections, dashboard_activeCerts_guarded,
        dashboard_historicalCertificates_guarded.
    + intro rejectionReason. unfold assigned_forms.
      now rewrite load_pending_as_collections.
    + intros inherited_text formName. unfold form_data.
      now rewrite load_pending_as_collections.
    + intro rejectionReason. unfold form_status.
      now rewrite load_pending_as_collections.
    + unfold track. now rewrite load_pending_as_collections.
    + unfold history, myHistory. now rewrite load_history_as_collections.
    + unfold confirmation, as_collections. cbn [PENDING_FORMS].
      destruct session as [sessionUser|]; [|reflexivity].
      destruct (PENDING_FORMS w) as [| |[|[items|v]]]; reflexivity.
    + intro req. unfold submit_no_dues.
      destruct (SubmitRequest.body req), (SubmitRequest.session req),
        (SubmitRequest.file req); try apply same_outcome_given_up.
      match goal with |- context [if ?c then _ else _] => destruct c end;
        [apply same_outcome_given_up|].
      cbv zeta. rewrite load_pending_as_collections.
      destruct (getLatestFormForEmployee _ _ _ _); [apply same_outcome_given_up|].
      destruct (FileUtils.saveJSON _ _);
        [apply same_outcome_pending|apply same_outcome_given_up].
    + intros JSON_parse TypeError_message reqKey storageKey body.
      unfold savePartialForm.
      destruct session as [sessionUser|]; [|apply same_outcome_given_up].
      destruct (negb _); [apply same_outcome_given_up|].
      cbv zeta. rewrite load_pending_as_collections.
      repeat match goal with
             | |- context [match ?x with _ => _ end] =>
                 destruct x; try apply same_outcome_given_up;
                 try apply same_outcome_pending
             end.
    + intro body. unfold final_submit.
      destruct session as [sessionUser|]; [|apply same_outcome_given_up].
      destruct (negb _); [apply same_outcome_given_up|].
      cbv zeta. rewrite load_pending_as_collections.
      repeat match goal with
             | |- context [match ?x with _ => _ end] =>
                 destruct x; try apply same_outcome_given_up;
                 try apply same_outcome_pending
             end.
    + intros employeeId formData. unfold moveCompletedFormToHistory.
      cbv zeta. rewrite load_history_as_collections.
      destruct (FileUtils.saveJSON _ _);
        [apply same_outcome_history|apply same_outcome_given_up].
Qed.

(** A store whose files are missing, and a store whose case collection is
    not JSON, answer a first submission and a request for the dashboard
    as the empty store does. *)
Lemma loadJSON_total_and_collections_guarded_witness :
  FileUtils.loadJSON (@FileUtils.Missing Case.t) = Exn.Ok FileUtils.empty_object
  /\ FileUtils.load_collection (FileUtils.Stored (@FileUtils.Malformed Case.t)) = []
  /\ fst (submit_no_dues IsoDate.parse Samples.env
            (mkWorld (FileUtils.Stored FileUtils.Malformed)
               FileUtils.Missing FileUtils.Missing)
            Samples.submit_request)
     = fst (submit_no_dues IsoDate.parse Samples.env
              (mkWorld (FileUtils.Stored (FileUtils.WellFormed (FileUtils.DArray [])))
                 (FileUtils.Stored (FileUtils.WellFormed (FileUtils.DArray [])))
                 (FileUtils.Stored (FileUtils.WellFormed (FileUtils.DArray []))))
              Samples.submit_request)
  /\ confirmation IsoDate.parse
       (mkWorld (FileUtils.Stored (FileUtils.WellFormed (FileUtils.DOther JS.VNull)))
          FileUtils.Unreadable FileUtils.Missing)
       (Some Samples.session_E1)
     = confirmation IsoDate.parse
         (mkWorld (FileUtils.Stored (FileUtils.WellFormed (FileUtils.DArray [])))
            (FileUtils.Stored (FileUtils.WellFormed (FileUtils.DArray [])))
            (FileUtils.Stored (FileUtils.WellFormed (FileUtils.DArray []))))
         (Some Samples.session_E1).
Proof.
  destruct loadJSON_total_and_collections_guarded
    as (Htotal & Hempty & _ & _ & Hguard).
  destruct (Hempty Case.t) as (Hmissing & _).
  destruct (Htotal Case.t (FileUtils.Stored FileUtils.Malformed)) as (_ & _ & Hnone).
  split; [exact Hmissing|]. split; [exact (Hnone eq_refl)|]. split.
  - destruct (Hguard IsoDate.parse Samples.env
                (mkWorld (FileUtils.Stored FileUtils.Malformed)
                   FileUtils.Missing FileUtils.Missing)
                (Some Samples.session_E1))
      as (_ & _ & _ & _ & _ & _ & _ & _ & _ & _ & _ & Hsubmit & _).
    destruct (Hsubmit Samples.submit_request) as [Hreply _].
    rewrite <- Hreply. reflexivity.
  - destruct (Hguard IsoDate.parse Samples.env
                (mkWorld (FileUtils.Stored (FileUtils.WellFormed
                                              (FileUtils.DOther JS.VNull)))
                   FileUtils.Unreadable FileUtils.Missing)
                (Some Samples.session_E1))
      as (_ & _ & _ & _ & _ & _ & _ & _ & _ & _ & Hconfirmation & _).
    rewrite <- Hconfirmation. reflexivity.
Defined.

(* ================================================================== *)
(** * Further properties                                                *)
(* ================================================================== *)

(** ** Objects and arrays *)

Lemma get_set_same {V : Type} (fields : list (string * V)) (key : string) (v : V) :
  JS.get (JS.set fields key v) key = Some v.
Proof.
  induction fields as [|[k x] rest IH]; simpl.
  - now rewrite String.eqb_refl.
  - destruct (String.eqb_spec k key) as [->|Hne]; simpl.
    + now rewrite String.eqb_refl.
    + apply String.eqb_neq in Hne. now rewrite Hne.
Qed.

Lemma get_set_other {V : Type} (fields : list (string * V)) (key key' : string) (v : V) :
  key' <> key ->
  JS.get (JS.set fields key v) key' = JS.get fields key'.
Proof.
  intro Hne. induction fields as [|[k x] rest IH]; simpl.
  - destruct (String.eqb_spec key key'); [congruence|reflexivity].
  - destruct (String.eqb_spec k key) as [->|Hk]; simpl.
    + destruct (String.eqb_spec key key'); [congruence|reflexivity].
    + destruct (String.eqb_spec k key'); [reflexivity|exact IH].
Qed.

Lemma get_assign_none {V : Type} (fields : list (string * V)) (key : string) :
  JS.get (JS.assign fields key None) key = None.
Proof.
  unfold JS.assign. induction fields as [|[k x] rest IH]; simpl; [reflexivity|].
  destruct (String.eqb_spec k key) as [->|Hk]; simpl; [exact IH|].
  apply String.eqb_neq in Hk. now rewrite Hk.
Qed.

Lemma get_assign_other {V : Type} (fields : list (string * V)) (key key' : string)
    (v : option V) :
  key' <> key ->
  JS.get (JS.assign fields key v) key' = JS.get fields key'.
Proof.
  intro Hne. destruct v as [x|]; [now apply get_set_other|].
  unfold JS.assign. induction fields as [|[k y] rest IH]; simpl; [reflexivity|].
  destruct (String.eqb_spec k key) as [->|Hk]; simpl.
  - destruct (String.eqb_spec key key'); [congruence|exact IH].
  - destruct (String.eqb_spec k key'); [reflexivity|exact IH].
Qed.

Lemma findIndex_app_first {A : Type} (p : A -> bool) (pre : list A) (x : A)
    (rest : list A) :
  (forall y, In y pre -> p y = false) -> p x = true ->
  JS.findIndex p (pre ++ x :: rest) = Some (List.length pre).
Proof.
  intros Hpre Hx. induction pre as [|y pre IH]; simpl.
  - now rewrite Hx.
  - rewrite (Hpre y (or_introl eq_refl)), IH; [reflexivity|].
    intros z Hz. apply Hpre. now right.
Qed.

Lemma set_nth_app {A : Type} (pre : list A) (x y : A) (rest : list A) :
  JS.set_nth (pre ++ x :: rest) (List.length pre) y = (pre ++ y :: rest)%list.
Proof. induction pre as [|z pre IH]; simpl; [reflexivity|now rewrite IH]. Qed.

(** Sorting commutes with a change of the elements that the comparator
    does not see. *)
Lemma insert_map {A : Type} (cmp : A -> A -> option Z) (u : A -> A) (x : A)
    (l : list A) :
  (forall y, In y l -> cmp (u x) (u y) = cmp x y) ->
  JS.insert cmp (u x) (map u l) = map u (JS.insert cmp x l).
Proof.
  induction l as [|y rest IH]; intro H; simpl; [reflexivity|].
  unfold JS.not_after. rewrite (H y (or_introl eq_refl)).
  destruct (match cmp x y with Some d => d <=? 0 | None => true end);
    [reflexivity|].
  simpl. f_equal. apply IH. intros z Hz. apply H. now right.
Qed.

Lemma sort_map {A : Type} (cmp : A -> A -> option Z) (u : A -> A) (l : list A) :
  (forall x y, In x l -> In y l -> cmp (u x) (u y) = cmp x y) ->
  JS.sort cmp (map u l) = map u (JS.sort cmp l).
Proof.
  induction l as [|x rest IH]; intro H; simpl; [reflexivity|].
  rewrite IH by (intros a b Ha Hb; apply H; now right).
  apply insert_map. intros y Hy. apply H; [now left|].
  right. exact (proj1 (sort_In cmp rest y) Hy).
Qed.

Lemma filter_map_same {A : Type} (p : A -> bool) (u : A -> A) (l : list A) :
  (forall x, In x l -> p (u x) = p x) ->
  filter p (map u l) = map u (filter p l).
Proof.
  induction l as [|x rest IH]; intro H; simpl; [reflexivity|].
  rewrite (H x (or_introl eq_refl)), IH by (intros y Hy; apply H; now right).
  destruct (p x); reflexivity.
Qed.

(** Replacing the one element that carries a given key is a map. *)
Lemma set_nth_as_map {A : Type} (key : A -> option string) (g : A -> A)
    (l : list A) (i : nat) (a : A) :
  NoDup (map key l) ->
  nth_error l i = Some a ->
  JS.set_nth l i (g a)
  = map (fun c => if JS.strict_eq (key c) (key a) then g c else c) l.
Proof.
  revert i. induction l as [|y rest IH]; intros i Hnd Hi; [destruct i; discriminate|].
  inversion Hnd as [|? ? Hnotin Hnd']; subst.
  destruct i as [|i]; simpl in Hi |- *.
  - injection Hi as ->. rewrite strict_eq_refl. f_equal.
    rewrite <- (map_id rest) at 1. apply map_ext_in. intros c Hc.
    destruct (JS.strict_eq (key c) (key a)) eqn:E; [|reflexivity].
    apply strict_eq_true_iff in E. exfalso. apply Hnotin. rewrite <- E.
    now apply in_map.
  - destruct (JS.strict_eq (key y) (key a)) eqn:E.
    + apply strict_eq_true_iff in E. exfalso. apply Hnotin. rewrite E.
      apply in_map. eapply nth_error_In. exact Hi.
    + f_equal. now apply IH.
Qed.

(** ** The case a mutation selects *)

Lemma NoDup_map_injective {A B : Type} (f : A -> B) (l : list A) (a b : A) :
  NoDup (map f l) -> In a l -> In b l -> f a = f b -> a = b.
Proof.
  induction l as [|x rest IH]; intros Hnd Ha Hb Hf; [contradiction|].
  inversion Hnd as [|? ? Hnotin Hnd']; subst.
  destruct Ha as [->|Ha], Hb as [->|Hb]; auto.
  - exfalso. apply Hnotin. rewrite Hf. now apply in_map.
  - exfalso. apply Hnotin. rewrite <- Hf. now apply in_map.
Qed.

Section SelectedCase.
Variable Date_parse : string -> option Z.

(** With distinct form ids, the case a mutation handler selects by the
    form id of the latest case is the latest case itself. *)
Lemma selected_is_latest (forms : list Case.t) (employeeId : option string)
    (latest form : Case.t) (i : nat) :
  NoDup (map Case.formId forms) ->
  getLatestFormForEmployee Date_parse forms employeeId None = Some latest ->
  nth_error forms i = Some form ->
  Case.formId form = Case.formId latest ->
  form = latest.
Proof.
  intros Hnd Hlatest Hnth Hid.
  destruct (latest_In Date_parse _ _ _ _ Hlatest) as [Hin _].
  apply (NoDup_map_injective Case.formId forms form latest Hnd); auto.
  eapply nth_error_In. exact Hnth.
Qed.

(** After the latest case has been replaced by an update that keeps its
    owner and its date, the update is the latest case. *)
Lemma latest_after_update (forms : list Case.t) (employeeId : option string)
    (latest : Case.t) (i : nat) (upd : Case.t -> Case.t) :
  NoDup (map Case.formId forms) ->
  getLatestFormForEmployee Date_parse forms employeeId None = Some latest ->
  nth_error forms i = Some latest ->
  Case.employeeId (upd latest) = Case.employeeId latest ->
  form_date Date_parse (upd latest) = form_date Date_parse latest ->
  getLatestFormForEmployee Date_parse (JS.set_nth forms i (upd latest)) employeeId None
  = Some (upd latest).
Proof.
  intros Hnd Hlatest Hnth Hemp Hdate.
  rewrite (set_nth_as_map Case.formId upd forms i latest Hnd Hnth).
  set (u := fun c => if JS.strict_eq (Case.formId c) (Case.formId latest)
                     then upd c else c).
  assert (Hin : In latest forms) by (eapply nth_error_In; exact Hnth).
  assert (Hu : forall c, In c forms -> u c = c \/ (c = latest /\ u c = upd latest)).
  { intros c Hc. unfold u.
    destruct (JS.strict_eq (Case.formId c) (Case.formId latest)) eqn:E; [|now left].
    apply strict_eq_true_iff in E. right.
    assert (c = latest) by (apply (NoDup_map_injective Case.formId forms); auto).
    subst c. auto. }
  assert (Hue : forall c, In c forms -> Case.employeeId (u c) = Case.employeeId c).
  { intros c Hc. destruct (Hu c Hc) as [->|[-> ->]]; auto. }
  assert (Hud : forall c, In c forms ->
                  form_date Date_parse (u c) = form_date Date_parse c).
  { intros c Hc. destruct (Hu c Hc) as [->|[-> ->]]; auto. }
  unfold getLatestFormForEmployee in *. unfold employeeForms in *.
  rewrite filter_map_same by (intros c Hc; now rewrite Hue).
  rewrite sort_map.
  - destruct (JS.sort _ _) as [|h t]; [discriminate|].
    simpl in Hlatest |- *. injection Hlatest as ->. f_equal.
    unfold u. now rewrite strict_eq_refl.
  - intros x y Hx Hy. apply filter_In in Hx as [Hx _], Hy as [Hy _].
    unfold latest_first. now rewrite (Hud x Hx), (Hud y Hy).
Qed.

End SelectedCase.

(** ** Partial save *)
Section SavePartialFacts.
Variable Date_parse : string -> option Z.
Variable JSON_parse : string -> Exn.result JS.value.
Variable TypeError_message : string.

Lemma savePartialForm_cases (reqKey storageKey : string) (env : Env) (w : World)
    (sessionUser : SessionUser.t) (body : option (list (string * JS.value))) :
  JS.truthy_str (session_employeeId sessionUser) = true ->
  let forms := FileUtils.load_collection (PENDING_FORMS w) in
  let reply :=
    savePartialForm Date_parse JSON_parse TypeError_message reqKey storageKey env w
      (Some sessionUser) body in
  match getLatestFormForEmployee Date_parse forms (session_employeeId sessionUser) None with
  | None => Api.code (fst reply) = 404 /\ snd reply = w
  | Some latest =>
      exists i form,
        nth_error forms i = Some form
        /\ Case.formId form = Case.formId latest
        /\ (forall j x, (j < i)%nat -> nth_error forms j = Some x ->
                        Case.formId x <> Case.formId latest)
        /\ match parse_partial JSON_parse TypeError_message reqKey body with
           | Exn.Throw _ => Api.code (fst reply) = 400 /\ snd reply = w
           | Exn.Ok parsedData =>
               if JS.is_object (Some parsedData) then
                 match write_error env with
                 | None =>
                     reply
                     = (Api.json (Api.Saved (storageKey ++ " saved successfully")
                                    (JSLib.object_keys parsedData)
                                    (JS.now_iso (clock env))),
                        mkWorld (FileUtils.Stored (FileUtils.WellFormed
                                   (FileUtils.DArray
                                      (JS.set_nth forms i
                                         (save_partial_update (clock env) storageKey
                                            parsedData form)))))
                          (FORM_HISTORY w) (CERTIFICATES w))
                 | Some _ => Api.code (fst reply) = 500 /\ snd reply = w
                 end
               else Api.code (fst reply) = 400 /\ snd reply = w
           end
  end.
Proof.
  intros Htruthy forms reply. subst reply. unfold savePartialForm.
  rewrite Htruthy. cbv zeta. fold forms. simpl negb. cbv iota.
  destruct (getLatestFormForEmployee Date_parse forms
              (session_employeeId sessionUser) None) as [latest|] eqn:Elatest;
    [|split; reflexivity].
  destruct (latest_In Date_parse _ _ _ _ Elatest) as [Hin _].
  destruct (findIndex_found
              (fun f => JS.strict_eq (Case.formId f) (Case.formId latest))
              forms latest Hin (strict_eq_refl _)) as [i Hi].
  destruct (findIndex_nth_error _ _ _ Hi) as (form & Hnth & Hp).
  exists i, form. rewrite Hi, Hnth.
  split; [reflexivity|]. split; [now apply strict_eq_true_iff|]. split.
  - intros j x Hlt Hj Heq.
    pose proof (findIndex_least _ _ _ Hi j x Hlt Hj) as Hf. simpl in Hf.
    apply strict_eq_true_iff in Heq. congruence.
  - destruct (parse_partial JSON_parse TypeError_message reqKey body) as [parsed|e];
      [|split; reflexivity].
    change (JS.truthy parsed && JS.typeof_is_object parsed)%bool
      with (JS.is_object (Some parsed)).
    destruct (JS.is_object (Some parsed)); simpl; [|split; reflexivity].
    unfold FileUtils.saveJSON. destruct (write_error env); simpl;
      [split; reflexivity|reflexivity].
Qed.

End SavePartialFacts.

(** X1.  A partial save that is not answered with 200 leaves the store as
    it was.  One that is answered with 200 rewrites the case collection
    only, and in it only the selected case, of which it sets the response
    under the storage key to the parsed object and [lastUpdated] to the
    time of the call: the status, the other responses, the other
    properties and the other cases stay as they were. *)
Theorem savePartialForm_changes_one_response :
  forall (Date_parse : string -> option Z) (JSON_parse : string -> Exn.result JS.value)
         (TypeError_message reqKey storageKey : string) (env : Env) (w : World)
         (session : option SessionUser.t) (body : option (list (string * JS.value))),
    let forms := FileUtils.load_collection (PENDING_FORMS w) in
    let reply :=
      savePartialForm Date_parse JSON_parse TypeError_message reqKey storageKey env w
        session body in
    (Api.code (fst reply) <> 200 -> snd reply = w)
    /\ (Api.code (fst reply) = 200 ->
        exists i form parsedData form',
          nth_error forms i = Some form
          /\ parse_partial JSON_parse TypeError_message reqKey body = Exn.Ok parsedData
          /\ JS.is_object (Some parsedData) = true
          /\ FileUtils.load_collection (PENDING_FORMS (snd reply))
             = JS.set_nth forms i form'
          /\ FORM_HISTORY (snd reply) = FORM_HISTORY w
          /\ CERTIFICATES (snd reply) = CERTIFICATES w
          /\ (forall j, j <> i ->
                nth_error (JS.set_nth forms i form') j = nth_error forms j)
          /\ Case.with_lastUpdated (Case.lastUpdated form)
               (Case.with_formResponses (Case.formResponses form) form')
             = form
          /\ Case.lastUpdated form' = Some (JS.now_iso (clock env))
          /\ exists responses',
               Case.formResponses form' = Some responses'
               /\ JS.get responses' storageKey = Some parsedData
               /\ forall key, key <> storageKey ->
                    JS.get responses' key
                    = JS.get (match Case.formResponses form with
                              | Some r => r
                              | None => []
                              end) key).
Proof.
  intros Date_parse JSON_parse TypeError_message reqKey storageKey env w session body
         forms reply.
  assert (Hcases :
    (Api.code (fst reply) <> 200 /\ snd reply = w)
    \/ exists i form parsedData,
         nth_error forms i = Some form
         /\ parse_partial JSON_parse TypeError_message reqKey body = Exn.Ok parsedData
         /\ JS.is_object (Some parsedData) = true
         /\ reply
            = (Api.json (Api.Saved (storageKey ++ " saved successfully")
                           (JSLib.object_keys parsedData) (JS.now_iso (clock env))),
               mkWorld (FileUtils.Stored (FileUtils.WellFormed
                          (FileUtils.DArray
                             (JS.set_nth forms i
                                (save_partial_update (clock env) storageKey
                                   parsedData form)))))
                 (FORM_HISTORY w) (CERTIFICATES w))).
  { subst reply. destruct session as [sessionUser|];
      [|left; split; [discriminate|reflexivity]].
    destruct (JS.truthy_str (session_employeeId sessionUser)) eqn:Htruthy.
    - pose proof (savePartialForm_cases Date_parse JSON_parse TypeError_message
                    reqKey storageKey env w sessionUser body Htruthy) as H.
      cbv zeta in H. fold forms in H.
      destruct (getLatestFormForEmployee Date_parse forms
                  (session_employeeId sessionUser) None).
      + destruct H as (i & form & Hnth & _ & _ & H).
        destruct (parse_partial JSON_parse TypeError_message reqKey body)
          as [parsed|e] eqn:Eparse.
        * destruct (JS.is_object (Some parsed)) eqn:Eobj.
          -- destruct (write_error env).
             ++ left. destruct H as [-> ->]. split; [discriminate|reflexivity].
             ++ right. exists i, form, parsed. auto.
          -- left. destruct H as [-> ->]. split; [discriminate|reflexivity].
        * left. destruct H as [-> ->]. split; [discriminate|reflexivity].
      + left. destruct H as [-> ->]. split; [discriminate|reflexivity].
    - left. unfold savePartialForm. rewrite Htruthy.
      split; [discriminate|reflexivity]. }
  split.
  - intro Hcode. destruct Hcases as [[_ H]|(i & form & parsed & _ & _ & _ & Hr)];
      [exact H|]. rewrite Hr in Hcode. now elim Hcode.
  - intro Hcode. destruct Hcases as [[H _]|(i & form & parsed & Hnth & Hp & Ho & Hr)];
      [contradiction|].
    exists i, form, parsed, (save_partial_update (clock env) storageKey parsed form).
    rewrite Hr. simpl.
    repeat (split; [first [assumption | reflexivity]|]).
    split; [intros j Hj; apply set_nth_other; congruence|].
    split; [destruct form; reflexivity|]. split; [reflexivity|].
    eexists. split; [reflexivity|]. split; [apply get_set_same|].
    intros key Hkey. now apply get_set_other.
Qed.

Lemma savePartialForm_changes_one_response_witness :
  snd (savePartialForm IsoDate.parse Samples.parse_field "undefined body"
         "disposalForm" "disposalFormData" Samples.env
         (Samples.world_of [Samples.older; Samples.newer])
         (Some Samples.session_E1) None)
  = Samples.world_of [Samples.older; Samples.newer]
  /\ exists i form',
       FileUtils.load_collection
         (PENDING_FORMS
            (snd (savePartialForm IsoDate.parse Samples.parse_field "undefined body"
                    "disposalForm" "disposalFormData" Samples.env
                    (Samples.world_of [Samples.older; Samples.newer])
                    (Some Samples.session_E1) (Some Samples.save_body))))
       = JS.set_nth [Samples.older; Samples.newer] i form'
       /\ Case.lastUpdated form' = Some (JS.now_iso (clock Samples.env)).
Proof.
  split.
  - destruct (savePartialForm_changes_one_response IsoDate.parse Samples.parse_field
                "undefined body" "disposalForm" "disposalFormData" Samples.env
                (Samples.world_of [Samples.older; Samples.newer])
                (Some Samples.session_E1) None) as [H _].
    apply H. discriminate.
  - destruct (savePartialForm_changes_one_response IsoDate.parse Samples.parse_field
                "undefined body" "disposalForm" "disposalFormData" Samples.env
                (Samples.world_of [Samples.older; Samples.newer])
                (Some Samples.session_E1) (Some Samples.save_body)) as [_ H].
    destruct (H eq_refl)
      as (i & form & parsed & form' & _ & _ & _ & Hstored & _ & _ & _ & _ & Hlast & _).
    exists i, form'. split; [exact Hstored | exact Hlast].
Defined.

Lemma load_collection_stored {T : Type} (items : list T) :
  FileUtils.load_collection
    (FileUtils.Stored (FileUtils.WellFormed (FileUtils.DArray items)))
  = items.
Proof. reflexivity. Qed.

Lemma formMap_get (reqKey storageKey : string) :
  In (reqKey, storageKey) formMap ->
  JS.get formMap reqKey = Some storageKey /\ (reqKey =? "")%string = false.
Proof.
  unfold formMap. simpl.
  intros [H|[H|[H|[H|[]]]]]; injection H as <- <-; split; reflexivity.
Qed.

(** X2.  What a partial save stored is what [/form-data] returns: when
    the form ids of the collection are distinct and the latest case of
    the employee has a submission date, a partial save under a route of
    [formMap] that is answered with 200 is followed by a [/form-data]
    reply, for the request key of that route, that carries the parsed
    object and [hasData: true]. *)
Theorem form_data_returns_what_was_saved :
  forall (Date_parse : string -> option Z) (JSON_parse : string -> Exn.result JS.value)
         (TypeError_message : string) (inherited_text : string -> string)
         (reqKey storageKey : string) (env : Env) (w : World)
         (sessionUser : SessionUser.t) (body : option (list (string * JS.value))),
    let forms := FileUtils.load_collection (PENDING_FORMS w) in
    let reply :=
      savePartialForm Date_parse JSON_parse TypeError_message reqKey storageKey env w
        (Some sessionUser) body in
    In (reqKey, storageKey) formMap ->
    NoDup (map Case.formId forms) ->
    (forall latest,
        getLatestFormForEmployee Date_parse forms (session_employeeId sessionUser) None
        = Some latest ->
        JS.truthy_str (Case.submissionDate latest) = true) ->
    Api.code (fst reply) = 200 ->
    exists parsedData,
      parse_partial JSON_parse TypeError_message reqKey body = Exn.Ok parsedData
      /\ form_data Date_parse inherited_text (snd reply) (Some sessionUser) (Some reqKey)
         = Api.json (Api.FormData (Some parsedData) true).
Proof.
  intros Date_parse JSON_parse TypeError_message inherited_text reqKey storageKey env w
         sessionUser body forms reply Hroute Hnd Hdated Hcode.
  destruct (JS.truthy_str (session_employeeId sessionUser)) eqn:Htruthy.
  2:{ subst reply. unfold savePartialForm in Hcode. rewrite Htruthy in Hcode.
      discriminate. }
  pose proof (savePartialForm_cases Date_parse JSON_parse TypeError_message
                reqKey storageKey env w sessionUser body Htruthy) as H.
  cbv zeta in H. fold forms in H. fold reply in H.
  destruct (getLatestFormForEmployee Date_parse forms
              (session_employeeId sessionUser) None) as [latest|] eqn:Elatest.
  2:{ destruct H as [H _]. rewrite H in Hcode. discriminate. }
  destruct H as (i & form & Hnth & Hid & _ & H).
  assert (form = latest) as ->
    by (eapply selected_is_latest; eauto).
  destruct (parse_partial JSON_parse TypeError_message reqKey body) as [parsed|e].
  2:{ destruct H as [H _]. rewrite H in Hcode. discriminate. }
  destruct (JS.is_object (Some parsed)) eqn:Eobj.
  2:{ destruct H as [H _]. rewrite H in Hcode. discriminate. }
  destruct (write_error env).
  { destruct H as [H _]. rewrite H in Hcode. discriminate. }
  exists parsed. split; [reflexivity|]. rewrite H. simpl snd.
  destruct (formMap_get reqKey storageKey Hroute) as [Hget Hne].
  unfold form_data. simpl JS.truthy_str. rewrite Hne. simpl negb. cbv iota.
  simpl PENDING_FORMS. rewrite load_collection_stored.
  rewrite (latest_after_update Date_parse forms (session_employeeId sessionUser)
             latest i (save_partial_update (clock env) storageKey parsed)
             Hnd Elatest Hnth).
  - simpl JS.show. rewrite Hget. simpl Case.formResponses. cbv iota.
    rewrite get_set_same. unfold JSLib.or_value.
    simpl in Eobj. apply andb_true_iff in Eobj as [Et _]. rewrite Et.
    cbv iota. now rewrite Et.
  - destruct latest; reflexivity.
  - unfold form_date. specialize (Hdated latest eq_refl).
    destruct latest; simpl in *. unfold JS.or_str. rewrite Hdated. reflexivity.
Qed.

Lemma form_data_returns_what_was_saved_witness :
  exists parsedData,
    parse_partial Samples.parse_field "undefined body" "disposalForm"
      (Some Samples.save_body) = Exn.Ok parsedData
    /\ form_data IsoDate.parse Samples.member_text
         (snd (savePartialForm IsoDate.parse Samples.parse_field "undefined body"
                 "disposalForm" "disposalFormData" Samples.env
                 (Samples.world_of [Samples.older; Samples.newer])
                 (Some Samples.session_E1) (Some Samples.save_body)))
         (Some Samples.session_E1) (Some "disposalForm")
       = Api.json (Api.FormData (Some parsedData) true).
Proof.
  apply (form_data_returns_what_was_saved IsoDate.parse Samples.parse_field
           "undefined body" Samples.member_text "disposalForm" "disposalFormData"
           Samples.env (Samples.world_of [Samples.older; Samples.newer])
           Samples.session_E1 (Some Samples.save_body)).
  - simpl. auto.
  - simpl. repeat constructor; simpl; intuition discriminate.
  - intros latest Hlatest. vm_compute in Hlatest. injection Hlatest as <-.
    reflexivity.
  - reflexivity.
Defined.

(** ** Final submit and submit *)

(** X3.  Final submit selects the case to write by form id alone: it
    rewrites the first case of the collection that carries the form id of
    the employee's latest case, whoever owns that case, and leaves every
    other case as it was. *)
Theorem final_submit_writes_first_case_with_formId :
  forall (Date_parse : string -> option Z) (env : Env) (w : World)
         (sessionUser : SessionUser.t) (body : option FinalSubmitBody.t)
         (latest other : Case.t) (pre rest : list Case.t),
    let b := match body with Some b => b | None => FinalSubmitBody.empty end in
    let reply := final_submit Date_parse env w (Some sessionUser) body in
    JS.truthy_str (session_employeeId sessionUser) = true ->
    FileUtils.load_collection (PENDING_FORMS w) = (pre ++ other :: rest)%list ->
    getLatestFormForEmployee Date_parse (pre ++ other :: rest)%list
      (session_employeeId sessionUser) None = Some latest ->
    (forall x, In x pre -> Case.formId x <> Case.formId latest) ->
    Case.formId other = Case.formId latest ->
    final_payload_ok b = true ->
    write_error env = None ->
    Http.code (fst reply) = 200
    /\ FileUtils.load_collection (PENDING_FORMS (snd reply))
       = (pre ++ final_submit_update (clock env) b other :: rest)%list.
Proof.
  intros Date_parse env w sessionUser body latest other pre rest b reply
         Htruthy Hforms Hlatest Hpre Hother Hok Hwrite.
  pose proof (final_submit_cases Date_parse env w sessionUser body Htruthy) as H.
  cbv zeta in H. fold b in H. fold reply in H.
  rewrite Hforms, Hlatest, Hok, Hwrite in H.
  destruct H as (i & form & Hi & Hnth & _ & Hreply).
  rewrite findIndex_app_first in Hi.
  - injection Hi as <-.
    rewrite nth_error_app2 in Hnth by lia.
    rewrite Nat.sub_diag in Hnth. simpl in Hnth. injection Hnth as <-.
    rewrite Hreply. split; [reflexivity|]. simpl. apply set_nth_app.
  - intros x Hx. destruct (JS.strict_eq _ _) eqn:E; [|reflexivity].
    apply strict_eq_true_iff in E. now elim (Hpre x Hx).
  - rewrite Hother. apply strict_eq_refl.
Qed.

Lemma final_submit_writes_first_case_with_formId_witness :
  Http.code (fst (final_submit IsoDate.parse Samples.env
                    (Samples.world_of [Samples.same_id; Samples.newer])
                    (Some Samples.session_E1) (Some Samples.final_body))) = 200
  /\ FileUtils.load_collection
       (PENDING_FORMS
          (snd (final_submit IsoDate.parse Samples.env
                  (Samples.world_of [Samples.same_id; Samples.newer])
                  (Some Samples.session_E1) (Some Samples.final_body))))
     = ([] ++ final_submit_update (clock Samples.env) Samples.final_body Samples.same_id
           :: [Samples.newer])%list.
Proof.
  apply (final_submit_writes_first_case_with_formId IsoDate.parse Samples.env
           (Samples.world_of [Samples.same_id; Samples.newer])
           Samples.session_E1 (Some Samples.final_body)
           Samples.newer Samples.same_id [] [Samples.newer]).
  - reflexivity.
  - reflexivity.
  - vm_compute. reflexivity.
  - intros x [].
  - reflexivity.
  - reflexivity.
  - reflexivity.
Defined.

Lemma final_submit_update_kept (clock : JS.Clock) (b : FinalSubmitBody.t)
    (form : Case.t) :
  Case.employeeId (final_submit_update clock b form) = Case.employeeId form
  /\ Case.formId (final_submit_update clock b form) = Case.formId form
  /\ Case.submissionDate (final_submit_update clock b form) = Case.submissionDate form
  /\ Case.status (final_submit_update clock b form) = Some "Submitted to HOD"
  /\ Case.finalSubmittedAt (final_submit_update clock b form) = Some (JS.now_iso clock).
Proof. destruct form. repeat split. Qed.

Lemma form_date_of_dated (Date_parse : string -> option Z) (c c' : Case.t) :
  JS.truthy_str (Case.submissionDate c) = true ->
  Case.submissionDate c' = Case.submissionDate c ->
  form_date Date_parse c' = form_date Date_parse c.
Proof.
  intros Ht He. unfold form_date, JS.or_str. now rewrite He, Ht.
Qed.

(** X4.  After an accepted final submit on a collection with distinct
    form ids, when the latest case of the employee has a submission date,
    [/previous-application] shows that case with the status
    [Submitted to HOD] and the time of the call as [finalSubmittedAt], and
    a new submission for that employee id is answered with 400 and
    leaves the store as it is. *)
Theorem final_submit_is_what_the_employee_sees_next :
  forall (Date_parse : string -> option Z) (env env' : Env) (w : World)
         (sessionUser : SessionUser.t) (body : option FinalSubmitBody.t)
         (latest : Case.t) (req : SubmitRequest.t) (bodyData : SubmitBody.t)
         (file : string),
    let forms := FileUtils.load_collection (PENDING_FORMS w) in
    let b := match body with Some b => b | None => FinalSubmitBody.empty end in
    let reply := final_submit Date_parse env w (Some sessionUser) body in
    NoDup (map Case.formId forms) ->
    getLatestFormForEmployee Date_parse forms (session_employeeId sessionUser) None
    = Some latest ->
    JS.truthy_str (Case.submissionDate latest) = true ->
    Http.code (fst reply) = 200 ->
    previous_application Date_parse (snd reply) (Some sessionUser)
    = Http.json (Http.Application (final_submit_update (clock env) b latest))
    /\ Case.status (final_submit_update (clock env) b latest) = Some "Submitted to HOD"
    /\ Case.finalSubmittedAt (final_submit_update (clock env) b latest)
       = Some (JS.now_iso (clock env))
    /\ (SubmitRequest.body req = Some bodyData ->
        SubmitRequest.session req = Some sessionUser ->
        SubmitRequest.file req = Some file ->
        SubmitBody.employeeId bodyData = session_employeeId sessionUser ->
        Http.code (fst (submit_no_dues Date_parse env' (snd reply) req)) = 400
        /\ snd (submit_no_dues Date_parse env' (snd reply) req) = snd reply).
Proof.
  intros Date_parse env env' w sessionUser body latest req bodyData file
         forms b reply Hnd Hlatest Hdated Hcode.
  destruct (JS.truthy_str (session_employeeId sessionUser)) eqn:Htruthy.
  2:{ subst reply. unfold final_submit in Hcode. rewrite Htruthy in Hcode.
      discriminate. }
  pose proof (final_submit_cases Date_parse env w sessionUser body Htruthy) as H.
  cbv zeta in H. fold b in H. fold forms in H. fold reply in H.
  rewrite Hlatest in H. destruct H as (i & form & _ & Hnth & Hid & H).
  assert (form = latest) as -> by (eapply selected_is_latest; eauto).
  destruct (final_payload_ok b).
  2:{ destruct H as [m H]. rewrite H in Hcode. discriminate. }
  destruct (write_error env).
  { rewrite H in Hcode. discriminate. }
  destruct (final_submit_update_kept (clock env) b latest)
    as (Kemp & Kid & Kdate & Kstatus & Kfinal).
  assert (Hafter :
    getLatestFormForEmployee Date_parse
      (JS.set_nth forms i (final_submit_update (clock env) b latest))
      (session_employeeId sessionUser) None
    = Some (final_submit_update (clock env) b latest)).
  { apply latest_after_update; auto. now apply form_date_of_dated. }
  rewrite H. simpl snd.
  split; [|split; [exact Kstatus|split; [exact Kfinal|]]].
  - unfold previous_application. rewrite Htruthy. simpl negb. cbv iota.
    simpl PENDING_FORMS. rewrite load_collection_stored. now rewrite Hafter.
  - intros Hbody Hsession Hfile Hemp.
    unfold submit_no_dues. rewrite Hbody, Hsession, Hfile.
    simpl PENDING_FORMS. rewrite load_collection_stored. cbv zeta.
    match goal with
    | |- context [if ?c then _ else _] => destruct c; [split; reflexivity|]
    end.
    set (eid := JS.or_lit _ "").
    assert (Heid : session_employeeId sessionUser = Some eid).
    { subst eid. rewrite Hemp.
      unfold JS.or_str at 1. fold (session_employeeId sessionUser).
      rewrite Htruthy.
      destruct (session_employeeId sessionUser) as [s|]; [|discriminate].
      simpl in Htruthy |- *. destruct (s =? "")%string; [discriminate|reflexivity]. }
    destruct (getLatestFormForEmployee Date_parse _ (Some eid) (Some activeStatuses))
      eqn:E; [split; reflexivity|exfalso].
    apply no_existing_form in E.
    assert (Ha : has_active_case listed_active_status
                   (JS.set_nth forms i (final_submit_update (clock env) b latest))
                   eid = true).
    { unfold has_active_case. apply existsb_exists.
      exists (final_submit_update (clock env) b latest). split.
      - destruct (latest_In Date_parse _ _ _ _ Hafter) as [Hin _].
        exact Hin.
      - rewrite Kstatus, Kemp, <- Heid.
        destruct (latest_In Date_parse _ _ _ _ Hlatest) as [_ Hown].
        rewrite Hown. reflexivity. }
    congruence.
Qed.

Lemma final_submit_is_what_the_employee_sees_next_witness :
  previous_application IsoDate.parse
    (snd (final_submit IsoDate.parse Samples.env
            (Samples.world_of [Samples.older; Samples.newer])
            (Some Samples.session_E1) (Some Samples.final_body)))
    (Some Samples.session_E1)
  = Http.json (Http.Application
                 (final_submit_update (clock Samples.env) Samples.final_body
                    Samples.newer))
  /\ Http.code
       (fst (submit_no_dues IsoDate.parse Samples.env
               (snd (final_submit IsoDate.parse Samples.env
                       (Samples.world_of [Samples.older; Samples.newer])
                       (Some Samples.session_E1) (Some Samples.final_body)))
               Samples.submit_request)) = 400.
Proof.
  destruct (final_submit_is_what_the_employee_sees_next IsoDate.parse
              Samples.env Samples.env
              (Samples.world_of [Samples.older; Samples.newer])
              Samples.session_E1 (Some Samples.final_body) Samples.newer
              Samples.submit_request Samples.submit_body "1704067200000-order.pdf")
    as (Hprev & _ & _ & Hsubmit).
  - simpl. repeat constructor; simpl; intuition discriminate.
  - vm_compute. reflexivity.
  - reflexivity.
  - reflexivity.
  - split; [exact Hprev|].
    destruct Hsubmit as [H _]; [reflexivity|reflexivity|reflexivity|reflexivity|].
    exact H.
Defined.

(** X5.  A submission that was accepted cannot be repeated: whatever the
    time of the second call, the same request is then answered with 400
    and the store keeps exactly what the first call wrote. *)
Theorem submit_no_dues_accepted_once :
  forall (Date_parse : string -> option Z) (env env' : Env) (w : World)
         (req : SubmitRequest.t),
    let first := submit_no_dues Date_parse env w req in
    let second := submit_no_dues Date_parse env' (snd first) req in
    Http.code (fst first) = 200 ->
    Http.code (fst second) = 400
    /\ snd second = snd first
    /\ exists newForm,
         FileUtils.load_collection (PENDING_FORMS (snd first))
         = (FileUtils.load_collection (PENDING_FORMS w) ++ [newForm])%list
         /\ Case.status newForm = Some "pending"
         /\ Case.formId newForm = Some ("F" ++ JS.show_Z (JS.now_ms (clock env))).
Proof.
  intros Date_parse env env' w req first second Hcode.
  subst second first. unfold submit_no_dues in *.
  destruct (SubmitRequest.body req) as [bodyData|]; [|discriminate].
  destruct (SubmitRequest.session req) as [sessionUser|]; [|discriminate].
  destruct (SubmitRequest.file req) as [file|]; [|discriminate].
  cbv zeta in *.
  set (eid := JS.or_lit (JS.or_str (SubmitBody.employeeId bodyData) _) "") in *.
  match type of Hcode with
  | context [if ?c then _ else _] => destruct c; [discriminate|]
  end.
  destruct (getLatestFormForEmployee Date_parse
              (FileUtils.load_collection (PENDING_FORMS w)) (Some eid)
              (Some activeStatuses)); [discriminate|].
  unfold FileUtils.saveJSON in *.
  destruct (write_error env); [discriminate|]. simpl Exn.try_catch in *. cbv iota in *.
  simpl snd. simpl PENDING_FORMS. rewrite load_collection_stored.
  match goal with
  | |- context [(FileUtils.load_collection (PENDING_FORMS w) ++ [?c])%list] =>
      set (newForm := c)
  end.
  assert (Hactive : getLatestFormForEmployee Date_parse
                      (FileUtils.load_collection (PENDING_FORMS w) ++ [newForm])%list
                      (Some eid) (Some activeStatuses) <> None).
  { intro E. apply no_existing_form in E.
    assert (Ha : has_active_case listed_active_status
                   (FileUtils.load_collection (PENDING_FORMS w) ++ [newForm])%list
                   eid = true).
    { unfold has_active_case. apply existsb_exists. exists newForm. split.
      - apply in_or_app. right. now left.
      - subst newForm. simpl. now rewrite String.eqb_refl. }
    congruence. }
  destruct (getLatestFormForEmployee Date_parse
              (FileUtils.load_collection (PENDING_FORMS w) ++ [newForm])%list
              (Some eid) (Some activeStatuses)); [|contradiction].
  split; [reflexivity|]. split; [reflexivity|].
  exists newForm. repeat split.
Qed.

Lemma submit_no_dues_accepted_once_witness :
  Http.code
    (fst (submit_no_dues IsoDate.parse (mkEnv Samples.later_clock None)
            (snd (submit_no_dues IsoDate.parse Samples.env
                    (Samples.world_of [Samples.older]) Samples.submit_request))
            Samples.submit_request)) = 400.
Proof.
  destruct (submit_no_dues_accepted_once IsoDate.parse Samples.env
              (mkEnv Samples.later_clock None) (Samples.world_of [Samples.older])
              Samples.submit_request) as [H _].
  - reflexivity.
  - exact H.
Defined.

(** ** Tracking projections *)

(** X6.  A partial save marks its own form, and no other, as completed in
    the tracking view: for every assigned form of the case, the entry of
    [getFormsCompletionStatus] after the save keeps the title and the data
    key it had; it is [completed] when its data key is the storage key of
    the save, and it keeps its status otherwise.  An assigned form whose
    title is not in the table has no data key, so no save completes it. *)
Theorem partial_save_completes_its_form :
  forall (clock : JS.Clock) (storageKey : string) (parsedData : JS.value)
         (form : Case.t) (assigned : list AssignedForm.t) (n : nat)
         (a : AssignedForm.t),
    JS.is_object (Some parsedData) = true ->
    Case.assignedForms form = Some assigned ->
    nth_error assigned n = Some a ->
    exists before after,
      nth_error (getFormsCompletionStatus form) n = Some before
      /\ nth_error (getFormsCompletionStatus
                      (save_partial_update clock storageKey parsedData form)) n
         = Some after
      /\ FormStatus.title after = AssignedForm.title a
      /\ FormStatus.dataKey after = FormStatus.dataKey before
      /\ (FormStatus.dataKey after = Some storageKey ->
          FormStatus.status after = "completed" /\ FormStatus.hasData after = true)
      /\ (FormStatus.dataKey after <> Some storageKey ->
          FormStatus.status after = FormStatus.status before
          /\ FormStatus.hasData after = FormStatus.hasData before)
      /\ ((forall key, AssignedForm.title a <> Some key \/ JS.get formMappings key = None) ->
          FormStatus.dataKey after = None /\ FormStatus.status after = "pending").
Proof.
  intros clock storageKey parsedData form assigned n a Hobj Hassigned Hnth.
  simpl in Hobj. apply andb_true_iff in Hobj as [Htruthy _].
  unfold getFormsCompletionStatus.
  replace (Case.assignedForms (save_partial_update clock storageKey parsedData form))
    with (Some assigned) by (destruct form; simpl in *; congruence).
  rewrite Hassigned. rewrite !nth_error_map, Hnth.
  replace (Case.formResponses (save_partial_update clock storageKey parsedData form))
    with (Some (JS.set (match Case.formResponses form with
                        | Some r => r
                        | None => []
                        end) storageKey parsedData))
    by (destruct form; reflexivity).
  cbn [option_map]. cbv zeta.
  assert (Hkey : forall t, AssignedForm.title a = Some t ->
                   match AssignedForm.title a with
                   | Some t => JS.get formMappings t
                   | None => None
                   end = JS.get formMappings t)
    by (intros t ->; reflexivity).
  set (formKey := match AssignedForm.title a with
                  | Some t => JS.get formMappings t
                  | None => None
                  end) in *.
  eexists. eexists. split; [reflexivity|]. split; [reflexivity|].
  cbn [FormStatus.title FormStatus.dataKey FormStatus.status FormStatus.hasData].
  split; [reflexivity|]. split; [reflexivity|].
  split; [|split].
  - intros ->. rewrite get_set_same, Htruthy. split; reflexivity.
  - intros Hother. destruct formKey as [k|].
    + rewrite get_set_other by congruence.
      destruct (Case.formResponses form) as [r|]; split; reflexivity.
    + destruct (Case.formResponses form); split; reflexivity.
  - intros Hunknown.
    destruct (AssignedForm.title a) as [t|] eqn:Et; [|split; reflexivity].
    destruct (Hunknown t) as [H|H]; [congruence|].
    rewrite (Hkey t eq_refl), H. split; reflexivity.
Qed.

Lemma partial_save_completes_its_form_witness :
  exists before after,
    nth_error (getFormsCompletionStatus Samples.with_assigned) 0 = Some before
    /\ nth_error (getFormsCompletionStatus
                    (save_partial_update Samples.clock "disposalFormData"
                       (Samples.payload "disposal") Samples.with_assigned)) 0
       = Some after
    /\ FormStatus.status before = "pending"
    /\ FormStatus.status after = "completed".
Proof.
  destruct (partial_save_completes_its_form Samples.clock "disposalFormData"
              (Samples.payload "disposal") Samples.with_assigned
              [AssignedForm.mk (Some "Disposal Form") (Some "/forms/disposal");
               AssignedForm.mk (Some "Gate Pass") (Some "/forms/gate")]
              0 (AssignedForm.mk (Some "Disposal Form") (Some "/forms/disposal"))
              eq_refl eq_refl eq_refl)
    as (before & after & Hb & Ha & _ & Hkey & Hdone & _).
  exists before, after. split; [exact Hb|]. split; [exact Ha|].
  simpl in Hb. injection Hb as <-. split; [reflexivity|].
  apply Hdone. rewrite Hkey. reflexivity.
Defined.

(** X7.  [/track] lists exactly the cases of the employee, each as often
    as the collection holds it, and nothing of anyone else; the first
    case of the list is the one [getLatestFormForEmployee] selects for the
    other routes; and when every case of the employee has a valid date
    the list is in the order of these dates, latest first. *)
Theorem track_lists_own_forms_latest_first :
  forall (Date_parse : string -> option Z) (w : World) (sessionUser : SessionUser.t),
    exists myForms,
      track Date_parse w (Some sessionUser) = Api.json (Api.Forms myForms)
      /\ Permutation myForms
           (filter (fun f => JS.strict_eq (Case.employeeId f)
                               (session_employeeId sessionUser))
              (FileUtils.load_collection (PENDING_FORMS w)))
      /\ (forall f, In f myForms ->
            In f (FileUtils.load_collection (PENDING_FORMS w))
            /\ Case.employeeId f = session_employeeId sessionUser)
      /\ hd_error myForms
         = getLatestFormForEmployee Date_parse
             (FileUtils.load_collection (PENDING_FORMS w))
             (session_employeeId sessionUser) None
      /\ ((forall f, In f (FileUtils.load_collection (PENDING_FORMS w)) ->
             Case.employeeId f = session_employeeId sessionUser ->
             exists t, form_date Date_parse f = Some t) ->
          StronglySorted
            (fun a b => forall ta tb,
                 form_date Date_parse a = Some ta ->
                 form_date Date_parse b = Some tb -> tb <= ta)
            myForms).
Proof.
  intros Date_parse w sessionUser. eexists. split; [reflexivity|].
  split; [apply Permutation_sym, sort_perm|].
  assert (Hown : forall f,
            In f (filter (fun f => JS.strict_eq (Case.employeeId f)
                                     (session_employeeId sessionUser))
                    (FileUtils.load_collection (PENDING_FORMS w))) ->
            In f (FileUtils.load_collection (PENDING_FORMS w))
            /\ Case.employeeId f = session_employeeId sessionUser).
  { intros f Hf. apply filter_In in Hf as [Hin Ho].
    split; [exact Hin|]. now apply strict_eq_true_iff. }
  split; [|split; [reflexivity|]].
  - intros f Hf. apply Hown. exact (proj1 (sort_In _ _ f) Hf).
  - intro Hdated.
    set (key := fun c => match form_date Date_parse c with
                         | Some t => - t
                         | None => 0
                         end).
    match goal with
    | |- StronglySorted _ (JS.sort _ ?l) => set (mine := l) in *
    end.
    assert (Hcmp : forall x y, In x mine -> In y mine ->
                     latest_first Date_parse x y = Some (key x - key y)).
    { intros x y Hx Hy. unfold latest_first, key.
      destruct (Hown x Hx) as [Hx1 Hx2], (Hown y Hy) as [Hy1 Hy2].
      destruct (Hdated x Hx1 Hx2) as [tx ->], (Hdated y Hy1 Hy2) as [ty ->].
      simpl. f_equal. lia. }
    pose proof (sort_sorted (latest_first Date_parse) key mine Hcmp) as Hsorted.
    induction Hsorted as [|x rest Hrest IH Hall]; constructor.
    + exact IH.
    + eapply Forall_impl; [|exact Hall]. intros y Hxy ta tb Ha Hb.
      simpl in Hxy. unfold key in Hxy. rewrite Ha, Hb in Hxy. lia.
Qed.

Lemma track_lists_own_forms_latest_first_witness :
  track IsoDate.parse (Samples.world_of [Samples.older; Samples.same_id; Samples.newer])
    (Some Samples.session_E1)
  = Api.json (Api.Forms [Samples.newer; Samples.older]).
Proof.
  destruct (track_lists_own_forms_latest_first IsoDate.parse
              (Samples.world_of [Samples.older; Samples.same_id; Samples.newer])
              Samples.session_E1) as (myForms & Hreply & _ & _ & Hhead & _).
  rewrite Hreply. vm_compute in Hreply. now injection Hreply as <-.
Defined.

(** X8.  The summary of [/history] counts what the list holds: the total
    is the length of the list, which is the number of history entries of
    the employee; the certificate total is the sum of the certificate
    counts of the entries; and no entry is counted both as completed and
    as rejected, so the two counts together never exceed the total. *)
Theorem history_summary_counts :
  forall (Date_parse : string -> option Z) (w : World) (sessionUser : SessionUser.t),
    exists entries summary,
      history Date_parse w (Some sessionUser)
      = Api.json (Api.History entries summary)
      /\ HistorySummary.totalApplications summary = List.length entries
      /\ List.length entries
         = List.length
             (filter (fun f => JS.strict_eq (Case.employeeId (HistoryEntry.form f))
                                 (session_employeeId sessionUser))
                (FileUtils.load_collection (FORM_HISTORY w)))
      /\ HistorySummary.totalCertificates summary
         = list_sum (map (fun h => preserved_certificate_count (fst h)) entries)
      /\ (forall h, In h entries ->
            snd h = historyInfo (fst h)
            /\ Case.employeeId (HistoryEntry.form (fst h))
               = session_employeeId sessionUser
            /\ (is_completed_entry (fst h) && is_rejected_entry (fst h) = false)%bool)
      /\ (HistorySummary.completedApplications summary
          + HistorySummary.rejectedApplications summary
          <= HistorySummary.totalApplications summary)%nat.
Proof.
  intros Date_parse w sessionUser.
  assert (Hdisjoint : forall h : HistoryEntry.t,
             (is_completed_entry h && is_rejected_entry h = false)%bool).
  { intro h. unfold is_completed_entry, is_rejected_entry.
    destruct (HistoryEntry.finalStatus h) as [s|]; [|reflexivity].
    simpl. destruct (s =? "IT Completed")%string eqn:E; [|reflexivity].
    apply String.eqb_eq in E. subst s. reflexivity. }
  assert (Hcount : forall (T : Type) (p q : T -> bool) (l : list T),
             (forall x, (p x && q x = false)%bool) ->
             (List.length (filter p l) + List.length (filter q l) <= List.length l)%nat).
  { intros T p q l Hpq. induction l as [|x rest IH]; simpl; [lia|].
    specialize (Hpq x). destruct (p x), (q x); simpl in *; try discriminate; lia. }
  assert (Hsum : forall (l : list (HistoryEntry.t * HistoryInfo.t)) (acc : nat),
             (forall h, In h l -> snd h = historyInfo (fst h)) ->
             fold_left (fun sum h => (sum + HistoryInfo.certificateCount (snd h))%nat)
               l acc
             = (acc + list_sum (map (fun h => preserved_certificate_count (fst h)) l))%nat).
  { induction l as [|x rest IH]; intros acc Hl; simpl; [lia|].
    rewrite IH by (intros h Hh; apply Hl; now right).
    rewrite (Hl x (or_introl eq_refl)). simpl. lia. }
  unfold history. eexists. eexists. split; [reflexivity|].
  assert (Hentries : forall h, In h (myHistory Date_parse w (session_employeeId sessionUser)) ->
            snd h = historyInfo (fst h)
            /\ Case.employeeId (HistoryEntry.form (fst h))
               = session_employeeId sessionUser).
  { intros h Hh. unfold myHistory in Hh.
    apply sort_In, in_map_iff in Hh as (e & <- & He).
    apply filter_In in He as [_ Hown]. split; [reflexivity|].
    now apply strict_eq_true_iff. }
  split; [reflexivity|]. split; [|split; [|split]].
  - unfold myHistory. now rewrite sort_length, length_map.
  - simpl. rewrite Hsum; [reflexivity|]. intros h Hh. now apply Hentries.
  - intros h Hh. destruct (Hentries h Hh) as [Hi Ho]. auto.
  - simpl. apply Hcount. intro x. apply Hdisjoint.
Qed.

(** X9.  [/assigned-forms] never answers with its [rejected] reply: the
    case it selects is a case of the employee whose status is one of the
    four allowed spellings, none of which contains [rejected], so the
    reply is [Not Submitted] or carries the form id, the status and the
    assigned forms of that case, counted. *)
Theorem assigned_forms_never_rejected :
  forall (Date_parse : string -> option Z) (rejectionReason : Case.t -> option string)
         (w : World) (sessionUser : SessionUser.t),
    JS.truthy_str (session_employeeId sessionUser) = true ->
    let reply := assigned_forms Date_parse rejectionReason w (Some sessionUser) in
    (forall reason, reply <> AssignedReply.Rejected reason)
    /\ (forall code message, reply <> AssignedReply.Failure code message)
    /\ (reply = AssignedReply.NotSubmitted <->
        assigned_myForms (FileUtils.load_collection (PENDING_FORMS w))
          (session_employeeId sessionUser) = [])
    /\ (forall formId status count forms,
          reply = AssignedReply.Assigned formId status count forms ->
          count = List.length forms
          /\ JS.includes assigned_allowedStatuses status = true
          /\ exists myForm,
               In myForm (FileUtils.load_collection (PENDING_FORMS w))
               /\ Case.employeeId myForm = session_employeeId sessionUser
               /\ Case.formId myForm = formId
               /\ Case.status myForm = status
               /\ forms = match Case.assignedForms myForm with
                          | Some l => l
                          | None => []
                          end).
Proof.
  intros Date_parse rejectionReason w sessionUser Htruthy reply. subst reply.
  unfold assigned_forms. rewrite Htruthy. simpl negb. cbv iota zeta.
  set (myForms := assigned_myForms _ _).
  destruct (JS.sort (assigned_latest_first Date_parse) myForms) as [|myForm rest] eqn:E.
  - apply sort_nil_iff in E.
    split; [discriminate|]. split; [discriminate|]. split; [tauto|discriminate].
  - assert (Hin : In myForm myForms).
    { apply (sort_In (assigned_latest_first Date_parse)). rewrite E. now left. }
    assert (Hne : myForms <> []) by (intro H; rewrite H in Hin; contradiction).
    unfold myForms, assigned_myForms in Hin.
    apply filter_In in Hin as [Hstore Hp].
    apply andb_true_iff in Hp as [Hp Hallowed].
    apply andb_true_iff in Hp as [Hown _].
    apply strict_eq_true_iff in Hown.
    assert (Hnot : match Case.status myForm with
                   | Some s =>
                       negb (s =? "")%string
                       && JSLib.str_includes "rejected" (toLowerCase s)
                   | None => false
                   end = false).
    { destruct (Case.status myForm) as [s|]; [|reflexivity].
      unfold assigned_allowedStatuses in Hallowed. simpl in Hallowed.
      repeat (apply orb_true_iff in Hallowed as [Hallowed|Hallowed];
              [apply String.eqb_eq in Hallowed; subst s; reflexivity|]).
      discriminate. }
    rewrite Hnot.
    split; [discriminate|]. split; [discriminate|]. split.
    + split; [discriminate|]. intro H. now elim Hne.
    + intros formId status count forms H. injection H as <- <- <- <-.
      split; [destruct (Case.assignedForms myForm); reflexivity|].
      split; [exact Hallowed|]. exists myForm. auto.
Qed.

Lemma assigned_forms_never_rejected_witness :
  assigned_forms IsoDate.parse Samples.no_reason
    (Samples.world_of [Samples.older; Samples.with_assigned]) (Some Samples.session_E1)
  <> AssignedReply.Rejected "".
Proof.
  destruct (assigned_forms_never_rejected IsoDate.parse Samples.no_reason
              (Samples.world_of [Samples.older; Samples.with_assigned])
              Samples.session_E1 eq_refl) as [H _].
  apply H.
Defined.

(** ** Sanitised text *)
Section SanitizeFacts.
Import PDFValidator.

Lemma tagfree_without_closing (opened : bool) (l : list ascii) :
  ~ In ">"%char l -> tagfree opened l = true.
Proof.
  revert opened. induction l as [|c rest IH]; intros opened Hno; [reflexivity|].
  simpl. destruct (Ascii.eqb_spec c ">") as [->|_].
  - exfalso. apply Hno. now left.
  - assert (Hrest : ~ In ">"%char rest) by (intro H; apply Hno; now right).
    destruct (Ascii.eqb c "<"); now apply IH.
Qed.

Lemma tagfree_opened (l : list ascii) :
  tagfree true l = true -> tagfree false l = true.
Proof.
  induction l as [|c rest IH]; [reflexivity|]. simpl.
  destruct (Ascii.eqb c ">"); [discriminate|].
  destruct (Ascii.eqb c "<"); auto.
Qed.

Lemma tagfree_tail (opened : bool) (c : ascii) (l : list ascii) :
  tagfree opened (c :: l) = true -> tagfree opened l = true.
Proof.
  simpl. destruct (Ascii.eqb c ">").
  - intro H. now apply andb_true_iff in H as [_ H].
  - destruct (Ascii.eqb c "<"); [|auto].
    destruct opened; [auto|apply tagfree_opened].
Qed.

Lemma tagfree_filter (p : ascii -> bool) (opened : bool) (l : list ascii) :
  tagfree opened l = true -> tagfree opened (filter p l) = true.
Proof.
  revert opened. induction l as [|c rest IH]; intros opened H; [reflexivity|].
  simpl filter. destruct (p c).
  - simpl in H |- *. destruct (Ascii.eqb c ">").
    + apply andb_true_iff in H as [-> H]. simpl. now apply IH.
    + destruct (Ascii.eqb c "<"); now apply IH.
  - apply IH. eapply tagfree_tail. exact H.
Qed.

Lemma tagfree_prefix (opened : bool) (l l' : list ascii) :
  tagfree opened (l ++ l')%list = true -> tagfree opened l = true.
Proof.
  revert opened. induction l as [|c rest IH]; intros opened H; [reflexivity|].
  simpl in H |- *. destruct (Ascii.eqb c ">").
  - apply andb_true_iff in H as [-> H]. simpl. now apply IH.
  - destruct (Ascii.eqb c "<"); now apply IH.
Qed.

Lemma tagfree_suffix (l l' : list ascii) :
  tagfree false (l ++ l')%list = true -> tagfree false l' = true.
Proof.
  induction l as [|c rest IH]; intro H; [exact H|].
  apply IH. eapply tagfree_tail. exact H.
Qed.

(** A text with a tag in it is not [tagfree]. *)
Lemma tagfree_no_tag (opened : bool) (a b c : list ascii) :
  tagfree opened (a ++ "<"%char :: b ++ ">"%char :: c)%list = false.
Proof.
  assert (Hb : forall b, tagfree true (b ++ ">"%char :: c)%list = false).
  { clear b. induction b as [|x b IH]; simpl; [reflexivity|].
    destruct (Ascii.eqb x ">"); [reflexivity|].
    destruct (Ascii.eqb x "<"); exact IH. }
  revert opened. induction a as [|x a IH]; intro opened; simpl.
  - apply Hb.
  - destruct (Ascii.eqb x ">"); [now rewrite IH, andb_false_r|].
    destruct (Ascii.eqb x "<"); apply IH.
Qed.

Lemma strip_tags_tagfree (l : list ascii) :
  tagfree false (strip_tags None l) = true
  /\ forall buf, ~ In ">"%char buf ->
       tagfree false (strip_tags (Some buf) l) = true.
Proof.
  induction l as [|c rest [IHnone IHsome]]; split.
  - reflexivity.
  - intros buf Hbuf. simpl. apply tagfree_without_closing.
    intro H. apply Hbuf. now apply in_rev.
  - simpl. destruct (Ascii.eqb_spec c "<") as [->|Hlt].
    + apply IHsome. intros [H|[]]. discriminate.
    + simpl. destruct (Ascii.eqb c ">"); [exact IHnone|].
      destruct (Ascii.eqb_spec c "<"); [contradiction|exact IHnone].
  - intros buf Hbuf. simpl. destruct (Ascii.eqb_spec c ">") as [->|Hgt].
    + exact IHnone.
    + apply IHsome. intros [H|H]; [congruence|contradiction].
Qed.

(** A text that leaves no tag behind is what [strip_tags] returns for it. *)
Lemma strip_tags_of_tagfree (l : list ascii) :
  (tagfree false l = true -> strip_tags None l = l)
  /\ forall buf, tagfree true l = true ->
       strip_tags (Some buf) l = (rev buf ++ l)%list.
Proof.
  induction l as [|c rest [IHnone IHsome]]; split.
  - reflexivity.
  - intros buf _. simpl. now rewrite app_nil_r.
  - simpl. destruct (Ascii.eqb c ">") eqn:Egt.
    + simpl. intro H.
      assert (Hlt : Ascii.eqb c "<" = false).
      { apply Ascii.eqb_eq in Egt. subst c. reflexivity. }
      rewrite Hlt. f_equal. now apply IHnone.
    + destruct (Ascii.eqb c "<").
      * intro H. now rewrite (IHsome [c] H).
      * intro H. f_equal. now apply IHnone.
  - intros buf. simpl. destruct (Ascii.eqb c ">"); [discriminate|].
    intro H. rewrite IHsome.
    + simpl. now rewrite <- app_assoc.
    + now destruct (Ascii.eqb c "<").
Qed.

Lemma strip_tags_length (l : list ascii) :
  (List.length (strip_tags None l) <= List.length l)%nat
  /\ forall buf,
       (List.length (strip_tags (Some buf) l) <= List.length buf + List.length l)%nat.
Proof.
  induction l as [|c rest [IHnone IHsome]]; split; simpl.
  - lia.
  - intro buf. rewrite length_rev. lia.
  - destruct (Ascii.eqb c "<").
    + specialize (IHsome [c]). simpl in IHsome. lia.
    + simpl. lia.
  - intro buf. destruct (Ascii.eqb c ">").
    + lia.
    + specialize (IHsome (c :: buf)). simpl in IHsome. lia.
Qed.

Lemma strip_tags_In (l : list ascii) (x : ascii) :
  (In x (strip_tags None l) -> In x l)
  /\ forall buf, In x (strip_tags (Some buf) l) -> In x buf \/ In x l.
Proof.
  induction l as [|c rest [IHnone IHsome]]; split; simpl.
  - auto.
  - intros buf H. left. now apply in_rev.
  - destruct (Ascii.eqb c "<").
    + intro H. destruct (IHsome [c] H) as [[<-|[]]|H']; auto.
    + intros [<-|H]; auto.
  - intros buf. destruct (Ascii.eqb c ">").
    + intro H. auto.
    + intro H. destruct (IHsome (c :: buf) H) as [[<-|H']|H']; auto.
Qed.

Lemma trim_start_split (l : list ascii) :
  exists spaces, l = (spaces ++ trim_start l)%list.
Proof.
  induction l as [|c rest [spaces IH]]; [now exists []|].
  simpl. destruct (is_space c).
  - exists (c :: spaces). simpl. now f_equal.
  - now exists [].
Qed.

Lemma trim_start_head (l : list ascii) (c : ascii) :
  hd_error (trim_start l) = Some c -> is_space c = false.
Proof.
  induction l as [|x rest IH]; [discriminate|]. simpl.
  destruct (is_space x) eqn:E; [exact IH|].
  simpl. intro H. now injection H as <-.
Qed.

Lemma trim_start_fixed (l : list ascii) :
  (forall c, hd_error l = Some c -> is_space c = false) -> trim_start l = l.
Proof.
  destruct l as [|x rest]; [reflexivity|]. intro H. simpl.
  now rewrite (H x eq_refl).
Qed.

(** [trim] keeps a stretch of the text. *)
Lemma trim_split (l : list ascii) :
  exists before after, l = (before ++ trim l ++ after)%list.
Proof.
  unfold trim.
  destruct (trim_start_split l) as [before Hb].
  destruct (trim_start_split (rev (trim_start l))) as [after Ha].
  exists before, (rev after).
  rewrite Hb at 1. f_equal.
  rewrite <- (rev_involutive (trim_start l)) at 1.
  rewrite Ha at 1. now rewrite rev_app_distr.
Qed.

Lemma trim_last (l : list ascii) (c : ascii) :
  hd_error (rev (trim l)) = Some c -> is_space c = false.
Proof.
  unfold trim. rewrite rev_involutive. apply trim_start_head.
Qed.

Lemma trim_start_keeps_last (l : list ascii) (x : ascii) :
  is_space x = false ->
  exists front, trim_start (l ++ [x])%list = (front ++ [x])%list.
Proof.
  intro Hx. induction l as [|c rest [front IH]]; simpl.
  - rewrite Hx. now exists [].
  - destruct (is_space c); [now exists front|now exists (c :: rest)].
Qed.

Lemma trim_head (l : list ascii) (c : ascii) :
  hd_error (trim l) = Some c -> is_space c = false.
Proof.
  unfold trim.
  destruct (trim_start l) as [|x m] eqn:Em; [discriminate|].
  assert (Hx : is_space x = false).
  { apply (trim_start_head l). now rewrite Em. }
  simpl rev.
  destruct (trim_start_keeps_last (rev m) x Hx) as [front ->].
  rewrite rev_app_distr. simpl. intro H. now injection H as <-.
Qed.

Lemma trim_fixed (l : list ascii) :
  (forall c, hd_error l = Some c -> is_space c = false) ->
  (forall c, hd_error (rev l) = Some c -> is_space c = false) ->
  trim l = l.
Proof.
  intros Hhead Hlast. unfold trim.
  rewrite (trim_start_fixed l Hhead), (trim_start_fixed (rev l) Hlast).
  apply rev_involutive.
Qed.

Lemma trim_length (l : list ascii) : (List.length (trim l) <= List.length l)%nat.
Proof.
  destruct (trim_split l) as (before & after & H).
  rewrite H at 2. rewrite !length_app. lia.
Qed.

Lemma trim_In (l : list ascii) (x : ascii) : In x (trim l) -> In x l.
Proof.
  destruct (trim_split l) as (before & after & H). intro Hx.
  rewrite H. apply in_or_app. right. apply in_or_app. now left.
Qed.

Lemma trim_tagfree (l : list ascii) :
  tagfree false l = true -> tagfree false (trim l) = true.
Proof.
  destruct (trim_split l) as (before & after & H). intro Ht.
  rewrite H in Ht. apply tagfree_suffix in Ht. now apply tagfree_prefix in Ht.
Qed.

Lemma printable_not_control (c : ascii) :
  is_printable c = true -> is_control c = false.
Proof.
  destruct c as [[] [] [] [] [] [] [] []]; vm_compute; intro H;
    solve [reflexivity | discriminate].
Qed.

Lemma filter_fixed {T : Type} (p : T -> bool) (l : list T) :
  (forall x, In x l -> p x = true) -> filter p l = l.
Proof.
  induction l as [|x rest IH]; intro H; [reflexivity|]. simpl.
  rewrite (H x (or_introl eq_refl)). f_equal. apply IH.
  intros y Hy. apply H. now right.
Qed.

Lemma substring_length (n : nat) (s : string) :
  (String.length (substring 0 n s) <= n)%nat.
Proof.
  revert s. induction n as [|n IH]; intros [|c s]; simpl; try lia.
  specialize (IH s). lia.
Qed.

Lemma substring_fixed (n : nat) (s : string) :
  (String.length s <= n)%nat -> substring 0 n s = s.
Proof.
  revert s. induction n as [|n IH]; intros [|c s]; simpl; intro H;
    try reflexivity; try lia.
  f_equal. apply IH. lia.
Qed.

Lemma length_list_ascii (s : string) :
  List.length (list_ascii_of_string s) = String.length s.
Proof. induction s; simpl; congruence. Qed.

(** The text [sanitizeText] works on, before the fallback to [N/A]. *)
Lemma sanitized_text (text : string) :
  let cleaned :=
    trim (filter is_printable
            (strip_tags None
               (filter (fun c => negb (is_control c))
                  (list_ascii_of_string (substring 0 MAX_FIELD_LENGTH text))))) in
  (List.length cleaned <= MAX_FIELD_LENGTH)%nat
  /\ (forall c, In c cleaned -> is_printable c = true)
  /\ (forall c, hd_error cleaned = Some c -> is_space c = false)
  /\ (forall c, hd_error (rev cleaned) = Some c -> is_space c = false)
  /\ tagfree false cleaned = true.
Proof.
  intro cleaned. subst cleaned. split; [|split; [|split; [|split]]].
  - eapply Nat.le_trans; [apply trim_length|].
    eapply Nat.le_trans; [apply filter_length_le|].
    eapply Nat.le_trans; [apply strip_tags_length|].
    eapply Nat.le_trans; [apply filter_length_le|].
    rewrite length_list_ascii. apply substring_length.
  - intros c Hc. apply trim_In, filter_In in Hc. tauto.
  - apply trim_head.
  - apply trim_last.
  - apply trim_tagfree, tagfree_filter, strip_tags_tagfree.
Qed.

(** What holds of every text [sanitizeText] returns. *)
Lemma sanitizeText_clean (text : option string) :
  let out := list_ascii_of_string (sanitizeText text) in
  out <> []
  /\ (List.length out <= MAX_FIELD_LENGTH)%nat
  /\ (forall c, In c out -> is_printable c = true)
  /\ (forall c, hd_error out = Some c -> is_space c = false)
  /\ (forall c, hd_error (rev out) = Some c -> is_space c = false)
  /\ tagfree false out = true.
Proof.
  assert (Hfallback :
    let out := list_ascii_of_string "N/A" in
    out <> []
    /\ (List.length out <= MAX_FIELD_LENGTH)%nat
    /\ (forall c, In c out -> is_printable c = true)
    /\ (forall c, hd_error out = Some c -> is_space c = false)
    /\ (forall c, hd_error (rev out) = Some c -> is_space c = false)
    /\ tagfree false out = true).
  { simpl. split; [discriminate|]. split; [unfold MAX_FIELD_LENGTH; lia|].
    split; [intros c [<-|[<-|[<-|[]]]]; reflexivity|].
    split; [intros c H; injection H as <-; reflexivity|].
    split; [intros c H; injection H as <-; reflexivity|reflexivity]. }
  unfold sanitizeText.
  destruct (negb (JS.truthy_str text)); [exact Hfallback|]. cbv zeta.
  match goal with
  | |- context [string_of_list_ascii ?l] => set (cleaned := l)
  end.
  destruct (String.eqb_spec (string_of_list_ascii cleaned) "") as [_|Hne];
    [exact Hfallback|].
  rewrite list_ascii_of_string_of_list_ascii.
  split.
  - intro E. apply Hne. now rewrite E.
  - apply (sanitized_text (JS.show text)).
Qed.

(** A text with these properties is returned as it is. *)
Lemma sanitizeText_fixed (s : string) :
  let out := list_ascii_of_string s in
  out <> [] ->
  (List.length out <= MAX_FIELD_LENGTH)%nat ->
  (forall c, In c out -> is_printable c = true) ->
  (forall c, hd_error out = Some c -> is_space c = false) ->
  (forall c, hd_error (rev out) = Some c -> is_space c = false) ->
  tagfree false out = true ->
  sanitizeText (Some s) = s.
Proof.
  intros out Hne Hlen Hprint Hhead Hlast Htag.
  assert (Hs : (s =? "")%string = false).
  { apply String.eqb_neq. intros ->. now apply Hne. }
  unfold sanitizeText. simpl JS.truthy_str. rewrite Hs. simpl negb. cbv iota zeta.
  simpl JS.show.
  rewrite substring_fixed by (rewrite <- length_list_ascii; exact Hlen).
  fold out.
  rewrite (filter_fixed (fun c => negb (is_control c)) out)
    by (intros c Hc; now rewrite (printable_not_control c (Hprint c Hc))).
  rewrite (proj1 (strip_tags_of_tagfree out) Htag).
  rewrite (filter_fixed is_printable out Hprint).
  rewrite (trim_fixed out Hhead Hlast).
  unfold out. rewrite string_of_list_ascii_of_string. now rewrite Hs.
Qed.

End SanitizeFacts.

(** X10.  Whatever it is given, [sanitizeText] returns a text that is not
    empty, has at most 500 characters, holds printable characters only
    and no control character, neither begins nor ends with a space, and
    has no tag left in it: no closing bracket comes after an opening
    bracket. *)
Theorem sanitizeText_output_is_clean :
  forall (text : option string),
    let out := list_ascii_of_string (PDFValidator.sanitizeText text) in
    PDFValidator.sanitizeText text <> ""
    /\ (String.length (PDFValidator.sanitizeText text)
        <= PDFValidator.MAX_FIELD_LENGTH)%nat
    /\ (forall c, In c out ->
          PDFValidator.is_printable c = true /\ PDFValidator.is_control c = false)
    /\ (forall c, hd_error out = Some c -> PDFValidator.is_space c = false)
    /\ (forall c, hd_error (rev out) = Some c -> PDFValidator.is_space c = false)
    /\ (forall before inside after,
          out <> (before ++ "<"%char :: inside ++ ">"%char :: after)%list).
Proof.
  intros text out.
  destruct (sanitizeText_clean text) as (Hne & Hlen & Hprint & Hhead & Hlast & Htag).
  fold out in Hne, Hlen, Hprint, Hhead, Hlast, Htag.
  split; [intro E; apply Hne; unfold out; now rewrite E|].
  split; [rewrite <- length_list_ascii; exact Hlen|].
  split; [intros c Hc; split;
          [now apply Hprint|apply printable_not_control; now apply Hprint]|].
  split; [exact Hhead|]. split; [exact Hlast|].
  intros before inside after E. rewrite E in Htag.
  now rewrite tagfree_no_tag in Htag.
Qed.

(** X11.  [sanitizeText] is idempotent: sanitising a sanitised text
    changes nothing, so a value that passed through it once (a form id in
    a file name, a display name) is stable under further passes. *)
Theorem sanitizeText_idempotent :
  forall (text : option string),
    PDFValidator.sanitizeText (Some (PDFValidator.sanitizeText text))
    = PDFValidator.sanitizeText text.
Proof.
  intro text.
  destruct (sanitizeText_clean text) as (Hne & Hlen & Hprint & Hhead & Hlast & Htag).
  now apply sanitizeText_fixed.
Qed.

(** ** Certificate file names across calls *)

Lemma string_append_inv_head (a x y : string) : a ++ x = a ++ y -> x = y.
Proof.
  induction a as [|c a IH]; simpl; intro H; [exact H|].
  injection H as H. now apply IH.
Qed.

(** Two texts that agree up to and after a first underscore have the same
    part before it. *)
Lemma before_underscore_inj (a a' rest rest' : string) :
  (forall c, In c (list_ascii_of_string a) -> c <> "_"%char) ->
  (forall c, In c (list_ascii_of_string a') -> c <> "_"%char) ->
  a ++ String "_" rest = a' ++ String "_" rest' ->
  a = a'.
Proof.
  revert a'. induction a as [|c a IH]; intros [|c' a'] Ha Ha' H; simpl in *.
  - reflexivity.
  - injection H as H _. exfalso. apply (Ha' c'); auto.
  - injection H as H _. exfalso. apply (Ha c); auto.
  - injection H as -> H. f_equal. apply IH; auto.
Qed.

Lemma string_of_uint_digits (d : Decimal.uint) (c : ascii) :
  In c (list_ascii_of_string (NilEmpty.string_of_uint d)) -> c <> "_"%char.
Proof.
  induction d as [|d IH|d IH|d IH|d IH|d IH|d IH|d IH|d IH|d IH|d IH]; simpl;
    try contradiction;
    (intros [E|H]; [subst c; intro E'; discriminate E'|exact (IH H)]).
Qed.

Lemma show_Z_digits (z : Z) (c : ascii) :
  In c (list_ascii_of_string (JS.show_Z z)) -> c <> "_"%char.
Proof.
  unfold JS.show_Z.
  assert (Hu : forall d, In c (list_ascii_of_string (NilZero.string_of_uint d)) ->
                         c <> "_"%char).
  { intros d. unfold NilZero.string_of_uint. destruct d;
      try apply string_of_uint_digits.
    simpl. intros [<-|[]]. intro E. discriminate E. }
  destruct (Z.to_int z) as [d|d]; simpl.
  - apply Hu.
  - intros [E|H]; [subst c; intro E'; discriminate E'|exact (Hu d H)].
Qed.

Lemma show_Z_inj (z z' : Z) : JS.show_Z z = JS.show_Z z' -> z = z'.
Proof.
  unfold JS.show_Z. intro H. apply DecimalZ.to_int_inj.
  assert (Hnn : forall z, Z.to_int z <> Decimal.Pos Decimal.Nil
                          /\ Z.to_int z <> Decimal.Neg Decimal.Nil).
  { intros [|p|p]; simpl; split; try discriminate;
      intro E; injection E as E; now apply DecimalPos.Unsigned.to_uint_nonnil in E. }
  destruct (Hnn z) as [Hp Hn], (Hnn z') as [Hp' Hn'].
  pose proof (NilZero.isi (Z.to_int z) Hp Hn) as E.
  pose proof (NilZero.isi (Z.to_int z') Hp' Hn') as E'.
  rewrite H in E. congruence.
Qed.

(** X12.  The collision of certificate file names is confined to one
    millisecond: for the same form id and form type, generations at two
    different times produce two different file names, whatever the digest
    function yields. *)
Theorem certificate_fileName_differs_across_milliseconds :
  forall (md5_hex : string -> string) (formId formType : option string)
         (timestamp timestamp' : Z) (randomId randomId' : string),
    timestamp <> timestamp' ->
    certificate_fileName md5_hex formId formType timestamp randomId
    <> certificate_fileName md5_hex formId formType timestamp' randomId'.
Proof.
  intros md5_hex formId formType timestamp timestamp' randomId randomId' Hne.
  unfold certificate_fileName. cbv zeta.
  destruct ((PDFValidator.sanitizeText formId =? "")%string
            || (PDFValidator.sanitizeText formType =? "")%string) eqn:E.
  - exfalso. apply orb_true_iff in E as [E|E]; apply String.eqb_eq in E;
      now apply sanitizeText_not_empty in E.
  - intro H. injection H as H.
    apply string_append_inv_head in H. simpl in H. injection H as H.
    apply string_append_inv_head in H. simpl in H. injection H as H.
    apply Hne, show_Z_inj.
    eapply before_underscore_inj; [apply show_Z_digits|apply show_Z_digits|].
    exact H.
Qed.

Lemma certificate_fileName_differs_across_milliseconds_witness :
  certificate_fileName Samples.digest (Some "F9") (Some "disposalForm")
    1704067200000 "00"
  <> certificate_fileName Samples.digest (Some "F9") (Some "disposalForm")
       1704067200001 "00".
Proof.
  apply (certificate_fileName_differs_across_milliseconds Samples.digest
           (Some "F9") (Some "disposalForm") 1704067200000 1704067200001 "00" "00").
  lia.
Defined.

(** ** Signature images *)

(** The first piece of a split stops in front of the first separator. *)
Lemma split_on_cons (sep : ascii) (l piece : list ascii) (pieces : list (list ascii)) :
  ImageValidator.split_on sep l = piece :: pieces ->
  ~ In sep piece
  /\ ((pieces = [] /\ l = piece)
      \/ exists rest,
           l = (piece ++ sep :: rest)%list
           /\ ImageValidator.split_on sep rest = pieces).
Proof.
  revert piece pieces. induction l as [|c l IH]; intros piece pieces; simpl.
  - intro H. injection H as <- <-. split; [intros []|]. now left.
  - destruct (Ascii.eqb_spec c sep) as [->|Hc].
    + intro H. injection H as <- <-. split; [intros []|]. right. now exists l.
    + destruct (ImageValidator.split_on sep l) as [|piece' pieces'] eqn:E.
      * intro H. injection H as <- <-.
        destruct l as [|c' l']; simpl in E; [discriminate|].
        destruct (Ascii.eqb c' sep); [discriminate|].
        destruct (ImageValidator.split_on sep l'); discriminate.
      * intro H. injection H as <- <-.
        destruct (IH piece' pieces' eq_refl) as [Hfree Hshape]. split.
        { intros [H|H]; [congruence|contradiction]. }
        destruct Hshape as [[-> ->]|(rest & -> & Hrest)]; [now left|].
        right. now exists rest.
Qed.

(** Splitting behind a text that holds no separator. *)
Lemma split_on_app (sep : ascii) (p l : list ascii) :
  ~ In sep p ->
  exists piece pieces,
    ImageValidator.split_on sep l = piece :: pieces
    /\ ImageValidator.split_on sep (p ++ l)%list = (p ++ piece)%list :: pieces.
Proof.
  intro Hfree. induction p as [|c p IH]; simpl.
  - destruct l as [|c l]; simpl; [eauto|].
    destruct (Ascii.eqb c sep); [eauto|].
    destruct (ImageValidator.split_on sep l); eauto.
  - destruct (Ascii.eqb_spec c sep) as [->|_]; [exfalso; apply Hfree; now left|].
    destruct IH as (piece & pieces & Hl & ->); [intro H; apply Hfree; now right|].
    eauto.
Qed.

Lemma split_on_app_sep (sep : ascii) (p l : list ascii) :
  ~ In sep p ->
  ImageValidator.split_on sep (p ++ sep :: l)%list
  = p :: ImageValidator.split_on sep l.
Proof.
  intro Hfree.
  destruct (split_on_app sep p (sep :: l) Hfree) as (piece & pieces & Hl & ->).
  simpl in Hl. rewrite Ascii.eqb_refl in Hl. injection Hl as <- <-.
  now rewrite app_nil_r.
Qed.

Lemma prefix_app (p s : string) :
  prefix p s = true -> exists t, s = p ++ t.
Proof.
  revert s. induction p as [|c p IH]; intros s; simpl; [eauto|].
  destruct s as [|c' s]; [discriminate|]. simpl.
  destruct (ascii_dec c c') as [->|_]; [|discriminate].
  intro H. destruct (IH s H) as [t ->]. eauto.
Qed.

Lemma list_ascii_of_string_app (a b : string) :
  list_ascii_of_string (a ++ b)
  = (list_ascii_of_string a ++ list_ascii_of_string b)%list.
Proof. induction a as [|c a IH]; simpl; [reflexivity|now rewrite IH]. Qed.

Lemma string_of_list_ascii_app (a b : list ascii) :
  string_of_list_ascii (a ++ b)%list
  = string_of_list_ascii a ++ string_of_list_ascii b.
Proof. induction a as [|c a IH]; simpl; [reflexivity|now rewrite IH]. Qed.

(** The type [validateImageData] reads in a [data:image/] URL is the text
    between [data:] and the first [;], [:] or [,] that follows. *)
Lemma mimeType_of_data_url (text header base64Data afterColon mimeType : string)
    (pieces others : list string) :
  prefix "data:image/" text = true ->
  ImageValidator.split "," text = header :: base64Data :: pieces ->
  nth_error (ImageValidator.split ":" header) 1 = Some afterColon ->
  ImageValidator.split ";" afterColon = mimeType :: others ->
  exists (delimiter : ascii) (tail : string),
    text = "data:" ++ mimeType ++ String delimiter tail
    /\ (delimiter = ";" \/ delimiter = ":" \/ delimiter = ",")%char
    /\ prefix "image/" mimeType = true.
Proof.
  intros Hprefix Hsplit Hcolon Hsemi.
  apply prefix_app in Hprefix as [t ->].
  unfold ImageValidator.split in *.
  rewrite list_ascii_of_string_app in Hsplit.
  destruct (split_on_app "," (list_ascii_of_string "data:image/")
              (list_ascii_of_string t)) as (piece0 & pieces0 & Ht & Hfull).
  { simpl. intuition discriminate. }
  rewrite Hfull in Hsplit. cbn [map] in Hsplit.
  assert (Hheader : header
                    = string_of_list_ascii
                        (list_ascii_of_string "data:image/" ++ piece0)%list)
    by congruence.
  destruct pieces0 as [|b pieces0]; [discriminate Hsplit|].
  apply split_on_cons in Ht as [_ [[H _]|(rest0 & Ht & _)]]; [discriminate H|].
  rewrite Hheader, list_ascii_of_string_of_list_ascii in Hcolon.
  change (list_ascii_of_string "data:image/" ++ piece0)%list
    with (list_ascii_of_string "data" ++ ":"%char
            :: (list_ascii_of_string "image/" ++ piece0))%list in Hcolon.
  rewrite split_on_app_sep in Hcolon by (simpl; intuition discriminate).
  destruct (split_on_app ":" (list_ascii_of_string "image/") piece0)
    as (q & qs & Hq & Hfull'); [simpl; intuition discriminate|].
  rewrite Hfull' in Hcolon. cbn [map nth_error] in Hcolon.
  assert (Hafter : afterColon
                   = string_of_list_ascii (list_ascii_of_string "image/" ++ q)%list)
    by congruence.
  rewrite Hafter, list_ascii_of_string_of_list_ascii in Hsemi.
  destruct (split_on_app ";" (list_ascii_of_string "image/") q)
    as (m & ms & Hm & Hfull''); [simpl; intuition discriminate|].
  rewrite Hfull'' in Hsemi. cbn [map] in Hsemi.
  assert (Hmime : mimeType
                  = string_of_list_ascii (list_ascii_of_string "image/" ++ m)%list)
    by congruence.
  rewrite Hmime. clear Hsplit Hcolon Hsemi Hheader Hafter Hmime.
  assert (Hshape : exists delimiter tail,
             list_ascii_of_string t = (m ++ delimiter :: tail)%list
             /\ (delimiter = ";" \/ delimiter = ":" \/ delimiter = ",")%char).
  { rewrite Ht.
    apply split_on_cons in Hq as [_ [[_ ->]|(rest1 & -> & _)]];
      apply split_on_cons in Hm as [_ [[_ ->]|(rest2 & -> & _)]].
    - exists ","%char, rest0. auto.
    - exists ";"%char, (rest2 ++ ","%char :: rest0)%list.
      rewrite <- app_assoc. auto.
    - exists ":"%char, (rest1 ++ ","%char :: rest0)%list.
      rewrite <- app_assoc. auto.
    - exists ";"%char, (rest2 ++ ":"%char :: rest1 ++ ","%char :: rest0)%list.
      rewrite <- !app_assoc. simpl. rewrite <- ?app_assoc. auto. }
  destruct Hshape as (delimiter & tail & Hlist & Hdelimiter).
  exists delimiter, (string_of_list_ascii tail).
  split; [|split; [exact Hdelimiter|]].
  - rewrite <- (string_of_list_ascii_of_string t), Hlist.
    rewrite !string_of_list_ascii_app. reflexivity.
  - rewrite string_of_list_ascii_app. simpl.
    destruct (string_of_list_ascii m); reflexivity.
Qed.

(** X13.  [validateImageData] hands out a buffer only after every check:
    the text is a [data:image/] URL, the buffer is the decoding of the
    piece after its first comma, it has between 8 octets and 200 KiB, the
    type named in the header - the text between [data:] and the first
    [;], [:] or [,] - is one of the three allowed ones, and the buffer
    starts with the magic number of that very type - the PNG signature
    for [image/png], the JPEG marker for the two others. *)
Theorem validateImageData_accepts_only_checked_images :
  forall (base64_decode : string -> list Z) (imageData : option string)
         (buffer : list Z),
    ImageValidator.validateImageData base64_decode imageData = Some buffer ->
    (8 <= List.length buffer <= ImageValidator.SIGNATURE_MAX_SIZE)%nat
    /\ exists text header base64Data pieces afterColon mimeType others delimiter tail,
         imageData = Some text
         /\ prefix "data:image/" text = true
         /\ ImageValidator.split "," text = header :: base64Data :: pieces
         /\ buffer = base64_decode base64Data
         /\ nth_error (ImageValidator.split ":" header) 1 = Some afterColon
         /\ ImageValidator.split ";" afterColon = mimeType :: others
         /\ text = "data:" ++ mimeType ++ String delimiter tail
         /\ (delimiter = ";" \/ delimiter = ":" \/ delimiter = ",")%char
         /\ In mimeType ImageValidator.ALLOWED_IMAGE_TYPES
         /\ (mimeType = "image/png" -> firstn 4 buffer = [137; 80; 78; 71])
         /\ (mimeType <> "image/png" -> firstn 2 buffer = [255; 216]).
Proof.
  intros base64_decode imageData buffer. unfold ImageValidator.validateImageData.
  destruct imageData as [text|]; [|discriminate].
  destruct (negb (JS.truthy_str (Some text))); [discriminate|]. cbv zeta.
  simpl JS.show.
  destruct (prefix "data:image/" text) eqn:Eprefix; [|discriminate]. cbn [negb].
  destruct (ImageValidator.split "," text) as [|header rest] eqn:Esplit; [discriminate|].
  destruct rest as [|base64Data pieces]; [discriminate|]. simpl hd_error.
  destruct (negb (JS.truthy_str (Some base64Data))); [discriminate|].
  destruct (nth_error (ImageValidator.split ":" header) 1) as [afterColon|] eqn:Ecolon;
    [|discriminate].
  destruct (ImageValidator.split ";" afterColon) as [|mimeType others] eqn:Esemi;
    [discriminate|].
  destruct (existsb (String.eqb mimeType) ImageValidator.ALLOWED_IMAGE_TYPES)
    eqn:Eallowed; cbn [negb]; [|discriminate]. simpl JS.show.
  destruct (Nat.ltb_spec ImageValidator.SIGNATURE_MAX_SIZE
              (List.length (base64_decode base64Data))) as [|Hmax]; [discriminate|].
  destruct (ImageValidator.isValidImageBuffer (base64_decode base64Data) mimeType)
    eqn:Evalid; [|discriminate].
  intro H. injection H as <-.
  unfold ImageValidator.isValidImageBuffer in Evalid.
  destruct (Nat.ltb_spec (List.length (base64_decode base64Data)) 8) as [|Hmin];
    [discriminate|].
  split; [lia|].
  destruct (mimeType_of_data_url text header base64Data afterColon mimeType pieces
              others Eprefix Esplit Ecolon Esemi)
    as (delimiter & tail & Hshape & Hdelimiter & _).
  exists text, header, base64Data, pieces, afterColon, mimeType, others, delimiter, tail.
  split; [reflexivity|]. split; [exact Eprefix|]. split; [exact Esplit|].
  split; [reflexivity|]. split; [exact Ecolon|]. split; [exact Esemi|].
  split; [exact Hshape|]. split; [exact Hdelimiter|].
  split.
  { apply existsb_exists in Eallowed as (x & Hx & E).
    apply String.eqb_eq in E. now subst x. }
  destruct (base64_decode base64Data) as [|b0 [|b1 [|b2 [|b3 more]]]];
    simpl in Hmin; try lia.
  split.
  - intros ->. simpl in Evalid.
    repeat (apply andb_true_iff in Evalid as [Evalid ?]).
    repeat match goal with H : (_ =? _) = true |- _ => apply Z.eqb_eq in H end.
    simpl. congruence.
  - intros Hne. destruct (String.eqb_spec mimeType "image/png"); [contradiction|].
    destruct ((mimeType =? "image/jpeg")%string || (mimeType =? "image/jpg")%string);
      [|discriminate].
    simpl in Evalid. apply andb_true_iff in Evalid as [E0 E1].
    apply Z.eqb_eq in E0, E1. simpl. congruence.
Qed.

(** A PNG signature is accepted as [image/png]: the type is read off the
    URL and the buffer starts with the PNG signature. *)
Lemma validateImageData_accepts_only_checked_images_witness :
  ImageValidator.validateImageData Samples.decode
    (Some "data:image/png;base64,iVBORw0KGgo=")
  = Some [137; 80; 78; 71; 13; 10; 26; 10]
  /\ exists mimeType delimiter tail,
       "data:image/png;base64,iVBORw0KGgo="
       = "data:" ++ mimeType ++ String delimiter tail
       /\ mimeType = "image/png"
       /\ firstn 4 [137; 80; 78; 71; 13; 10; 26; 10] = [137; 80; 78; 71].
Proof.
  split; [reflexivity|].
  destruct (validateImageData_accepts_only_checked_images Samples.decode
              (Some "data:image/png;base64,iVBORw0KGgo=")
              [137; 80; 78; 71; 13; 10; 26; 10] eq_refl)
    as (_ & text & header & base64Data & pieces & afterColon & mimeType & others
        & delimiter & tail & Htext & _ & _ & _ & _ & _ & Hshape & Hdelimiter
        & Hallowed & Hpng & _).
  injection Htext as <-.
  assert (Hmime : mimeType = "image/png").
  { destruct Hallowed as [<-|[<-|[<-|[]]]]; [reflexivity| |]; discriminate Hshape. }
  exists mimeType, delimiter, tail.
  split; [exact Hshape|]. split; [exact Hmime|]. exact (Hpng Hmime).
Defined.

(** ** Certificate clean-up *)

Lemma fold_cleanup_file (dir : CertDir.t) (cutoffTime : Z) (files : list string)
    (acc : Cleanup.t) :
  let r := fold_left (cleanup_file dir cutoffTime) files acc in
  let old_size := fun file =>
    match CertDir.stat dir (CertDir.join dir file) with
    | Exn.Ok (mtime, size) => if mtime <? cutoffTime then size else 0
    | Exn.Throw _ => 0
    end in
  Cleanup.deletedCount r - Cleanup.deletedCount acc
  = Z.of_nat (List.length (Cleanup.unlinked r) - List.length (Cleanup.unlinked acc))
  /\ Cleanup.deletedSize r
     = Cleanup.deletedSize acc + fold_right Z.add 0 (map old_size files)
  /\ (exists unlinked errors,
        Cleanup.unlinked r = (Cleanup.unlinked acc ++ unlinked)%list
        /\ Cleanup.errors r = (Cleanup.errors acc ++ errors)%list
        /\ (List.length unlinked + List.length errors <= List.length files)%nat
        /\ (forall p, In p unlinked ->
              exists file mtime size,
                In file files /\ p = CertDir.join dir file
                /\ CertDir.stat dir p = Exn.Ok (mtime, size)
                /\ mtime < cutoffTime
                /\ CertDir.unlink dir p = Exn.Ok tt)
        /\ (forall file e, In (file, e) errors ->
              In file files
              /\ (CertDir.stat dir (CertDir.join dir file) = Exn.Throw e
                  \/ CertDir.unlink dir (CertDir.join dir file) = Exn.Throw e))).
Proof.
  revert acc. induction files as [|file files IH]; intros acc r old_size.
  - subst r. simpl. split; [lia|]. split; [lia|].
    exists [], []. rewrite !app_nil_r. simpl. repeat split; try lia; contradiction.
  - subst r. simpl fold_left.
    destruct (IH (cleanup_file dir cutoffTime acc file))
      as (Hcount & Hsize & unlinked & errors & Hu & He & Hlen & Hold & Herr).
    fold old_size in Hsize.
    set (r := fold_left (cleanup_file dir cutoffTime) files
                (cleanup_file dir cutoffTime acc file)) in *.
    assert (Hold' : forall p, In p unlinked ->
              exists file' mtime size,
                In file' (file :: files) /\ p = CertDir.join dir file'
                /\ CertDir.stat dir p = Exn.Ok (mtime, size)
                /\ mtime < cutoffTime
                /\ CertDir.unlink dir p = Exn.Ok tt).
    { intros p Hp. destruct (Hold p Hp) as (f & m & s & Hf & Hrest).
      exists f, m, s. split; [now right|exact Hrest]. }
    assert (Herr' : forall file' e, In (file', e) errors ->
              In file' (file :: files)
              /\ (CertDir.stat dir (CertDir.join dir file') = Exn.Throw e
                  \/ CertDir.unlink dir (CertDir.join dir file') = Exn.Throw e)).
    { intros f e He'. destruct (Herr f e He') as [Hf Hwhy].
      split; [now right|exact Hwhy]. }
    clear Hold Herr IH.
    simpl map. simpl fold_right.
    unfold cleanup_file in Hcount, Hsize, Hu, He.
    unfold old_size at 1.
    destruct (CertDir.stat dir (CertDir.join dir file)) as [[mtime size]|e] eqn:Estat.
    + destruct (Z.ltb_spec mtime cutoffTime) as [Hlt|Hge].
      * destruct (CertDir.unlink dir (CertDir.join dir file)) as [[]|e] eqn:Eunlink;
          simpl in Hcount, Hsize, Hu, He.
        -- split.
           { rewrite Hu in Hcount |- *. rewrite !length_app in *. simpl in *. lia. }
           split; [lia|].
           exists (CertDir.join dir file :: unlinked), errors.
           rewrite Hu, He, <- app_assoc.
           split; [reflexivity|]. split; [reflexivity|]. split; [simpl; lia|]. split.
           ++ intros p [<-|Hp]; [|now apply Hold'].
              exists file, mtime, size.
              split; [now left|]. split; [reflexivity|]. auto.
           ++ exact Herr'.
        -- split; [exact Hcount|]. split; [lia|].
           exists unlinked, ((file, e) :: errors).
           rewrite Hu, He, <- app_assoc.
           split; [reflexivity|]. split; [reflexivity|]. split; [simpl; lia|]. split.
           ++ exact Hold'.
           ++ intros f e' [E|He']; [|now apply Herr'].
              injection E as <- <-. split; [now left|now right].
      * split; [exact Hcount|]. split; [lia|].
        exists unlinked, errors.
        split; [exact Hu|]. split; [exact He|]. split; [simpl; lia|].
        split; [exact Hold'|exact Herr'].
    + simpl in Hcount, Hsize, Hu, He.
      split; [exact Hcount|]. split; [lia|].
      exists unlinked, ((file, e) :: errors).
      rewrite Hu, He, <- app_assoc.
      split; [reflexivity|]. split; [reflexivity|]. split; [simpl; lia|]. split.
      * exact Hold'.
      * intros f e' [E|He']; [|now apply Herr'].
        injection E as <- <-. split; [now left|now left].
Qed.

(** X14.  [cleanupOldCertificates] throws only when the directory cannot
    be prepared or listed.  Otherwise every file it unlinks is a file of
    the directory that is older than the cut-off ([maxAgeInDays] days
    before the call), [deletedCount] counts exactly these, every error it
    reports is the error of [stat] or of [unlink] on a file of the
    directory, and [deletedSize] is the total size of the files older
    than the cut-off - those whose removal failed included. *)
Theorem cleanupOldCertificates_removes_only_old_files :
  forall (dir : CertDir.t) (now maxAgeInDays : Z),
    let cutoffTime := now - maxAgeInDays * 24 * 60 * 60 * 1000 in
    match cleanupOldCertificates dir now maxAgeInDays with
    | Exn.Throw e =>
        CertDir.ensureDir dir = Exn.Throw e
        \/ (CertDir.ensureDir dir = Exn.Ok tt /\ CertDir.readdir dir = Exn.Throw e)
    | Exn.Ok r =>
        exists files,
          CertDir.readdir dir = Exn.Ok files
          /\ Cleanup.deletedCount r = Z.of_nat (List.length (Cleanup.unlinked r))
          /\ (List.length (Cleanup.unlinked r) + List.length (Cleanup.errors r)
              <= List.length files)%nat
          /\ (forall p, In p (Cleanup.unlinked r) ->
                exists file mtime size,
                  In file files /\ p = CertDir.join dir file
                  /\ CertDir.stat dir p = Exn.Ok (mtime, size)
                  /\ mtime < cutoffTime
                  /\ CertDir.unlink dir p = Exn.Ok tt)
          /\ (forall file e, In (file, e) (Cleanup.errors r) ->
                In file files
                /\ (CertDir.stat dir (CertDir.join dir file) = Exn.Throw e
                    \/ CertDir.unlink dir (CertDir.join dir file) = Exn.Throw e))
          /\ Cleanup.deletedSize r
             = fold_right Z.add 0
                 (map (fun file =>
                         match CertDir.stat dir (CertDir.join dir file) with
                         | Exn.Ok (mtime, size) =>
                             if mtime <? cutoffTime then size else 0
                         | Exn.Throw _ => 0
                         end) files)
    end.
Proof.
  intros dir now maxAgeInDays cutoffTime. unfold cleanupOldCertificates.
  destruct (CertDir.ensureDir dir) as [[]|e]; simpl; [|now left].
  destruct (CertDir.readdir dir) as [files|e]; simpl; [|right; auto].
  fold cutoffTime.
  destruct (fold_cleanup_file dir cutoffTime files (Cleanup.mk 0 0 [] []))
    as (Hcount & Hsize & unlinked & errors & Hu & He & Hlen & Hold & Herr).
  simpl in Hcount, Hsize, Hu, He.
  exists files. rewrite Hu, He. rewrite Hu in Hcount.
  split; [reflexivity|]. split; [lia|]. split; [exact Hlen|].
  split; [exact Hold|]. split; [exact Herr|exact Hsize].
Qed.

(** ** Notification queue and log *)

(** [slice(-n)] after a push: at most [n] elements are kept, they are the
    last ones, and the element pushed is among them. *)
Lemma slice_last_after_push {A : Type} (n : nat) (l : list A) (x : A) :
  (0 < n)%nat ->
  let pushed := (l ++ [x])%list in
  let kept := if (n <? List.length pushed)%nat then JSLib.slice_last n pushed
              else pushed in
  (List.length kept <= n)%nat
  /\ exists dropped front,
       pushed = (dropped ++ kept)%list
       /\ List.length dropped = (List.length l + 1 - n)%nat
       /\ kept = (front ++ [x])%list.
Proof.
  intros Hn pushed kept. subst kept.
  assert (Hlen : List.length pushed = (List.length l + 1)%nat)
    by (unfold pushed; rewrite length_app; reflexivity).
  destruct (Nat.ltb_spec n (List.length pushed)) as [Hlt|Hge].
  - unfold JSLib.slice_last. split; [rewrite length_skipn; lia|].
    exists (firstn (List.length pushed - n) pushed),
           (skipn (List.length pushed - n) l).
    split; [now rewrite firstn_skipn|]. split; [rewrite length_firstn; lia|].
    unfold pushed at 2. rewrite skipn_app.
    replace (List.length pushed - n - List.length l)%nat with 0%nat by lia.
    reflexivity.
  - split; [lia|]. exists [], l. split; [reflexivity|]. split; [simpl; lia|].
    reflexivity.
Qed.

(** X15.  The notification queue never grows beyond 1000 entries: after
    [queueNotification] the queue holds at most 1000 notifications, they
    are the most recent ones in their order, and the one just queued is
    the last; it carries the time of the call as [queuedAt], an expiry 24
    hours later, and every other property as it was given. *)
Theorem queueNotification_keeps_the_last_thousand :
  forall (toISOString : Z -> string) (clock : JS.Clock)
         (notificationQueue : list Notification.t) (notificationData : Notification.t),
    let stamped := fst (queueNotification toISOString clock notificationQueue
                          notificationData) in
    let queue' := snd (queueNotification toISOString clock notificationQueue
                         notificationData) in
    (List.length queue' <= QUEUE_LIMIT)%nat
    /\ (exists dropped front,
          (notificationQueue ++ [stamped])%list = (dropped ++ queue')%list
          /\ List.length dropped = (List.length notificationQueue + 1 - QUEUE_LIMIT)%nat
          /\ queue' = (front ++ [stamped])%list)
    /\ JS.get stamped "queuedAt" = Some (JS.VStr (JS.now_iso clock))
    /\ JS.get stamped "expiresAt"
       = Some (JS.VStr (toISOString (JS.now_ms clock + 24 * 60 * 60 * 1000)))
    /\ forall key, key <> "queuedAt" -> key <> "expiresAt" ->
         JS.get stamped key = JS.get notificationData key.
Proof.
  intros toISOString clock notificationQueue notificationData stamped queue'.
  unfold queueNotification in stamped, queue'. cbv zeta in stamped, queue'.
  simpl fst in stamped. simpl snd in queue'. fold stamped in queue'.
  destruct (slice_last_after_push QUEUE_LIMIT notificationQueue stamped)
    as (Hlen & Hkept); [unfold QUEUE_LIMIT; lia|].
  split; [exact Hlen|]. split; [exact Hkept|].
  unfold stamped. split; [apply get_set_same|]. split.
  - rewrite get_set_other by discriminate. apply get_set_same.
  - intros key Hq He. now rewrite !get_set_other by congruence.
Qed.

Lemma spread_get {V : Type} (more base : list (string * V)) (key : string) :
  NoDup (map fst more) ->
  JS.get (JSLib.spread base more) key
  = match JS.get more key with
    | Some v => Some v
    | None => JS.get base key
    end.
Proof.
  unfold JSLib.spread. revert base.
  induction more as [|[k v] more IH]; intros base Hnd; [reflexivity|].
  inversion Hnd as [|? ? Hnotin Hnd']; subst. simpl fold_left. simpl JS.get.
  rewrite IH by assumption.
  destruct (String.eqb_spec k key) as [->|Hk].
  - assert (Hnone : JS.get more key = None).
    { clear - Hnotin. induction more as [|[k' v'] more IH]; [reflexivity|].
      simpl in *. destruct (String.eqb_spec k' key) as [->|_].
      - exfalso. apply Hnotin. now left.
      - apply IH. intro H. apply Hnotin. now right. }
    rewrite Hnone. apply get_set_same.
  - destruct (JS.get more key); [reflexivity|].
    apply get_set_other. congruence.
Qed.

(** X16.  [logNotification] never raises and keeps the log within 1000
    entries.  When the store cannot be written the log stays as it was.
    Otherwise the log is an array of at most 1000 entries, the last of
    what it held (nothing, when the file was not an array) followed by
    the new entry; the entry carries the time of the call as [loggedAt],
    the properties it was given, and the generated id only when it was
    given none itself. *)
Theorem logNotification_keeps_the_last_thousand :
  forall (env : Env) (random : string) (log : FileUtils.File Notification.t)
         (notificationData : Notification.t),
    NoDup (map fst notificationData) ->
    let log' := logNotification env random log notificationData in
    (write_error env <> None -> log' = log)
    /\ (write_error env = None ->
        exists logEntry dropped front,
          log' = FileUtils.Stored (FileUtils.WellFormed
                   (FileUtils.DArray (front ++ [logEntry])%list))
          /\ (List.length (front ++ [logEntry])%list <= QUEUE_LIMIT)%nat
          /\ (FileUtils.load_collection log ++ [logEntry])%list
             = (dropped ++ front ++ [logEntry])%list
          /\ List.length dropped
             = (List.length (FileUtils.load_collection log) + 1 - QUEUE_LIMIT)%nat
          /\ JS.get logEntry "loggedAt" = Some (JS.VStr (JS.now_iso (clock env)))
          /\ JS.get logEntry "id"
             = match JS.get notificationData "id" with
               | Some id => Some id
               | None =>
                   Some (JS.VStr (generateNotificationId (clock env) random))
               end
          /\ forall key, key <> "loggedAt" -> key <> "id" ->
               JS.get logEntry key = JS.get notificationData key).
Proof.
  intros env random log notificationData Hnd log'. subst log'.
  unfold logNotification. cbv zeta.
  set (logEntry := JS.set (JSLib.spread _ notificationData) "loggedAt" _).
  unfold FileUtils.saveJSON.
  destruct (write_error env) as [e|]; simpl Exn.try_catch; cbv iota.
  - split; [reflexivity|discriminate].
  - split; [intro H; now elim H|]. intros _.
    destruct (slice_last_after_push QUEUE_LIMIT (FileUtils.load_collection log)
                logEntry) as (Hlen & dropped & front & Hpushed & Hdropped & Hkept);
      [unfold QUEUE_LIMIT; lia|].
    cbv zeta in Hlen, Hpushed, Hkept.
    exists logEntry, dropped, front. rewrite Hkept in Hlen, Hpushed.
    split.
    { apply (f_equal (fun l : list Notification.t =>
                        FileUtils.Stored (FileUtils.WellFormed (FileUtils.DArray l)))).
      exact Hkept. }
    split; [exact Hlen|]. split; [exact Hpushed|].
    split; [exact Hdropped|].
    unfold logEntry. split; [apply get_set_same|]. split.
    + rewrite get_set_other by discriminate.
      rewrite spread_get by assumption. reflexivity.
    + intros key Hl Hi. rewrite get_set_other by congruence.
      rewrite spread_get by assumption.
      destruct (JS.get notificationData key); [reflexivity|].
      cbn [JS.get]. destruct (String.eqb_spec "id" key); [congruence|reflexivity].
Qed.

Lemma logNotification_keeps_the_last_thousand_witness :
  logNotification (mkEnv Samples.clock (Some "EROFS: read-only file system")) "k3x9q2a"
    Samples.notice_log Samples.other_notice
  = Samples.notice_log.
Proof.
  destruct (logNotification_keeps_the_last_thousand
              (mkEnv Samples.clock (Some "EROFS: read-only file system")) "k3x9q2a"
              Samples.notice_log Samples.other_notice) as [H _].
  - simpl. repeat constructor; simpl; intuition discriminate.
  - apply H. discriminate.
Defined.

Lemma slice_to_length {A : Type} (limit : Z) (l : list A) :
  0 <= limit -> Z.of_nat (List.length (JSLib.slice_to limit l)) <= limit.
Proof.
  intro H. unfold JSLib.slice_to.
  destruct (Z.ltb_spec limit 0); [lia|]. rewrite length_firstn. lia.
Qed.

Lemma slice_to_In {A : Type} (limit : Z) (l : list A) (x : A) :
  In x (JSLib.slice_to limit l) -> In x l.
Proof.
  assert (Hfirst : forall n, In x (firstn n l) -> In x l).
  { intros n H. rewrite <- (firstn_skipn n l). apply in_or_app. now left. }
  unfold JSLib.slice_to. destruct (limit <? 0); apply Hfirst.
Qed.

(** X17.  [getNotificationHistory] never raises and never shows an
    employee the notifications of another: what it returns was read from
    the log and, when an employee id is given, is addressed to that
    employee; with a limit that is not negative it returns at most that
    many entries, and all the employee has when the limit allows it.  A
    log that is missing, unreadable, malformed or not an array gives the
    empty list. *)
Theorem getNotificationHistory_shows_own_notifications :
  forall (Date_parse : string -> option Z) (log : FileUtils.File Notification.t)
         (employeeId : string) (limit : Z),
    employeeId <> "" ->
    let shown := getNotificationHistory Date_parse log (Some employeeId) limit in
    let own := filter (Notification.is_for employeeId) (FileUtils.load_collection log) in
    (forall n, In n shown ->
       In n (FileUtils.load_collection log)
       /\ JS.get n "employeeId" = Some (JS.VStr employeeId))
    /\ (0 <= limit -> Z.of_nat (List.length shown) <= limit)
    /\ (Z.of_nat (List.length own) <= limit -> Permutation shown own)
    /\ ((forall items, log <> FileUtils.Stored (FileUtils.WellFormed
                                (FileUtils.DArray items))) ->
        shown = []).
Proof.
  intros Date_parse log employeeId limit Hne shown own.
  assert (Hshown : shown
                   = JSLib.slice_to limit
                       (JS.sort (notification_latest_first Date_parse) own)).
  { subst shown own. unfold getNotificationHistory, FileUtils.load_collection.
    apply String.eqb_neq in Hne. rewrite Hne.
    destruct (FileUtils.loadJSON log) as [[items|v]|e]; try reflexivity;
      unfold JSLib.slice_to; simpl; destruct (limit <? 0);
      now rewrite ?firstn_nil. }
  split; [|split; [|split]].
  - intros n Hn. rewrite Hshown in Hn.
    apply slice_to_In, sort_In, filter_In in Hn as [Hin Hfor].
    split; [exact Hin|]. unfold Notification.is_for in Hfor.
    destruct (JS.get n "employeeId") as [[| | |e| |]|]; try discriminate.
    apply String.eqb_eq in Hfor. now subst e.
  - intro Hlimit. rewrite Hshown. now apply slice_to_length.
  - intro Hall. rewrite Hshown. unfold JSLib.slice_to.
    destruct (Z.ltb_spec limit 0); [lia|].
    rewrite firstn_all2 by (rewrite sort_length; lia).
    apply Permutation_sym, sort_perm.
  - intro Hnot. subst shown. unfold getNotificationHistory.
    destruct log as [| |[|[items|v]]]; try reflexivity.
    now elim (Hnot items).
Qed.

Lemma getNotificationHistory_shows_own_notifications_witness :
  Permutation
    (getNotificationHistory IsoDate.parse Samples.notice_log (Some "E1") 50)
    (filter (Notification.is_for "E1") (FileUtils.load_collection Samples.notice_log)).
Proof.
  destruct (getNotificationHistory_shows_own_notifications IsoDate.parse
              Samples.notice_log "E1" 50) as (_ & _ & H & _).
  - discriminate.
  - apply H. vm_compute. discriminate.
Defined.

(** ** One-time passwords *)
Section OtpFacts.
Variable Date_parse : string -> option Z.

Lemma session_loadJSON_total (file : SessionFile.t) :
  exists sessions, SessionFile.loadJSON file = Exn.Ok sessions.
Proof. destruct file; cbv; eauto. Qed.

Lemma session_loadJSON_holds (sessions : list (string * LoginSession.t)) :
  SessionFile.loadJSON (SessionFile.Holds sessions) = Exn.Ok sessions.
Proof. reflexivity. Qed.

Lemma inherited_In (name : string) :
  JSLib.inherited name = true <-> In name JSLib.Object_prototype_properties.
Proof.
  unfold JSLib.inherited. rewrite existsb_exists. split.
  - intros (x & Hx & E). apply String.eqb_eq in E. now subst x.
  - intro H. exists name. split; [exact H|apply String.eqb_refl].
Qed.

(** A stored session is what its token reaches. *)
Lemma reach_own (host : OtpHost.t) (sessions : list (string * LoginSession.t))
    (sessionToken : string) (session : LoginSession.t) :
  JS.get sessions sessionToken = Some session ->
  reach host sessions sessionToken = Own session.
Proof. intro H. unfold reach. now rewrite H. Qed.

(** A token that names no stored session and no member of
    [Object.prototype] reaches at most a primitive value. *)
Lemma reach_outside (host : OtpHost.t) (sessions : list (string * LoginSession.t))
    (sessionToken : string) :
  JS.get sessions sessionToken = None ->
  JSLib.inherited sessionToken = false ->
  reach host sessions sessionToken = Inherited Primitive
  \/ reach host sessions sessionToken = Nothing.
Proof.
  intros Hget Hname. unfold reach. rewrite Hget.
  destruct (String.eqb_spec sessionToken "__proto__") as [->|_]; [discriminate Hname|].
  rewrite Hname. destruct (expando_truthy _ _); auto.
Qed.

(** A token that names no stored session and a member of
    [Object.prototype] reaches that member. *)
Lemma reach_member (host : OtpHost.t) (sessions : list (string * LoginSession.t))
    (sessionToken : string) :
  JS.get sessions sessionToken = None ->
  JSLib.inherited sessionToken = true ->
  reach host sessions sessionToken
  = Inherited (if (sessionToken =? "__proto__")%string
               then ObjectPrototype else Member sessionToken).
Proof.
  intros Hget Hname. unfold reach. rewrite Hget, Hname.
  destruct (sessionToken =? "__proto__")%string; reflexivity.
Qed.

(** What [verifyOTP] does with a session it finds unverified, when the
    store can be written. *)
Lemma verifyOTP_unverified (env : OtpEnv.t) (store : OtpStore.t)
    (sessionToken : string) (otp : option string)
    (sessions : list (string * LoginSession.t)) (session : LoginSession.t) :
  SessionFile.loadJSON (OtpStore.file store) = Exn.Ok sessions ->
  JS.get sessions sessionToken = Some session ->
  LoginSession.verified session = false ->
  OtpEnv.write_error env = None ->
  verifyOTP Date_parse env store sessionToken otp
  = if date_gt (Some (JS.now_ms (OtpEnv.clock env)))
         (Date_parse (LoginSession.expiresAt session))
    then (OtpReply.failure "OTP expired. Please request a new one.",
          OtpStore.mk (SessionFile.Holds (JS.assign sessions sessionToken None))
            (OtpStore.host store))
    else if OtpEnv.maxAttempts env <=? LoginSession.attempts session
    then (OtpReply.failure "Maximum attempts exceeded. Please request a new OTP.",
          OtpStore.mk (SessionFile.Holds (JS.assign sessions sessionToken None))
            (OtpStore.host store))
    else if JS.strict_eq (Some (LoginSession.otp session)) otp
    then (OtpReply.mk true "OTP verified successfully" None
            (Some (LoginSession.employeeId session)) None,
          OtpStore.mk
            (SessionFile.Holds
               (JS.set sessions sessionToken (LoginSession.with_verified true session)))
            (OtpStore.host store))
    else (OtpReply.failure
            ("Invalid OTP. "
               ++ JS.show_Z (OtpEnv.maxAttempts env
                             - (LoginSession.attempts session + 1))
               ++ " attempts remaining."),
          OtpStore.mk
            (SessionFile.Holds
               (JS.set sessions sessionToken
                  (LoginSession.with_attempts (LoginSession.attempts session + 1)
                     session)))
            (OtpStore.host store)).
Proof.
  intros Hload Hget Hverified Hwrite.
  unfold verifyOTP, save_then, SessionFile.saveJSON.
  rewrite Hload, (reach_own _ _ _ _ Hget), Hverified, Hwrite. simpl Exn.try_catch.
  destruct (date_gt _ _); [reflexivity|]. cbv zeta.
  destruct (_ <=? _); [reflexivity|].
  destruct (JS.strict_eq _ otp); reflexivity.
Qed.

(** What [verifyOTP] does with a built-in object, when the store can be
    written. *)
Lemma verifyOTP_inherited (env : OtpEnv.t) (store : OtpStore.t)
    (sessionToken : string) (otp : option string)
    (sessions : list (string * LoginSession.t)) (o : BuiltIn) :
  SessionFile.loadJSON (OtpStore.file store) = Exn.Ok sessions ->
  reach (OtpStore.host store) sessions sessionToken = Inherited o ->
  OtpEnv.write_error env = None ->
  let session := inherited_fields (OtpStore.host store) o in
  let left := OtpStore.mk (SessionFile.Holds (JS.assign sessions sessionToken None))
                (OtpStore.host store) in
  verifyOTP Date_parse env store sessionToken otp
  = if match Expando.verified session with Some b => b | None => false end
    then (OtpReply.failure "OTP already used", store)
    else if date_gt (Some (JS.now_ms (OtpEnv.clock env)))
              (JS.new_Date Date_parse (Expando.expiresAt session))
    then (OtpReply.failure "OTP expired. Please request a new one.", left)
    else if attempts_ge (Expando.attempts session) (OtpEnv.maxAttempts env)
    then (OtpReply.failure "Maximum attempts exceeded. Please request a new OTP.", left)
    else if JS.strict_eq (Expando.otp session) otp
    then match assign_expando (OtpStore.host store) o (Expando.with_verified true) with
         | Exn.Ok host =>
             (OtpReply.mk true "OTP verified successfully" None None None,
              OtpStore.mk (SessionFile.Holds sessions) host)
         | Exn.Throw _ =>
             (OtpReply.failure "Verification failed. Please try again.", store)
         end
    else match assign_expando (OtpStore.host store) o
                 (Expando.with_attempts (plus_one (Expando.attempts session))) with
         | Exn.Ok host =>
             (OtpReply.failure
                ("Invalid OTP. "
                   ++ show_number
                        (option_map (fun a => OtpEnv.maxAttempts env - a)
                           (plus_one (Expando.attempts session)))
                   ++ " attempts remaining."),
              OtpStore.mk (SessionFile.Holds sessions) host)
         | Exn.Throw _ =>
             (OtpReply.failure "Verification failed. Please try again.", store)
         end.
Proof.
  intros Hload Hreach Hwrite session left.
  unfold verifyOTP, save_then, SessionFile.saveJSON.
  rewrite Hload, Hreach, Hwrite. simpl Exn.try_catch. cbv zeta. fold session.
  destruct (match Expando.verified session with Some b => b | None => false end);
    [reflexivity|].
  destruct (date_gt _ _); [reflexivity|].
  destruct (attempts_ge _ _); [reflexivity|].
  destruct (JS.strict_eq _ otp); simpl negb; cbv iota;
    destruct (assign_expando _ _ _); reflexivity.
Qed.

(** On a closed token no call succeeds, and the token stays closed. *)
Lemma verifyOTP_refuses (env : OtpEnv.t) (store : OtpStore.t)
    (sessionToken : string) (otp : option string) :
  closed store sessionToken ->
  OtpReply.success (fst (verifyOTP Date_parse env store sessionToken otp)) = false
  /\ closed (snd (verifyOTP Date_parse env store sessionToken otp)) sessionToken.
Proof.
  intros [Hname Hstate].
  destruct (session_loadJSON_total (OtpStore.file store)) as [sessions Hload].
  specialize (Hstate sessions Hload).
  assert (Hkept : closed store sessionToken).
  { split; [exact Hname|]. intros sessions' Hload'.
    rewrite Hload in Hload'. injection Hload' as <-. exact Hstate. }
  assert (Hgone : forall host, closed
            (OtpStore.mk (SessionFile.Holds (JS.assign sessions sessionToken None)) host)
            sessionToken).
  { intro host. split; [exact Hname|]. intros sessions' Hload'.
    change (Exn.Ok (JS.assign sessions sessionToken None) = Exn.Ok sessions')
      in Hload'.
    assert (E : sessions' = JS.assign sessions sessionToken None) by congruence.
    rewrite E. now rewrite get_assign_none. }
  assert (Hsame : forall host,
            closed (OtpStore.mk (SessionFile.Holds sessions) host) sessionToken).
  { intro host. split; [exact Hname|]. intros sessions' Hload'.
    change (Exn.Ok sessions = Exn.Ok sessions') in Hload'.
    injection Hload' as <-. exact Hstate. }
  unfold verifyOTP, save_then, SessionFile.saveJSON. rewrite Hload.
  destruct (JS.get sessions sessionToken) as [session|] eqn:Hget.
  - rewrite (reach_own _ _ _ _ Hget), Hstate. split; [reflexivity|exact Hkept].
  - destruct (reach_outside (OtpStore.host store) sessions sessionToken Hget Hname)
      as [-> | ->]; [|split; [reflexivity|exact Hkept]].
    cbv zeta.
    destruct (match Expando.verified _ with Some b => b | None => false end);
      [split; [reflexivity|exact Hkept]|].
    destruct (OtpEnv.write_error env); simpl Exn.try_catch; cbv iota.
    + destruct (date_gt _ _); [split; [reflexivity|exact Hkept]|].
      destruct (attempts_ge _ _); [split; [reflexivity|exact Hkept]|].
      destruct (negb _); split; try reflexivity; exact Hkept.
    + destruct (date_gt _ _); [split; [reflexivity|apply Hgone]|].
      destruct (attempts_ge _ _); [split; [reflexivity|apply Hgone]|].
      destruct (negb _); split; try reflexivity; exact Hkept.
Qed.

(** When the store cannot be written no call succeeds and the file keeps
    its content. *)
Lemma verifyOTP_needs_the_store (env : OtpEnv.t) (store : OtpStore.t)
    (sessionToken : string) (otp : option string) :
  OtpEnv.write_error env <> None ->
  OtpReply.success (fst (verifyOTP Date_parse env store sessionToken otp)) = false
  /\ OtpStore.file (snd (verifyOTP Date_parse env store sessionToken otp))
     = OtpStore.file store.
Proof.
  intro Hwrite. unfold verifyOTP, save_then, SessionFile.saveJSON.
  destruct (OtpEnv.write_error env) as [e|]; [|now elim Hwrite].
  simpl Exn.try_catch.
  destruct (SessionFile.loadJSON (OtpStore.file store)) as [sessions|];
    [|split; reflexivity].
  destruct (reach _ _ _) as [session|o|]; [| |split; reflexivity].
  - destruct (LoginSession.verified session); [split; reflexivity|].
    destruct (date_gt _ _); [split; reflexivity|]. cbv zeta.
    destruct (_ <=? _); [split; reflexivity|].
    destruct (negb _); split; reflexivity.
  - cbv zeta.
    destruct (match Expando.verified _ with Some b => b | None => false end);
      [split; reflexivity|].
    destruct (date_gt _ _); [split; reflexivity|].
    destruct (attempts_ge _ _); [split; reflexivity|].
    destruct (negb _); destruct (assign_expando _ _ _); split; reflexivity.
Qed.

(** The two ways in which [verifyOTP] succeeds: on a stored session, and
    on a member of [Object.prototype] that the token names. *)
Lemma verifyOTP_success_cases (env : OtpEnv.t) (store : OtpStore.t)
    (sessionToken : string) (otp : option string) :
  let reply := verifyOTP Date_parse env store sessionToken otp in
  OtpReply.success (fst reply) = true <->
  exists sessions,
    SessionFile.loadJSON (OtpStore.file store) = Exn.Ok sessions
    /\ OtpEnv.write_error env = None
    /\ ((exists session,
            JS.get sessions sessionToken = Some session
            /\ LoginSession.verified session = false
            /\ date_gt (Some (JS.now_ms (OtpEnv.clock env)))
                 (Date_parse (LoginSession.expiresAt session)) = false
            /\ LoginSession.attempts session < OtpEnv.maxAttempts env
            /\ otp = Some (LoginSession.otp session)
            /\ OtpReply.employeeId (fst reply) = Some (LoginSession.employeeId session)
            /\ snd reply
               = OtpStore.mk
                   (SessionFile.Holds
                      (JS.set sessions sessionToken
                         (LoginSession.with_verified true session)))
                   (OtpStore.host store))
        \/ (exists o session host,
               JS.get sessions sessionToken = None
               /\ In sessionToken JSLib.Object_prototype_properties
               /\ o = (if (sessionToken =? "__proto__")%string
                       then ObjectPrototype else Member sessionToken)
               /\ session = inherited_fields (OtpStore.host store) o
               /\ Expando.verified session <> Some true
               /\ date_gt (Some (JS.now_ms (OtpEnv.clock env)))
                    (JS.new_Date Date_parse (Expando.expiresAt session)) = false
               /\ attempts_ge (Expando.attempts session) (OtpEnv.maxAttempts env) = false
               /\ otp = Expando.otp session
               /\ OtpReply.employeeId (fst reply) = None
               /\ assign_expando (OtpStore.host store) o (Expando.with_verified true)
                  = Exn.Ok host
               /\ snd reply = OtpStore.mk (SessionFile.Holds sessions) host)).
Proof.
  intro reply. subst reply.
  destruct (session_loadJSON_total (OtpStore.file store)) as [sessions Hload].
  split.
  - intro Hsuccess. exists sessions. split; [exact Hload|].
    destruct (OtpEnv.write_error env) as [e|] eqn:Hwrite.
    { destruct (verifyOTP_needs_the_store env store sessionToken otp) as [H _];
        [congruence|]. congruence. }
    split; [reflexivity|].
    destruct (JS.get sessions sessionToken) as [session|] eqn:Hget.
    + left. exists session.
      destruct (LoginSession.verified session) eqn:Hverified.
      { exfalso. unfold verifyOTP in Hsuccess.
        rewrite Hload, (reach_own _ _ _ _ Hget), Hverified in Hsuccess.
        discriminate Hsuccess. }
      rewrite (verifyOTP_unverified env store sessionToken otp sessions session
                 Hload Hget Hverified Hwrite) in Hsuccess |- *.
      destruct (date_gt _ _); [discriminate|].
      destruct (Z.leb_spec (OtpEnv.maxAttempts env) (LoginSession.attempts session));
        [discriminate|].
      destruct (JS.strict_eq (Some (LoginSession.otp session)) otp) eqn:Eotp;
        [|discriminate].
      apply strict_eq_true_iff in Eotp.
      repeat (split; [first [reflexivity | assumption | now symmetry]|]).
      reflexivity.
    + destruct (JSLib.inherited sessionToken) eqn:Hname.
      2:{ exfalso.
          destruct (verifyOTP_refuses env store sessionToken otp) as [H _];
            [|congruence].
          split; [exact Hname|]. intros sessions' Hload'.
          rewrite Hload in Hload'. injection Hload' as <-. now rewrite Hget. }
      right.
      pose proof (reach_member (OtpStore.host store) sessions sessionToken Hget Hname)
        as Hreach.
      set (o := if (sessionToken =? "__proto__")%string
                then ObjectPrototype else Member sessionToken) in *.
      pose proof (verifyOTP_inherited env store sessionToken otp sessions o
                    Hload Hreach Hwrite) as Hrun. cbv zeta in Hrun.
      rewrite Hrun in Hsuccess |- *. clear Hrun.
      set (session := inherited_fields (OtpStore.host store) o) in *.
      destruct (Expando.verified session) as [[|]|] eqn:Hverified;
        try discriminate Hsuccess;
        (destruct (date_gt _ _) eqn:Hfresh; [discriminate Hsuccess|];
         destruct (attempts_ge _ _) eqn:Hleft; [discriminate Hsuccess|];
         destruct (JS.strict_eq (Expando.otp session) otp) eqn:Eotp;
           [|destruct (assign_expando _ _ _); discriminate Hsuccess];
         destruct (assign_expando (OtpStore.host store) o (Expando.with_verified true))
           as [host|e] eqn:Hassign; [|discriminate Hsuccess];
         apply strict_eq_true_iff in Eotp;
         exists o, session, host;
         split; [reflexivity|]; split; [now apply inherited_In|];
         split; [reflexivity|]; split; [reflexivity|];
         split; [rewrite Hverified; discriminate|];
         split; [exact Hfresh|]; split; [exact Hleft|];
         split; [now symmetry|]; split; [reflexivity|];
         split; [exact Hassign|reflexivity]).
  - intros (sessions' & Hload' & Hwrite & Hcases).
    rewrite Hload in Hload'. injection Hload' as <-.
    destruct Hcases as [(session & Hget & Hverified & Hfresh & Hattempts & -> & _)
                       |(o & session & host & Hget & Hname & -> & -> & Hverified
                         & Hfresh & Hleft & -> & _ & Hassign & _)].
    + rewrite (verifyOTP_unverified env store sessionToken _ sessions session
                 Hload Hget Hverified Hwrite).
      rewrite Hfresh.
      destruct (Z.leb_spec (OtpEnv.maxAttempts env) (LoginSession.attempts session));
        [lia|].
      now rewrite strict_eq_refl.
    + apply inherited_In in Hname.
      pose proof (reach_member (OtpStore.host store) sessions sessionToken Hget Hname)
        as Hreach.
      pose proof (verifyOTP_inherited env store sessionToken
                    (Expando.otp (inherited_fields (OtpStore.host store)
                       (if (sessionToken =? "__proto__")%string
                        then ObjectPrototype else Member sessionToken)))
                    sessions _ Hload Hreach Hwrite) as Hrun.
      cbv zeta in Hrun. rewrite Hrun. clear Hrun.
      rewrite Hfresh, Hleft, Hassign, strict_eq_refl.
      destruct (Expando.verified _) as [[|]|]; [now elim Hverified| |]; reflexivity.
Qed.

End OtpFacts.

Lemma closed_intro (store : OtpStore.t) (sessionToken : string)
    (sessions : list (string * LoginSession.t)) :
  JSLib.inherited sessionToken = false ->
  SessionFile.loadJSON (OtpStore.file store) = Exn.Ok sessions ->
  match JS.get sessions sessionToken with
  | None => True
  | Some session => LoginSession.verified session = true
  end ->
  closed store sessionToken.
Proof.
  intros Hname Hload Hstate. split; [exact Hname|]. intros sessions' Hload'.
  rewrite Hload in Hload'. injection Hload' as <-. exact Hstate.
Qed.

Lemma not_inherited (name : string) :
  ~ In name JSLib.Object_prototype_properties -> JSLib.inherited name = false.
Proof.
  intro H. apply not_true_is_false. intro E. apply H.
  unfold JSLib.inherited in E. apply existsb_exists in E as (x & Hx & E).
  apply String.eqb_eq in E. now subst x.
Qed.

(** In a process in which nothing was written on the built-in objects,
    none of them carries a property of a session. *)
Lemma inherited_fields_fresh (o : BuiltIn) :
  inherited_fields OtpHost.fresh o = Expando.none.
Proof. destruct o; reflexivity. Qed.

(** Once [verified] was written on a built-in object it is read there. *)
Lemma verified_after_assign (host host' : OtpHost.t) (o : BuiltIn) :
  assign_expando host o (Expando.with_verified true) = Exn.Ok host' ->
  Expando.verified (inherited_fields host' o) = Some true.
Proof.
  destruct o as [|name|]; simpl; intro H; try discriminate H.
  - injection H as <-. reflexivity.
  - injection H as <-. unfold own_expando at 1. simpl OtpHost.members.
    rewrite get_set_same. reflexivity.
Qed.

(** X18.  [verifyOTP] succeeds in two ways.  It succeeds on a stored
    session: the token names a session of the file that is not used yet,
    has not expired at the time of the call, has fewer failed attempts
    than the maximum, and whose OTP is the one typed, and the store can be
    written; it then answers with the employee id of that session and
    stores the session as verified.  It also succeeds when the token
    names no stored session but a member of [Object.prototype], such as
    [constructor]: the properties of a session are then read on that
    built-in object, and the call succeeds when [verified] is not set on
    it, the [expiresAt] and the [attempts] set on it do not forbid it and
    the OTP is the [otp] set on it; it then answers without an employee
    id, writes [verified] on the built-in object and saves the sessions as
    they are.  For a token that names no member of [Object.prototype] only
    the first way is open; in a process in which nothing was written on
    the built-in objects, a call for a member name that is not stored
    succeeds exactly when no OTP is passed and the store can be
    written. *)
Theorem verifyOTP_succeeds_iff :
  forall (Date_parse : string -> option Z) (env : OtpEnv.t) (store : OtpStore.t)
         (sessionToken : string) (otp : option string),
    let reply := verifyOTP Date_parse env store sessionToken otp in
    (OtpReply.success (fst reply) = true <->
     exists sessions,
       SessionFile.loadJSON (OtpStore.file store) = Exn.Ok sessions
       /\ OtpEnv.write_error env = None
       /\ ((exists session,
               JS.get sessions sessionToken = Some session
               /\ LoginSession.verified session = false
               /\ date_gt (Some (JS.now_ms (OtpEnv.clock env)))
                    (Date_parse (LoginSession.expiresAt session)) = false
               /\ LoginSession.attempts session < OtpEnv.maxAttempts env
               /\ otp = Some (LoginSession.otp session)
               /\ OtpReply.employeeId (fst reply)
                  = Some (LoginSession.employeeId session)
               /\ snd reply
                  = OtpStore.mk
                      (SessionFile.Holds
                         (JS.set sessions sessionToken
                            (LoginSession.with_verified true session)))
                      (OtpStore.host store))
           \/ (exists o session host,
                  JS.get sessions sessionToken = None
                  /\ In sessionToken JSLib.Object_prototype_properties
                  /\ o = (if (sessionToken =? "__proto__")%string
                          then ObjectPrototype else Member sessionToken)
                  /\ session = inherited_fields (OtpStore.host store) o
                  /\ Expando.verified session <> Some true
                  /\ date_gt (Some (JS.now_ms (OtpEnv.clock env)))
                       (JS.new_Date Date_parse (Expando.expiresAt session)) = false
                  /\ attempts_ge (Expando.attempts session) (OtpEnv.maxAttempts env)
                     = false
                  /\ otp = Expando.otp session
                  /\ OtpReply.employeeId (fst reply) = None
                  /\ assign_expando (OtpStore.host store) o (Expando.with_verified true)
                     = Exn.Ok host
                  /\ snd reply = OtpStore.mk (SessionFile.Holds sessions) host)))
    /\ (~ In sessionToken JSLib.Object_prototype_properties ->
        (OtpReply.success (fst reply) = true <->
         exists sessions session,
           SessionFile.loadJSON (OtpStore.file store) = Exn.Ok sessions
           /\ JS.get sessions sessionToken = Some session
           /\ LoginSession.verified session = false
           /\ date_gt (Some (JS.now_ms (OtpEnv.clock env)))
                (Date_parse (LoginSession.expiresAt session)) = false
           /\ LoginSession.attempts session < OtpEnv.maxAttempts env
           /\ otp = Some (LoginSession.otp session)
           /\ OtpEnv.write_error env = None
           /\ OtpReply.employeeId (fst reply) = Some (LoginSession.employeeId session)
           /\ snd reply
              = OtpStore.mk
                  (SessionFile.Holds
                     (JS.set sessions sessionToken
                        (LoginSession.with_verified true session)))
                  (OtpStore.host store)))
    /\ (OtpStore.host store = OtpHost.fresh ->
        In sessionToken JSLib.Object_prototype_properties ->
        (forall sessions,
            SessionFile.loadJSON (OtpStore.file store) = Exn.Ok sessions ->
            JS.get sessions sessionToken = None) ->
        (OtpReply.success (fst reply) = true <->
         otp = None /\ OtpEnv.write_error env = None)).
Proof.
  intros Date_parse env store sessionToken otp reply.
  pose proof (verifyOTP_success_cases Date_parse env store sessionToken otp) as Hcases.
  cbv zeta in Hcases. fold reply in Hcases.
  split; [exact Hcases|]. split.
  - intro Hname. rewrite Hcases. split.
    + intros (sessions & Hload & Hwrite
              & [(session & Hget & Hverified & Hfresh & Hattempts & Hotp & Hid & Hsnd)
                |(o & session & host & _ & Hin & _)]);
        [|contradiction].
      exists sessions, session. auto 10.
    + intros (sessions & session & Hload & Hget & Hverified & Hfresh & Hattempts
              & Hotp & Hwrite & Hid & Hsnd).
      exists sessions. split; [exact Hload|]. split; [exact Hwrite|].
      left. exists session. auto 10.
  - intros Hfresh Hname Hfree. rewrite Hcases. split.
    + intros (sessions & Hload & Hwrite
              & [(session & Hget & _)
                |(o & session & host & _ & _ & _ & -> & _ & _ & _ & -> & _)]).
      * rewrite (Hfree sessions Hload) in Hget. discriminate Hget.
      * rewrite Hfresh, inherited_fields_fresh. split; [reflexivity|exact Hwrite].
    + intros [-> Hwrite].
      destruct (session_loadJSON_total (OtpStore.file store)) as [sessions Hload].
      exists sessions. split; [exact Hload|]. split; [exact Hwrite|]. right.
      set (o := if (sessionToken =? "__proto__")%string
                then ObjectPrototype else Member sessionToken).
      assert (Hassign : exists host,
                 assign_expando (OtpStore.host store) o (Expando.with_verified true)
                 = Exn.Ok host)
        by (unfold o; destruct (sessionToken =? "__proto__")%string; simpl; eauto).
      destruct Hassign as [host Hassign].
      assert (Hrun : fst reply
                     = OtpReply.mk true "OTP verified successfully" None None None
                     /\ snd reply = OtpStore.mk (SessionFile.Holds sessions) host).
      { subst reply.
        pose proof (verifyOTP_inherited Date_parse env store sessionToken None
                      sessions o Hload
                      (reach_member _ _ _ (Hfree sessions Hload)
                         (proj2 (inherited_In sessionToken) Hname))
                      Hwrite) as Hrun.
        cbv zeta in Hrun. rewrite Hrun, Hassign, Hfresh, inherited_fields_fresh.
        split; reflexivity. }
      destruct Hrun as [Hfst Hsnd].
      exists o, (inherited_fields (OtpStore.host store) o), host.
      split; [exact (Hfree sessions Hload)|]. split; [exact Hname|].
      split; [reflexivity|]. split; [reflexivity|].
      rewrite Hfresh, inherited_fields_fresh.
      split; [discriminate|]. split; [reflexivity|]. split; [reflexivity|].
      split; [reflexivity|]. split; [now rewrite Hfst|].
      split; [now rewrite <- Hfresh|exact Hsnd].
Qed.

(** X19.  An OTP works once: after a call of [verifyOTP] that succeeded,
    every further call for the same token - at any time, with any OTP -
    is refused with [OTP already used] and leaves the sessions as they
    are. *)
Theorem verifyOTP_is_single_use :
  forall (Date_parse : string -> option Z) (env env' : OtpEnv.t) (store : OtpStore.t)
         (sessionToken : string) (otp otp' : option string),
    let first := verifyOTP Date_parse env store sessionToken otp in
    OtpReply.success (fst first) = true ->
    verifyOTP Date_parse env' (snd first) sessionToken otp'
    = (OtpReply.failure "OTP already used", snd first).
Proof.
  intros Date_parse env env' store sessionToken otp otp' first Hsuccess.
  apply (verifyOTP_success_cases Date_parse env store sessionToken otp) in Hsuccess
    as (sessions & Hload & Hwrite
        & [(session & Hget & _ & _ & _ & _ & _ & Hsnd)
          |(o & session & host & Hget & Hname & Ho & _ & _ & _ & _ & _ & _
            & Hassign & Hsnd)]);
    fold first in Hsnd; rewrite Hsnd.
  - unfold verifyOTP. simpl OtpStore.file. rewrite session_loadJSON_holds.
    rewrite (reach_own _ _ _ _ (get_set_same sessions sessionToken _)).
    reflexivity.
  - unfold verifyOTP. simpl OtpStore.file. simpl OtpStore.host.
    rewrite session_loadJSON_holds.
    rewrite (reach_member host sessions sessionToken Hget
               (proj2 (inherited_In sessionToken) Hname)), <- Ho.
    cbv zeta. now rewrite (verified_after_assign _ _ _ Hassign).
Qed.

Lemma verifyOTP_succeeds_iff_witness :
  OtpReply.success
    (fst (verifyOTP IsoDate.parse Samples.otp_env_later
            (Samples.store_of [("0b1c2d3e-token", Samples.login 2 false)])
            "0b1c2d3e-token" (Some "482915"))) = true
  /\ OtpReply.success
       (fst (verifyOTP IsoDate.parse Samples.otp_env_later
               (Samples.store_of [("0b1c2d3e-token", Samples.login 2 false)])
               "constructor" None)) = true
  /\ OtpReply.success
       (fst (verifyOTP IsoDate.parse Samples.otp_env_later
               (Samples.store_of [("0b1c2d3e-token", Samples.login 2 false)])
               "constructor" (Some "482915"))) = false.
Proof.
  split; [|split].
  - destruct (verifyOTP_succeeds_iff IsoDate.parse Samples.otp_env_later
                (Samples.store_of [("0b1c2d3e-token", Samples.login 2 false)])
                "0b1c2d3e-token" (Some "482915")) as (_ & H & _).
    apply H.
    + simpl. intuition discriminate.
    + exists [("0b1c2d3e-token", Samples.login 2 false)], (Samples.login 2 false).
      repeat split; vm_compute; congruence.
  - destruct (verifyOTP_succeeds_iff IsoDate.parse Samples.otp_env_later
                (Samples.store_of [("0b1c2d3e-token", Samples.login 2 false)])
                "constructor" None) as (_ & _ & H).
    apply H.
    + reflexivity.
    + simpl. auto.
    + intros sessions Hload. injection Hload as <-. reflexivity.
    + split; reflexivity.
  - destruct (verifyOTP_succeeds_iff IsoDate.parse Samples.otp_env_later
                (Samples.store_of [("0b1c2d3e-token", Samples.login 2 false)])
                "constructor" (Some "482915")) as (_ & _ & H).
    apply not_true_is_false. intro Hsuccess.
    apply H in Hsuccess as [Hotp _].
    + discriminate Hotp.
    + reflexivity.
    + simpl. auto.
    + intros sessions Hload. injection Hload as <-. reflexivity.
Defined.

Lemma verifyOTP_is_single_use_witness :
  verifyOTP IsoDate.parse Samples.otp_env_later
    (snd (verifyOTP IsoDate.parse Samples.otp_env
            (Samples.store_of [("0b1c2d3e-token", Samples.login 0 false)])
            "0b1c2d3e-token" (Some "482915")))
    "0b1c2d3e-token" (Some "482915")
  = (OtpReply.failure "OTP already used",
     snd (verifyOTP IsoDate.parse Samples.otp_env
            (Samples.store_of [("0b1c2d3e-token", Samples.login 0 false)])
            "0b1c2d3e-token" (Some "482915"))).
Proof.
  apply (verifyOTP_is_single_use IsoDate.parse Samples.otp_env Samples.otp_env_later
           (Samples.store_of [("0b1c2d3e-token", Samples.login 0 false)])
           "0b1c2d3e-token" (Some "482915") (Some "482915")).
  reflexivity.
Defined.

(** Every reply of a run on a closed token is a refusal. *)
Lemma verify_each_refuses (Date_parse : string -> option Z)
    (calls : list (OtpEnv.t * option string)) (store : OtpStore.t)
    (sessionToken : string) :
  closed store sessionToken ->
  Forall (fun reply => OtpReply.success reply = false)
    (fst (verify_each Date_parse store sessionToken calls)).
Proof.
  revert store. induction calls as [|[env otp] rest IH]; intros store Hclosed; simpl.
  - constructor.
  - destruct (verifyOTP_refuses Date_parse env store sessionToken otp Hclosed)
      as [Hreply Hclosed'].
    destruct (verifyOTP Date_parse env store sessionToken otp) as [reply store'].
    simpl in Hreply, Hclosed'.
    specialize (IH store' Hclosed').
    destruct (verify_each Date_parse store' sessionToken rest) as [replies store''].
    simpl in IH |- *. constructor; assumption.
Qed.

(** X20.  Guessing an OTP is bounded by the attempt limit: in a run of
    [verifyOTP] calls on one token that is no member name of
    [Object.prototype], made at any times under one attempt limit while
    the store can be written, if the guesses up to the number of attempts
    the session has left are all wrong, then no call of the run succeeds -
    a later call with the right OTP included. *)
Theorem verifyOTP_guesses_are_bounded :
  forall (Date_parse : string -> option Z) (maxAttempts : Z)
         (calls : list (OtpEnv.t * option string)) (store : OtpStore.t)
         (sessionToken : string) (sessions : list (string * LoginSession.t))
         (session : LoginSession.t),
    ~ In sessionToken JSLib.Object_prototype_properties ->
    SessionFile.loadJSON (OtpStore.file store) = Exn.Ok sessions ->
    JS.get sessions sessionToken = Some session ->
    Forall (fun call => OtpEnv.write_error (fst call) = None
                        /\ OtpEnv.maxAttempts (fst call) = maxAttempts) calls ->
    Forall (fun call => snd call <> Some (LoginSession.otp session))
      (firstn (Z.to_nat (maxAttempts - LoginSession.attempts session)) calls) ->
    Forall (fun reply => OtpReply.success reply = false)
      (fst (verify_each Date_parse store sessionToken calls)).
Proof.
  intros Date_parse maxAttempts calls.
  induction calls as [|[env otp] rest IH];
    intros store sessionToken sessions session Hname Hload Hget Henv Hwrong.
  - constructor.
  - pose proof (not_inherited _ Hname) as Hout.
    inversion_clear Henv as [|? ? [Hwrite Hmax] Henv']. simpl in Hwrite, Hmax.
    rewrite <- Hmax in Hwrong.
    destruct (LoginSession.verified session) eqn:Hverified.
    { apply verify_each_refuses.
      apply (closed_intro store sessionToken sessions Hout Hload).
      now rewrite Hget. }
    simpl verify_each.
    rewrite (verifyOTP_unverified Date_parse env store sessionToken otp sessions session
               Hload Hget Hverified Hwrite).
    assert (Hgone : forall reply,
              Forall (fun reply => OtpReply.success reply = false)
                (fst (let (replies, store') :=
                        verify_each Date_parse
                          (OtpStore.mk
                             (SessionFile.Holds (JS.assign sessions sessionToken None))
                             (OtpStore.host store))
                          sessionToken rest in
                      (reply :: replies, store'))) <->
              OtpReply.success reply = false).
    { intro reply.
      pose proof (verify_each_refuses Date_parse rest
                    (OtpStore.mk
                       (SessionFile.Holds (JS.assign sessions sessionToken None))
                       (OtpStore.host store))
                    sessionToken) as H.
      assert (Hclosed : closed
                (OtpStore.mk
                   (SessionFile.Holds (JS.assign sessions sessionToken None))
                   (OtpStore.host store)) sessionToken).
      { apply (closed_intro _ sessionToken (JS.assign sessions sessionToken None) Hout);
          [reflexivity|]. now rewrite get_assign_none. }
      specialize (H Hclosed).
      destruct (verify_each Date_parse _ sessionToken rest) as [replies store'].
      simpl in H |- *. split.
      - intro Hall. now inversion Hall.
      - intro Hr. now constructor. }
    destruct (date_gt _ _); [now apply Hgone|].
    destruct (Z.leb_spec (OtpEnv.maxAttempts env) (LoginSession.attempts session))
      as [Hlocked|Hleft]; [now apply Hgone|].
    (* an attempt is left, so this guess is among the wrong ones *)
    destruct (Z.to_nat (OtpEnv.maxAttempts env - LoginSession.attempts session))
      as [|k] eqn:Ek; [lia|].
    simpl firstn in Hwrong. inversion_clear Hwrong as [|? ? Hotp Hwrong'].
    simpl in Hotp.
    destruct (JS.strict_eq (Some (LoginSession.otp session)) otp) eqn:Eotp.
    { apply strict_eq_true_iff in Eotp. now elim Hotp. }
    set (session' := LoginSession.with_attempts (LoginSession.attempts session + 1)
                       session).
    specialize (IH (OtpStore.mk (SessionFile.Holds (JS.set sessions sessionToken session'))
                      (OtpStore.host store))
                  sessionToken _ session' Hname (session_loadJSON_holds _)
                  (get_set_same _ _ _) Henv').
    destruct (verify_each Date_parse _ sessionToken rest) as [replies store'].
    simpl in IH |- *. constructor; [reflexivity|]. apply IH.
    simpl LoginSession.attempts.
    replace (Z.to_nat (maxAttempts - (LoginSession.attempts session + 1)))
      with k by lia.
    exact Hwrong'.
Qed.

Lemma verifyOTP_guesses_are_bounded_witness :
  Forall (fun reply => OtpReply.success reply = false)
    (fst (verify_each IsoDate.parse
            (Samples.store_of [("0b1c2d3e-token", Samples.login 1 false)])
            "0b1c2d3e-token"
            [(Samples.otp_env, Some "000000");
             (Samples.otp_env_later, Some "111111");
             (Samples.otp_env_later, Some "482915")])).
Proof.
  apply (verifyOTP_guesses_are_bounded IsoDate.parse 3
           [(Samples.otp_env, Some "000000");
            (Samples.otp_env_later, Some "111111");
            (Samples.otp_env_later, Some "482915")]
           (Samples.store_of [("0b1c2d3e-token", Samples.login 1 false)])
           "0b1c2d3e-token" [("0b1c2d3e-token", Samples.login 1 false)]
           (Samples.login 1 false)).
  - simpl. intuition discriminate.
  - reflexivity.
  - reflexivity.
  - repeat constructor.
  - simpl. repeat constructor; simpl; discriminate.
Defined.

(** X21.  A login session that was stored can be verified with the OTP
    that was drawn for it, until it expires.  When [createLoginSession]
    could write the store, the session sits under the fresh token whether
    or not the mail went out; a call of [verifyOTP] with that token and
    that OTP, made no later than the expiry and with an attempt limit
    above zero, answers with the employee id the session was created for;
    a call made after the expiry is refused and removes the session. *)
Theorem createLoginSession_then_verifyOTP :
  forall (Date_parse : string -> option Z) (toISOString : Z -> string)
         (env env' : OtpEnv.t) (store : OtpStore.t) (employeeId email : string),
    let created := createLoginSession toISOString env store employeeId email in
    let token := OtpEnv.fresh_token env in
    let expiresAt :=
      JS.now_ms (OtpEnv.clock env) + OtpEnv.expiryMinutes env * 60 * 1000 in
    OtpEnv.write_error env = None ->
    Date_parse (toISOString expiresAt) = Some expiresAt ->
    OtpEnv.write_error env' = None ->
    0 < OtpEnv.maxAttempts env' ->
    (OtpEnv.mail_error env = None ->
     fst created
     = OtpReply.mk true ("OTP sent to " ++ email) (Some token) None
         (Some (OtpEnv.expiryMinutes env)))
    /\ (OtpEnv.mail_error env <> None -> OtpReply.success (fst created) = false)
    /\ (JS.now_ms (OtpEnv.clock env') <= expiresAt ->
        fst (verifyOTP Date_parse env' (snd created) token (Some (OtpEnv.fresh_otp env)))
        = OtpReply.mk true "OTP verified successfully" None (Some employeeId) None)
    /\ (expiresAt < JS.now_ms (OtpEnv.clock env') ->
        forall otp,
          fst (verifyOTP Date_parse env' (snd created) token otp)
          = OtpReply.failure "OTP expired. Please request a new one."
          /\ exists sessions,
               snd (verifyOTP Date_parse env' (snd created) token otp)
               = OtpStore.mk (SessionFile.Holds sessions) (OtpStore.host store)
               /\ JS.get sessions token = None).
Proof.
  intros Date_parse toISOString env env' store employeeId email created token expiresAt
         Hwrite Hparse Hwrite' Hmax.
  destruct (session_loadJSON_total (OtpStore.file store)) as [sessions Hload].
  set (session := LoginSession.mk employeeId email (OtpEnv.fresh_otp env)
                    (JS.now_iso (OtpEnv.clock env)) (toISOString expiresAt) 0 false).
  assert (Hstored : snd created
                    = OtpStore.mk (SessionFile.Holds (JS.set sessions token session))
                        (OtpStore.host store)
                    /\ (OtpEnv.mail_error env = None ->
                        fst created
                        = OtpReply.mk true ("OTP sent to " ++ email) (Some token) None
                            (Some (OtpEnv.expiryMinutes env)))
                    /\ (OtpEnv.mail_error env <> None ->
                        OtpReply.success (fst created) = false)).
  { subst created. unfold createLoginSession. rewrite Hload.
    unfold SessionFile.saveJSON. rewrite Hwrite. simpl Exn.try_catch. cbv iota zeta.
    destruct (OtpEnv.mail_error env); simpl.
    - split; [reflexivity|]. split; [discriminate|reflexivity].
    - split; [reflexivity|]. split; [reflexivity|]. intro H. now elim H. }
  destruct Hstored as (Hfile & Hsent & Hfailed).
  split; [exact Hsent|]. split; [exact Hfailed|].
  rewrite Hfile.
  pose proof (verifyOTP_unverified Date_parse env'
                (OtpStore.mk (SessionFile.Holds (JS.set sessions token session))
                   (OtpStore.host store))
                token (Some (OtpEnv.fresh_otp env)) _ session
                (session_loadJSON_holds (JS.set sessions token session))
                (get_set_same sessions token session) eq_refl Hwrite') as Hright.
  split.
  - intro Hintime. rewrite Hright. simpl LoginSession.expiresAt. rewrite Hparse.
    simpl date_gt. destruct (Z.ltb_spec expiresAt (JS.now_ms (OtpEnv.clock env')));
      [lia|].
    simpl LoginSession.attempts.
    destruct (Z.leb_spec (OtpEnv.maxAttempts env') 0); [lia|].
    simpl LoginSession.otp. now rewrite strict_eq_refl.
  - intros Hlate otp.
    rewrite (verifyOTP_unverified Date_parse env'
               (OtpStore.mk (SessionFile.Holds (JS.set sessions token session))
                  (OtpStore.host store))
               token otp _ session
               (session_loadJSON_holds (JS.set sessions token session))
               (get_set_same sessions token session) eq_refl Hwrite').
    simpl LoginSession.expiresAt. rewrite Hparse. simpl date_gt.
    destruct (Z.ltb_spec expiresAt (JS.now_ms (OtpEnv.clock env'))); [|lia].
    split; [reflexivity|]. eexists. split; [reflexivity|]. apply get_assign_none.
Qed.

Lemma createLoginSession_then_verifyOTP_witness :
  fst (verifyOTP IsoDate.parse Samples.otp_env_later
         (snd (createLoginSession Samples.iso Samples.otp_env
                 (OtpStore.mk SessionFile.Missing OtpHost.fresh)
                 "E1" "asha@example.org"))
         (OtpEnv.fresh_token Samples.otp_env)
         (Some (OtpEnv.fresh_otp Samples.otp_env)))
  = OtpReply.mk true "OTP verified successfully" None (Some "E1") None.
Proof.
  destruct (createLoginSession_then_verifyOTP IsoDate.parse Samples.iso
              Samples.otp_env Samples.otp_env_later
              (OtpStore.mk SessionFile.Missing OtpHost.fresh)
              "E1" "asha@example.org") as (_ & _ & H & _).
  - reflexivity.
  - vm_compute. reflexivity.
  - reflexivity.
  - reflexivity.
  - apply H. vm_compute. discriminate.
Defined.

(** X22.  [resendOTP] re-opens a session whatever state it was in - used,
    locked by failed attempts or expired but not yet removed: once the
    store took the new OTP, a call of [verifyOTP] with it, made before
    the new expiry under an attempt limit above zero, succeeds for the
    employee of the session, and the OTP it replaced is refused when the
    new one differs from it. *)
Theorem resendOTP_reopens_the_session :
  forall (Date_parse : string -> option Z) (toISOString : Z -> string)
         (env env' : OtpEnv.t) (store : OtpStore.t) (sessionToken : string)
         (sessions : list (string * LoginSession.t)) (session : LoginSession.t),
    let resent := resendOTP toISOString env store sessionToken in
    let expiresAt :=
      JS.now_ms (OtpEnv.clock env) + OtpEnv.expiryMinutes env * 60 * 1000 in
    SessionFile.loadJSON (OtpStore.file store) = Exn.Ok sessions ->
    JS.get sessions sessionToken = Some session ->
    OtpEnv.write_error env = None ->
    Date_parse (toISOString expiresAt) = Some expiresAt ->
    OtpEnv.write_error env' = None ->
    0 < OtpEnv.maxAttempts env' ->
    JS.now_ms (OtpEnv.clock env') <= expiresAt ->
    fst (verifyOTP Date_parse env' (snd resent) sessionToken
           (Some (OtpEnv.fresh_otp env)))
    = OtpReply.mk true "OTP verified successfully" None
        (Some (LoginSession.employeeId session)) None
    /\ (OtpEnv.fresh_otp env <> LoginSession.otp session ->
        OtpReply.success
          (fst (verifyOTP Date_parse env' (snd resent) sessionToken
                  (Some (LoginSession.otp session)))) = false)
    /\ forall other, other <> sessionToken ->
         exists sessions',
           snd resent = OtpStore.mk (SessionFile.Holds sessions') (OtpStore.host store)
           /\ JS.get sessions' other = JS.get sessions other.
Proof.
  intros Date_parse toISOString env env' store sessionToken sessions session
         resent expiresAt Hload Hget Hwrite Hparse Hwrite' Hmax Hintime.
  set (session' := LoginSession.mk (LoginSession.employeeId session)
                     (LoginSession.email session) (OtpEnv.fresh_otp env)
                     (LoginSession.createdAt session) (toISOString expiresAt) 0 false).
  assert (Hfile : snd resent
                  = OtpStore.mk (SessionFile.Holds (JS.set sessions sessionToken session'))
                      (OtpStore.host store)).
  { subst resent. unfold resendOTP. rewrite Hload, (reach_own _ _ _ _ Hget).
    unfold SessionFile.saveJSON. rewrite Hwrite. simpl Exn.try_catch. cbv iota zeta.
    destruct (OtpEnv.mail_error env); reflexivity. }
  rewrite Hfile.
  assert (Hverify : forall otp,
    verifyOTP Date_parse env'
      (OtpStore.mk (SessionFile.Holds (JS.set sessions sessionToken session'))
         (OtpStore.host store))
      sessionToken otp
    = if JS.strict_eq (Some (OtpEnv.fresh_otp env)) otp
      then (OtpReply.mk true "OTP verified successfully" None
              (Some (LoginSession.employeeId session)) None,
            OtpStore.mk
              (SessionFile.Holds
                 (JS.set (JS.set sessions sessionToken session') sessionToken
                    (LoginSession.with_verified true session')))
              (OtpStore.host store))
      else (OtpReply.failure
              ("Invalid OTP. " ++ JS.show_Z (OtpEnv.maxAttempts env' - (0 + 1))
                 ++ " attempts remaining."),
            OtpStore.mk
              (SessionFile.Holds
                 (JS.set (JS.set sessions sessionToken session') sessionToken
                    (LoginSession.with_attempts (0 + 1) session')))
              (OtpStore.host store))).
  { intro otp.
    rewrite (verifyOTP_unverified Date_parse env'
               (OtpStore.mk
                  (SessionFile.Holds (JS.set sessions sessionToken session'))
                  (OtpStore.host store))
               sessionToken otp _ session'
               (session_loadJSON_holds _) (get_set_same sessions sessionToken session')
               eq_refl Hwrite').
    simpl LoginSession.expiresAt. rewrite Hparse. simpl date_gt.
    destruct (Z.ltb_spec expiresAt (JS.now_ms (OtpEnv.clock env'))); [lia|].
    simpl LoginSession.attempts.
    destruct (Z.leb_spec (OtpEnv.maxAttempts env') 0); [lia|]. reflexivity. }
  split; [|split].
  - rewrite Hverify. now rewrite strict_eq_refl.
  - intro Hne. rewrite Hverify.
    destruct (JS.strict_eq _ _) eqn:E; [|reflexivity].
    apply strict_eq_true_iff in E. congruence.
  - intros other Hother. eexists. split; [reflexivity|].
    now apply get_set_other.
Qed.

Lemma resendOTP_reopens_the_session_witness :
  fst (verifyOTP IsoDate.parse Samples.otp_env_later
         (snd (resendOTP Samples.iso Samples.otp_env_later
                 (Samples.store_of [("0b1c2d3e-token", Samples.login 3 true)])
                 "0b1c2d3e-token"))
         "0b1c2d3e-token" (Some "771204"))
  = OtpReply.mk true "OTP verified successfully" None (Some "E1") None.
Proof.
  destruct (resendOTP_reopens_the_session IsoDate.parse Samples.iso
              Samples.otp_env_later Samples.otp_env_later
              (Samples.store_of [("0b1c2d3e-token", Samples.login 3 true)])
              "0b1c2d3e-token" [("0b1c2d3e-token", Samples.login 3 true)]
              (Samples.login 3 true)) as [H _].
  - reflexivity.
  - reflexivity.
  - reflexivity.
  - vm_compute. reflexivity.
  - reflexivity.
  - reflexivity.
  - vm_compute. discriminate.
  - exact H.
Defined.

(** ** From the listing to the download *)

Lemma active_listing_In (w : World) (employeeId : option string)
    (c : ListedCertificate.t) :
  In c (active_listing w employeeId) <->
  exists cert,
    In cert (active_certificates_of w employeeId) /\ c = list_active cert.
Proof.
  rewrite active_listing_map, in_map_iff.
  split; intros (cert & H1 & H2); exists cert; auto.
Qed.

Lemma historical_listing_In (w : World) (employeeId : option string)
    (c : ListedCertificate.t) :
  In c (historical_listing w employeeId) <->
  exists h cert certs,
    In h (FileUtils.load_collection (FORM_HISTORY w))
    /\ JS.strict_eq (Case.employeeId (HistoryEntry.form h)) employeeId = true
    /\ preserved_certificates h = Some certs
    /\ In cert certs
    /\ c = list_historical h cert.
Proof.
  rewrite historical_listing_map, in_map_iff.
  unfold historical_certificates_of. split.
  - intros ([h cert] & <- & Hin). apply in_flat_map in Hin as (h' & Hh & Hin).
    destruct (JS.strict_eq _ employeeId) eqn:Eo; [|contradiction].
    destruct (preserved_certificates h') as [certs|] eqn:Ep; [|contradiction].
    apply in_map_iff in Hin as (cert' & E & Hc). injection E as <- <-.
    exists h', cert', certs. auto.
  - intros (h & cert & certs & Hh & Eo & Ep & Hc & ->).
    exists (h, cert). split; [reflexivity|].
    apply in_flat_map. exists h. split; [exact Hh|].
    rewrite Eo, Ep. apply in_map_iff. exists cert. auto.
Qed.

(** The search of the history finds a certificate of the employee under
    the id whenever there is one. *)
Lemma search_history_complete (historyData : list HistoryEntry.t) (certId : string)
    (employeeId : option string) (h : HistoryEntry.t) (cert : Certificate.t)
    (certs : list Certificate.t) :
  In h historyData ->
  JS.strict_eq (Case.employeeId (HistoryEntry.form h)) employeeId = true ->
  preserved_certificates h = Some certs ->
  In cert certs ->
  historicalCertId h cert = certId ->
  exists h' cert' certs',
    In h' historyData
    /\ JS.strict_eq (Case.employeeId (HistoryEntry.form h')) employeeId = true
    /\ preserved_certificates h' = Some certs'
    /\ In cert' certs'
    /\ historicalCertId h' cert' = certId
    /\ search_history historyData certId employeeId
       = Some (FoundCertificate.mk (Some certId)
                 (Case.employeeId (HistoryEntry.form h'))
                 (Certificate.filename cert') (Certificate.filepath cert')
                 (Some "history")).
Proof.
  intros Hh Eo Ep Hc Hid.
  induction historyData as [|x rest IH]; [contradiction|].
  cbn [search_history]. cbv zeta.
  destruct (JS.strict_eq (Case.employeeId (HistoryEntry.form x)) employeeId) eqn:Ex.
  - destruct (preserved_certificates x) as [xcerts|] eqn:Epx.
    + destruct (JS.find (fun cert0 => (historicalCertId x cert0 =? certId)%string) xcerts)
        as [found|] eqn:Efind.
      * apply find_some in Efind as [Hf Hfid]. apply String.eqb_eq in Hfid.
        exists x, found, xcerts. rewrite Hfid.
        repeat (split; [first [now left | assumption | reflexivity]|]). reflexivity.
      * destruct Hh as [->|Hh].
        -- exfalso. rewrite Ep in Epx. injection Epx as <-.
           pose proof (find_none _ _ Efind cert Hc) as Hn. cbv beta in Hn.
           apply String.eqb_neq in Hn. contradiction.
        -- destruct (IH Hh) as (h' & cert' & certs' & H1 & H2 & H3 & H4 & H5 & H6).
           exists h', cert', certs'.
           repeat (split; [first [now right | assumption]|]). exact H6.
    + destruct Hh as [->|Hh]; [congruence|].
      destruct (IH Hh) as (h' & cert' & certs' & H1 & H2 & H3 & H4 & H5 & H6).
      exists h', cert', certs'.
      repeat (split; [first [now right | assumption]|]). exact H6.
  - destruct Hh as [->|Hh]; [congruence|].
    destruct (IH Hh) as (h' & cert' & certs' & H1 & H2 & H3 & H4 & H5 & H6).
    exists h', cert', certs'.
    repeat (split; [first [now right | assumption]|]). exact H6.
Qed.

(** X23.  What [/certificates] lists can be fetched: for every
    certificate of the listing that carries an id, the download of that
    id by the same employee resolves to a certificate the listing shows
    under that id, and answers with its file - or with 404 only because
    the file is not on the disk. *)
Theorem listed_certificate_can_be_downloaded :
  forall (Date_parse : string -> option Z) (on_disk : string -> bool) (w : World)
         (sessionUser : SessionUser.t) (listing : list ListedCertificate.t)
         (c : ListedCertificate.t) (certId : string),
    certificates Date_parse w (Some sessionUser)
    = Http.json (Http.Certificates listing) ->
    In c listing ->
    ListedCertificate.id c = Some certId ->
    exists c',
      In c' listing
      /\ ListedCertificate.id c' = Some certId
      /\ download_certificate on_disk w (Some sessionUser) certId
         = if match ListedCertificate.filepath c' with
              | Some filePath => on_disk filePath
              | None => false
              end
           then Http.json (Http.Download (ListedCertificate.filepath c')
                             (ListedCertificate.filename c'))
           else Http.fail 404 "Certificate file not found on server".
Proof.
  intros Date_parse on_disk w sessionUser listing c certId Hlisting Hc Hid.
  unfold certificates in Hlisting. unfold download_certificate.
  destruct (JS.truthy_str (session_employeeId sessionUser)); [|discriminate].
  simpl negb in *. cbv iota zeta in *. injection Hlisting as <-.
  set (employeeId := session_employeeId sessionUser) in *.
  assert (Hlisted : forall x,
            In x (active_listing w employeeId) \/ In x (historical_listing w employeeId)
            -> In x (JS.sort (newest_first Date_parse)
                       (active_listing w employeeId ++ historical_listing w employeeId))).
  { intros x Hx. apply sort_In, in_or_app. exact Hx. }
  apply sort_In, in_app_or in Hc.
  (* an active certificate of the employee with this id, if there is one,
     is what the handler resolves *)
  assert (Hactive : forall cert,
            In cert (active_certificates_of w employeeId) ->
            ActiveCertificate.id cert = Some certId ->
            exists cert',
              In cert' (active_certificates_of w employeeId)
              /\ ActiveCertificate.id cert' = Some certId
              /\ find_active w certId employeeId
                 = Some (FoundCertificate.mk (ActiveCertificate.id cert')
                           (ActiveCertificate.employeeId cert')
                           (ActiveCertificate.filename cert')
                           (ActiveCertificate.filepath cert') None)
              /\ JS.strict_eq (ActiveCertificate.employeeId cert') employeeId = true).
  { unfold active_certificates_of, find_active.
    destruct (FileUtils.loadJSON (CERTIFICATES w)) as [[data|v]|e];
      try contradiction.
    intros cert Hin Hcid. apply filter_In in Hin as [Hin Hown].
    destruct (JS.find _ data) as [cert'|] eqn:Efind.
    - apply find_some in Efind as [Hin' Hp]. apply andb_true_iff in Hp as [Hp1 Hp2].
      exists cert'. split; [apply filter_In; auto|].
      split; [now apply strict_eq_true_iff|]. auto.
    - pose proof (find_none _ _ Efind cert Hin) as Hn. simpl in Hn.
      rewrite Hcid, Hown in Hn. simpl in Hn. rewrite String.eqb_refl in Hn.
      discriminate. }
  assert (Hresolved : forall cert',
            In cert' (active_certificates_of w employeeId) ->
            ActiveCertificate.id cert' = Some certId ->
            JS.strict_eq (ActiveCertificate.employeeId cert') employeeId = true ->
            find_active w certId employeeId
            = Some (FoundCertificate.mk (ActiveCertificate.id cert')
                      (ActiveCertificate.employeeId cert')
                      (ActiveCertificate.filename cert')
                      (ActiveCertificate.filepath cert') None) ->
            exists c',
              In c' (JS.sort (newest_first Date_parse)
                       (active_listing w employeeId ++ historical_listing w employeeId))
              /\ ListedCertificate.id c' = Some certId
              /\ match
                   match
                     match find_active w certId employeeId with
                     | Some c0 => Some c0
                     | None =>
                         if prefix "hist_" certId
                         then find_historical w certId employeeId
                         else None
                     end
                   with
                   | Some certificate =>
                       if negb (JS.strict_eq (FoundCertificate.employeeId certificate)
                                  employeeId)
                       then Http.fail 403 "Access denied"
                       else
                         if negb match FoundCertificate.filepath certificate with
                                 | Some filePath => on_disk filePath
                                 | None => false
                                 end
                         then Http.fail 404 "Certificate file not found on server"
                         else Http.json
                                (Http.Download (FoundCertificate.filepath certificate)
                                   (FoundCertificate.filename certificate))
                   | None => Http.fail 404 "Certificate not found"
                   end
                 with
                 | reply =>
                     reply
                     = if match ListedCertificate.filepath c' with
                          | Some filePath => on_disk filePath
                          | None => false
                          end
                       then Http.json (Http.Download (ListedCertificate.filepath c')
                                         (ListedCertificate.filename c'))
                       else Http.fail 404 "Certificate file not found on server"
                 end).
  { intros cert' Hin' Hid' Hown' Hfind.
    exists (list_active cert'). split.
    - apply Hlisted. left. apply active_listing_In. eauto.
    - split; [exact Hid'|]. rewrite Hfind. simpl FoundCertificate.employeeId.
      rewrite Hown'. simpl.
      destruct (match ActiveCertificate.filepath cert' with
                | Some filePath => on_disk filePath
                | None => false
                end); reflexivity. }
  destruct Hc as [Hc|Hc].
  - apply active_listing_In in Hc as (cert & Hin & ->). simpl in Hid.
    destruct (Hactive cert Hin Hid) as (cert' & Hin' & Hid' & Hfind & Hown').
    exact (Hresolved cert' Hin' Hid' Hown' Hfind).
  - apply historical_listing_In in Hc as (h & cert & certs & Hh & Eo & Ep & Hcert & ->).
    simpl in Hid. injection Hid as Hid.
    assert (Hcase : (exists cert0,
                       In cert0 (active_certificates_of w employeeId)
                       /\ ActiveCertificate.id cert0 = Some certId)
                    \/ find_active w certId employeeId = None).
    { unfold find_active, active_certificates_of.
      destruct (FileUtils.loadJSON (CERTIFICATES w)) as [[data|v]|e];
        try (now right).
      destruct (JS.find _ data) as [cert0|] eqn:E0; [left|now right].
      apply find_some in E0 as [Hin0 Hp]. apply andb_true_iff in Hp as [Hp1 Hp2].
      exists cert0. split; [apply filter_In; auto|].
      now apply strict_eq_true_iff. }
    destruct Hcase as [(cert0 & Hin0 & Hid0)|Efind].
    + (* an active certificate carries the same id and comes first *)
      destruct (Hactive cert0 Hin0 Hid0) as (cert' & Hin' & Hid' & Hfind' & Hown').
      exact (Hresolved cert' Hin' Hid' Hown' Hfind').
    + rewrite Efind.
      assert (Hprefix : prefix "hist_" certId = true).
      { rewrite <- Hid. unfold historicalCertId. simpl.
        match goal with |- prefix "" ?s = true => destruct s; reflexivity end. }
      rewrite Hprefix. unfold find_historical.
      unfold FileUtils.load_collection in Hh.
      destruct (FileUtils.loadJSON (FORM_HISTORY w)) as [[historyData|v]|e] eqn:Eload;
        try contradiction.
      destruct (search_history_complete historyData certId employeeId h cert certs
                  Hh Eo Ep Hcert Hid)
        as (h' & cert' & certs' & Hh' & Eo' & Ep' & Hcert' & Hid' & Hsearch).
      rewrite Hsearch. simpl FoundCertificate.employeeId. rewrite Eo'. simpl negb.
      cbv iota. simpl FoundCertificate.filepath. simpl FoundCertificate.filename.
      exists (list_historical h' cert'). split.
      * apply Hlisted. right. apply historical_listing_In.
        exists h', cert', certs'. unfold FileUtils.load_collection. rewrite Eload.
        auto.
      * split; [simpl; now rewrite Hid'|]. simpl ListedCertificate.filepath.
        simpl ListedCertificate.filename.
        destruct (match Certificate.filepath cert' with
                  | Some filePath => on_disk filePath
                  | None => false
                  end); reflexivity.
Qed.

Lemma listed_certificate_can_be_downloaded_witness :
  exists c',
    ListedCertificate.id c' = Some "C1"
    /\ download_certificate (fun _ => true) Samples.world_two_and_three
         (Some Samples.session_E1) "C1"
       = if match ListedCertificate.filepath c' with
            | Some filePath => (fun _ : string => true) filePath
            | None => false
            end
         then Http.json (Http.Download (ListedCertificate.filepath c')
                           (ListedCertificate.filename c'))
         else Http.fail 404 "Certificate file not found on server".
Proof.
  destruct (listed_certificate_can_be_downloaded IsoDate.parse (fun _ => true)
              Samples.world_two_and_three Samples.session_E1
              (JS.sort (newest_first IsoDate.parse)
                 (active_listing Samples.world_two_and_three (Some "E1")
                  ++ historical_listing Samples.world_two_and_three (Some "E1"))%list)
              (list_active
                 (Samples.active "C1" "E1" "F9" "disposalForm"
                    "2024-01-01T00:00:00.000Z"))
              "C1") as (c' & _ & Hid & Hreply).
  - reflexivity.
  - apply sort_In. apply in_or_app. left. simpl. now left.
  - reflexivity.
  - exists c'. split; [exact Hid|exact Hreply].
Defined.

(** ** What the pipeline returns *)
Section PipelineAccounts.
Variable host : PdfHost.t.

Lemma success_is_not_failed (c : Certificate.t) :
  is_success c = true -> is_failed c = false.
Proof.
  unfold is_success, is_failed. intro H. apply strict_eq_true_iff in H.
  rewrite H. reflexivity.
Qed.

(** Every settled entry is counted once, as generated or as failed. *)
Lemma settled_counts (formId : string) (formResponses : list (string * JS.value))
    (valid : list string) :
  (List.length (collect_successful (map (certificatePromise host formId formResponses)
                                      valid))
   + count_failed (map (certificatePromise host formId formResponses) valid)
   = List.length valid)%nat.
Proof.
  unfold count_failed. induction valid as [|formType rest IH]; [reflexivity|].
  simpl map. simpl collect_successful. rewrite length_app. simpl filter.
  destruct (certificatePromise_settles host formId formResponses formType)
    as (c & -> & _ & Hstatus).
  destruct (is_success c) eqn:Es.
  - rewrite (success_is_not_failed c Es). simpl. lia.
  - destruct Hstatus as [Hs|Hf]; [discriminate|]. rewrite Hf. simpl. lia.
Qed.

(** A successful entry is the record of a file that was rendered and
    measured. *)
Lemma certificatePromise_success (formId : string)
    (formResponses : list (string * JS.value)) (formType : string)
    (c : Certificate.t) :
  certificatePromise host formId formResponses formType = Exn.Ok c ->
  is_success c = true ->
  exists data pdfPath size,
    JS.get formResponses formType = Some data
    /\ JS.is_object (Some data) = true
    /\ PdfHost.createFormCertificatePDF host formId formType (Some data)
       = Exn.Ok pdfPath
    /\ PdfHost.stat_size host pdfPath = Exn.Ok size
    /\ c = Certificate.mk (Some formType) (Some (PdfHost.basename host pdfPath))
             (Some pdfPath) (Some (PdfHost.settled_at host formType)) (Some size)
             (Some "success") None.
Proof.
  unfold certificatePromise, validateFormData.
  destruct (JS.is_object (JS.get formResponses formType)) eqn:Eobj; simpl.
  2:{ intro H. injection H as <-. discriminate. }
  destruct (JS.get formResponses formType) as [data|] eqn:Eget; [|discriminate].
  destruct (PdfHost.createFormCertificatePDF host formId formType (Some data))
    as [pdfPath|e] eqn:Epdf; simpl.
  2:{ intro H. injection H as <-. discriminate. }
  destruct (PdfHost.stat_size host pdfPath) as [size|e] eqn:Esize; simpl.
  2:{ intro H. injection H as <-. discriminate. }
  intro H. injection H as <-. intros _.
  exists data, pdfPath, size. auto.
Qed.

End PipelineAccounts.

(** X24.  What the pipeline returns is backed by files: every certificate
    of a run that did not throw is the record of one object entry of the
    responses whose PDF was rendered and whose file was measured, with
    that path, its base name and that size.  There are no more
    certificates than object entries, and the closing line of the log
    accounts for every object entry, as generated or as failed. *)
Theorem generateFormCertificates_returns_rendered_files :
  forall (host : PdfHost.t) (formId : option string)
         (formResponses : option (list (string * JS.value)))
         (certificates : list Certificate.t),
    snd (generateFormCertificates host formId formResponses) = Exn.Ok certificates ->
    exists id responses failed,
      formId = Some id /\ id <> ""
      /\ formResponses = Some responses
      /\ (forall c, In c certificates ->
            exists formType data pdfPath size,
              JS.get responses formType = Some data
              /\ JS.is_object (Some data) = true
              /\ PdfHost.createFormCertificatePDF host id formType (Some data)
                 = Exn.Ok pdfPath
              /\ PdfHost.stat_size host pdfPath = Exn.Ok size
              /\ c = Certificate.mk (Some formType)
                       (Some (PdfHost.basename host pdfPath)) (Some pdfPath)
                       (Some (PdfHost.settled_at host formType)) (Some size)
                       (Some "success") None)
      /\ last (fst (generateFormCertificates host formId formResponses))
           (PDF_GENERATION_STARTED id [])
         = PDF_GENERATION_COMPLETED id (List.length certificates) failed
      /\ (List.length certificates + failed
          = List.length (validFormTypes responses))%nat
      /\ (List.length (validFormTypes responses) <= List.length responses)%nat.
Proof.
  intros host formId formResponses certificates.
  unfold generateFormCertificates, pipeline_body.
  destruct formId as [id|]; [|discriminate].
  destruct (String.eqb_spec id "") as [|Hid]; [discriminate|].
  destruct formResponses as [responses|]; [|discriminate].
  destruct (PdfHost.ensureDir_certificates host) as [[]|e]; [|discriminate].
  destruct (PdfHost.ensureDir_temp host) as [[]|e]; [|discriminate].
  destruct (List.length (validFormTypes responses) =? 0)%nat; [discriminate|].
  cbv zeta.
  destruct (List.length (collect_successful (settled_results host id responses)) =? 0)%nat;
    [discriminate|].
  simpl snd. intro H. injection H as <-.
  exists id, responses, (count_failed (settled_results host id responses)).
  split; [reflexivity|]. split; [exact Hid|]. split; [reflexivity|]. split; [|split; [|split]].
  - intros c Hc. apply collect_successful_In in Hc as [Hin Hs].
    unfold settled_results in Hin. apply in_map_iff in Hin as (formType & Hsettled & _).
    destruct (certificatePromise_success host id responses formType c Hsettled Hs)
      as (data & pdfPath & size & H).
    exists formType, data, pdfPath, size. exact H.
  - simpl fst.
    change (?a :: ?l)%list with ([a] ++ l)%list.
    rewrite !app_assoc. apply last_last.
  - apply settled_counts.
  - unfold validFormTypes.
    eapply Nat.le_trans; [apply filter_length_le|].
    unfold JS.keys. now rewrite length_map.
Qed.

Lemma generateFormCertificates_returns_rendered_files_witness :
  exists formType data pdfPath size,
    JS.get Samples.responses formType = Some data
    /\ JS.is_object (Some data) = true
    /\ PdfHost.createFormCertificatePDF Samples.host "F9" formType (Some data)
       = Exn.Ok pdfPath
    /\ PdfHost.stat_size Samples.host pdfPath = Exn.Ok size.
Proof.
  destruct (generateFormCertificates_returns_rendered_files Samples.host (Some "F9")
              (Some Samples.responses)
              (collect_successful
                 (settled_results Samples.host "F9" Samples.responses)) eq_refl)
    as (id & responses & failed & Hid & _ & Hresponses & Hbacked & _).
  injection Hid as <-. injection Hresponses as <-.
  destruct (Hbacked
              (Certificate.mk (Some "disposalFormData")
                 (Some "F9_disposalFormData.pdf")
                 (Some "/certificates/F9_disposalFormData.pdf")
                 (Some "2024-01-01T00:00:00.000Z") (Some 2048) (Some "success") None))
    as (formType & data & pdfPath & size & H1 & H2 & H3 & H4 & _).
  - vm_compute. now left.
  - exists formType, data, pdfPath, size. auto.
Defined.

(** ** From the archive to the listings *)

Lemma moveCompletedFormToHistory_stored (env : Env) (w : World)
    (employeeId : option string) (formData : Case.t) :
  write_error env = None ->
  moveCompletedFormToHistory env w employeeId formData
  = (true,
     mkWorld (PENDING_FORMS w)
       (FileUtils.Stored (FileUtils.WellFormed
          (FileUtils.DArray
             (FileUtils.load_collection (FORM_HISTORY w)
              ++ [historyEntry (clock env) formData])%list)))
       (CERTIFICATES w)).
Proof.
  intro Hwrite. unfold moveCompletedFormToHistory, FileUtils.saveJSON.
  rewrite Hwrite. reflexivity.
Qed.

(** X25.  A case that was archived shows up for its owner and for nobody
    else: once [moveCompletedFormToHistory] has stored the entry,
    [/history] of the owner has one application more, the entry among
    them; every certificate of the case is in the owner's [/certificates]
    listing as a history certificate under the id
    [hist_<formId>_<formType>], completed at the time of the archival; and
    for an employee with another id both replies are what they were. *)
Theorem archived_case_reaches_its_owner_only :
  forall (Date_parse : string -> option Z) (env : Env) (w : World)
         (employeeId : option string) (formData : Case.t)
         (owner other : SessionUser.t),
    let w' := snd (moveCompletedFormToHistory env w employeeId formData) in
    let entry := historyEntry (clock env) formData in
    write_error env = None ->
    JS.truthy_str (session_employeeId owner) = true ->
    Case.employeeId formData = session_employeeId owner ->
    session_employeeId other <> session_employeeId owner ->
    (exists entries summary entries' summary',
        history Date_parse w (Some owner) = Api.json (Api.History entries summary)
        /\ history Date_parse w' (Some owner)
           = Api.json (Api.History entries' summary')
        /\ In (entry, historyInfo entry) entries'
        /\ HistorySummary.totalApplications summary'
           = S (HistorySummary.totalApplications summary))
    /\ (forall cert certs,
          Case.certificates formData = Some certs -> In cert certs ->
          exists listing c,
            certificates Date_parse w' (Some owner)
            = Http.json (Http.Certificates listing)
            /\ In c listing
            /\ c = list_historical entry cert
            /\ ListedCertificate.id c
               = Some ("hist_" ++ JS.show (Case.formId formData) ++ "_"
                         ++ JS.show (Certificate.formType cert))
            /\ ListedCertificate.source c = "history"
            /\ ListedCertificate.completedAt c = Some (JS.now_iso (clock env)))
    /\ history Date_parse w' (Some other) = history Date_parse w (Some other)
    /\ certificates Date_parse w' (Some other) = certificates Date_parse w (Some other).
Proof.
  intros Date_parse env w employeeId formData owner other w' entry
         Hwrite Htruthy Howner Hother.
  subst w'. rewrite (moveCompletedFormToHistory_stored env w employeeId formData Hwrite).
  simpl snd. fold entry.
  set (old := FileUtils.load_collection (FORM_HISTORY w)).
  set (w' := mkWorld (PENDING_FORMS w) _ (CERTIFICATES w)).
  assert (Hload : FileUtils.load_collection (FORM_HISTORY w') = (old ++ [entry])%list)
    by reflexivity.
  assert (Hmine : JS.strict_eq (Case.employeeId (HistoryEntry.form entry))
                    (session_employeeId owner) = true).
  { simpl. rewrite Howner. apply strict_eq_refl. }
  assert (Htheirs : JS.strict_eq (Case.employeeId (HistoryEntry.form entry))
                      (session_employeeId other) = false).
  { simpl. rewrite Howner. apply not_true_is_false. intro E.
    apply strict_eq_true_iff in E. now elim Hother. }
  split; [|split; [|split]].
  - unfold history. do 4 eexists. split; [reflexivity|]. split; [reflexivity|].
    unfold myHistory. rewrite Hload. fold old.
    rewrite filter_app. cbn [filter]. rewrite Hmine. split.
    + apply sort_In, in_map_iff. exists entry. split; [reflexivity|].
      apply in_or_app. right. now left.
    + simpl. rewrite !sort_length, !length_map, length_app. simpl. lia.
  - intros cert certs Hcerts Hcert.
    unfold certificates. rewrite Htruthy. simpl negb. cbv iota zeta.
    do 2 eexists. split; [reflexivity|]. split; [|split; [reflexivity|]].
    + apply sort_In, in_or_app. right. apply historical_listing_In.
      exists entry, cert, certs. rewrite Hload.
      split; [apply in_or_app; right; now left|]. split; [exact Hmine|].
      split; [|split; [exact Hcert|reflexivity]].
      unfold preserved_certificates, entry, historyEntry. simpl. now rewrite Hcerts.
    + split; [reflexivity|]. split; reflexivity.
  - unfold history, myHistory. rewrite Hload. fold old.
    rewrite filter_app. cbn [filter]. rewrite Htheirs. now rewrite app_nil_r.
  - unfold certificates.
    destruct (JS.truthy_str (session_employeeId other)); [|reflexivity].
    simpl negb. cbv iota zeta.
    replace (active_listing w' (session_employeeId other))
      with (active_listing w (session_employeeId other)) by reflexivity.
    rewrite !historical_listing_map. unfold historical_certificates_of.
    rewrite Hload. fold old. rewrite flat_map_app. cbn [flat_map].
    rewrite Htheirs. now rewrite !app_nil_r.
Qed.

Lemma archived_case_reaches_its_owner_only_witness :
  history IsoDate.parse
    (snd (moveCompletedFormToHistory Samples.env Samples.world_two_and_three
            (Some "E1") Samples.completed))
    (Some Samples.session_E2)
  = history IsoDate.parse Samples.world_two_and_three (Some Samples.session_E2).
Proof.
  destruct (archived_case_reaches_its_owner_only IsoDate.parse Samples.env
              Samples.world_two_and_three (Some "E1") Samples.completed
              Samples.session_E1 Samples.session_E2) as (_ & _ & H & _).
  - reflexivity.
  - reflexivity.
  - reflexivity.
  - discriminate.
  - exact H.
Defined.

(** ** Expiry sweeps *)
Section SweepFacts.
Variable Date_parse : string -> option Z.

(** What the loop of [cleanupExpiredSessions] leaves under a token. *)
Lemma sweep_sessions_get (now : Z) (keys : list string)
    (sessions : list (string * LoginSession.t)) (cleaned : nat) (token : string) :
  let swept := fst (fold_left (sweep_session Date_parse now) keys (sessions, cleaned)) in
  (In token keys ->
   JS.get swept token
   = match JS.get sessions token with
     | Some session =>
         if session_expired Date_parse now session then None else Some session
     | None => None
     end)
  /\ (~ In token keys -> JS.get swept token = JS.get sessions token).
Proof.
  revert sessions cleaned.
  induction keys as [|k rest IH]; intros sessions cleaned swept.
  - split; [contradiction|reflexivity].
  - subst swept. simpl fold_left.
    set (acc := sweep_session Date_parse now (sessions, cleaned) k).
    destruct (IH (fst acc) (snd acc)) as [IHin IHout].
    replace (fst acc, snd acc) with acc in IHin, IHout by (destruct acc; reflexivity).
    assert (Hk : JS.get (fst acc) k
                 = match JS.get sessions k with
                   | Some session =>
                       if session_expired Date_parse now session then None
                       else Some session
                   | None => None
                   end).
    { unfold acc, sweep_session. cbn [fst].
      destruct (JS.get sessions k) as [session|] eqn:Eget; [|exact Eget].
      destruct (session_expired Date_parse now session); cbn [fst];
        [apply get_assign_none|exact Eget]. }
    assert (Hother : forall t, t <> k -> JS.get (fst acc) t = JS.get sessions t).
    { intros t Ht. unfold acc, sweep_session. cbn [fst].
      destruct (JS.get sessions k) as [session|]; [|reflexivity].
      destruct (session_expired Date_parse now session); cbn [fst];
        [now apply get_assign_other|reflexivity]. }
    assert (Hidem : forall t,
              match JS.get (fst acc) t with
              | Some session =>
                  if session_expired Date_parse now session then None else Some session
              | None => None
              end
              = match JS.get sessions t with
                | Some session =>
                    if session_expired Date_parse now session then None
                    else Some session
                | None => None
                end).
    { intro t. destruct (String.eqb_spec t k) as [->|Ht].
      - rewrite Hk. destruct (JS.get sessions k) as [session|]; [|reflexivity].
        destruct (session_expired Date_parse now session) eqn:E; [reflexivity|].
        now rewrite E.
      - now rewrite (Hother t Ht). }
    split.
    + intros [<-|Hin].
      * destruct (in_dec string_dec k rest) as [Hrest|Hrest].
        -- rewrite (IHin Hrest). apply Hidem.
        -- rewrite (IHout Hrest). exact Hk.
      * rewrite (IHin Hin). apply Hidem.
    + intro Hnot.
      assert (Hne : token <> k) by (intros ->; apply Hnot; now left).
      rewrite IHout by (intro H; apply Hnot; now right).
      now apply Hother.
Qed.

Lemma get_in_keys {V : Type} (fields : list (string * V)) (key : string) (v : V) :
  JS.get fields key = Some v -> In key (JS.keys fields).
Proof.
  unfold JS.keys. induction fields as [|[k x] rest IH]; simpl; [discriminate|].
  destruct (String.eqb_spec k key) as [->|_]; [now left|]. intro H. right. auto.
Qed.

(** The state a sweep leaves, when it wrote the sessions. *)
Lemma cleanupExpiredSessions_cases (env : OtpEnv.t) (store : OtpStore.t)
    (sessions : list (string * LoginSession.t)) :
  SessionFile.loadJSON (OtpStore.file store) = Exn.Ok sessions ->
  cleanupExpiredSessions Date_parse env store = store
  \/ exists swept,
       cleanupExpiredSessions Date_parse env store
       = OtpStore.mk (SessionFile.Holds swept) (OtpStore.host store)
       /\ forall token,
            JS.get swept token
            = match JS.get sessions token with
              | Some session =>
                  if session_expired Date_parse (JS.now_ms (OtpEnv.clock env)) session
                  then None else Some session
              | None => None
              end.
Proof.
  intro Hload. unfold cleanupExpiredSessions. rewrite Hload. cbv zeta.
  pose proof (sweep_sessions_get (JS.now_ms (OtpEnv.clock env)) (JS.keys sessions)
                sessions 0%nat) as Hget.
  destruct (fold_left _ (JS.keys sessions) (sessions, 0%nat)) as [swept cleaned].
  simpl fst in Hget.
  destruct (0 <? _)%nat; [|now left].
  unfold SessionFile.saveJSON.
  destruct (OtpEnv.write_error env); simpl Exn.try_catch; cbv iota; [now left|].
  right. exists swept. split; [reflexivity|]. intro token.
  destruct (Hget token) as [Hin Hout].
  destruct (JS.get sessions token) as [session|] eqn:Eget.
  - apply Hin. eapply get_in_keys. exact Eget.
  - destruct (in_dec string_dec token (JS.keys sessions)) as [H|H]; auto.
Qed.

End SweepFacts.

(** X26.  The sweep of the login sessions is safe for logins: a call of
    [verifyOTP] made no earlier than the sweep succeeds after the sweep
    exactly when it would have succeeded without it, so the sweep removes
    no session that could still be verified - for every token but one
    that names a member of [Object.prototype] and a stored session at the
    same time, where the sweep of the session uncovers the member; the
    sweep writes nothing on the built-in objects; and when the sweep
    rewrites the file, a token keeps its session unchanged unless that
    session had expired, in which case the token is gone. *)
Theorem cleanupExpiredSessions_preserves_verification :
  forall (Date_parse : string -> option Z) (env env' : OtpEnv.t) (store : OtpStore.t)
         (sessionToken : string) (otp : option string),
    JS.now_ms (OtpEnv.clock env) <= JS.now_ms (OtpEnv.clock env') ->
    ((In sessionToken JSLib.Object_prototype_properties ->
      forall sessions,
        SessionFile.loadJSON (OtpStore.file store) = Exn.Ok sessions ->
        JS.get sessions sessionToken = None) ->
     OtpReply.success
       (fst (verifyOTP Date_parse env' (cleanupExpiredSessions Date_parse env store)
               sessionToken otp))
     = OtpReply.success (fst (verifyOTP Date_parse env' store sessionToken otp)))
    /\ OtpStore.host (cleanupExpiredSessions Date_parse env store) = OtpStore.host store
    /\ forall swept,
         OtpStore.file (cleanupExpiredSessions Date_parse env store)
         = SessionFile.Holds swept ->
         OtpStore.file (cleanupExpiredSessions Date_parse env store)
         <> OtpStore.file store ->
         exists sessions,
           SessionFile.loadJSON (OtpStore.file store) = Exn.Ok sessions
           /\ forall token,
                JS.get swept token
                = match JS.get sessions token with
                  | Some session =>
                      if session_expired Date_parse (JS.now_ms (OtpEnv.clock env))
                           session
                      then None else Some session
                  | None => None
                  end.
Proof.
  intros Date_parse env env' store sessionToken otp Hlater.
  destruct (session_loadJSON_total (OtpStore.file store)) as [sessions Hload].
  destruct (cleanupExpiredSessions_cases Date_parse env store sessions Hload)
    as [Hsame|(swept & Hswept & Hget)].
  { rewrite Hsame. split; [reflexivity|]. split; [reflexivity|].
    intros swept _ H. now elim H. }
  split; [|split].
  2:{ rewrite Hswept. reflexivity. }
  2:{ intros swept' Hswept' _. rewrite Hswept in Hswept'. injection Hswept' as <-.
      exists sessions. auto. }
  intro Hstored.
  rewrite Hswept.
  set (store' := OtpStore.mk (SessionFile.Holds swept) (OtpStore.host store)).
  destruct (OtpEnv.write_error env') as [e|] eqn:Hwrite.
  { destruct (verifyOTP_needs_the_store Date_parse env' store' sessionToken otp)
      as [-> _]; [congruence|].
    destruct (verifyOTP_needs_the_store Date_parse env' store sessionToken otp)
      as [-> _]; [congruence|]. reflexivity. }
  specialize (Hget sessionToken).
  destruct (JSLib.inherited sessionToken) eqn:Hname.
  { (* a member name that is not stored: the member is reached on both sides *)
    pose proof (Hstored (proj1 (inherited_In sessionToken) Hname) sessions Hload)
      as Hfree.
    rewrite Hfree in Hget.
    pose proof (verifyOTP_inherited Date_parse env' store sessionToken otp sessions _
                  Hload (reach_member _ _ _ Hfree Hname) Hwrite) as Hbefore.
    pose proof (verifyOTP_inherited Date_parse env' store' sessionToken otp swept _
                  eq_refl (reach_member (OtpStore.host store') _ _ Hget Hname) Hwrite)
      as Hafter.
    cbv zeta in Hbefore, Hafter. rewrite Hbefore, Hafter.
    change (OtpStore.host store') with (OtpStore.host store).
    destruct (match Expando.verified _ with Some b => b | None => false end);
      [reflexivity|].
    destruct (date_gt _ _); [reflexivity|].
    destruct (attempts_ge _ _); [reflexivity|].
    destruct (JS.strict_eq _ otp); destruct (assign_expando _ _ _); reflexivity. }
  clear Hstored.
  destruct (JS.get sessions sessionToken) as [session|] eqn:Eget.
  2:{ destruct (verifyOTP_refuses Date_parse env' store' sessionToken otp) as [-> _].
      { apply (closed_intro store' sessionToken swept Hname eq_refl).
        now rewrite Hget. }
      destruct (verifyOTP_refuses Date_parse env' store sessionToken otp) as [-> _].
      { apply (closed_intro store sessionToken sessions Hname Hload).
        now rewrite Eget. }
      reflexivity. }
  destruct (LoginSession.verified session) eqn:Hverified.
  { destruct (verifyOTP_refuses Date_parse env' store sessionToken otp) as [-> _].
    { apply (closed_intro store sessionToken sessions Hname Hload).
      now rewrite Eget. }
    destruct (verifyOTP_refuses Date_parse env' store' sessionToken otp) as [-> _];
      [|reflexivity].
    apply (closed_intro store' sessionToken swept Hname eq_refl).
    rewrite Hget. now destruct (session_expired _ _ session). }
  rewrite (verifyOTP_unverified Date_parse env' store sessionToken otp sessions session
             Hload Eget Hverified Hwrite).
  destruct (session_expired Date_parse (JS.now_ms (OtpEnv.clock env)) session)
    eqn:Eexpired.
  - destruct (verifyOTP_refuses Date_parse env' store' sessionToken otp) as [-> _].
    { apply (closed_intro store' sessionToken swept Hname eq_refl).
      now rewrite Hget. }
    unfold session_expired, date_lt in Eexpired. unfold date_gt.
    destruct (Date_parse (LoginSession.expiresAt session)) as [t|]; [|discriminate].
    apply Z.ltb_lt in Eexpired.
    destruct (Z.ltb_spec t (JS.now_ms (OtpEnv.clock env'))); [reflexivity|lia].
  - rewrite (verifyOTP_unverified Date_parse env' store' sessionToken otp swept session
               eq_refl Hget Hverified Hwrite).
    destruct (date_gt _ _); [reflexivity|].
    destruct (OtpEnv.maxAttempts env' <=? LoginSession.attempts session);
      [reflexivity|].
    destruct (JS.strict_eq (Some (LoginSession.otp session)) otp); reflexivity.
Qed.

Lemma cleanupExpiredSessions_preserves_verification_witness :
  OtpReply.success
    (fst (verifyOTP IsoDate.parse Samples.otp_env_later
            (cleanupExpiredSessions IsoDate.parse Samples.otp_env
               (Samples.store_of
                  [("stale-token",
                    LoginSession.mk "E2" "bela@example.org" "118822"
                      "2023-11-14T22:03:20.000Z" "2023-11-14T22:13:20.000Z" 0 false);
                   ("0b1c2d3e-token", Samples.login 0 false)]))
            "0b1c2d3e-token" (Some "482915")))
  = true.
Proof.
  destruct (cleanupExpiredSessions_preserves_verification IsoDate.parse
              Samples.otp_env Samples.otp_env_later
              (Samples.store_of
                 [("stale-token",
                   LoginSession.mk "E2" "bela@example.org" "118822"
                     "2023-11-14T22:03:20.000Z" "2023-11-14T22:13:20.000Z" 0 false);
                  ("0b1c2d3e-token", Samples.login 0 false)])
              "0b1c2d3e-token" (Some "482915")) as [H _].
  - vm_compute. discriminate.
  - rewrite H; [reflexivity|]. simpl. intuition discriminate.
Defined.

Lemma queueNotification_last (toISOString : Z -> string) (clock : JS.Clock)
    (notificationQueue : list Notification.t) (notificationData : Notification.t) :
  exists front,
    snd (queueNotification toISOString clock notificationQueue notificationData)
    = (front ++ [fst (queueNotification toISOString clock notificationQueue
                        notificationData)])%list.
Proof.
  unfold queueNotification. cbv zeta. simpl fst. simpl snd.
  match goal with
  | |- context [(notificationQueue ++ [?x])%list] => set (stamped := x)
  end.
  destruct (slice_last_after_push QUEUE_LIMIT notificationQueue stamped)
    as (_ & dropped & front & _ & _ & Hkept); [unfold QUEUE_LIMIT; lia|].
  exists front. exact Hkept.
Qed.

(** X27.  A queued notification outlives the sweeps of its first 24
    hours and no later one: with a host whose [new Date] reads back what
    [toISOString] wrote, the sweep of the queue at a time [now] keeps the
    notification that [queueNotification] just stamped exactly when [now]
    is before the expiry stamped on it; the sweep adds nothing to the
    queue, and it never drops a notification that carries no expiry. *)
Theorem queued_notification_expires_after_a_day :
  forall (Date_of_value : JS.value -> option Z) (toISOString : Z -> string)
         (clock : JS.Clock) (notificationQueue : list Notification.t)
         (notificationData : Notification.t) (now : Z),
    let queued := queueNotification toISOString clock notificationQueue
                    notificationData in
    let expiresAt := JS.now_ms clock + 24 * 60 * 60 * 1000 in
    Date_of_value (JS.VStr (toISOString expiresAt)) = Some expiresAt ->
    toISOString expiresAt <> "" ->
    (In (fst queued) (cleanupExpiredNotifications Date_of_value now (snd queued))
     <-> now < expiresAt)
    /\ (forall n, In n (cleanupExpiredNotifications Date_of_value now (snd queued)) ->
          In n (snd queued))
    /\ forall n, In n (snd queued) -> JS.get n "expiresAt" = None ->
         In n (cleanupExpiredNotifications Date_of_value now (snd queued)).
Proof.
  intros Date_of_value toISOString clock notificationQueue notificationData now
         queued expiresAt Hread Hne.
  assert (Hstays : notification_stays Date_of_value now (fst queued)
                   = (now <? expiresAt)).
  { unfold notification_stays, queued, queueNotification. cbv zeta. simpl fst.
    rewrite get_set_other by discriminate. rewrite get_set_same.
    simpl JS.truthy. change (JS.now_ms clock + 86400000) with expiresAt.
    apply String.eqb_neq in Hne. rewrite Hne. simpl negb. cbv iota.
    rewrite Hread. reflexivity. }
  assert (Hin : In (fst queued) (snd queued)).
  { destruct (queueNotification_last toISOString clock notificationQueue
                notificationData) as [front Hfront].
    fold queued in Hfront. rewrite Hfront. apply in_or_app. right. now left. }
  split; [|split].
  - unfold cleanupExpiredNotifications. rewrite filter_In, Hstays, Z.ltb_lt. tauto.
  - intros n Hn. unfold cleanupExpiredNotifications in Hn.
    now apply filter_In in Hn.
  - intros n Hn Hnone. unfold cleanupExpiredNotifications. apply filter_In.
    split; [exact Hn|]. unfold notification_stays. now rewrite Hnone.
Qed.

Lemma queued_notification_expires_after_a_day_witness :
  In (fst (queueNotification Samples.iso Samples.clock [Samples.other_notice]
             (Samples.notice "2024-01-01T00:00:00.000Z")))
    (cleanupExpiredNotifications Samples.date_of 1704067500000
       (snd (queueNotification Samples.iso Samples.clock [Samples.other_notice]
               (Samples.notice "2024-01-01T00:00:00.000Z")))).
Proof.
  destruct (queued_notification_expires_after_a_day Samples.date_of Samples.iso
              Samples.clock [Samples.other_notice]
              (Samples.notice "2024-01-01T00:00:00.000Z") 1704067500000)
    as [H _].
  - vm_compute. reflexivity.
  - vm_compute. discriminate.
  - apply H. vm_compute. reflexivity.
Defined.
